(** * PacketThermostat: the HVAC mode engine

    A shallow embedding of the sketch [PacketThermostat.ino] and of
    [ThermostatCommon.cpp] (the HVAC mode classes), followed by the
    properties of the mode engine that are checked against it.

    Target: Arduino Pro Micro (ATmega32U4, avr-gcc).  On that target
    [int] is 16 bits wide, [long] is 32 bits wide, structures are laid
    out without padding and multi-byte values are little-endian.

    Conventions of the embedding:
    - machine integers are [Z] with the wrap-around written out
      ([u8], [u16], [u32], [i16], [i32]);
    - a [const char*] is the [string] of the characters it points at;
      the terminating NUL is implicit ([peek] of the empty string is 0)
      and a NUL character inside the string terminates it as well;
    - the globals and the class statics are fields of one [State];
      the millisecond clock [millis()] is the field [clock];
    - what the sketch asks of its external collaborators (serial port,
      LCD, real-time clock, radio) is appended to the field [trace]. *)

From Stdlib Require Import ZArith String Ascii List Lia Bool DecimalString.
From stdpp Require Import gmap list strings.
Import ListNotations.
Local Open Scope Z_scope.

(** ** Machine integers *)

Definition u8 (x : Z) : Z := x mod 256.
Definition u16 (x : Z) : Z := x mod 65536.
Definition u32 (x : Z) : Z := x mod 4294967296.
Definition i16 (x : Z) : Z := (x + 32768) mod 65536 - 32768.
Definition i32 (x : Z) : Z := (x + 2147483648) mod 4294967296 - 2147483648.

(** ** Characters and C strings *)

Definition code (c : ascii) : Z := Z.of_N (N_of_ascii c).

(** [*p] *)
Definition peek (p : string) : Z :=
  match p with
  | EmptyString => 0
  | String c _ => code c
  end.

(** [p + 1] *)
Definition next (p : string) : string :=
  match p with
  | EmptyString => EmptyString
  | String _ r => r
  end.

(** [p[i]] for the small constant indices the sketch uses; reading
    stops at the terminator. *)
Fixpoint char_at (p : string) (i : nat) : Z :=
  match i with
  | O => peek p
  | S j => if peek p =? 0 then 0 else char_at (next p) j
  end.

Definition isdigit (c : Z) : bool := (48 <=? c) && (c <=? 57).
Definition isxdigit (c : Z) : bool :=
  isdigit c || ((65 <=? c) && (c <=? 70)) || ((97 <=? c) && (c <=? 102)).
Definition isspace (c : Z) : bool := (c =? 32) || ((9 <=? c) && (c <=? 13)).
Definition toupper (c : Z) : Z := if (97 <=? c) && (c <=? 122) then c - 32 else c.

(** [strncmp(hay, needle, strlen(needle)) == 0] *)
Fixpoint starts_with (needle hay : string) : bool :=
  match needle with
  | EmptyString => true
  | String a n' =>
      match hay with
      | EmptyString => false
      | String b h' => (code a =? code b) && starts_with n' h'
      end
  end.

(** [strstr(hay, needle)]: the suffix of [hay] at the first occurrence. *)
Fixpoint strstr (hay needle : string) : option string :=
  if starts_with needle hay then Some hay
  else match hay with
       | EmptyString => None
       | String c h' => if code c =? 0 then None else strstr h' needle
       end.

(** [q += n] *)
Fixpoint skip (n : nat) (q : string) : string :=
  match n with
  | O => q
  | S m => skip m (next q)
  end.

(** [q = strstr(cmd, KEYWORD); if (q) q += sizeof(KEYWORD) - 1;] *)
Definition after_keyword (cmd keyword : string) : option string :=
  match strstr cmd keyword with
  | Some q => Some (skip (String.length keyword) q)
  | None => None
  end.

(** The loop [while q[0] != 0] that advances both pointers and that compares the
    upper-cased command with a keyword.  The result is the command pointer
    after the keyword, or [None] at the first mismatch. *)
Fixpoint match_upper (keyword p : string) : option string :=
  match keyword with
  | EmptyString => Some p
  | String k kw' =>
      if toupper (peek p) =? code k then match_upper kw' (next p) else None
  end.

(** [aDecimalToInt]: the loop, with its accumulator [ret] (a [uint16_t]).
    The pointer is left after the terminating non-digit, unless that is
    the NUL. *)
Fixpoint aDecimalToInt_loop (ret : Z) (p : string) : Z * string :=
  match p with
  | EmptyString => (ret, p)
  | String ch rest =>
      let c := code ch in
      if (48 <=? c) && (c <=? 57)
      then aDecimalToInt_loop (u16 (u16 (ret * 10) + (c - 48))) rest
      else (ret, if c =? 0 then p else rest)
  end.

Definition aDecimalToInt (p : string) : Z * string := aDecimalToInt_loop 0 p.

(** [aHexToInt]: same shape, accumulator of type [uint32_t]. *)
Fixpoint aHexToInt_loop (ret : Z) (p : string) : Z * string :=
  match p with
  | EmptyString => (ret, p)
  | String ch rest =>
      let c := code ch in
      if isxdigit c
      then aHexToInt_loop
             (u32 (u32 (ret * 16) +
                   (if isdigit c then c - 48 else 10 + toupper c - 65))) rest
      else (ret, if c =? 0 then p else rest)
  end.

Definition aHexToInt (p : string) : Z * string := aHexToInt_loop 0 p.

(** ** Signal bits (PcbSignalDefinitions.h) *)

Definition BN_W_FAILSAFE : Z := 0.
Definition BN_R : Z := BN_W_FAILSAFE.
Definition BN_Z2 : Z := 1.
Definition BN_FIRST_SIGNAL : Z := BN_Z2.
Definition BN_Z1 : Z := 2.
Definition BN_W : Z := 3.
Definition BN_ZX : Z := 4.
Definition BN_X2 : Z := 5.
Definition BN_X1 : Z := 6.
Definition BN_LAST_SIGNAL : Z := BN_X1.
Definition BN_X3 : Z := 7.
Definition NUMBER_OF_SIGNALS : Z := 8.

Definition bit (n : Z) : Z := Z.shiftl 1 n.

Definition NUM_HVAC_INPUT_SIGNALS : Z := BN_LAST_SIGNAL + 1 - BN_FIRST_SIGNAL.

Definition INPUT_SIGNAL_MASK : Z :=
  Z.lor (bit BN_Z2) (Z.lor (bit BN_Z1) (Z.lor (bit BN_W) (Z.lor (bit BN_ZX)
    (Z.lor (bit BN_X2) (Z.lor (bit BN_X1) (bit BN_R)))))).
Definition OUTPUT_SIGNAL_MASK : Z :=
  Z.lor (bit BN_Z2) (Z.lor (bit BN_Z1) (Z.lor (bit BN_W) (Z.lor (bit BN_ZX)
    (Z.lor (bit BN_X2) (Z.lor (bit BN_X1) (bit BN_X3)))))).

Definition NUM_INPUT_SIGNAL_COMBINATIONS : Z := Z.shiftl 1 NUM_HVAC_INPUT_SIGNALS.

(** ** Enumerations *)

Inductive HvacTypes : Type :=
  | HVAC_PASSTHROUGH | HVAC_MAPINPUTTOOUTPUT | HVAC_HEAT | HVAC_COOL | HVAC_AUTO.

Definition NUMBER_OF_HVAC_TYPES : Z := 5.

(** [static_cast<int>(t)] *)
Definition type_number (t : HvacTypes) : Z :=
  match t with
  | HVAC_PASSTHROUGH => 0
  | HVAC_MAPINPUTTOOUTPUT => 1
  | HVAC_HEAT => 2
  | HVAC_COOL => 3
  | HVAC_AUTO => 4
  end.

(** [static_cast<HvacTypes>(n)], for the enumerators only *)
Definition type_of_number (n : Z) : option HvacTypes :=
  if n =? 0 then Some HVAC_PASSTHROUGH
  else if n =? 1 then Some HVAC_MAPINPUTTOOUTPUT
  else if n =? 2 then Some HVAC_HEAT
  else if n =? 3 then Some HVAC_COOL
  else if n =? 4 then Some HVAC_AUTO
  else None.

Inductive FurnaceState : Type := STATE_OFF | STATE_STAGE1 | STATE_STAGE2 | STATE_STAGE3.
Inductive HeatState : Type := HEAT_OFF | HEAT_STAGE1 | HEAT_STAGE2 | HEAT_STAGE3.
Inductive DehumidifyState : Type := DEHUMDIFY_OFF | DEHUMIDIFY_ACTIVE.

#[global] Instance HvacTypes_eq_dec : EqDecision HvacTypes.
Proof. solve_decision. Defined.

Definition FurnaceState_eqb (a b : FurnaceState) : bool :=
  match a, b with
  | STATE_OFF, STATE_OFF | STATE_STAGE1, STATE_STAGE1
  | STATE_STAGE2, STATE_STAGE2 | STATE_STAGE3, STATE_STAGE3 => true
  | _, _ => false
  end.

Definition HeatState_eqb (a b : HeatState) : bool :=
  match a, b with
  | HEAT_OFF, HEAT_OFF | HEAT_STAGE1, HEAT_STAGE1
  | HEAT_STAGE2, HEAT_STAGE2 | HEAT_STAGE3, HEAT_STAGE3 => true
  | _, _ => false
  end.

(** ** What the sketch asks of its collaborators *)

Inductive Event : Type :=
  | Serial_print (text : string)      (* Serial.print / println of text *)
  | Serial_print_number (n : Z)       (* Serial.print / println of a number *)
  | LCD_printMode (text : list Z)     (* LCD::printMode *)
  | LCD_printBanner (text : list Z)   (* LCD::printBanner *)
  | RTC_setTime (sec minute hour dow day month year : Z)
  | Radio_printInfo                   (* radioPrintInfo *)
  | Radio_HvacReport (inputs outputs : Z). (* radioHvacReport *)

(** ** The settings structures, one per class layer *)

Module HvacCommands.
Record Settings : Type := Build_Settings {
  ModeName : list Z
}.
End HvacCommands.

Module MapInputToOutput.
Record Settings : Type := Build_Settings {
  inputToOutput : list Z
}.
End MapInputToOutput.

Module OverrideAndDriveFromSensors.
Record Settings : Type := Build_Settings {
  TemperatureTargetDegreesCx10 : Z;
  TemperatureActivateDegreesCx10 : Z;
  SensorMask : Z;
  MaskFanOnly : Z;
  AlwaysOnMask : Z;
  OutputStage1 : Z;
  OutputStage2 : Z;
  OutputStage3 : Z;
  SecondsToSecondStage : Z;
  SecondsToThirdStage : Z
}.
Definition set_TemperatureTargetDegreesCx10 (v : Z) (s : Settings) : Settings :=
  {|
    TemperatureTargetDegreesCx10 := v;
    TemperatureActivateDegreesCx10 := TemperatureActivateDegreesCx10 s;
    SensorMask := SensorMask s; MaskFanOnly := MaskFanOnly s;
    AlwaysOnMask := AlwaysOnMask s; OutputStage1 := OutputStage1 s;
    OutputStage2 := OutputStage2 s; OutputStage3 := OutputStage3 s;
    SecondsToSecondStage := SecondsToSecondStage s;
    SecondsToThirdStage := SecondsToThirdStage s
  |}.
Definition set_TemperatureActivateDegreesCx10 (v : Z) (s : Settings) : Settings :=
  {|
    TemperatureTargetDegreesCx10 := TemperatureTargetDegreesCx10 s;
    TemperatureActivateDegreesCx10 := v; SensorMask := SensorMask s;
    MaskFanOnly := MaskFanOnly s; AlwaysOnMask := AlwaysOnMask s;
    OutputStage1 := OutputStage1 s; OutputStage2 := OutputStage2 s;
    OutputStage3 := OutputStage3 s;
    SecondsToSecondStage := SecondsToSecondStage s;
    SecondsToThirdStage := SecondsToThirdStage s
  |}.
Definition set_SensorMask (v : Z) (s : Settings) : Settings :=
  {|
    TemperatureTargetDegreesCx10 := TemperatureTargetDegreesCx10 s;
    TemperatureActivateDegreesCx10 := TemperatureActivateDegreesCx10 s;
    SensorMask := v; MaskFanOnly := MaskFanOnly s;
    AlwaysOnMask := AlwaysOnMask s; OutputStage1 := OutputStage1 s;
    OutputStage2 := OutputStage2 s; OutputStage3 := OutputStage3 s;
    SecondsToSecondStage := SecondsToSecondStage s;
    SecondsToThirdStage := SecondsToThirdStage s
  |}.
Definition set_MaskFanOnly (v : Z) (s : Settings) : Settings :=
  {|
    TemperatureTargetDegreesCx10 := TemperatureTargetDegreesCx10 s;
    TemperatureActivateDegreesCx10 := TemperatureActivateDegreesCx10 s;
    SensorMask := SensorMask s; MaskFanOnly := v;
    AlwaysOnMask := AlwaysOnMask s; OutputStage1 := OutputStage1 s;
    OutputStage2 := OutputStage2 s; OutputStage3 := OutputStage3 s;
    SecondsToSecondStage := SecondsToSecondStage s;
    SecondsToThirdStage := SecondsToThirdStage s
  |}.
Definition set_AlwaysOnMask (v : Z) (s : Settings) : Settings :=
  {|
    TemperatureTargetDegreesCx10 := TemperatureTargetDegreesCx10 s;
    TemperatureActivateDegreesCx10 := TemperatureActivateDegreesCx10 s;
    SensorMask := SensorMask s; MaskFanOnly := MaskFanOnly s;
    AlwaysOnMask := v; OutputStage1 := OutputStage1 s;
    OutputStage2 := OutputStage2 s; OutputStage3 := OutputStage3 s;
    SecondsToSecondStage := SecondsToSecondStage s;
    SecondsToThirdStage := SecondsToThirdStage s
  |}.
Definition set_OutputStage1 (v : Z) (s : Settings) : Settings :=
  {|
    TemperatureTargetDegreesCx10 := TemperatureTargetDegreesCx10 s;
    TemperatureActivateDegreesCx10 := TemperatureActivateDegreesCx10 s;
    SensorMask := SensorMask s; MaskFanOnly := MaskFanOnly s;
    AlwaysOnMask := AlwaysOnMask s; OutputStage1 := v;
    OutputStage2 := OutputStage2 s; OutputStage3 := OutputStage3 s;
    SecondsToSecondStage := SecondsToSecondStage s;
    SecondsToThirdStage := SecondsToThirdStage s
  |}.
Definition set_OutputStage2 (v : Z) (s : Settings) : Settings :=
  {|
    TemperatureTargetDegreesCx10 := TemperatureTargetDegreesCx10 s;
    TemperatureActivateDegreesCx10 := TemperatureActivateDegreesCx10 s;
    SensorMask := SensorMask s; MaskFanOnly := MaskFanOnly s;
    AlwaysOnMask := AlwaysOnMask s; OutputStage1 := OutputStage1 s;
    OutputStage2 := v; OutputStage3 := OutputStage3 s;
    SecondsToSecondStage := SecondsToSecondStage s;
    SecondsToThirdStage := SecondsToThirdStage s
  |}.
Definition set_OutputStage3 (v : Z) (s : Settings) : Settings :=
  {|
    TemperatureTargetDegreesCx10 := TemperatureTargetDegreesCx10 s;
    TemperatureActivateDegreesCx10 := TemperatureActivateDegreesCx10 s;
    SensorMask := SensorMask s; MaskFanOnly := MaskFanOnly s;
    AlwaysOnMask := AlwaysOnMask s; OutputStage1 := OutputStage1 s;
    OutputStage2 := OutputStage2 s; OutputStage3 := v;
    SecondsToSecondStage := SecondsToSecondStage s;
    SecondsToThirdStage := SecondsToThirdStage s
  |}.
Definition set_SecondsToSecondStage (v : Z) (s : Settings) : Settings :=
  {|
    TemperatureTargetDegreesCx10 := TemperatureTargetDegreesCx10 s;
    TemperatureActivateDegreesCx10 := TemperatureActivateDegreesCx10 s;
    SensorMask := SensorMask s; MaskFanOnly := MaskFanOnly s;
    AlwaysOnMask := AlwaysOnMask s; OutputStage1 := OutputStage1 s;
    OutputStage2 := OutputStage2 s; OutputStage3 := OutputStage3 s;
    SecondsToSecondStage := v; SecondsToThirdStage := SecondsToThirdStage s
  |}.
Definition set_SecondsToThirdStage (v : Z) (s : Settings) : Settings :=
  {|
    TemperatureTargetDegreesCx10 := TemperatureTargetDegreesCx10 s;
    TemperatureActivateDegreesCx10 := TemperatureActivateDegreesCx10 s;
    SensorMask := SensorMask s; MaskFanOnly := MaskFanOnly s;
    AlwaysOnMask := AlwaysOnMask s; OutputStage1 := OutputStage1 s;
    OutputStage2 := OutputStage2 s; OutputStage3 := OutputStage3 s;
    SecondsToSecondStage := SecondsToSecondStage s; SecondsToThirdStage := v
  |}.
End OverrideAndDriveFromSensors.

Module HvacCool.
Record Settings : Type := Build_Settings {
  MaskDehumidifyBitsOn : Z;
  MaskDehumidifyBitsOff : Z;
  HumiditySettingX10 : Z
}.
Definition set_MaskDehumidifyBitsOn (v : Z) (s : Settings) : Settings :=
  {|
    MaskDehumidifyBitsOn := v;
    MaskDehumidifyBitsOff := MaskDehumidifyBitsOff s;
    HumiditySettingX10 := HumiditySettingX10 s
  |}.
Definition set_MaskDehumidifyBitsOff (v : Z) (s : Settings) : Settings :=
  {|
    MaskDehumidifyBitsOn := MaskDehumidifyBitsOn s;
    MaskDehumidifyBitsOff := v; HumiditySettingX10 := HumiditySettingX10 s
  |}.
Definition set_HumiditySettingX10 (v : Z) (s : Settings) : Settings :=
  {|
    MaskDehumidifyBitsOn := MaskDehumidifyBitsOn s;
    MaskDehumidifyBitsOff := MaskDehumidifyBitsOff s; HumiditySettingX10 := v
  |}.
End HvacCool.

Module HvacAuto.
Record Settings : Type := Build_Settings {
  TemperatureTargetHeatDegreesCx10 : Z;
  TemperatureActivateHeatDegreesCx10 : Z;
  HeatMaskStage1 : Z;
  HeatMaskStage2 : Z;
  HeatMaskStage3 : Z
}.
Definition set_TemperatureTargetHeatDegreesCx10 (v : Z) (s : Settings) : Settings :=
  {|
    TemperatureTargetHeatDegreesCx10 := v;
    TemperatureActivateHeatDegreesCx10 := TemperatureActivateHeatDegreesCx10 s;
    HeatMaskStage1 := HeatMaskStage1 s; HeatMaskStage2 := HeatMaskStage2 s;
    HeatMaskStage3 := HeatMaskStage3 s
  |}.
Definition set_TemperatureActivateHeatDegreesCx10 (v : Z) (s : Settings) : Settings :=
  {|
    TemperatureTargetHeatDegreesCx10 := TemperatureTargetHeatDegreesCx10 s;
    TemperatureActivateHeatDegreesCx10 := v;
    HeatMaskStage1 := HeatMaskStage1 s; HeatMaskStage2 := HeatMaskStage2 s;
    HeatMaskStage3 := HeatMaskStage3 s
  |}.
Definition set_HeatMaskStage1 (v : Z) (s : Settings) : Settings :=
  {|
    TemperatureTargetHeatDegreesCx10 := TemperatureTargetHeatDegreesCx10 s;
    TemperatureActivateHeatDegreesCx10 := TemperatureActivateHeatDegreesCx10 s;
    HeatMaskStage1 := v; HeatMaskStage2 := HeatMaskStage2 s;
    HeatMaskStage3 := HeatMaskStage3 s
  |}.
Definition set_HeatMaskStage2 (v : Z) (s : Settings) : Settings :=
  {|
    TemperatureTargetHeatDegreesCx10 := TemperatureTargetHeatDegreesCx10 s;
    TemperatureActivateHeatDegreesCx10 := TemperatureActivateHeatDegreesCx10 s;
    HeatMaskStage1 := HeatMaskStage1 s; HeatMaskStage2 := v;
    HeatMaskStage3 := HeatMaskStage3 s
  |}.
Definition set_HeatMaskStage3 (v : Z) (s : Settings) : Settings :=
  {|
    TemperatureTargetHeatDegreesCx10 := TemperatureTargetHeatDegreesCx10 s;
    TemperatureActivateHeatDegreesCx10 := TemperatureActivateHeatDegreesCx10 s;
    HeatMaskStage1 := HeatMaskStage1 s; HeatMaskStage2 := HeatMaskStage2 s;
    HeatMaskStage3 := v
  |}.
End HvacAuto.

(** ** The state *)

(** Globals of the sketch (its anonymous namespace, namespace [Furnace],
    and the function statics of [Furnace::UpdateOutputs]). *)
Record Sketch : Type := Build_Sketch {
  OutputRegister : Z;
  InputRegister : Z;
  InputsToHvacFlag : bool;
  CompressorOffStartTime : Z;
  CompressorOffTimeActive : bool;
  HeatSafetyOffStartTime : Z;
  HeatSafetyShutoffMask : Z;
  HeatSafetyOffTimeActive : bool;
  TinletTemperatureCx10 : Z;
  displayLcdFarenheit : bool;
  LastOutputWrite : Z;
  relayIsOn : bool;
  onAtTime : Z
}.

(** Ephemeral run state of the sensor-driven classes.  [dehumidifyState]
    and [heatState] are instance members: objects [hvacCool] and [hvacAuto]
    each have a [dehumidifyState]. *)
Record Run : Type := Build_Run {
  lastHeardFromSensor : Z;
  lastHeardSensorId : Z;
  timeEnteredStage1 : Z;
  fancoilState : FurnaceState;
  fanIsOn : bool;
  previousActual : Z;
  cool_dehumidifyState : DehumidifyState;
  auto_dehumidifyState : DehumidifyState;
  heatState : HeatState;
  autoTarget : Z
}.

(** The whole machine: the EEPROM (an erased cell reads 0xFF), the
    millisecond clock, the trace, the sketch globals, the current mode
    object [hvac] with [MyTypeNumber] and [MyModeNumber], the five static
    [settingsFromEeprom] working copies, and the run state. *)
Record State : Type := Build_State {
  EEPROM : gmap Z Z;
  clock : Z;
  trace : list Event;
  sketch : Sketch;
  hvac : HvacTypes;
  MyTypeNumber : Z;
  MyModeNumber : Z;
  name_settings : HvacCommands.Settings;
  map_settings : MapInputToOutput.Settings;
  sensor_settings : OverrideAndDriveFromSensors.Settings;
  cool_settings : HvacCool.Settings;
  auto_settings : HvacAuto.Settings;
  run : Run
}.

(** Field updates. *)

Definition set_OutputRegister (v : Z) (s : Sketch) : Sketch :=
  {|
    OutputRegister := v; InputRegister := InputRegister s;
    InputsToHvacFlag := InputsToHvacFlag s;
    CompressorOffStartTime := CompressorOffStartTime s;
    CompressorOffTimeActive := CompressorOffTimeActive s;
    HeatSafetyOffStartTime := HeatSafetyOffStartTime s;
    HeatSafetyShutoffMask := HeatSafetyShutoffMask s;
    HeatSafetyOffTimeActive := HeatSafetyOffTimeActive s;
    TinletTemperatureCx10 := TinletTemperatureCx10 s;
    displayLcdFarenheit := displayLcdFarenheit s;
    LastOutputWrite := LastOutputWrite s; relayIsOn := relayIsOn s;
    onAtTime := onAtTime s
  |}.
Definition set_InputRegister (v : Z) (s : Sketch) : Sketch :=
  {|
    OutputRegister := OutputRegister s; InputRegister := v;
    InputsToHvacFlag := InputsToHvacFlag s;
    CompressorOffStartTime := CompressorOffStartTime s;
    CompressorOffTimeActive := CompressorOffTimeActive s;
    HeatSafetyOffStartTime := HeatSafetyOffStartTime s;
    HeatSafetyShutoffMask := HeatSafetyShutoffMask s;
    HeatSafetyOffTimeActive := HeatSafetyOffTimeActive s;
    TinletTemperatureCx10 := TinletTemperatureCx10 s;
    displayLcdFarenheit := displayLcdFarenheit s;
    LastOutputWrite := LastOutputWrite s; relayIsOn := relayIsOn s;
    onAtTime := onAtTime s
  |}.
Definition set_InputsToHvacFlag (v : bool) (s : Sketch) : Sketch :=
  {|
    OutputRegister := OutputRegister s; InputRegister := InputRegister s;
    InputsToHvacFlag := v;
    CompressorOffStartTime := CompressorOffStartTime s;
    CompressorOffTimeActive := CompressorOffTimeActive s;
    HeatSafetyOffStartTime := HeatSafetyOffStartTime s;
    HeatSafetyShutoffMask := HeatSafetyShutoffMask s;
    HeatSafetyOffTimeActive := HeatSafetyOffTimeActive s;
    TinletTemperatureCx10 := TinletTemperatureCx10 s;
    displayLcdFarenheit := displayLcdFarenheit s;
    LastOutputWrite := LastOutputWrite s; relayIsOn := relayIsOn s;
    onAtTime := onAtTime s
  |}.
Definition set_CompressorOffStartTime (v : Z) (s : Sketch) : Sketch :=
  {|
    OutputRegister := OutputRegister s; InputRegister := InputRegister s;
    InputsToHvacFlag := InputsToHvacFlag s; CompressorOffStartTime := v;
    CompressorOffTimeActive := CompressorOffTimeActive s;
    HeatSafetyOffStartTime := HeatSafetyOffStartTime s;
    HeatSafetyShutoffMask := HeatSafetyShutoffMask s;
    HeatSafetyOffTimeActive := HeatSafetyOffTimeActive s;
    TinletTemperatureCx10 := TinletTemperatureCx10 s;
    displayLcdFarenheit := displayLcdFarenheit s;
    LastOutputWrite := LastOutputWrite s; relayIsOn := relayIsOn s;
    onAtTime := onAtTime s
  |}.
Definition set_CompressorOffTimeActive (v : bool) (s : Sketch) : Sketch :=
  {|
    OutputRegister := OutputRegister s; InputRegister := InputRegister s;
    InputsToHvacFlag := InputsToHvacFlag s;
    CompressorOffStartTime := CompressorOffStartTime s;
    CompressorOffTimeActive := v;
    HeatSafetyOffStartTime := HeatSafetyOffStartTime s;
    HeatSafetyShutoffMask := HeatSafetyShutoffMask s;
    HeatSafetyOffTimeActive := HeatSafetyOffTimeActive s;
    TinletTemperatureCx10 := TinletTemperatureCx10 s;
    displayLcdFarenheit := displayLcdFarenheit s;
    LastOutputWrite := LastOutputWrite s; relayIsOn := relayIsOn s;
    onAtTime := onAtTime s
  |}.
Definition set_HeatSafetyOffStartTime (v : Z) (s : Sketch) : Sketch :=
  {|
    OutputRegister := OutputRegister s; InputRegister := InputRegister s;
    InputsToHvacFlag := InputsToHvacFlag s;
    CompressorOffStartTime := CompressorOffStartTime s;
    CompressorOffTimeActive := CompressorOffTimeActive s;
    HeatSafetyOffStartTime := v;
    HeatSafetyShutoffMask := HeatSafetyShutoffMask s;
    HeatSafetyOffTimeActive := HeatSafetyOffTimeActive s;
    TinletTemperatureCx10 := TinletTemperatureCx10 s;
    displayLcdFarenheit := displayLcdFarenheit s;
    LastOutputWrite := LastOutputWrite s; relayIsOn := relayIsOn s;
    onAtTime := onAtTime s
  |}.
Definition set_HeatSafetyShutoffMask (v : Z) (s : Sketch) : Sketch :=
  {|
    OutputRegister := OutputRegister s; InputRegister := InputRegister s;
    InputsToHvacFlag := InputsToHvacFlag s;
    CompressorOffStartTime := CompressorOffStartTime s;
    CompressorOffTimeActive := CompressorOffTimeActive s;
    HeatSafetyOffStartTime := HeatSafetyOffStartTime s;
    HeatSafetyShutoffMask := v;
    HeatSafetyOffTimeActive := HeatSafetyOffTimeActive s;
    TinletTemperatureCx10 := TinletTemperatureCx10 s;
    displayLcdFarenheit := displayLcdFarenheit s;
    LastOutputWrite := LastOutputWrite s; relayIsOn := relayIsOn s;
    onAtTime := onAtTime s
  |}.
Definition set_HeatSafetyOffTimeActive (v : bool) (s : Sketch) : Sketch :=
  {|
    OutputRegister := OutputRegister s; InputRegister := InputRegister s;
    InputsToHvacFlag := InputsToHvacFlag s;
    CompressorOffStartTime := CompressorOffStartTime s;
    CompressorOffTimeActive := CompressorOffTimeActive s;
    HeatSafetyOffStartTime := HeatSafetyOffStartTime s;
    HeatSafetyShutoffMask := HeatSafetyShutoffMask s;
    HeatSafetyOffTimeActive := v;
    TinletTemperatureCx10 := TinletTemperatureCx10 s;
    displayLcdFarenheit := displayLcdFarenheit s;
    LastOutputWrite := LastOutputWrite s; relayIsOn := relayIsOn s;
    onAtTime := onAtTime s
  |}.
Definition set_TinletTemperatureCx10 (v : Z) (s : Sketch) : Sketch :=
  {|
    OutputRegister := OutputRegister s; InputRegister := InputRegister s;
    InputsToHvacFlag := InputsToHvacFlag s;
    CompressorOffStartTime := CompressorOffStartTime s;
    CompressorOffTimeActive := CompressorOffTimeActive s;
    HeatSafetyOffStartTime := HeatSafetyOffStartTime s;
    HeatSafetyShutoffMask := HeatSafetyShutoffMask s;
    HeatSafetyOffTimeActive := HeatSafetyOffTimeActive s;
    TinletTemperatureCx10 := v; displayLcdFarenheit := displayLcdFarenheit s;
    LastOutputWrite := LastOutputWrite s; relayIsOn := relayIsOn s;
    onAtTime := onAtTime s
  |}.
Definition set_displayLcdFarenheit (v : bool) (s : Sketch) : Sketch :=
  {|
    OutputRegister := OutputRegister s; InputRegister := InputRegister s;
    InputsToHvacFlag := InputsToHvacFlag s;
    CompressorOffStartTime := CompressorOffStartTime s;
    CompressorOffTimeActive := CompressorOffTimeActive s;
    HeatSafetyOffStartTime := HeatSafetyOffStartTime s;
    HeatSafetyShutoffMask := HeatSafetyShutoffMask s;
    HeatSafetyOffTimeActive := HeatSafetyOffTimeActive s;
    TinletTemperatureCx10 := TinletTemperatureCx10 s;
    displayLcdFarenheit := v; LastOutputWrite := LastOutputWrite s;
    relayIsOn := relayIsOn s; onAtTime := onAtTime s
  |}.
Definition set_LastOutputWrite (v : Z) (s : Sketch) : Sketch :=
  {|
    OutputRegister := OutputRegister s; InputRegister := InputRegister s;
    InputsToHvacFlag := InputsToHvacFlag s;
    CompressorOffStartTime := CompressorOffStartTime s;
    CompressorOffTimeActive := CompressorOffTimeActive s;
    HeatSafetyOffStartTime := HeatSafetyOffStartTime s;
    HeatSafetyShutoffMask := HeatSafetyShutoffMask s;
    HeatSafetyOffTimeActive := HeatSafetyOffTimeActive s;
    TinletTemperatureCx10 := TinletTemperatureCx10 s;
    displayLcdFarenheit := displayLcdFarenheit s; LastOutputWrite := v;
    relayIsOn := relayIsOn s; onAtTime := onAtTime s
  |}.
Definition set_relayIsOn (v : bool) (s : Sketch) : Sketch :=
  {|
    OutputRegister := OutputRegister s; InputRegister := InputRegister s;
    InputsToHvacFlag := InputsToHvacFlag s;
    CompressorOffStartTime := CompressorOffStartTime s;
    CompressorOffTimeActive := CompressorOffTimeActive s;
    HeatSafetyOffStartTime := HeatSafetyOffStartTime s;
    HeatSafetyShutoffMask := HeatSafetyShutoffMask s;
    HeatSafetyOffTimeActive := HeatSafetyOffTimeActive s;
    TinletTemperatureCx10 := TinletTemperatureCx10 s;
    displayLcdFarenheit := displayLcdFarenheit s;
    LastOutputWrite := LastOutputWrite s; relayIsOn := v;
    onAtTime := onAtTime s
  |}.
Definition set_onAtTime (v : Z) (s : Sketch) : Sketch :=
  {|
    OutputRegister := OutputRegister s; InputRegister := InputRegister s;
    InputsToHvacFlag := InputsToHvacFlag s;
    CompressorOffStartTime := CompressorOffStartTime s;
    CompressorOffTimeActive := CompressorOffTimeActive s;
    HeatSafetyOffStartTime := HeatSafetyOffStartTime s;
    HeatSafetyShutoffMask := HeatSafetyShutoffMask s;
    HeatSafetyOffTimeActive := HeatSafetyOffTimeActive s;
    TinletTemperatureCx10 := TinletTemperatureCx10 s;
    displayLcdFarenheit := displayLcdFarenheit s;
    LastOutputWrite := LastOutputWrite s; relayIsOn := relayIsOn s;
    onAtTime := v
  |}.

Definition set_lastHeardFromSensor (v : Z) (s : Run) : Run :=
  {|
    lastHeardFromSensor := v; lastHeardSensorId := lastHeardSensorId s;
    timeEnteredStage1 := timeEnteredStage1 s; fancoilState := fancoilState s;
    fanIsOn := fanIsOn s; previousActual := previousActual s;
    cool_dehumidifyState := cool_dehumidifyState s;
    auto_dehumidifyState := auto_dehumidifyState s; heatState := heatState s;
    autoTarget := autoTarget s
  |}.
Definition set_lastHeardSensorId (v : Z) (s : Run) : Run :=
  {|
    lastHeardFromSensor := lastHeardFromSensor s; lastHeardSensorId := v;
    timeEnteredStage1 := timeEnteredStage1 s; fancoilState := fancoilState s;
    fanIsOn := fanIsOn s; previousActual := previousActual s;
    cool_dehumidifyState := cool_dehumidifyState s;
    auto_dehumidifyState := auto_dehumidifyState s; heatState := heatState s;
    autoTarget := autoTarget s
  |}.
Definition set_timeEnteredStage1 (v : Z) (s : Run) : Run :=
  {|
    lastHeardFromSensor := lastHeardFromSensor s;
    lastHeardSensorId := lastHeardSensorId s; timeEnteredStage1 := v;
    fancoilState := fancoilState s; fanIsOn := fanIsOn s;
    previousActual := previousActual s;
    cool_dehumidifyState := cool_dehumidifyState s;
    auto_dehumidifyState := auto_dehumidifyState s; heatState := heatState s;
    autoTarget := autoTarget s
  |}.
Definition set_fancoilState (v : FurnaceState) (s : Run) : Run :=
  {|
    lastHeardFromSensor := lastHeardFromSensor s;
    lastHeardSensorId := lastHeardSensorId s;
    timeEnteredStage1 := timeEnteredStage1 s; fancoilState := v;
    fanIsOn := fanIsOn s; previousActual := previousActual s;
    cool_dehumidifyState := cool_dehumidifyState s;
    auto_dehumidifyState := auto_dehumidifyState s; heatState := heatState s;
    autoTarget := autoTarget s
  |}.
Definition set_fanIsOn (v : bool) (s : Run) : Run :=
  {|
    lastHeardFromSensor := lastHeardFromSensor s;
    lastHeardSensorId := lastHeardSensorId s;
    timeEnteredStage1 := timeEnteredStage1 s; fancoilState := fancoilState s;
    fanIsOn := v; previousActual := previousActual s;
    cool_dehumidifyState := cool_dehumidifyState s;
    auto_dehumidifyState := auto_dehumidifyState s; heatState := heatState s;
    autoTarget := autoTarget s
  |}.
Definition set_previousActual (v : Z) (s : Run) : Run :=
  {|
    lastHeardFromSensor := lastHeardFromSensor s;
    lastHeardSensorId := lastHeardSensorId s;
    timeEnteredStage1 := timeEnteredStage1 s; fancoilState := fancoilState s;
    fanIsOn := fanIsOn s; previousActual := v;
    cool_dehumidifyState := cool_dehumidifyState s;
    auto_dehumidifyState := auto_dehumidifyState s; heatState := heatState s;
    autoTarget := autoTarget s
  |}.
Definition set_cool_dehumidifyState (v : DehumidifyState) (s : Run) : Run :=
  {|
    lastHeardFromSensor := lastHeardFromSensor s;
    lastHeardSensorId := lastHeardSensorId s;
    timeEnteredStage1 := timeEnteredStage1 s; fancoilState := fancoilState s;
    fanIsOn := fanIsOn s; previousActual := previousActual s;
    cool_dehumidifyState := v;
    auto_dehumidifyState := auto_dehumidifyState s; heatState := heatState s;
    autoTarget := autoTarget s
  |}.
Definition set_auto_dehumidifyState (v : DehumidifyState) (s : Run) : Run :=
  {|
    lastHeardFromSensor := lastHeardFromSensor s;
    lastHeardSensorId := lastHeardSensorId s;
    timeEnteredStage1 := timeEnteredStage1 s; fancoilState := fancoilState s;
    fanIsOn := fanIsOn s; previousActual := previousActual s;
    cool_dehumidifyState := cool_dehumidifyState s;
    auto_dehumidifyState := v; heatState := heatState s;
    autoTarget := autoTarget s
  |}.
Definition set_heatState (v : HeatState) (s : Run) : Run :=
  {|
    lastHeardFromSensor := lastHeardFromSensor s;
    lastHeardSensorId := lastHeardSensorId s;
    timeEnteredStage1 := timeEnteredStage1 s; fancoilState := fancoilState s;
    fanIsOn := fanIsOn s; previousActual := previousActual s;
    cool_dehumidifyState := cool_dehumidifyState s;
    auto_dehumidifyState := auto_dehumidifyState s; heatState := v;
    autoTarget := autoTarget s
  |}.
Definition set_autoTarget (v : Z) (s : Run) : Run :=
  {|
    lastHeardFromSensor := lastHeardFromSensor s;
    lastHeardSensorId := lastHeardSensorId s;
    timeEnteredStage1 := timeEnteredStage1 s; fancoilState := fancoilState s;
    fanIsOn := fanIsOn s; previousActual := previousActual s;
    cool_dehumidifyState := cool_dehumidifyState s;
    auto_dehumidifyState := auto_dehumidifyState s; heatState := heatState s;
    autoTarget := v
  |}.

Definition set_EEPROM (v : gmap Z Z) (s : State) : State :=
  {|
    EEPROM := v; clock := clock s; trace := trace s; sketch := sketch s;
    hvac := hvac s; MyTypeNumber := MyTypeNumber s;
    MyModeNumber := MyModeNumber s; name_settings := name_settings s; map_settings := map_settings s;
    sensor_settings := sensor_settings s; cool_settings := cool_settings s; auto_settings := auto_settings s; run := run s
  |}.
Definition set_clock (v : Z) (s : State) : State :=
  {|
    EEPROM := EEPROM s; clock := v; trace := trace s; sketch := sketch s;
    hvac := hvac s; MyTypeNumber := MyTypeNumber s;
    MyModeNumber := MyModeNumber s; name_settings := name_settings s; map_settings := map_settings s;
    sensor_settings := sensor_settings s; cool_settings := cool_settings s; auto_settings := auto_settings s; run := run s
  |}.
Definition set_trace (v : list Event) (s : State) : State :=
  {|
    EEPROM := EEPROM s; clock := clock s; trace := v; sketch := sketch s;
    hvac := hvac s; MyTypeNumber := MyTypeNumber s;
    MyModeNumber := MyModeNumber s; name_settings := name_settings s; map_settings := map_settings s;
    sensor_settings := sensor_settings s; cool_settings := cool_settings s; auto_settings := auto_settings s; run := run s
  |}.
Definition set_sketch (v : Sketch) (s : State) : State :=
  {|
    EEPROM := EEPROM s; clock := clock s; trace := trace s; sketch := v;
    hvac := hvac s; MyTypeNumber := MyTypeNumber s;
    MyModeNumber := MyModeNumber s; name_settings := name_settings s; map_settings := map_settings s;
    sensor_settings := sensor_settings s; cool_settings := cool_settings s; auto_settings := auto_settings s; run := run s
  |}.
Definition set_hvac (v : HvacTypes) (s : State) : State :=
  {|
    EEPROM := EEPROM s; clock := clock s; trace := trace s;
    sketch := sketch s; hvac := v; MyTypeNumber := MyTypeNumber s;
    MyModeNumber := MyModeNumber s; name_settings := name_settings s; map_settings := map_settings s;
    sensor_settings := sensor_settings s; cool_settings := cool_settings s; auto_settings := auto_settings s; run := run s
  |}.
Definition set_MyTypeNumber (v : Z) (s : State) : State :=
  {|
    EEPROM := EEPROM s; clock := clock s; trace := trace s;
    sketch := sketch s; hvac := hvac s; MyTypeNumber := v;
    MyModeNumber := MyModeNumber s; name_settings := name_settings s; map_settings := map_settings s;
    sensor_settings := sensor_settings s; cool_settings := cool_settings s; auto_settings := auto_settings s; run := run s
  |}.
Definition set_MyModeNumber (v : Z) (s : State) : State :=
  {|
    EEPROM := EEPROM s; clock := clock s; trace := trace s;
    sketch := sketch s; hvac := hvac s; MyTypeNumber := MyTypeNumber s;
    MyModeNumber := v; name_settings := name_settings s; map_settings := map_settings s; sensor_settings := sensor_settings s;
    cool_settings := cool_settings s; auto_settings := auto_settings s; run := run s
  |}.
Definition set_name_settings (v : HvacCommands.Settings) (s : State) : State :=
  {|
    EEPROM := EEPROM s; clock := clock s; trace := trace s;
    sketch := sketch s; hvac := hvac s; MyTypeNumber := MyTypeNumber s;
    MyModeNumber := MyModeNumber s; name_settings := v; map_settings := map_settings s;
    sensor_settings := sensor_settings s; cool_settings := cool_settings s; auto_settings := auto_settings s; run := run s
  |}.
Definition set_map_settings (v : MapInputToOutput.Settings) (s : State) : State :=
  {|
    EEPROM := EEPROM s; clock := clock s; trace := trace s;
    sketch := sketch s; hvac := hvac s; MyTypeNumber := MyTypeNumber s;
    MyModeNumber := MyModeNumber s; name_settings := name_settings s; map_settings := v;
    sensor_settings := sensor_settings s; cool_settings := cool_settings s; auto_settings := auto_settings s; run := run s
  |}.
Definition set_sensor_settings (v : OverrideAndDriveFromSensors.Settings) (s : State) : State :=
  {|
    EEPROM := EEPROM s; clock := clock s; trace := trace s;
    sketch := sketch s; hvac := hvac s; MyTypeNumber := MyTypeNumber s;
    MyModeNumber := MyModeNumber s; name_settings := name_settings s; map_settings := map_settings s;
    sensor_settings := v; cool_settings := cool_settings s; auto_settings := auto_settings s; run := run s
  |}.
Definition set_cool_settings (v : HvacCool.Settings) (s : State) : State :=
  {|
    EEPROM := EEPROM s; clock := clock s; trace := trace s;
    sketch := sketch s; hvac := hvac s; MyTypeNumber := MyTypeNumber s;
    MyModeNumber := MyModeNumber s; name_settings := name_settings s; map_settings := map_settings s;
    sensor_settings := sensor_settings s; cool_settings := v; auto_settings := auto_settings s; run := run s
  |}.
Definition set_auto_settings (v : HvacAuto.Settings) (s : State) : State :=
  {|
    EEPROM := EEPROM s; clock := clock s; trace := trace s;
    sketch := sketch s; hvac := hvac s; MyTypeNumber := MyTypeNumber s;
    MyModeNumber := MyModeNumber s; name_settings := name_settings s; map_settings := map_settings s;
    sensor_settings := sensor_settings s; cool_settings := cool_settings s; auto_settings := v; run := run s
  |}.
Definition set_run (v : Run) (s : State) : State :=
  {|
    EEPROM := EEPROM s; clock := clock s; trace := trace s;
    sketch := sketch s; hvac := hvac s; MyTypeNumber := MyTypeNumber s;
    MyModeNumber := MyModeNumber s; name_settings := name_settings s; map_settings := map_settings s;
    sensor_settings := sensor_settings s; cool_settings := cool_settings s; auto_settings := auto_settings s; run := v
  |}.

Import HvacCommands MapInputToOutput OverrideAndDriveFromSensors HvacCool HvacAuto.

(** ** Small helpers on the state *)

Definition upd_sketch (f : Sketch -> Sketch) (st : State) : State :=
  set_sketch (f (sketch st)) st.
Definition upd_run (f : Run -> Run) (st : State) : State :=
  set_run (f (run st)) st.
Definition upd_sensor_settings
    (f : OverrideAndDriveFromSensors.Settings -> OverrideAndDriveFromSensors.Settings)
    (st : State) : State :=
  set_sensor_settings (f (sensor_settings st)) st.
Definition upd_cool_settings (f : HvacCool.Settings -> HvacCool.Settings)
    (st : State) : State :=
  set_cool_settings (f (cool_settings st)) st.
Definition upd_auto_settings (f : HvacAuto.Settings -> HvacAuto.Settings)
    (st : State) : State :=
  set_auto_settings (f (auto_settings st)) st.

Definition emit (ev : Event) (st : State) : State :=
  set_trace (trace st ++ [ev]) st.

(** [millis()] *)
Definition millis (st : State) : Z := clock st.

(** [delay(ms)]: the clock moves on by [ms]. *)
Definition delay (ms : Z) (st : State) : State :=
  set_clock (u32 (clock st + ms)) st.

(** ** The EEPROM *)

(** A cell that was never written is erased and reads 0xFF.  The capacity
    of the part is not modelled: every address has a cell. *)
Definition EEPROM_read (e : gmap Z Z) (a : Z) : Z := default 255 (e !! a).
Definition EEPROM_write (a v : Z) (e : gmap Z Z) : gmap Z Z := <[a := u8 v]> e.

(** [EEPROM.put(a, object)] and [EEPROM.get(a, object)] on the object's bytes *)
Fixpoint EEPROM_put (a : Z) (bytes : list Z) (e : gmap Z Z) : gmap Z Z :=
  match bytes with
  | [] => e
  | b :: r => EEPROM_put (a + 1) r (EEPROM_write a b e)
  end.
Fixpoint EEPROM_get (a : Z) (n : nat) (e : gmap Z Z) : list Z :=
  match n with
  | O => []
  | S m => EEPROM_read e a :: EEPROM_get (a + 1) m e
  end.

(** Little-endian object representations. *)
Fixpoint le_split (n : nat) (x : Z) : list Z :=
  match n with
  | O => []
  | S m => x mod 256 :: le_split m (x / 256)
  end.
Fixpoint le_combine (bytes : list Z) : Z :=
  match bytes with
  | [] => 0
  | b :: r => b + 256 * le_combine r
  end.

(** *** Object representation of the settings structures *)

Definition NAME_LENGTH : Z := 5.

Definition sizeof_HvacCommands_Settings : Z := NAME_LENGTH + 1.
Definition sizeof_MapInputToOutput_Settings : Z := NUM_INPUT_SIGNAL_COMBINATIONS.
Definition sizeof_OverrideAndDriveFromSensors_Settings : Z := 2 + 2 + 4 + 1 + 1 + 1 + 1 + 1 + 2 + 2.
Definition sizeof_HvacCool_Settings : Z := 1 + 1 + 2.
Definition sizeof_HvacAuto_Settings : Z := 2 + 2 + 1 + 1 + 1.

Definition bytes_of_sensor_settings (s : OverrideAndDriveFromSensors.Settings) : list Z :=
  le_split 2 (TemperatureTargetDegreesCx10 s) ++
  le_split 2 (TemperatureActivateDegreesCx10 s) ++
  le_split 4 (SensorMask s) ++
  le_split 1 (MaskFanOnly s) ++
  le_split 1 (AlwaysOnMask s) ++
  le_split 1 (OutputStage1 s) ++
  le_split 1 (OutputStage2 s) ++
  le_split 1 (OutputStage3 s) ++
  le_split 2 (SecondsToSecondStage s) ++
  le_split 2 (SecondsToThirdStage s).

Definition sensor_settings_of_bytes (b : list Z) : OverrideAndDriveFromSensors.Settings :=
  {| TemperatureTargetDegreesCx10 := i16 (le_combine (take 2 b));
     TemperatureActivateDegreesCx10 := i16 (le_combine (take 2 (drop 2 b)));
     SensorMask := le_combine (take 4 (drop 4 b));
     MaskFanOnly := le_combine (take 1 (drop 8 b));
     AlwaysOnMask := le_combine (take 1 (drop 9 b));
     OutputStage1 := le_combine (take 1 (drop 10 b));
     OutputStage2 := le_combine (take 1 (drop 11 b));
     OutputStage3 := le_combine (take 1 (drop 12 b));
     SecondsToSecondStage := le_combine (take 2 (drop 13 b));
     SecondsToThirdStage := le_combine (take 2 (drop 15 b)) |}.

Definition bytes_of_cool_settings (s : HvacCool.Settings) : list Z :=
  le_split 1 (MaskDehumidifyBitsOn s) ++
  le_split 1 (MaskDehumidifyBitsOff s) ++
  le_split 2 (HumiditySettingX10 s).

Definition cool_settings_of_bytes (b : list Z) : HvacCool.Settings :=
  {| MaskDehumidifyBitsOn := le_combine (take 1 b);
     MaskDehumidifyBitsOff := le_combine (take 1 (drop 1 b));
     HumiditySettingX10 := le_combine (take 2 (drop 2 b)) |}.

Definition bytes_of_auto_settings (s : HvacAuto.Settings) : list Z :=
  le_split 2 (TemperatureTargetHeatDegreesCx10 s) ++
  le_split 2 (TemperatureActivateHeatDegreesCx10 s) ++
  le_split 1 (HeatMaskStage1 s) ++
  le_split 1 (HeatMaskStage2 s) ++
  le_split 1 (HeatMaskStage3 s).

Definition auto_settings_of_bytes (b : list Z) : HvacAuto.Settings :=
  {| TemperatureTargetHeatDegreesCx10 := i16 (le_combine (take 2 b));
     TemperatureActivateHeatDegreesCx10 := i16 (le_combine (take 2 (drop 2 b)));
     HeatMaskStage1 := le_combine (take 1 (drop 4 b));
     HeatMaskStage2 := le_combine (take 1 (drop 5 b));
     HeatMaskStage3 := le_combine (take 1 (drop 6 b)) |}.

(** Heat-safety detection triple, three bytes in the EEPROM. *)
Record HeatSafetyMask_t : Type := Build_HeatSafetyMask_t {
  dontCareMask : Z;
  mustMatchMask : Z;
  toClear : Z
}.

Section PacketThermostat.

(** Two things come from the radio library (RadioConfiguration), which is
    not part of this repository: the number of EEPROM bytes it reserves
    below the sketch's own data, and its command interpreter, which only
    matters here through whether it consumed the command. *)
Variable RadioConfiguration_TOTAL_EEPROM_USED : Z.
Variable RadioConfiguration_ApplyCommand : string -> bool.

(** ** EEPROM layout of the sketch (enum class EepromAddresses) *)

Definition MAX_WIRE_NAME_LEN : Z := 2.
Definition NUM_HEAT_SAFETY_ENTRIES : Z := 3.
Definition sizeof_HeatSafetyMask_t : Z := 3.
Definition NUM_SCHEDULE_TEMPERATURE_ENTRIES : Z := 16.
Definition sizeof_ScheduleEntry_t : Z := 4.

Definition PACKET_THERMOSTAT_START : Z := RadioConfiguration_TOTAL_EEPROM_USED.
Definition SIGNAL_LABEL_ASSIGNMENT : Z := PACKET_THERMOSTAT_START.
Definition DISPLAY_UNITS_ADDRESS : Z :=
  SIGNAL_LABEL_ASSIGNMENT + NUMBER_OF_SIGNALS * MAX_WIRE_NAME_LEN.
Definition COMPRESSOR_MASK : Z := DISPLAY_UNITS_ADDRESS + 1.
Definition COMPRESSOR_HOLD_SECONDS : Z := COMPRESSOR_MASK + 1.
Definition HEATSAFETY_HOLD_SECONDS : Z := COMPRESSOR_HOLD_SECONDS + 2.
Definition HEATSAFETY_TRIGGER_TEMPERATURECx10 : Z := HEATSAFETY_HOLD_SECONDS + 2.
Definition HEATSAFETY_MAP : Z := HEATSAFETY_TRIGGER_TEMPERATURECx10 + 2.
Definition SCHEDULE_TEMPERATURE_ENTRIES : Z :=
  HEATSAFETY_MAP + NUM_HEAT_SAFETY_ENTRIES * sizeof_HeatSafetyMask_t.
Definition TOTAL_EEPROM_USED : Z :=
  SCHEDULE_TEMPERATURE_ENTRIES + NUM_SCHEDULE_TEMPERATURE_ENTRIES * sizeof_ScheduleEntry_t.

Definition HVAC_EEPROM_START : Z := TOTAL_EEPROM_USED.

(** ** Safety configuration accessors *)

Definition getCompressorMask (st : State) : Z :=
  let ret := EEPROM_read (EEPROM st) COMPRESSOR_MASK in
  if ret =? 255 then 0 else ret.

Definition getCompressorHoldSeconds (st : State) : Z :=
  le_combine (EEPROM_get COMPRESSOR_HOLD_SECONDS 2 (EEPROM st)).

Definition getHeatSafetyHoldSeconds (st : State) : Z :=
  le_combine (EEPROM_get HEATSAFETY_HOLD_SECONDS 2 (EEPROM st)).

Definition getHeatSafetyTemperatureCx10 (st : State) : Z :=
  i16 (le_combine (EEPROM_get HEATSAFETY_TRIGGER_TEMPERATURECx10 2 (EEPROM st))).

Definition getHeatSafetyMask (which : Z) (st : State) : HeatSafetyMask_t :=
  if which <? NUM_HEAT_SAFETY_ENTRIES then
    let addr := HEATSAFETY_MAP + which * sizeof_HeatSafetyMask_t in
    {| dontCareMask := EEPROM_read (EEPROM st) addr;
       mustMatchMask := EEPROM_read (EEPROM st) (addr + 1);
       toClear := EEPROM_read (EEPROM st) (addr + 2) |}
  else {| dontCareMask := 0; mustMatchMask := 0; toClear := 0 |}.

Definition setCompressorMask (mask : Z) (st : State) : State :=
  set_EEPROM (EEPROM_write COMPRESSOR_MASK mask (EEPROM st)) st.

Definition setCompressorHoldSeconds (s : Z) (st : State) : State :=
  set_EEPROM (EEPROM_put COMPRESSOR_HOLD_SECONDS (le_split 2 s) (EEPROM st)) st.

Definition setHeatSafetyHoldSeconds (s : Z) (st : State) : State :=
  set_EEPROM (EEPROM_put HEATSAFETY_HOLD_SECONDS (le_split 2 s) (EEPROM st)) st.

Definition setHeatSafetyTemperatureX10 (s : Z) (st : State) : State :=
  set_EEPROM (EEPROM_put HEATSAFETY_TRIGGER_TEMPERATURECx10 (le_split 2 s) (EEPROM st)) st.

Definition setHeatSafetyMask (which : Z) (m : HeatSafetyMask_t) (st : State) : State :=
  if which <? NUM_HEAT_SAFETY_ENTRIES then
    let addr := HEATSAFETY_MAP + which * sizeof_HeatSafetyMask_t in
    set_EEPROM (EEPROM_put addr [dontCareMask m; mustMatchMask m; toClear m] (EEPROM st)) st
  else st.

(** ** namespace Furnace: the output arbiter *)

Definition MINIMUM_ON_MSEC : Z := 60000.

(** [Furnace::UpdateOutputs(mask)].  The value shifted out to the relays
    is the final [OutputRegister]. *)
Definition UpdateOutputs (mask : Z) (st : State) : State :=
  let mask := Z.land mask OUTPUT_SIGNAL_MASK in
  let st := upd_sketch (set_LastOutputWrite mask) st in
  let mask :=
    if HeatSafetyOffTimeActive (sketch st)
    then Z.land mask (HeatSafetyShutoffMask (sketch st)) else mask in
  let now := millis st in
  (* compressor short cycling logic *)
  let compressorMask := getCompressorMask st in
  let st :=
    if negb (CompressorOffTimeActive (sketch st)) && negb (compressorMask =? 255) then
      let compressorWasOn := negb (Z.land (OutputRegister (sketch st)) compressorMask =? 0) in
      let compressorToBeOff := Z.land mask compressorMask =? 0 in
      if compressorWasOn && compressorToBeOff
      then upd_sketch (fun k => set_CompressorOffStartTime now
                                  (set_CompressorOffTimeActive true k)) st
      else st
    else st in
  let mask :=
    if CompressorOffTimeActive (sketch st)
    then Z.land mask (Z.lnot compressorMask) else mask in
  (* hardware relay on W *)
  let relay :=
    if relayIsOn (sketch st) && (u32 (now - onAtTime (sketch st)) <? MINIMUM_ON_MSEC)
    then (Z.lor mask (bit BN_W_FAILSAFE), st)
    else if negb (Z.lxor (Z.land mask (bit BN_W))
                         (Z.land (InputRegister (sketch st)) (bit BN_W)) =? 0)
         then (Z.lor mask (bit BN_W_FAILSAFE),
               upd_sketch (fun k => set_relayIsOn true (set_onAtTime now k)) st)
         else (mask, st) in
  upd_sketch (set_OutputRegister (fst relay)) (snd relay).

(** [Furnace::SetOutputBits(mask)]; the default argument is 0. *)
Definition SetOutputBits (mask : Z) (st : State) : State :=
  UpdateOutputs (Z.lor mask (LastOutputWrite (sketch st))) st.

(** [Furnace::ClearOutputBits(mask)] *)
Definition ClearOutputBits (mask : Z) (st : State) : State :=
  let mask := u8 (Z.lnot mask) in
  UpdateOutputs (Z.land (LastOutputWrite (sketch st)) mask) st.

(** ** Persistent layout of the HVAC modes *)

Definition HVAC_EEPROM_TYPE_AND_MODE_ADDR : Z := HVAC_EEPROM_START.
Definition HVAC_SAVED_TYPE_AND_MODE_SIZE : Z := 2.
Definition HVAC_NUMBER_OF_MODES_IN_TYPE_ADDR : Z :=
  HVAC_EEPROM_TYPE_AND_MODE_ADDR + HVAC_SAVED_TYPE_AND_MODE_SIZE.
Definition NUMBER_OF_HVAC_TYPES_IN_EEPROM : Z := NUMBER_OF_HVAC_TYPES - 1.
Definition HVAC_MODES_EEPROM_START_ADDR : Z :=
  HVAC_NUMBER_OF_MODES_IN_TYPE_ADDR + NUMBER_OF_HVAC_TYPES_IN_EEPROM.

Definition NumberOfModesInType (e : gmap Z Z) (t : HvacTypes) : Z :=
  match t with
  | HVAC_PASSTHROUGH => 1
  | _ =>
      let addr := u16 (u16 (type_number t - 1) + HVAC_NUMBER_OF_MODES_IN_TYPE_ADDR) in
      let ret := EEPROM_read e addr in
      if ret =? 255 then 0 else ret
  end.

Definition SetNumberOfModesInType (t : HvacTypes) (count : Z) (e : gmap Z Z) : gmap Z Z :=
  match t with
  | HVAC_PASSTHROUGH => e
  | _ =>
      let addr := u16 (u16 (type_number t - 1) + HVAC_NUMBER_OF_MODES_IN_TYPE_ADDR) in
      EEPROM_write addr count e
  end.

(** Size of the settings record of a type: the first [switch] of
    [AddressOfModeTypeSettings], with its fall-through cases. *)
Definition settings_size (t : HvacTypes) : Z :=
  let sze := sizeof_HvacCommands_Settings in
  match t with
  | HVAC_MAPINPUTTOOUTPUT => sze + sizeof_MapInputToOutput_Settings
  | HVAC_AUTO =>
      sze + sizeof_HvacAuto_Settings + sizeof_HvacCool_Settings
      + sizeof_OverrideAndDriveFromSensors_Settings
  | HVAC_COOL => sze + sizeof_HvacCool_Settings + sizeof_OverrideAndDriveFromSensors_Settings
  | HVAC_HEAT => sze + sizeof_OverrideAndDriveFromSensors_Settings
  | HVAC_PASSTHROUGH => sze
  end.

(** [AddressOfModeTypeSettings(t, which)].  The function calls itself on
    the preceding type; [depth] bounds the nesting of these calls, which
    is at most the number of types.  The result is a [uint16_t]; [-1] is
    65535. *)
Fixpoint AddressOfModeTypeSettings_rec (depth : nat) (e : gmap Z Z)
    (t : HvacTypes) (which : Z) : Z :=
  match depth with
  | O => 65535
  | S depth' =>
      if which >? NumberOfModesInType e t then 65535
      else
        let sze := settings_size t in
        let previous p :=
          AddressOfModeTypeSettings_rec depth' e p (NumberOfModesInType e p) in
        match t with
        | HVAC_PASSTHROUGH => u16 (HVAC_MODES_EEPROM_START_ADDR + u16 (which * sze))
        | HVAC_MAPINPUTTOOUTPUT => u16 (previous HVAC_PASSTHROUGH + u16 (which * sze))
        | HVAC_HEAT => u16 (previous HVAC_MAPINPUTTOOUTPUT + u16 (which * sze))
        | HVAC_COOL => u16 (previous HVAC_HEAT + u16 (which * sze))
        | HVAC_AUTO => u16 (previous HVAC_COOL + u16 (which * sze))
        end
  end.

Definition AddressOfModeTypeSettings (e : gmap Z Z) (t : HvacTypes) (which : Z) : Z :=
  AddressOfModeTypeSettings_rec (Z.to_nat NUMBER_OF_HVAC_TYPES) e t which.


(** ** class HvacCommands and its subclasses

    Methods take the object they are called on as [this]; it is one of the
    five objects [passThrough], [mapInputToOutput], [hvacHeat], [hvacCool],
    [hvacAuto], named by its type. *)

Definition EEPROM_length : Z := 1024.

(** *** WriteEprom / ReadEprom, layer by layer *)

Definition HvacCommands_WriteEprom (addr : Z) (st : State) : Z * State :=
  let st := set_EEPROM (EEPROM_put addr (ModeName (name_settings st)) (EEPROM st)) st in
  let ret := u16 (addr + sizeof_HvacCommands_Settings) in
  let remaining := i16 (EEPROM_length - ret) in
  let st :=
    if remaining <? 0
    then emit (Serial_print "ERROR: WriteEprom beyond capacity") st
    else emit (Serial_print_number remaining) (emit (Serial_print "EEPROM remaining:") st) in
  (ret, st).

Definition HvacCommands_ReadEprom (addr : Z) (st : State) : Z * State :=
  let st :=
    if negb (EEPROM_read (EEPROM st) addr =? 255)
    then set_name_settings
           {| ModeName := EEPROM_get addr (Z.to_nat sizeof_HvacCommands_Settings) (EEPROM st) |} st
    else st in
  (u16 (addr + sizeof_HvacCommands_Settings), st).

Definition MapInputToOutput_WriteEprom (addr : Z) (st : State) : Z * State :=
  let '(addr, st) := HvacCommands_WriteEprom addr st in
  let st := set_EEPROM (EEPROM_put addr (inputToOutput (map_settings st)) (EEPROM st)) st in
  (u16 (addr + sizeof_MapInputToOutput_Settings), st).

Definition MapInputToOutput_ReadEprom (addr : Z) (st : State) : Z * State :=
  let '(addr, st) := HvacCommands_ReadEprom addr st in
  let st := set_map_settings
              {| inputToOutput :=
                   EEPROM_get addr (Z.to_nat sizeof_MapInputToOutput_Settings) (EEPROM st) |} st in
  (u16 (addr + sizeof_MapInputToOutput_Settings), st).

Definition OverrideAndDriveFromSensors_WriteEprom (addr : Z) (st : State) : Z * State :=
  let '(addr, st) := HvacCommands_WriteEprom addr st in
  let st := set_EEPROM
              (EEPROM_put addr (bytes_of_sensor_settings (sensor_settings st)) (EEPROM st)) st in
  (u16 (addr + sizeof_OverrideAndDriveFromSensors_Settings), st).

Definition OverrideAndDriveFromSensors_ReadEprom (addr : Z) (st : State) : Z * State :=
  let '(addr, st) := HvacCommands_ReadEprom addr st in
  let st := set_sensor_settings
              (sensor_settings_of_bytes
                 (EEPROM_get addr (Z.to_nat sizeof_OverrideAndDriveFromSensors_Settings)
                    (EEPROM st))) st in
  (u16 (addr + sizeof_OverrideAndDriveFromSensors_Settings), st).

Definition HvacCool_WriteEprom (addr : Z) (st : State) : Z * State :=
  let '(addr, st) := OverrideAndDriveFromSensors_WriteEprom addr st in
  let st := set_EEPROM
              (EEPROM_put addr (bytes_of_cool_settings (cool_settings st)) (EEPROM st)) st in
  (u16 (addr + sizeof_HvacCool_Settings), st).

Definition HvacCool_ReadEprom (addr : Z) (st : State) : Z * State :=
  let '(addr, st) := OverrideAndDriveFromSensors_ReadEprom addr st in
  let st := set_cool_settings
              (cool_settings_of_bytes
                 (EEPROM_get addr (Z.to_nat sizeof_HvacCool_Settings) (EEPROM st))) st in
  (u16 (addr + sizeof_HvacCool_Settings), st).

Definition HvacAuto_WriteEprom (addr : Z) (st : State) : Z * State :=
  let '(addr, st) := HvacCool_WriteEprom addr st in
  let st := set_EEPROM
              (EEPROM_put addr (bytes_of_auto_settings (auto_settings st)) (EEPROM st)) st in
  (u16 (addr + sizeof_HvacAuto_Settings), st).

Definition HvacAuto_ReadEprom (addr : Z) (st : State) : Z * State :=
  let '(addr, st) := HvacCool_ReadEprom addr st in
  let st := set_auto_settings
              (auto_settings_of_bytes
                 (EEPROM_get addr (Z.to_nat sizeof_HvacAuto_Settings) (EEPROM st))) st in
  (u16 (addr + sizeof_HvacAuto_Settings), st).

(** *** The virtual functions *)

(** [this->CommitSettings()] *)
Definition CommitSettings (this : HvacTypes) (st : State) : State :=
  match this with
  | HVAC_PASSTHROUGH =>
      snd (HvacCommands_WriteEprom
             (AddressOfModeTypeSettings (EEPROM st) HVAC_PASSTHROUGH 0) st)
  | HVAC_MAPINPUTTOOUTPUT =>
      snd (MapInputToOutput_WriteEprom
             (AddressOfModeTypeSettings (EEPROM st) HVAC_MAPINPUTTOOUTPUT (MyModeNumber st)) st)
  | HVAC_HEAT =>
      snd (OverrideAndDriveFromSensors_WriteEprom
             (AddressOfModeTypeSettings (EEPROM st) HVAC_HEAT (MyModeNumber st)) st)
  | HVAC_COOL =>
      snd (HvacCool_WriteEprom
             (AddressOfModeTypeSettings (EEPROM st) HVAC_COOL (MyModeNumber st)) st)
  | HVAC_AUTO =>
      snd (HvacAuto_WriteEprom
             (AddressOfModeTypeSettings (EEPROM st) HVAC_AUTO (MyModeNumber st)) st)
  end.

(** [this->ReadSettings()] *)
Definition ReadSettings (this : HvacTypes) (st : State) : State :=
  match this with
  | HVAC_PASSTHROUGH =>
      snd (HvacCommands_ReadEprom
             (AddressOfModeTypeSettings (EEPROM st) HVAC_PASSTHROUGH 0) st)
  | HVAC_MAPINPUTTOOUTPUT =>
      snd (MapInputToOutput_ReadEprom
             (AddressOfModeTypeSettings (EEPROM st) HVAC_MAPINPUTTOOUTPUT (MyModeNumber st)) st)
  | HVAC_HEAT =>
      snd (OverrideAndDriveFromSensors_ReadEprom
             (AddressOfModeTypeSettings (EEPROM st) HVAC_HEAT (MyModeNumber st)) st)
  | HVAC_COOL =>
      snd (HvacCool_ReadEprom
             (AddressOfModeTypeSettings (EEPROM st) HVAC_COOL (MyModeNumber st)) st)
  | HVAC_AUTO =>
      snd (HvacAuto_ReadEprom
             (AddressOfModeTypeSettings (EEPROM st) HVAC_AUTO (MyModeNumber st)) st)
  end.

(** [this->InitFromEeprom(mode)] *)
Definition InitFromEeprom (this : HvacTypes) (mode : Z) (st : State) : State :=
  ReadSettings this (set_MyModeNumber mode st).

Definition OverrideAndDriveFromSensors_InitializeState (st : State) : State :=
  upd_run (fun r =>
    set_previousActual 0
      (set_fanIsOn false
         (set_fancoilState STATE_OFF
            (set_lastHeardSensorId 0
               (set_timeEnteredStage1 (millis st)
                  (set_lastHeardFromSensor (millis st) r)))))) st.

(** [this->InitializeState()] *)
Definition InitializeState (this : HvacTypes) (st : State) : State :=
  match this with
  | HVAC_PASSTHROUGH | HVAC_MAPINPUTTOOUTPUT => st
  | HVAC_HEAT => OverrideAndDriveFromSensors_InitializeState st
  | HVAC_COOL =>
      upd_run (set_cool_dehumidifyState DEHUMDIFY_OFF)
        (OverrideAndDriveFromSensors_InitializeState st)
  | HVAC_AUTO =>
      let st := upd_run (set_auto_dehumidifyState DEHUMDIFY_OFF)
                  (OverrideAndDriveFromSensors_InitializeState st) in
      upd_run (fun r =>
        set_autoTarget (TemperatureTargetHeatDegreesCx10 (auto_settings st))
          (set_heatState HEAT_OFF r)) st
  end.

(** [this->TurnFurnaceOff()] *)
Definition TurnFurnaceOff (this : HvacTypes) (st : State) : State :=
  match this with
  | HVAC_PASSTHROUGH | HVAC_MAPINPUTTOOUTPUT => UpdateOutputs 0 st
  | HVAC_HEAT | HVAC_COOL | HVAC_AUTO =>
      UpdateOutputs (AlwaysOnMask (sensor_settings st)) st
  end.

(** [this->ModeNameString()] *)
Definition ModeNameString (st : State) : list Z := ModeName (name_settings st).

(** [this->GetTargetAndActual(target, actual)]: [None] is the [false]
    return. *)
Definition GetTargetAndActual (this : HvacTypes) (st : State) : option (Z * Z) :=
  match this with
  | HVAC_PASSTHROUGH | HVAC_MAPINPUTTOOUTPUT => None
  | HVAC_HEAT | HVAC_COOL =>
      Some (TemperatureTargetDegreesCx10 (sensor_settings st),
            i16 (previousActual (run st)))
  | HVAC_AUTO => Some (autoTarget (run st), i16 (previousActual (run st)))
  end.

(** [this->OnInputsChanged(inputs, previous)] *)
Definition OnInputsChanged (this : HvacTypes) (inputs previous : Z) (st : State) : State :=
  match this with
  | HVAC_PASSTHROUGH =>
      let mask := Z.land INPUT_SIGNAL_MASK inputs in
      UpdateOutputs mask st
  | HVAC_MAPINPUTTOOUTPUT =>
      let inputs := Z.land inputs INPUT_SIGNAL_MASK in
      let value :=
        default 0 (inputToOutput (map_settings st)
                     !! Z.to_nat (Z.shiftr inputs BN_FIRST_SIGNAL)) in
      let value := if value =? 255 then inputs else value in
      UpdateOutputs value st
  | HVAC_HEAT | HVAC_COOL | HVAC_AUTO => st
  end.

(** *** ProcessCommand of the base class *)

(** The copy loop of the [NAME=] command: at most [NAME_LENGTH] characters
    up to the first space or the end, then the terminating NUL.  [count]
    is the number of characters copied so far, which is also the index
    the pointer [name] has reached. *)
Fixpoint NAME_copy (q : string) (count : nat) (name : list Z) : list Z :=
  match q with
  | EmptyString => <[count := 0]> name
  | String ch rest =>
      let c := code ch in
      if negb (c =? 0) && negb (isspace c) && (Z.of_nat count <? NAME_LENGTH)
      then NAME_copy rest (S count) (<[count := c]> name)
      else <[count := 0]> name
  end.

(** [HvacCommands::ProcessCommand], called on object [this]. *)
Definition HvacCommands_ProcessCommand (this : HvacTypes) (cmd : string)
    (len senderid : Z) (toMe : bool) (st : State) : bool * State :=
  if negb toMe then (false, st) else
  match match_upper "HVAC " cmd with
  | None => (false, st)
  | Some _ =>
      let typed :=
        match after_keyword cmd "TYPE=" with
        | Some q => Some (fst (aDecimalToInt q))
        | None => None
        end in
      let hvacType := default 65535 typed in
      if match typed with
         | Some n => NUMBER_OF_HVAC_TYPES <=? n
         | None => false
         end
      then (false, st) else
      match after_keyword cmd "NAME=" with
      | Some q =>
          (true, set_name_settings
                   {| ModeName := NAME_copy q 0 (ModeName (name_settings st)) |} st)
      | None =>
      match after_keyword cmd " COMMIT" with
      | Some q =>
          if negb (peek q =? 0) && negb (isspace (peek q)) then (false, st)
          else (true, CommitSettings this st)
      | None =>
      (* remainder of the commands depend on TYPE *)
      match type_of_number hvacType with
      | None => (false, st)
      | Some tp =>
      match after_keyword cmd "MODE=" with
      | Some q =>
          let mode := fst (aDecimalToInt q) in
          if NumberOfModesInType (EEPROM st) tp <=? mode then (false, st)
          else if negb (MyModeNumber st =? mode) || negb (MyTypeNumber st =? u8 hvacType)
          then
            let st := set_MyModeNumber (u8 mode) st in
            let st := set_MyTypeNumber (u8 hvacType) st in
            let st := set_hvac tp st in
            let st := InitializeState tp st in
            let st := ReadSettings tp st in
            let st := set_EEPROM
                        (EEPROM_write HVAC_EEPROM_TYPE_AND_MODE_ADDR hvacType (EEPROM st)) st in
            let st := set_EEPROM
                        (EEPROM_write (HVAC_EEPROM_TYPE_AND_MODE_ADDR + 1) (MyModeNumber st)
                           (EEPROM st)) st in
            (true, TurnFurnaceOff tp st)
          else (true, st)
      | None =>
      match after_keyword cmd "COUNT=" with
      | Some q =>
          let count := fst (aDecimalToInt q) in
          (true, set_EEPROM (SetNumberOfModesInType tp (u8 count) (EEPROM st)) st)
      | None => (false, st)
      end end end end end
  end.


(** *** class MapInputToOutput *)

(** [aHexToInt] and [aDecimalToInt] consume at least one character unless
    the pointer is at the terminator, so the loops that call them until
    the terminator is reached run at most once per character.  Such loops
    are written with a bound [n] on the iterations left and are started
    with one more than the length of the text: [None] is never reached
    from there. *)

(** The loop of the [HVACMAP=0x] command.  [None]: the bound ran out.
    Otherwise the return value of [ProcessCommand] and the table. *)
Fixpoint HVACMAP_loop (n : nat) (q : string) (addr : Z) (table : list Z)
  : option (bool * list Z) :=
  match n with
  | O => None
  | S m =>
      if peek q =? 0 then Some (true, table)
      else if NUM_INPUT_SIGNAL_COMBINATIONS <=? addr then Some (false, table)
      else
        let '(v, q) := aHexToInt q in
        HVACMAP_loop m q (u8 (addr + 1)) (<[Z.to_nat addr := u8 v]> table)
  end.

Definition MapInputToOutput_ProcessCommand (cmd : string) (len senderid : Z)
    (toMe : bool) (st : State) : bool * State :=
  let '(handled, st) :=
    HvacCommands_ProcessCommand HVAC_MAPINPUTTOOUTPUT cmd len senderid toMe st in
  if handled then (true, st)
  else if negb toMe then (false, st)
  else if starts_with "HVACMAP=0x" cmd then
    let q := skip (String.length "HVACMAP=0x") cmd in
    let '(addr, q) := aHexToInt q in
    match HVACMAP_loop (S (String.length q)) q (u8 addr) (inputToOutput (map_settings st)) with
    | Some (r, table) => (r, set_map_settings {| inputToOutput := table |} st)
    | None => (false, st)
    end
  else (false, st).

(** *** class OverrideAndDriveFromSensors and its subclasses *)

Definition SENSOR_TIMEOUT_MSEC : Z := 1000 * 60 * 15.

(** [parseForColon(flag, p, len)]: the search loop, [c] counting down
    from [len]. *)
Fixpoint parseForColon_loop (flag : Z) (p : string) (c : Z) : Z :=
  match p with
  | EmptyString => -1
  | String ch rest =>
      if code ch =? 0 then -1
      else if c =? 0 then -1
      else if (code ch =? flag) && (peek rest =? 58)
      then
        let p := next rest in
        let neg := peek p =? 45 in
        let p := if (peek p =? 45) || (peek p =? 43) then next p else p in
        let '(v, p) := aDecimalToInt p in
        let ret := i16 (u16 (v * 10)) in
        let ret := if isdigit (peek p) then i16 (ret + (peek p - 48)) else ret in
        if neg then i16 (- ret) else ret
      else parseForColon_loop flag rest (u8 (c - 1))
  end.

Definition parseForColon (flag : Z) (p : string) (len : Z) : Z :=
  parseForColon_loop flag p (u8 len).

(** [this->ActivateTemperatureFromTarget(target)] *)
Definition ActivateTemperatureFromTarget (this : HvacTypes) (target : Z) : Z :=
  match this with
  | HVAC_HEAT => i16 (target - 6)
  | _ => i16 (target + 6)
  end.

(** [HvacCool::OnReceivedTemperatureInput] *)
Definition HvacCool_OnReceivedTemperatureInput (degCx10 : Z) (st : State) : bool :=
  if FurnaceState_eqb (fancoilState (run st)) STATE_OFF
  then TemperatureActivateDegreesCx10 (sensor_settings st) <=? degCx10
  else TemperatureTargetDegreesCx10 (sensor_settings st) <? degCx10.

(** [this->OnReceivedTemperatureInput(degCx10)]; a [false] return means
    turn off the HVAC.  [HvacAuto] also records the target it reports. *)
Definition OnReceivedTemperatureInput (this : HvacTypes) (degCx10 : Z) (st : State)
  : bool * State :=
  match this with
  | HVAC_HEAT =>
      (if FurnaceState_eqb (fancoilState (run st)) STATE_OFF
       then degCx10 <=? TemperatureActivateDegreesCx10 (sensor_settings st)
       else degCx10 <? TemperatureTargetDegreesCx10 (sensor_settings st), st)
  | HVAC_AUTO =>
      let ret := HvacCool_OnReceivedTemperatureInput degCx10 st in
      (ret, if ret
            then upd_run (set_autoTarget (TemperatureTargetDegreesCx10 (sensor_settings st))) st
            else st)
  | _ => (HvacCool_OnReceivedTemperatureInput degCx10 st, st)
  end.

(** The stage mask chosen from the time since stage 1 was entered. *)
Definition mask_since_stage1 (sinceStage1 : Z) (st : State) (m1 m2 m3 : Z) : Z :=
  if SecondsToThirdStage (sensor_settings st) * 1000 <=? sinceStage1 then m3
  else if SecondsToSecondStage (sensor_settings st) * 1000 <=? sinceStage1 then m2
  else m1.

(** [this->OnReceivedTemperatureInput2(degCx10, mask)]: the heat side of
    [HvacAuto]; the identity in the other classes. *)
Definition OnReceivedTemperatureInput2 (this : HvacTypes) (degCx10 mask : Z) (st : State)
  : Z * State :=
  match this with
  | HVAC_AUTO =>
      let needHeat :=
        if HeatState_eqb (heatState (run st)) HEAT_OFF
        then degCx10 <=? TemperatureActivateHeatDegreesCx10 (auto_settings st)
        else degCx10 <? TemperatureTargetHeatDegreesCx10 (auto_settings st) in
      if negb needHeat then (mask, upd_run (set_heatState HEAT_OFF) st)
      else
        let st := upd_run (set_autoTarget
                             (TemperatureTargetHeatDegreesCx10 (auto_settings st))) st in
        if HeatState_eqb (heatState (run st)) HEAT_OFF
        then (HeatMaskStage1 (auto_settings st),
              upd_run (fun r => set_timeEnteredStage1 (millis st)
                                  (set_heatState HEAT_STAGE1 r)) st)
        else
          let sinceStage1 := i32 (millis st - timeEnteredStage1 (run st)) in
          (mask_since_stage1 sinceStage1 st
             (HeatMaskStage1 (auto_settings st)) (HeatMaskStage2 (auto_settings st))
             (HeatMaskStage3 (auto_settings st)), st)
  | _ => (mask, st)
  end.

Definition DEHUMIDIFY_HYSTERESIS : Z := 15.
Definition HALF_DEGREE_C : Z := 5.

(** [HvacCool::OnReceivedHumidityInput], on the [dehumidifyState] of
    object [this] ([hvacCool] or [hvacAuto]). *)
Definition HvacCool_OnReceivedHumidityInput (this : HvacTypes) (rhX10 degCx10 mask : Z)
    (st : State) : Z * State :=
  let dehumidifyState :=
    match this with
    | HVAC_AUTO => auto_dehumidifyState (run st)
    | _ => cool_dehumidifyState (run st)
    end in
  let set_dehumidifyState v :=
    match this with
    | HVAC_AUTO => upd_run (set_auto_dehumidifyState v)
    | _ => upd_run (set_cool_dehumidifyState v)
    end in
  if HumiditySettingX10 (cool_settings st) =? 65535 then (mask, st)
  else
    let needDehumd :=
      match dehumidifyState with
      | DEHUMDIFY_OFF =>
          u16 (HumiditySettingX10 (cool_settings st) + DEHUMIDIFY_HYSTERESIS) <? u16 rhX10
      | DEHUMIDIFY_ACTIVE =>
          u16 (HumiditySettingX10 (cool_settings st) - DEHUMIDIFY_HYSTERESIS) <? u16 rhX10
      end in
    if needDehumd then
      if degCx10 <? i16 (TemperatureActivateDegreesCx10 (sensor_settings st) - HALF_DEGREE_C)
      then (mask, set_dehumidifyState DEHUMDIFY_OFF st)
      else
        (u8 (Z.land (Z.lor mask (MaskDehumidifyBitsOn (cool_settings st)))
               (Z.lnot (MaskDehumidifyBitsOff (cool_settings st)))),
         set_dehumidifyState DEHUMIDIFY_ACTIVE st)
    else (mask, st).

(** [this->OnReceivedHumidityInput(rhX10, degCx10, mask)] *)
Definition OnReceivedHumidityInput (this : HvacTypes) (rhX10 degCx10 mask : Z)
    (st : State) : Z * State :=
  match this with
  | HVAC_COOL => HvacCool_OnReceivedHumidityInput this rhX10 degCx10 mask st
  | HVAC_AUTO =>
      if HeatState_eqb (heatState (run st)) HEAT_OFF
      then HvacCool_OnReceivedHumidityInput this rhX10 degCx10 mask st
      else (mask, st)
  | _ => (mask, st)
  end.


(** The fields of the [HVAC_SETTINGS] command, parsed left to right from
    [q].  [off] is [offOnExit.off], the mask written when the command
    returns. *)
Definition HVAC_SETTINGS_fields (this : HvacTypes) (q : string)
    (s : OverrideAndDriveFromSensors.Settings) (off : Z)
  : OverrideAndDriveFromSensors.Settings * Z :=
  let '(v, q) := aDecimalToInt q in
  let s := set_TemperatureTargetDegreesCx10 (i16 v) s in
  (* default activate temperature if not given *)
  let s := set_TemperatureActivateDegreesCx10
             (ActivateTemperatureFromTarget this (TemperatureTargetDegreesCx10 s)) s in
  if peek q =? 0 then (s, off) else
  let '(v, q) := aDecimalToInt q in
  let s := set_TemperatureActivateDegreesCx10 (i16 v) s in
  if peek q =? 0 then (s, off) else
  let '(v, q) := aHexToInt q in
  let s := set_SensorMask v s in
  if peek q =? 0 then (s, off) else
  let '(v, q) := aHexToInt q in
  let s := set_MaskFanOnly (u8 v) s in
  if peek q =? 0 then (s, off) else
  let '(v, q) := aHexToInt q in
  let s := set_AlwaysOnMask (u8 v) s in
  let off := AlwaysOnMask s in
  if peek q =? 0 then (s, off) else
  let '(v, q) := aHexToInt q in
  let s := set_OutputStage1 (u8 v) s in
  if peek q =? 0 then (s, off) else
  let '(v, q) := aHexToInt q in
  let s := set_OutputStage2 (u8 v) s in
  if peek q =? 0 then (s, off) else
  let '(v, q) := aHexToInt q in
  let s := set_OutputStage3 (u8 v) s in
  if peek q =? 0 then (s, off) else
  let '(v, q) := aDecimalToInt q in
  let s := set_SecondsToSecondStage v s in
  if peek q =? 0 then (s, off) else
  let '(v, q) := aDecimalToInt q in
  let s := set_SecondsToThirdStage v s in
  (s, off).

(** The part of [OverrideAndDriveFromSensors::ProcessCommand] that handles
    a packet sniffed from a thermometer. *)
Definition sensor_report (this : HvacTypes) (cmd : string) (len senderid : Z)
    (st : State) : bool * State :=
  let mask := u32 (Z.shiftl 1 senderid) in
  if negb (Z.land (SensorMask (sensor_settings st)) mask =? 0) then
    (* we are configured to use this sensor *)
    let now := millis st in
    if (0 <? lastHeardSensorId (run st))
       && (lastHeardSensorId (run st) <? senderid)
       && (u32 (now - lastHeardFromSensor (run st)) <? SENSOR_TIMEOUT_MSEC)
    then (true, st)
    else
      let st := upd_run (fun r => set_lastHeardSensorId senderid
                                    (set_lastHeardFromSensor now r)) st in
      let tCx10 := parseForColon 84 cmd len in
      if tCx10 =? -1 then (false, st)
      else
        let rhx10 := parseForColon 82 cmd len in
        let output := AlwaysOnMask (sensor_settings st) in
        let '(needToBeOn, st) := OnReceivedTemperatureInput this tCx10 st in
        let st := upd_run (set_previousActual (u16 tCx10)) st in
        let '(output, st) :=
          if negb needToBeOn then
            let st := upd_run (set_fancoilState STATE_OFF) st in
            (* give subclass a second chance to set the output (HvacAuto) *)
            OnReceivedTemperatureInput2 this tCx10 output st
          else if FurnaceState_eqb (fancoilState (run st)) STATE_OFF then
            (OutputStage1 (sensor_settings st),
             upd_run (fun r => set_timeEnteredStage1 (millis st)
                                 (set_fancoilState STATE_STAGE1 r)) st)
          else
            let sinceStage1 := i32 (millis st - timeEnteredStage1 (run st)) in
            (mask_since_stage1 sinceStage1 st
               (OutputStage1 (sensor_settings st)) (OutputStage2 (sensor_settings st))
               (OutputStage3 (sensor_settings st)), st) in
        let '(output, st) :=
          if 0 <? rhx10 then OnReceivedHumidityInput this rhx10 tCx10 output st
          else (output, st) in
        let output :=
          if fanIsOn (run st) then Z.lor output (MaskFanOnly (sensor_settings st))
          else output in
        (true, UpdateOutputs output st)
  else (false, st).

(** [OverrideAndDriveFromSensors::ProcessCommand], called on [this]. *)
Definition OverrideAndDriveFromSensors_ProcessCommand (this : HvacTypes) (cmd : string)
    (len senderid : Z) (toMe : bool) (st : State) : bool * State :=
  let '(handled, st) := HvacCommands_ProcessCommand this cmd len senderid toMe st in
  if handled then (true, st)
  else if toMe then
    (* Fan on/off commands *)
    match match_upper "HVAC FAN=O" cmd with
    | Some p =>
        let on := toupper (peek p) =? 78 in
        let st := upd_run (set_fanIsOn on) st in
        if on then (true, SetOutputBits (MaskFanOnly (sensor_settings st)) st)
        else if FurnaceState_eqb (fancoilState (run st)) STATE_OFF
        then (true, ClearOutputBits (MaskFanOnly (sensor_settings st)) st)
        else (true, st)
    | None =>
        match after_keyword cmd "HVAC_SETTINGS " with
        | Some q =>
            let off := AlwaysOnMask (sensor_settings st) in
            let off :=
              if fanIsOn (run st) then Z.lor off (MaskFanOnly (sensor_settings st))
              else off in
            let st := upd_run (set_fancoilState STATE_OFF) st in
            let '(s, off) := HVAC_SETTINGS_fields this q (sensor_settings st) off in
            (true, UpdateOutputs off (set_sensor_settings s st))
        | None => (false, st)
        end
    end
  else sensor_report this cmd len senderid st.

(** The fields of the [HUM_SETTINGS] command; [q] is at the character
    that follows the keyword. *)
Definition HUM_SETTINGS_fields (q : string) (s : HvacCool.Settings) : HvacCool.Settings :=
  let s := set_HumiditySettingX10 65535 s in (* turn it off *)
  if peek q =? 0 then s else
  let q := next q in
  let '(v, q) := aDecimalToInt q in
  let s := set_HumiditySettingX10 v s in
  if peek q =? 0 then s else
  let '(v, q) := aHexToInt q in
  let s := set_MaskDehumidifyBitsOn (u8 v) s in
  if peek q =? 0 then s else
  let '(v, q) := aHexToInt q in
  set_MaskDehumidifyBitsOff (u8 v) s.

(** [HvacCool::ProcessCommand], called on [this]. *)
Definition HvacCool_ProcessCommand (this : HvacTypes) (cmd : string)
    (len senderid : Z) (toMe : bool) (st : State) : bool * State :=
  let '(handled, st) :=
    OverrideAndDriveFromSensors_ProcessCommand this cmd len senderid toMe st in
  if handled then (true, st)
  else if toMe then
    match after_keyword cmd "HUM_SETTINGS" with
    | Some q => (true, upd_cool_settings (HUM_SETTINGS_fields q) st)
    | None => (false, st)
    end
  else (false, st).

(** The fields of the [AUTO_SETTINGS] command; [q] is at the character
    that follows the keyword. *)
Definition AUTO_SETTINGS_fields (q : string) (s : HvacAuto.Settings) : HvacAuto.Settings :=
  if peek q =? 0 then s else
  let q := next q in
  let '(v, q) := aDecimalToInt q in
  let s := set_TemperatureTargetHeatDegreesCx10 (i16 v) s in
  let s := set_TemperatureActivateHeatDegreesCx10
             (i16 (TemperatureTargetHeatDegreesCx10 s - 6)) s in
  if peek q =? 0 then s else
  let '(v, q) := aDecimalToInt q in
  let s := set_TemperatureActivateHeatDegreesCx10 (i16 v) s in
  if peek q =? 0 then s else
  let '(v, q) := aHexToInt q in
  let s := set_HeatMaskStage1 (u8 v) (set_HeatMaskStage2 (u8 v) (set_HeatMaskStage3 (u8 v) s)) in
  if peek q =? 0 then s else
  let '(v, q) := aHexToInt q in
  let s := set_HeatMaskStage2 (u8 v) s in
  if peek q =? 0 then s else
  let '(v, q) := aHexToInt q in
  set_HeatMaskStage3 (u8 v) s.

(** [HvacAuto::ProcessCommand] *)
Definition HvacAuto_ProcessCommand (cmd : string) (len senderid : Z) (toMe : bool)
    (st : State) : bool * State :=
  let '(handled, st) := HvacCool_ProcessCommand HVAC_AUTO cmd len senderid toMe st in
  if handled then (true, st)
  else
    match after_keyword cmd "AUTO_SETTINGS" with
    | Some q => (true, upd_auto_settings (AUTO_SETTINGS_fields q) st)
    | None => (false, st)
    end.

(** [hvac->ProcessCommand(cmd, len, senderid, toMe)] *)
Definition hvac_ProcessCommand (cmd : string) (len senderid : Z) (toMe : bool)
    (st : State) : bool * State :=
  match hvac st with
  | HVAC_PASSTHROUGH => HvacCommands_ProcessCommand HVAC_PASSTHROUGH cmd len senderid toMe st
  | HVAC_MAPINPUTTOOUTPUT => MapInputToOutput_ProcessCommand cmd len senderid toMe st
  | HVAC_HEAT => OverrideAndDriveFromSensors_ProcessCommand HVAC_HEAT cmd len senderid toMe st
  | HVAC_COOL => HvacCool_ProcessCommand HVAC_COOL cmd len senderid toMe st
  | HVAC_AUTO => HvacAuto_ProcessCommand cmd len senderid toMe st
  end.

(** *** loop *)

(** [isSensorTimedOut(now)], called on [this] *)
Definition isSensorTimedOut (this : HvacTypes) (now : Z) (st : State) : bool * State :=
  let interval := i32 (now - lastHeardFromSensor (run st)) in
  let ret := SecondsToThirdStage (sensor_settings st) * 2000 <? interval in
  if ret then
    let st := emit (Serial_print_number interval) (emit (Serial_print "Sensor timed out! ") st) in
    let st := upd_run (set_previousActual 0) st in
    (true, TurnFurnaceOff this st)
  else (false, st).

(** [OverrideAndDriveFromSensors::loop(now)], called on [this] *)
Definition OverrideAndDriveFromSensors_loop (this : HvacTypes) (now : Z) (st : State)
  : State :=
  (* is it time to move to a later stage? *)
  if negb (FurnaceState_eqb (fancoilState (run st)) STATE_OFF) then
    let '(timedOut, st) := isSensorTimedOut this now st in
    if timedOut then upd_run (set_fancoilState STATE_OFF) st
    else
      let sinceStage1 := i32 (now - timeEnteredStage1 (run st)) in
      if SecondsToThirdStage (sensor_settings st) * 1000 <=? sinceStage1 then
        if negb (FurnaceState_eqb (fancoilState (run st)) STATE_STAGE3)
        then UpdateOutputs (OutputStage3 (sensor_settings st))
               (upd_run (set_fancoilState STATE_STAGE3) st)
        else st
      else if SecondsToSecondStage (sensor_settings st) * 1000 <=? sinceStage1 then
        if negb (FurnaceState_eqb (fancoilState (run st)) STATE_STAGE2)
        then UpdateOutputs (OutputStage2 (sensor_settings st))
               (upd_run (set_fancoilState STATE_STAGE2) st)
        else st
      else st
  else st.

(** [HvacAuto::loop(now)] *)
Definition HvacAuto_loop (now : Z) (st : State) : State :=
  if negb (HeatState_eqb (heatState (run st)) HEAT_OFF) then
    let '(timedOut, st) := isSensorTimedOut HVAC_AUTO now st in
    if timedOut then upd_run (set_heatState HEAT_OFF) st
    else
      let sinceStage1 := i32 (now - timeEnteredStage1 (run st)) in
      if SecondsToThirdStage (sensor_settings st) * 1000 <=? sinceStage1 then
        if negb (HeatState_eqb (heatState (run st)) HEAT_STAGE3)
        then UpdateOutputs (HeatMaskStage3 (auto_settings st))
               (upd_run (set_heatState HEAT_STAGE3) st)
        else st
      else if SecondsToSecondStage (sensor_settings st) * 1000 <=? sinceStage1 then
        if negb (HeatState_eqb (heatState (run st)) HEAT_STAGE2)
        then UpdateOutputs (HeatMaskStage2 (auto_settings st))
               (upd_run (set_heatState HEAT_STAGE2) st)
        else st
      else st
  else OverrideAndDriveFromSensors_loop HVAC_AUTO now st.

(** [hvac->loop(now)] *)
Definition hvac_loop (now : Z) (st : State) : State :=
  match hvac st with
  | HVAC_PASSTHROUGH | HVAC_MAPINPUTTOOUTPUT => st
  | HVAC_HEAT => OverrideAndDriveFromSensors_loop HVAC_HEAT now st
  | HVAC_COOL => OverrideAndDriveFromSensors_loop HVAC_COOL now st
  | HVAC_AUTO => HvacAuto_loop now st
  end.

(** [ThermostatCommon::setup()] *)
Definition ThermostatCommon_setup (st : State) : State :=
  let thermoType := EEPROM_read (EEPROM st) HVAC_EEPROM_TYPE_AND_MODE_ADDR in
  let thermoMode := EEPROM_read (EEPROM st) (HVAC_EEPROM_TYPE_AND_MODE_ADDR + 1) in
  match type_of_number thermoType with
  | Some tp =>
      if thermoMode <? NumberOfModesInType (EEPROM st) tp then
        let st := set_hvac tp st in
        let st := set_MyModeNumber thermoMode st in
        let st := set_MyTypeNumber thermoType st in
        let st := InitFromEeprom tp thermoMode st in
        TurnFurnaceOff tp st
      else st
  | None => st
  end.


(** ** The sketch: command interpreter *)

Definition ascii_of_code (c : Z) : ascii := ascii_of_N (Z.to_N c).

(** [while (isspace( *q )) q += 1;] *)
Fixpoint skip_spaces (q : string) : string :=
  match q with
  | EmptyString => q
  | String ch rest => if isspace (code ch) then skip_spaces rest else q
  end.

(** [setHvacWireName(i, p)], [p] a buffer of [MAX_WIRE_NAME_LEN] bytes *)
Definition setHvacWireName (i : Z) (p : list Z) (st : State) : State :=
  if i <? NUMBER_OF_SIGNALS then
    let addr := SIGNAL_LABEL_ASSIGNMENT + i * MAX_WIRE_NAME_LEN in
    let c0 := default 0 (p !! 0%nat) in
    let c1 := default 0 (p !! 1%nat) in
    let st := emit (Serial_print "setHvacWireName(") st in
    let st := emit (Serial_print_number i) st in
    let st := emit (Serial_print ",") st in
    let st := emit (Serial_print (String (ascii_of_code c0) EmptyString)) st in
    let st := if negb (c1 =? 0)
              then emit (Serial_print (String (ascii_of_code c1) EmptyString)) st
              else st in
    let st := emit (Serial_print ")") st in
    set_EEPROM (EEPROM_write (addr + 1) c1 (EEPROM_write addr c0 (EEPROM st))) st
  else st.

(** The inner loop of the [HV] command: collects one wire name of at most
    [MAX_WIRE_NAME_LEN] characters, skipping the spaces before it. *)
Fixpoint HV_name (p : string) (haveName : bool) (count : Z) (nameBuf : list Z)
  : bool * list Z * string :=
  match p with
  | EmptyString => (haveName, nameBuf, p)
  | String ch rest =>
      let c := code ch in
      if isspace c then
        if negb haveName then HV_name rest haveName count nameBuf
        else (haveName, nameBuf, p)
      else if c =? 0 then (haveName, nameBuf, p)
      else
        let nameBuf := <[Z.to_nat count := c]> nameBuf in
        if MAX_WIRE_NAME_LEN <=? count + 1 then (true, nameBuf, rest)
        else HV_name rest true (count + 1) nameBuf
  end.

(** The outer loop of the [HV] command, [n] signals left, at signal [i]. *)
Fixpoint HV_names (n : nat) (i : Z) (p : string) (st : State) : State :=
  match n with
  | O => st
  | S m =>
      let '(haveName, nameBuf, p) := HV_name p false 0 [0; 0] in
      let st := if haveName then setHvacWireName i nameBuf st else st in
      HV_names m (i + 1) p st
  end.

(** [setScheduleEntry(which, se)]: [degreesCx5] in the first byte, then
    the bit-fields hour:5, minute:6, days:7, auto:1 packed from bit 0. *)
Definition setScheduleEntry (which degreesCx5 hour minute days autoMode : Z)
    (st : State) : State :=
  if which <? NUM_SCHEDULE_TEMPERATURE_ENTRIES then
    let addr := SCHEDULE_TEMPERATURE_ENTRIES + which * sizeof_ScheduleEntry_t in
    let fields := hour mod 32 + 32 * (minute mod 64) + 2048 * (days mod 128)
                  + 262144 * (autoMode mod 2) in
    set_EEPROM (EEPROM_put addr (u8 degreesCx5 :: le_split 3 fields) (EEPROM st)) st
  else st.

(** [ProcessCommand(cmd, len)] of the sketch (built with
    USE_SERIAL = SERIAL_PORT_VERBOSE): the generic thermostat commands. *)
Definition ProcessCommand (cmd : string) (len : Z) (st : State) : bool * State :=
  if (char_at cmd 0 =? 84) && (char_at cmd 1 =? 61) then
    (* set the RTC time: T=YYYY MM DD HH MM SS DOW *)
    let p := skip 2 cmd in
    let '(year, p) := aDecimalToInt p in
    let '(month, p) := aDecimalToInt p in
    let '(day, p) := aDecimalToInt p in
    let '(hour, p) := aDecimalToInt p in
    let '(minute, p) := aDecimalToInt p in
    let '(sec, p) := aDecimalToInt p in
    let '(dow, p) := aDecimalToInt p in
    (true, emit (RTC_setTime (u8 sec) (u8 minute) (u8 hour) (u8 dow) (u8 day) (u8 month)
                   year) st)
  else if toupper (char_at cmd 0) =? 73 then
    (true, emit Radio_printInfo st)
  else if (toupper (char_at cmd 0) =? 72) && (toupper (char_at cmd 1) =? 86)
          && isspace (char_at cmd 2) then
    (* set wire names in EEPROM *)
    (true, HV_names (Z.to_nat NUMBER_OF_SIGNALS) 0 (skip 2 cmd) st)
  else if (toupper (char_at cmd 0) =? 68) && (toupper (char_at cmd 1) =? 85)
          && (char_at cmd 2 =? 61) then
    (* DU=F and DU=C *)
    let f := char_at cmd 3 =? 70 in
    let st := upd_sketch (set_displayLcdFarenheit f) st in
    (true, set_EEPROM (EEPROM_write DISPLAY_UNITS_ADDRESS (if f then 1 else 0) (EEPROM st)) st)
  else
  match after_keyword cmd "COMPRESSOR=0x" with
  | Some q =>
      let '(mask, q) := aHexToInt q in
      if peek q =? 0 then (false, st)
      else
        let '(seconds, q) := aDecimalToInt q in
        (true, setCompressorHoldSeconds seconds (setCompressorMask (u8 mask) st))
  | None =>
  if starts_with "RH" cmd && (char_at cmd 2 =? 0) then
    (true, emit (Radio_HvacReport (InputRegister (sketch st)) (OutputRegister (sketch st))) st)
  else if (toupper (char_at cmd 0) =? 72) && (toupper (char_at cmd 1) =? 83) then
    let q := skip_spaces (skip 2 cmd) in
    let c := peek q in
    let q := next q in
    if negb (c =? 0) then
      let q := skip_spaces q in
      if c =? 67 then (* 'C': set temperature in Celsius *)
        (true, setHeatSafetyTemperatureX10 (fst (aDecimalToInt q)) st)
      else if c =? 84 then (* 'T': set timer in seconds *)
        (true, setHeatSafetyHoldSeconds (fst (aDecimalToInt q)) st)
      else if (c =? 49) || (c =? 50) || (c =? 51) then
        let which := c - 49 in
        let '(dc, q) := aHexToInt q in
        let '(mm, q) := if negb (peek q =? 0) then aHexToInt q else (0, q) in
        let '(tc, q) := if negb (peek q =? 0) then aHexToInt q else (0, q) in
        (true, setHeatSafetyMask which
                 {| dontCareMask := u8 dc; mustMatchMask := u8 mm; toClear := u8 tc |} st)
      else (false, st)
    else (false, st)
  else if (toupper (char_at cmd 0) =? 83) && (toupper (char_at cmd 1) =? 69) then
    (* SE [which] [Celsiusx10] [HOUR] [MINUTE] [DAY-OF-WEEK-MASK] *)
    let q := skip_spaces (skip 2 cmd) in
    let '(which, q) := aDecimalToInt q in
    let which := u8 which in
    if NUM_SCHEDULE_TEMPERATURE_ENTRIES <=? which then (false, st)
    else
      let '(t, q) := aDecimalToInt q in
      let '(hour, q) := aDecimalToInt q in
      let '(minute, q) := aDecimalToInt q in
      let '(days, q) := aHexToInt q in
      let autoMode := if peek q =? 49 then 1 else 0 in
      (true, setScheduleEntry which (Z.shiftr t 1) hour minute days autoMode st)
  else (false, st)
  end.

(** [itoa(t, buf, 10)] *)
Definition itoa (t : Z) : string := NilZero.string_of_int (Z.to_int t).

(** [routeCommand(cmd, len, senderid, toMe)].  A mode change can make it
    call [setTemperatureCx10], which calls [routeCommand] again with an
    [HVAC_SETTINGS] command; [depth] bounds the nesting of these calls. *)
Fixpoint routeCommand_rec (depth : nat) (cmd : string) (len senderid : Z) (toMe : bool)
    (st : State) : option State :=
  match depth with
  | O => None
  | S depth' =>
      let st := emit (Serial_print cmd) (emit (Serial_print "Command: ") st) in
      let st :=
        if negb (senderid =? 255)
        then emit (Serial_print_number senderid) (emit (Serial_print " Sender: ") st)
        else st in
      if toMe && RadioConfiguration_ApplyCommand cmd then
        Some (emit (Serial_print "Command accepted for radio") st)
      else
        let '(main, st) := if toMe then ProcessCommand cmd len st else (false, st) in
        if main then Some (emit (Serial_print "Command accepted for main") st)
        else
          let temp := GetTargetAndActual (hvac st) st in
          let tempType := MyTypeNumber st in
          let tempMode := MyModeNumber st in
          let '(handled, st) := hvac_ProcessCommand cmd len senderid toMe st in
          if handled then
            let st := emit (Serial_print "Command accepted for HVAC") st in
            let st := emit (LCD_printMode (ModeNameString st)) st in
            let st' :=
              match temp with
              | Some (targetCx10, _) =>
                  if (MyTypeNumber st =? tempType) && negb (MyModeNumber st =? tempMode)
                  then
                    (* setTemperatureCx10(targetCx10) *)
                    let buf := ("HVAC_SETTINGS " ++ itoa targetCx10)%string in
                    routeCommand_rec depth' buf (Z.of_nat (String.length buf)) 255 true st
                  else Some st
              | None => Some st
              end in
            match st' with
            | Some st => Some (upd_sketch (set_InputsToHvacFlag true) st)
            | None => None
            end
          else Some st
  end.

(** ** The sketch: the safety blocks of [loop] *)

Definition HeatSafetyBanner : list Z := [79; 86; 69; 82; 33].

(** [LCD::printBanner(p)], which waits BANNER_TIME_MSEC *)
Definition LCD_BANNER_TIME_MSEC : Z := 2000.
Definition printBanner (p : list Z) (st : State) : State :=
  delay LCD_BANNER_TIME_MSEC (emit (LCD_printBanner p) st).

(** Expiration of the compressor short cycle prevention timer. *)
Definition loop_compressor_hold (now : Z) (st : State) : State :=
  if CompressorOffTimeActive (sketch st)
     && (1000 * getCompressorHoldSeconds st <? u32 (now - CompressorOffStartTime (sketch st)))
  then SetOutputBits 0 (upd_sketch (set_CompressorOffTimeActive false) st)
  else st.

(** The [for] loop over the heat-safety entries, from entry [i], [n]
    entries left; it stops at the first entry that triggers. *)
Fixpoint heat_safety_entries (n : nat) (i : Z) (st : State) : State :=
  match n with
  | O => st
  | S m =>
      let e := getHeatSafetyMask i st in
      let bits := u8 (Z.land (Z.lnot (dontCareMask e)) (LastOutputWrite (sketch st))) in
      if (bits =? mustMatchMask e) && negb (toClear e =? 0) then
        (* table indicates this IS a heat mode, so shut down heat *)
        let st := upd_sketch (fun k => set_HeatSafetyOffTimeActive true
                                         (set_HeatSafetyOffStartTime (millis st) k)) st in
        let st := printBanner HeatSafetyBanner st in
        let st := upd_sketch (set_HeatSafetyShutoffMask (u8 (Z.lnot (toClear e)))) st in
        SetOutputBits 0 st
      else heat_safety_entries m (i + 1) st
  end.

(** Expiration of the heat-safety hold, then the check of the inlet
    temperature against the heat-safety settings. *)
Definition loop_heat_safety (now : Z) (st : State) : State :=
  let st :=
    if HeatSafetyOffTimeActive (sketch st) then
      if 1000 * getHeatSafetyHoldSeconds st <? u32 (now - HeatSafetyOffStartTime (sketch st))
      then
        let st := upd_sketch (set_HeatSafetyOffTimeActive false) st in
        let st := printBanner (ModeNameString st) st in
        SetOutputBits 0 st
      else st
    else st in
  if negb (HeatSafetyOffTimeActive (sketch st)) then
    let heatSafetySeconds := getHeatSafetyHoldSeconds st in
    if (0 <? heatSafetySeconds) && negb (heatSafetySeconds =? 65535) then
      let heatSafetyTempCx10 := getHeatSafetyTemperatureCx10 st in
      if 0 <? heatSafetyTempCx10 then
        if heatSafetyTempCx10 <=? TinletTemperatureCx10 (sketch st)
        then heat_safety_entries (Z.to_nat NUM_HEAT_SAFETY_ENTRIES) 0 st
        else st
      else st
    else st
  else st.


(** [routeCommand]: two levels of nesting are always enough (lemma
    [routeCommand_returns]). *)
Definition routeCommand (cmd : string) (len senderid : Z) (toMe : bool) (st : State)
  : option State :=
  routeCommand_rec 2 cmd len senderid toMe st.

(** One complete line read from the serial port (the block of [loop] that
    reads [Serial]): the line is routed, then the prompt is printed. *)
Definition serial_line (cmd : string) (st : State) : option State :=
  match routeCommand cmd (Z.of_nat (String.length cmd)) 255 true st with
  | Some st => Some (emit (Serial_print "ready>") st)
  | None => None
  end.

(** ** Power up *)

(** The memory after reset: statics are zero, except the mode name
    ['P','A','S','S'] and the pointer [hvac = &passThrough]. *)
Definition reset_state (e : gmap Z Z) (t0 : Z) : State :=
  {| EEPROM := e; clock := t0; trace := [];
     sketch := {| OutputRegister := 0; InputRegister := 0; InputsToHvacFlag := false;
                  CompressorOffStartTime := 0; CompressorOffTimeActive := false;
                  HeatSafetyOffStartTime := 0; HeatSafetyShutoffMask := 0;
                  HeatSafetyOffTimeActive := false; TinletTemperatureCx10 := 0;
                  displayLcdFarenheit := false; LastOutputWrite := 0;
                  relayIsOn := false; onAtTime := 0 |};
     hvac := HVAC_PASSTHROUGH; MyTypeNumber := 0; MyModeNumber := 0;
     name_settings := {| ModeName := [80; 65; 83; 83; 0; 0] |};
     map_settings := {| inputToOutput := replicate 64 0 |};
     sensor_settings :=
       {| TemperatureTargetDegreesCx10 := 0; TemperatureActivateDegreesCx10 := 0;
          SensorMask := 0; MaskFanOnly := 0; AlwaysOnMask := 0; OutputStage1 := 0;
          OutputStage2 := 0; OutputStage3 := 0; SecondsToSecondStage := 0;
          SecondsToThirdStage := 0 |};
     cool_settings := {| MaskDehumidifyBitsOn := 0; MaskDehumidifyBitsOff := 0;
                         HumiditySettingX10 := 0 |};
     auto_settings := {| TemperatureTargetHeatDegreesCx10 := 0;
                         TemperatureActivateHeatDegreesCx10 := 0; HeatMaskStage1 := 0;
                         HeatMaskStage2 := 0; HeatMaskStage3 := 0 |};
     run := {| lastHeardFromSensor := 0; lastHeardSensorId := 0; timeEnteredStage1 := 0;
               fancoilState := STATE_OFF; fanIsOn := false; previousActual := 0;
               cool_dehumidifyState := DEHUMDIFY_OFF; auto_dehumidifyState := DEHUMDIFY_OFF;
               heatState := HEAT_OFF; autoTarget := 0 |} |}.

(** [setup()] of the sketch, as far as the state above is concerned: the
    display units are read, the outputs are cleared and
    [ThermostatCommon::setup()] loads the saved mode.  The bring-up of the
    serial port, LCD, clock chip and radio is left out; [t0] is the value
    of [millis()] when the outputs are first written. *)
Definition setup (e : gmap Z Z) (t0 : Z) : State :=
  let st := reset_state e t0 in
  let st := upd_sketch (set_displayLcdFarenheit
                          (negb (EEPROM_read e DISPLAY_UNITS_ADDRESS =? 0))) st in
  let st := UpdateOutputs 0 st in
  ThermostatCommon_setup st.


(** ** The sketch: wire names and reports *)

(** The C string in a buffer: its characters up to the first NUL. *)
Fixpoint c_string (buf : list Z) : string :=
  match buf with
  | [] => EmptyString
  | c :: r => if c =? 0 then EmptyString else String (ascii_of_code c) (c_string r)
  end.

(** [hvacWireName(i)]: the name in the static buffer [wireName]. *)
Definition hvacWireName (i : Z) (st : State) : string :=
  if i <? NUMBER_OF_SIGNALS then
    let addr := SIGNAL_LABEL_ASSIGNMENT + i * MAX_WIRE_NAME_LEN in
    let c0 := EEPROM_read (EEPROM st) addr in
    let c1 := EEPROM_read (EEPROM st) (addr + 1) in
    if c0 =? 255 then "?"%string else c_string [c0; c1; 0]
  else EmptyString.

Fixpoint dashes (n : nat) : string :=
  match n with
  | O => EmptyString
  | S m => String "-" (dashes m)
  end.

(** The loop of [reportHvac], [n] signals left, at signal [i] with its
    bit [wireMask]. *)
Fixpoint reportHvac_loop (n : nat) (i wireMask mask : Z) (st : State) : string :=
  match n with
  | O => EmptyString
  | S m =>
      let q := hvacWireName i st in
      let written :=
        if negb (Z.land mask wireMask =? 0) then q else dashes (String.length q) in
      (written ++ reportHvac_loop m (u8 (i + 1)) (u8 (Z.shiftl wireMask 1)) mask st)%string
  end.

(** [reportHvac(p, mask, t)]: the text written at [p]. *)
Definition reportHvac (mask t : Z) (st : State) : string :=
  ("HV" ++ String (ascii_of_code t)
     ("=" ++ reportHvac_loop (Z.to_nat NUMBER_OF_SIGNALS) 0 1 mask st))%string.


(** ** The sketch: schedule entries *)

Record ScheduleEntry_t : Type := Build_ScheduleEntry_t {
  degreesCx5 : Z;
  TimeOfDayHour : Z;
  TimeOfDayMinute : Z;
  DaysOfWeek : Z;
  AutoMode : Z
}.

(** [getScheduleEntry(which)]: the entry is zero-filled by its
    constructor when [which] is out of range. *)
Definition getScheduleEntry (which : Z) (st : State) : ScheduleEntry_t :=
  if which <? NUM_SCHEDULE_TEMPERATURE_ENTRIES then
    let addr := SCHEDULE_TEMPERATURE_ENTRIES + which * sizeof_ScheduleEntry_t in
    let fields := le_combine (EEPROM_get (addr + 1) 3 (EEPROM st)) in
    {| degreesCx5 := EEPROM_read (EEPROM st) addr;
       TimeOfDayHour := fields mod 32;
       TimeOfDayMinute := (fields / 32) mod 64;
       DaysOfWeek := (fields / 2048) mod 128;
       AutoMode := (fields / 262144) mod 2 |}
  else {| degreesCx5 := 0; TimeOfDayHour := 0; TimeOfDayMinute := 0; DaysOfWeek := 0;
          AutoMode := 0 |}.


(** [setTemperatureCx10(t, autoMode)], which the schedule calls with the
    temperature of an entry that is due. *)
Definition setTemperatureCx10 (t : Z) (autoMode : bool) (st : State) : option State :=
  let buf := ((if autoMode then "AUTO_SETTINGS" else "HVAC_SETTINGS ") ++ itoa t)%string in
  routeCommand buf (Z.of_nat (String.length buf)) 255 true st.


(** ** The sketch: the schedule block of [loop] *)

Definition SCEDULE_TIME_UPDATE_MSEC : Z := 40000.

(** [int diff = now - lastScheduleUpdate; if (diff > SCEDULE_TIME_UPDATE_MSEC)]:
    the difference of the two [unsigned long] is cut to an [int], which
    the comparison with the [unsigned long] constant converts back. *)
Definition schedule_is_due (now lastScheduleUpdate : Z) : bool :=
  let diff := i16 (u32 (now - lastScheduleUpdate)) in
  SCEDULE_TIME_UPDATE_MSEC <? u32 diff.

(** The test of one entry against the hours, minutes and weekday read
    from the clock chip. *)
Definition schedule_entry_matches (se : ScheduleEntry_t) (hrs mins weekday : Z) : bool :=
  negb (Z.land (DaysOfWeek se) (i16 (Z.shiftl 1 weekday)) =? 0)
  && (hrs =? u8 (TimeOfDayHour se)) && (mins =? u8 (TimeOfDayMinute se)).

(** The [for] loop over the entries, from entry [i], [n] entries left.
    [reinit] is the flag [LCD::reinit] of the display. *)
Fixpoint schedule_entries (n : nat) (i hrs mins weekday : Z) (reinit : bool) (st : State)
  : option (bool * State) :=
  match n with
  | O => Some (reinit, st)
  | S n' =>
      let se := getScheduleEntry i st in
      if schedule_entry_matches se hrs mins weekday then
        match setTemperatureCx10 (i16 (Z.shiftl (degreesCx5 se) 1))
                (negb (AutoMode se =? 0)) st with
        | Some st => schedule_entries n' (i + 1) hrs mins weekday true st
        | None => None
        end
      else schedule_entries n' (i + 1) hrs mins weekday reinit st
  end.

(** The block: [lastScheduleUpdate] is its static variable, given and
    returned; [hrs], [mins] and [weekday] are what the clock chip answers
    when it is asked. *)
Definition loop_schedule (now lastScheduleUpdate hrs mins weekday : Z) (reinit : bool)
    (st : State) : Z * option (bool * State) :=
  if schedule_is_due now lastScheduleUpdate then
    (now, schedule_entries (Z.to_nat NUM_SCHEDULE_TEMPERATURE_ENTRIES) 0 hrs mins weekday
            reinit st)
  else (lastScheduleUpdate, Some (reinit, st)).


(** * Vocabulary of the properties *)

(** The counts that are kept in the EEPROM are bytes, and the radio
    library's data ends inside the 1 KiB part: under these two conditions
    no address computation wraps. *)
Definition counts_are_bytes (e : gmap Z Z) : Prop :=
  forall t, 0 <= NumberOfModesInType e t <= 255.

Definition radio_data_fits : Prop :=
  0 <= RadioConfiguration_TOTAL_EEPROM_USED <= EEPROM_length.

(** The layout in the words of the specification: the first type starts
    at the start of the mode-settings region, each next type where the
    previous one ends. *)
Definition base_address (e : gmap Z Z) (t : HvacTypes) : Z :=
  let sz t := NumberOfModesInType e t * settings_size t in
  match t with
  | HVAC_PASSTHROUGH => HVAC_MODES_EEPROM_START_ADDR
  | HVAC_MAPINPUTTOOUTPUT => HVAC_MODES_EEPROM_START_ADDR + sz HVAC_PASSTHROUGH
  | HVAC_HEAT =>
      HVAC_MODES_EEPROM_START_ADDR + sz HVAC_PASSTHROUGH + sz HVAC_MAPINPUTTOOUTPUT
  | HVAC_COOL =>
      HVAC_MODES_EEPROM_START_ADDR + sz HVAC_PASSTHROUGH + sz HVAC_MAPINPUTTOOUTPUT
      + sz HVAC_HEAT
  | HVAC_AUTO =>
      HVAC_MODES_EEPROM_START_ADDR + sz HVAC_PASSTHROUGH + sz HVAC_MAPINPUTTOOUTPUT
      + sz HVAC_HEAT + sz HVAC_COOL
  end.

(** The type that follows in the enumeration. *)
Definition next_type (t : HvacTypes) : option HvacTypes :=
  match t with
  | HVAC_PASSTHROUGH => Some HVAC_MAPINPUTTOOUTPUT
  | HVAC_MAPINPUTTOOUTPUT => Some HVAC_HEAT
  | HVAC_HEAT => Some HVAC_COOL
  | HVAC_COOL => Some HVAC_AUTO
  | HVAC_AUTO => None
  end.

(** The EEPROM cell that holds the count of a type. *)
Definition count_cell (t : HvacTypes) : Z :=
  HVAC_NUMBER_OF_MODES_IN_TYPE_ADDR + (type_number t - 1).

(** Hexadecimal text of a byte, as a host would send it. *)
Definition hex_digit (d : Z) : ascii :=
  ascii_of_code (if d <? 10 then 48 + d else 55 + d).
Definition hex_byte (v : Z) : string :=
  String (hex_digit (v / 16)) (String (hex_digit (v mod 16)) EmptyString).

(** The values of an [HVACMAP] command, each after one space. *)
Fixpoint hex_values (vs : list Z) : string :=
  match vs with
  | [] => EmptyString
  | v :: r => (" " ++ hex_byte v ++ hex_values r)%string
  end.

Definition HVACMAP_command (addr : Z) (vs : list Z) : string :=
  ("HVACMAP=0x" ++ hex_byte addr ++ hex_values vs)%string.

(** What is left of the values when the pointer has passed the space
    before the first of them. *)
Definition hex_values_body (vs : list Z) : string :=
  match vs with
  | [] => EmptyString
  | v :: r => (hex_byte v ++ hex_values r)%string
  end.

(** A sequence of command lines given to the current mode, all addressed
    to this node; the flag tells whether every one of them was handled. *)
Definition hvac_commands (cmds : list string) (st : State) : bool * State :=
  fold_left
    (fun acc cmd =>
       let '(handled, st) :=
         hvac_ProcessCommand cmd (Z.of_nat (String.length cmd)) 255 true (snd acc) in
       (fst acc && handled, st))
    cmds (true, st).

(** The eight [HVACMAP] commands that write a whole table [vs], eight
    entries each. *)
Definition HVACMAP_fill (vs : list Z) : list string :=
  (fun k => HVACMAP_command (8 * Z.of_nat k) (take 8 (drop (8 * k) vs))) <$> seq 0 8.

(** The table index of an input register value. *)
Definition input_index (inputs : Z) : Z :=
  Z.shiftr (Z.land inputs INPUT_SIGNAL_MASK) BN_FIRST_SIGNAL.

(** The three sensor-driven classes. *)
Definition sensor_driven (t : HvacTypes) : Prop :=
  t = HVAC_HEAT \/ t = HVAC_COOL \/ t = HVAC_AUTO.

(** The node id of the sender is among those the mode is configured to
    honor: the test [SensorMask & (1L << senderid)] of the source. *)
Definition sensor_is_configured (senderid : Z) (st : State) : Prop :=
  Z.land (SensorMask (sensor_settings st)) (u32 (Z.shiftl 1 senderid)) <> 0.

(** The sensor heard last has a lower, non-zero id than [senderid] and
    was heard less than 15 minutes ago. *)
Definition lower_sender_heard_recently (senderid : Z) (st : State) : Prop :=
  0 < lastHeardSensorId (run st) < senderid /\
  u32 (millis st - lastHeardFromSensor (run st)) < SENSOR_TIMEOUT_MSEC.

(** ** Example configurations *)

(** Heat to 20.0 C (on at 19.4 C) from sensors 8 and 9; fan on Z1, X1
    always on, stages on W, W+ZX, W+X2; stage 2 after 900 s and stage 3
    after 1200 s. *)
Definition example_sensor_settings : OverrideAndDriveFromSensors.Settings :=
  {| TemperatureTargetDegreesCx10 := 200; TemperatureActivateDegreesCx10 := 194;
     SensorMask := 768; MaskFanOnly := 4; AlwaysOnMask := 64; OutputStage1 := 8;
     OutputStage2 := 24; OutputStage3 := 40; SecondsToSecondStage := 900;
     SecondsToThirdStage := 1200 |}.

(** The machine just after [t] was selected with these settings, on a
    blank EEPROM, at time 0. *)
Definition example_mode (t : HvacTypes) : State :=
  set_hvac t (set_MyTypeNumber (type_number t)
    (set_sensor_settings example_sensor_settings (reset_state ∅ 0))).

(** The same machine at a later time. *)
Definition at_time (ms : Z) (st : State) : State := set_clock ms st.

(** A report that is accepted from its sender, carries a temperature, and
    makes the mode's activation test answer "on". *)
Definition qualifying_report (this : HvacTypes) (cmd : string) (len senderid : Z)
    (st : State) : Prop :=
  sensor_is_configured senderid st /\
  ~ lower_sender_heard_recently senderid st /\
  parseForColon 84 cmd len <> -1 /\
  fst (OnReceivedTemperatureInput this (parseForColon 84 cmd len) st) = true.

(** What [sensor_report] lays over the mask chosen by the staging: the
    dehumidify bits when the report carries a humidity, then the fan bits
    when the fan is set to continuous. *)
Definition report_overlays (this : HvacTypes) (rhx10 tCx10 output : Z) (st : State)
  : Z * State :=
  let r := if 0 <? rhx10 then OnReceivedHumidityInput this rhx10 tCx10 output st
           else (output, st) in
  (if fanIsOn (run (snd r)) then Z.lor (fst r) (MaskFanOnly (sensor_settings (snd r)))
   else fst r, snd r).

(** The stage mask in the words of the specification: stage 1 while the
    time since stage 1 was entered is below SecondsToSecondStage, stage 2
    from there until SecondsToThirdStage, stage 3 from there on. *)
Definition stage_mask_by_elapsed (s : OverrideAndDriveFromSensors.Settings)
    (elapsed_ms : Z) : Z :=
  if elapsed_ms <? SecondsToSecondStage s * 1000 then OutputStage1 s
  else if elapsed_ms <? SecondsToThirdStage s * 1000 then OutputStage2 s
  else OutputStage3 s.

(** The stage itself, in the same words. *)
Definition stage_by_elapsed (s : OverrideAndDriveFromSensors.Settings)
    (elapsed_ms : Z) (current : FurnaceState) : FurnaceState :=
  if elapsed_ms <? SecondsToSecondStage s * 1000 then current
  else if elapsed_ms <? SecondsToThirdStage s * 1000 then STATE_STAGE2
  else STATE_STAGE3.

(** The stage mask as the code chooses it from the time since stage 1
    was entered: the third-stage threshold is tested first, then the
    second-stage threshold. *)
Definition stage_mask_since (s : OverrideAndDriveFromSensors.Settings) (elapsed_ms : Z) : Z :=
  if SecondsToThirdStage s * 1000 <=? elapsed_ms then OutputStage3 s
  else if SecondsToSecondStage s * 1000 <=? elapsed_ms then OutputStage2 s
  else OutputStage1 s.

(** The stage the periodic [loop] leaves, chosen the same way. *)
Definition stage_since (s : OverrideAndDriveFromSensors.Settings) (elapsed_ms : Z)
    (current : FurnaceState) : FurnaceState :=
  if SecondsToThirdStage s * 1000 <=? elapsed_ms then STATE_STAGE3
  else if SecondsToSecondStage s * 1000 <=? elapsed_ms then STATE_STAGE2
  else current.

(** The same for the heat side of Auto, which has its own masks and
    shares the thresholds and the time of entry. *)
Definition heat_mask_since (st : State) (elapsed_ms : Z) : Z :=
  if SecondsToThirdStage (sensor_settings st) * 1000 <=? elapsed_ms
  then HeatMaskStage3 (auto_settings st)
  else if SecondsToSecondStage (sensor_settings st) * 1000 <=? elapsed_ms
       then HeatMaskStage2 (auto_settings st)
       else HeatMaskStage1 (auto_settings st).

Definition heat_stage_since (s : OverrideAndDriveFromSensors.Settings) (elapsed_ms : Z)
    (current : HeatState) : HeatState :=
  if SecondsToThirdStage s * 1000 <=? elapsed_ms then HEAT_STAGE3
  else if SecondsToSecondStage s * 1000 <=? elapsed_ms then HEAT_STAGE2
  else current.

(** A mask with the fan bits laid over it when the fan is set to
    continuous. *)
Definition with_fan_bits (st : State) (mask : Z) : Z :=
  if fanIsOn (run st) then Z.lor mask (MaskFanOnly (sensor_settings st)) else mask.

(** The periodic [loop] stages the cool side: always in Heat and Cool,
    in Auto while the heat side is off. *)
Definition cool_side_is_staged (st : State) : Prop :=
  hvac st = HVAC_AUTO -> heatState (run st) = HEAT_OFF.

(** Side conditions of the timing properties: the thresholds are
    configured in increasing order; the time stamp lies in the past, less
    than 2^31 ms ago (the code keeps differences of time stamps in a
    signed 32-bit integer); the sensor has not timed out. *)
Definition stage_thresholds_ordered (st : State) : Prop :=
  SecondsToSecondStage (sensor_settings st) <= SecondsToThirdStage (sensor_settings st).

Definition stage1_entry_in_past (now : Z) (st : State) : Prop :=
  0 <= now - timeEnteredStage1 (run st) < 2147483648.

Definition sensor_silent_too_long (now : Z) (st : State) : Prop :=
  SecondsToThirdStage (sensor_settings st) * 2000
  < i32 (now - lastHeardFromSensor (run st)).

(** The requested mask after the first two steps of the arbiter: the
    output-legal bits, less the bits a heat-safety shutdown clears. *)
Definition arbitrated_request (mask : Z) (st : State) : Z :=
  let mask := Z.land mask OUTPUT_SIGNAL_MASK in
  if HeatSafetyOffTimeActive (sketch st)
  then Z.land mask (HeatSafetyShutoffMask (sketch st)) else mask.

(** The compressor bit-group is made of signal outputs: it does not
    contain bit 0 of the output register, which drives the failsafe relay
    on wire W and is set by the arbiter itself. *)
Definition compressor_group_is_signals (st : State) : Prop :=
  Z.land (getCompressorMask st) (bit BN_W_FAILSAFE) = 0.

(** The hold timer has run out at time [now]. *)
Definition compressor_hold_expired (now : Z) (st : State) : Prop :=
  1000 * getCompressorHoldSeconds st < u32 (now - CompressorOffStartTime (sketch st)).

(** Heat-safety entry [i] matches the last requested output: the bits of
    the output outside [dontCareMask] equal [mustMatchMask]. *)
Definition heat_safety_entry_matches (i : Z) (st : State) : Prop :=
  u8 (Z.land (Z.lnot (dontCareMask (getHeatSafetyMask i st))) (LastOutputWrite (sketch st)))
  = mustMatchMask (getHeatSafetyMask i st).

(** The entry matches and has bits to clear. *)
Definition heat_safety_entry_triggers (i : Z) (st : State) : Prop :=
  heat_safety_entry_matches i st /\ toClear (getHeatSafetyMask i st) <> 0.

(** The heat safety is switched on: a hold time is set (neither 0 nor the
    erased value 0xFFFF) and the trigger temperature is positive. *)
Definition heat_safety_enabled (st : State) : Prop :=
  0 < getHeatSafetyHoldSeconds st /\ getHeatSafetyHoldSeconds st <> 65535 /\
  0 < getHeatSafetyTemperatureCx10 st.

Definition heat_safety_hold_expired (now : Z) (st : State) : Prop :=
  1000 * getHeatSafetyHoldSeconds st < u32 (now - HeatSafetyOffStartTime (sketch st)).

(** The state in which entry [i] has just triggered the shutdown. *)
Definition heat_safety_tripped (i : Z) (st : State) : State :=
  let st1 := upd_sketch (fun k => set_HeatSafetyOffTimeActive true
                                    (set_HeatSafetyOffStartTime (millis st) k)) st in
  let st2 := printBanner HeatSafetyBanner st1 in
  let st3 := upd_sketch (set_HeatSafetyShutoffMask
                           (u8 (Z.lnot (toClear (getHeatSafetyMask i st))))) st2 in
  SetOutputBits 0 st3.

(** ** Command texts with numeric fields *)

(** A number as the list of its digits, most significant first, its text
    and its value in a base. *)
Fixpoint digits_text (ds : list Z) : string :=
  match ds with
  | [] => EmptyString
  | d :: r => String (hex_digit d) (digits_text r)
  end.

Definition digits_value (base : Z) (ds : list Z) : Z :=
  fold_left (fun acc d => acc * base + d) ds 0.

Definition is_number (base : Z) (ds : list Z) : Prop :=
  ds <> [] /\ Forall (fun d => 0 <= d < base) ds.

(** The value a decimal field gives to a [uint16_t], a hexadecimal field
    to a [uint32_t]. *)
Definition dec_field (ds : list Z) : Z := u16 (digits_value 10 ds).
Definition hex_field (ds : list Z) : Z := u32 (digits_value 16 ds).

(** Fields, each after one space; and the same text without the first
    space. *)
Fixpoint fields_tail (toks : list (list Z)) : string :=
  match toks with
  | [] => EmptyString
  | t :: r => (" " ++ digits_text t ++ fields_tail r)%string
  end.

Definition fields_body (toks : list (list Z)) : string :=
  match toks with
  | [] => EmptyString
  | t :: r => (digits_text t ++ fields_tail r)%string
  end.

(** The fields of [HVAC_SETTINGS] are decimal, decimal, six hexadecimal,
    decimal, decimal; [HUM_SETTINGS]: decimal, hexadecimal, hexadecimal;
    [AUTO_SETTINGS]: decimal, decimal, three hexadecimal. *)
Definition HVAC_SETTINGS_bases : list Z := [10; 10; 16; 16; 16; 16; 16; 16; 10; 10].
Definition HUM_SETTINGS_bases : list Z := [10; 16; 16].
Definition AUTO_SETTINGS_bases : list Z := [10; 10; 16; 16; 16].

(** The fields present are numbers in the bases of their positions, and
    there are no more of them than the command has. *)
Definition fields_fit (bases : list Z) (toks : list (list Z)) : Prop :=
  Forall2 (fun b t => is_number b t) (take (length toks) bases) toks.

(** Field [i] of the command, if present, else the prior value. *)
Definition field_or (prior : Z) (value : list Z -> Z) (toks : list (list Z)) (i : nat) : Z :=
  match toks !! i with
  | Some t => value t
  | None => prior
  end.

(** What an [HVAC_SETTINGS] command with the fields [toks] (at least the
    target) makes of the settings [s]. *)
Definition HVAC_SETTINGS_result (this : HvacTypes) (toks : list (list Z))
    (s : OverrideAndDriveFromSensors.Settings) : OverrideAndDriveFromSensors.Settings :=
  let target := i16 (field_or 0 dec_field toks 0) in
  {| TemperatureTargetDegreesCx10 := target;
     TemperatureActivateDegreesCx10 :=
       field_or (ActivateTemperatureFromTarget this target)
         (fun t => i16 (dec_field t)) toks 1;
     SensorMask := field_or (SensorMask s) hex_field toks 2;
     MaskFanOnly := field_or (MaskFanOnly s) (fun t => u8 (hex_field t)) toks 3;
     AlwaysOnMask := field_or (AlwaysOnMask s) (fun t => u8 (hex_field t)) toks 4;
     OutputStage1 := field_or (OutputStage1 s) (fun t => u8 (hex_field t)) toks 5;
     OutputStage2 := field_or (OutputStage2 s) (fun t => u8 (hex_field t)) toks 6;
     OutputStage3 := field_or (OutputStage3 s) (fun t => u8 (hex_field t)) toks 7;
     SecondsToSecondStage := field_or (SecondsToSecondStage s) dec_field toks 8;
     SecondsToThirdStage := field_or (SecondsToThirdStage s) dec_field toks 9 |}.

(** The same for [HUM_SETTINGS] (any number of fields, also none). *)
Definition HUM_SETTINGS_result (toks : list (list Z)) (s : HvacCool.Settings)
  : HvacCool.Settings :=
  {| MaskDehumidifyBitsOn :=
       field_or (MaskDehumidifyBitsOn s) (fun t => u8 (hex_field t)) toks 1;
     MaskDehumidifyBitsOff :=
       field_or (MaskDehumidifyBitsOff s) (fun t => u8 (hex_field t)) toks 2;
     HumiditySettingX10 := field_or 65535 dec_field toks 0 |}.

(** The same for [AUTO_SETTINGS] with at least the target. *)
Definition AUTO_SETTINGS_result (toks : list (list Z)) (s : HvacAuto.Settings)
  : HvacAuto.Settings :=
  let target := i16 (field_or 0 dec_field toks 0) in
  let stage1 := field_or (HeatMaskStage1 s) (fun t => u8 (hex_field t)) toks 2 in
  {| TemperatureTargetHeatDegreesCx10 := target;
     TemperatureActivateHeatDegreesCx10 :=
       field_or (i16 (target - 6)) (fun t => i16 (dec_field t)) toks 1;
     HeatMaskStage1 := stage1;
     HeatMaskStage2 :=
       field_or (field_or (HeatMaskStage2 s) (fun t => u8 (hex_field t)) toks 2)
         (fun t => u8 (hex_field t)) toks 3;
     HeatMaskStage3 :=
       field_or (field_or (HeatMaskStage3 s) (fun t => u8 (hex_field t)) toks 2)
         (fun t => u8 (hex_field t)) toks 4 |}.

(** ** Committing and reloading *)

(** What selects the settings record of the current mode in the EEPROM:
    the EEPROM itself and the type and index of the current mode. *)
Definition selection (st : State) : gmap Z Z * HvacTypes * Z * Z :=
  (EEPROM st, hvac st, MyTypeNumber st, MyModeNumber st).

(** The working copy of the settings of a mode of type [this]: the name
    and the settings of the class layers the type is made of. *)
Definition working_copy (this : HvacTypes) (st : State)
  : HvacCommands.Settings * option MapInputToOutput.Settings
    * option OverrideAndDriveFromSensors.Settings * option HvacCool.Settings
    * option HvacAuto.Settings :=
  (name_settings st,
   match this with
   | HVAC_MAPINPUTTOOUTPUT => Some (map_settings st)
   | _ => None
   end,
   match this with
   | HVAC_HEAT | HVAC_COOL | HVAC_AUTO => Some (sensor_settings st)
   | _ => None
   end,
   match this with
   | HVAC_COOL | HVAC_AUTO => Some (cool_settings st)
   | _ => None
   end,
   match this with
   | HVAC_AUTO => Some (auto_settings st)
   | _ => None
   end).

(** The working copy holds values of its C types: arrays of the declared
    lengths of bytes, fields within the range of their integer types.
    The name does not start with the byte 0xFF, which marks a record that
    was never written. *)
Definition byte_values (l : list Z) : Prop := Forall (fun b => 0 <= b < 256) l.

Definition name_is_storable (s : HvacCommands.Settings) : Prop :=
  length (ModeName s) = Z.to_nat sizeof_HvacCommands_Settings /\
  byte_values (ModeName s) /\ ModeName s !! 0%nat <> Some 255.

Definition map_is_storable (s : MapInputToOutput.Settings) : Prop :=
  length (inputToOutput s) = Z.to_nat sizeof_MapInputToOutput_Settings /\
  byte_values (inputToOutput s).

Definition sensor_is_storable (s : OverrideAndDriveFromSensors.Settings) : Prop :=
  -32768 <= TemperatureTargetDegreesCx10 s < 32768 /\
  -32768 <= TemperatureActivateDegreesCx10 s < 32768 /\
  0 <= SensorMask s < 4294967296 /\
  0 <= MaskFanOnly s < 256 /\ 0 <= AlwaysOnMask s < 256 /\
  0 <= OutputStage1 s < 256 /\ 0 <= OutputStage2 s < 256 /\ 0 <= OutputStage3 s < 256 /\
  0 <= SecondsToSecondStage s < 65536 /\ 0 <= SecondsToThirdStage s < 65536.

Definition cool_is_storable (s : HvacCool.Settings) : Prop :=
  0 <= MaskDehumidifyBitsOn s < 256 /\ 0 <= MaskDehumidifyBitsOff s < 256 /\
  0 <= HumiditySettingX10 s < 65536.

Definition auto_is_storable (s : HvacAuto.Settings) : Prop :=
  -32768 <= TemperatureTargetHeatDegreesCx10 s < 32768 /\
  -32768 <= TemperatureActivateHeatDegreesCx10 s < 32768 /\
  0 <= HeatMaskStage1 s < 256 /\ 0 <= HeatMaskStage2 s < 256 /\
  0 <= HeatMaskStage3 s < 256.

Definition working_copy_is_storable (st : State) : Prop :=
  name_is_storable (name_settings st) /\ map_is_storable (map_settings st) /\
  sensor_is_storable (sensor_settings st) /\ cool_is_storable (cool_settings st) /\
  auto_is_storable (auto_settings st).

(** The current mode is an instance that exists: its index is below the
    count of its type.  (The pass-through mode has one instance, which
    is always read and written as instance 0.) *)
Definition instance_index (st : State) : Z :=
  match hvac st with
  | HVAC_PASSTHROUGH => 0
  | _ => MyModeNumber st
  end.

Definition instance_is_selected (st : State) : Prop :=
  0 <= instance_index st < NumberOfModesInType (EEPROM st) (hvac st).

(** The commands that change settings: every command that is not one of
    the [HVAC ...] commands of the base class (the fifth character of
    [HVAC_SETTINGS], [HUM_SETTINGS], [AUTO_SETTINGS] and [HVACMAP=0x] is
    not a space), and the [HVAC ... NAME=] command. *)
Definition settings_command (cmd : string) : Prop :=
  match_upper "HVAC " cmd = None \/ after_keyword cmd "NAME=" <> None.

(** The type and index of the current mode are the ones saved for the
    next power-up (the [MODE=] command saves them when it selects a
    mode). *)
Definition selection_is_saved (st : State) : Prop :=
  EEPROM_read (EEPROM st) HVAC_EEPROM_TYPE_AND_MODE_ADDR = type_number (hvac st) /\
  EEPROM_read (EEPROM st) (HVAC_EEPROM_TYPE_AND_MODE_ADDR + 1) = instance_index st.

(** ** Commands that no stage recognizes *)

(** The state after [routeCommand] has echoed the command on the serial
    port, which it does first for every command. *)
Definition echoed (cmd : string) (senderid : Z) (st : State) : State :=
  let st := emit (Serial_print cmd) (emit (Serial_print "Command: ") st) in
  if negb (senderid =? 255)
  then emit (Serial_print_number senderid) (emit (Serial_print " Sender: ") st)
  else st.

(** The first number of an [HVACMAP=0x] command: the table index it
    starts to write at. *)
Definition HVACMAP_address (cmd : string) : Z :=
  u8 (fst (aHexToInt (skip (String.length "HVACMAP=0x") cmd))).

(** Table [new] is table [old] at every index below [addr] and at every
    index past the 64 entries. *)
Definition table_kept_outside (addr : Z) (old new : list Z) : Prop :=
  length new = length old /\
  forall i : nat,
    (i < Z.to_nat addr)%nat \/ (Z.to_nat NUM_INPUT_SIGNAL_COMBINATIONS <= i)%nat ->
    new !! i = old !! i.

(** Every stage of [routeCommand] answers "not handled": the radio
    library and the sketch (which see only commands addressed to this
    node) and the current mode. *)
Definition refused_by_every_stage (cmd : string) (len senderid : Z) (toMe : bool)
    (st : State) : Prop :=
  (toMe = true ->
   RadioConfiguration_ApplyCommand cmd = false /\
   fst (ProcessCommand cmd len (echoed cmd senderid st)) = false) /\
  fst (hvac_ProcessCommand cmd len senderid toMe (echoed cmd senderid st)) = false.

(** The state after a sensor-driven mode has noted the sender of a
    report and the time. *)
Definition heard (senderid : Z) (st : State) : State :=
  upd_run (fun r => set_lastHeardSensorId senderid
                      (set_lastHeardFromSensor (millis st) r)) st.

(** ** Texts *)

(** A text with its letters in upper case. *)
Fixpoint upper_text (s : string) : string :=
  match s with
  | EmptyString => EmptyString
  | String c r => String (ascii_of_code (toupper (code c))) (upper_text r)
  end.

(** The codes of the characters of a text. *)
Fixpoint codes (s : string) : list Z :=
  match s with
  | EmptyString => []
  | String c r => code c :: codes r
  end.

(** The text with the given character codes. *)
Fixpoint text_of_codes (l : list Z) : string :=
  match l with
  | [] => EmptyString
  | c :: r => String (ascii_of_code c) (text_of_codes r)
  end.

(** The sign of a reading as the thermometers write it: [Some true] is
    [-], [Some false] is [+], [None] is no sign. *)
Definition sign_text (neg : option bool) : string :=
  match neg with
  | Some true => "-"
  | Some false => "+"
  | None => EmptyString
  end.

Definition sign_factor (neg : option bool) : Z :=
  match neg with
  | Some true => -1
  | _ => 1
  end.

(** A packet with the reading [flag:] after [prefix]: sign, whole part,
    decimal point, first decimal [d], then anything. *)
Definition reading_text (prefix : string) (flag : Z) (neg : option bool) (ds : list Z)
    (d : Z) (rest : string) : string :=
  (prefix ++ String (ascii_of_code flag)
     (":" ++ sign_text neg ++ digits_text ds ++ "." ++ String (hex_digit d) rest))%string.

(** ** Safety settings that were never written *)

(** The compressor mask and the heat-safety hold time read as erased
    EEPROM, and no hold is running. *)
Definition safety_unconfigured (st : State) : Prop :=
  EEPROM_read (EEPROM st) COMPRESSOR_MASK = 255 /\
  getHeatSafetyHoldSeconds st = 65535 /\
  CompressorOffTimeActive (sketch st) = false /\
  HeatSafetyOffTimeActive (sketch st) = false.

(** ** The safety settings of the sketch *)

(** The settings the safety logic reads from the EEPROM, as the getters
    give them. *)
Definition safety_settings (st : State)
  : Z * Z * Z * Z * (HeatSafetyMask_t * HeatSafetyMask_t * HeatSafetyMask_t) :=
  (getCompressorMask st, getCompressorHoldSeconds st, getHeatSafetyHoldSeconds st,
   getHeatSafetyTemperatureCx10 st,
   (getHeatSafetyMask 0 st, getHeatSafetyMask 1 st, getHeatSafetyMask 2 st)).

(** The state with another EEPROM content and nothing else changed, the
    cells outside of the safety settings being the same. *)
Definition only_safety_cells_differ (st st' : State) : Prop :=
  st' = set_EEPROM (EEPROM st') st /\
  forall a, a < COMPRESSOR_MASK \/ SCHEDULE_TEMPERATURE_ENTRIES <= a ->
            EEPROM_read (EEPROM st') a = EEPROM_read (EEPROM st) a.

(** ** Wire names *)

(** A wire name as the [HV] command takes it: one or two characters,
    none of them a space, a NUL or the byte 0xFF. *)
Definition is_wire_name (n : list Z) : Prop :=
  (length n = 1%nat \/ length n = 2%nat) /\
  Forall (fun c => 0 < c < 255 /\ isspace c = false) n.

(** Names, each after one space. *)
Fixpoint wire_names_text (ns : list (list Z)) : string :=
  match ns with
  | [] => EmptyString
  | n :: r => (" " ++ text_of_codes n ++ wire_names_text r)%string
  end.

(** What a report shows for signal [i]: its name when its bit is on in
    the mask, as many dashes as the name is long when it is off. *)
Definition signal_text (mask i : Z) (st : State) : string :=
  if Z.testbit mask i then hvacWireName i st
  else dashes (String.length (hvacWireName i st)).

(** ** Scheduled temperatures *)

(** A number below 1000 without its first decimal digit. *)
Definition without_first_digit (t : Z) : Z :=
  if t <? 10 then 0 else if t <? 100 then t mod 10 else t mod 100.

(** The decimal digits [itoa] writes, and the facts about them that are
    checked by evaluation for the numbers below 1000. *)
Definition itoa_digits (t : Z) : list Z := (fun c => c - 48) <$> codes (itoa t).

Definition itoa_check (t : Z) : bool :=
  let ds := itoa_digits t in
  String.eqb (itoa t) (digits_text ds)
  && forallb (fun d => (0 <=? d) && (d <? 10)) ds
  && (digits_value 10 ds =? t)
  && negb (Nat.eqb (length ds) 0)
  && (digits_value 10 (tail ds) =? without_first_digit t).

(** ** Selecting a mode *)

(** The command [HVAC TYPE=<t> MODE=<m>]. *)
Definition MODE_command (tp : HvacTypes) (mds : list Z) : string :=
  ("HVAC TYPE=" ++ String (hex_digit (type_number tp)) (" MODE=" ++ digits_text mds))%string.

(** ** Naming a mode *)

(** The type field of a command, if it has one, names one of the five
    types: otherwise the base class refuses the command before it looks
    at anything else. *)
Definition type_field_valid (cmd : string) : Prop :=
  match after_keyword cmd "TYPE=" with
  | Some q => fst (aDecimalToInt q) < NUMBER_OF_HVAC_TYPES
  | None => True
  end.

(** The text ends, or goes on with a space or a NUL. *)
Definition word_ends (tail : string) : Prop :=
  peek tail = 0 \/ isspace (peek tail) = true.

(** ** Power up *)

(** The selection saved in the EEPROM [e] names a type and an instance
    of it that exists. *)
Definition saved_selection_is_valid (e : gmap Z Z) : Prop :=
  exists tp,
    type_of_number (EEPROM_read e HVAC_EEPROM_TYPE_AND_MODE_ADDR) = Some tp /\
    EEPROM_read e (HVAC_EEPROM_TYPE_AND_MODE_ADDR + 1) < NumberOfModesInType e tp.

(** ** Dehumidifying *)

(** The mask with the dehumidify bits laid over it. *)
Definition dehumidified (mask : Z) (st : State) : Z :=
  u8 (Z.land (Z.lor mask (MaskDehumidifyBitsOn (cool_settings st)))
        (Z.lnot (MaskDehumidifyBitsOff (cool_settings st)))).

(** The dehumidify state of the object of type [this]. *)
Definition dehumidifyState (this : HvacTypes) (st : State) : DehumidifyState :=
  match this with
  | HVAC_AUTO => auto_dehumidifyState (run st)
  | _ => cool_dehumidifyState (run st)
  end.

(** Humidity control is configured with a set point that leaves room for
    the hysteresis on both sides, and the room is not colder than half a
    degree below the activation temperature. *)
Definition dehumidify_applies (this : HvacTypes) (degCx10 : Z) (st : State) : Prop :=
  (this = HVAC_COOL \/ this = HVAC_AUTO /\ heatState (run st) = HEAT_OFF) /\
  DEHUMIDIFY_HYSTERESIS <= HumiditySettingX10 (cool_settings st)
    < 65535 - DEHUMIDIFY_HYSTERESIS /\
  i16 (TemperatureActivateDegreesCx10 (sensor_settings st) - HALF_DEGREE_C) <= degCx10.

(** ** The schedule *)

(** Entry [i] of the schedule is due at the given clock reading. *)
Definition entry_is_due (i hrs mins weekday : Z) (st : State) : Prop :=
  schedule_entry_matches (getScheduleEntry i st) hrs mins weekday = true.

(** The temperature cells of the schedule hold bytes, as the cells of the
    part do. *)
Definition schedule_temperatures_are_bytes (st : State) : Prop :=
  forall i, 0 <= i < NUM_SCHEDULE_TEMPERATURE_ENTRIES ->
            0 <= degreesCx5 (getScheduleEntry i st) < 256.

(** The four cells of entry [j] were never written. *)
Definition schedule_entry_is_erased (j : Z) (st : State) : Prop :=
  forall k, 0 <= k < sizeof_ScheduleEntry_t ->
    EEPROM st !! (SCHEDULE_TEMPERATURE_ENTRIES + j * sizeof_ScheduleEntry_t + k) = None.

(** * Properties *)

(** Texts are taken apart by computation in what follows. *)
#[local] Arguments String.append !_ _ / : simpl nomatch.

(** ** Machine integers and bytes *)

Lemma u8_range x : 0 <= u8 x < 256.
Proof. unfold u8. apply Z.mod_pos_bound. lia. Qed.

Lemma u16_range x : 0 <= u16 x < 65536.
Proof. unfold u16. apply Z.mod_pos_bound. lia. Qed.

Lemma u32_range x : 0 <= u32 x < 4294967296.
Proof. unfold u32. apply Z.mod_pos_bound. lia. Qed.

Lemma u8_small x : 0 <= x < 256 -> u8 x = x.
Proof. intros. unfold u8. apply Z.mod_small. lia. Qed.

Lemma u16_small x : 0 <= x < 65536 -> u16 x = x.
Proof. intros. unfold u16. apply Z.mod_small. lia. Qed.

Lemma u32_small x : 0 <= x < 4294967296 -> u32 x = x.
Proof. intros. unfold u32. apply Z.mod_small. lia. Qed.

Lemma i16_small x : -32768 <= x < 32768 -> i16 x = x.
Proof. intros. unfold i16. rewrite Z.mod_small by lia. lia. Qed.

Lemma i32_small x : -2147483648 <= x < 2147483648 -> i32 x = x.
Proof. intros. unfold i32. rewrite Z.mod_small by lia. lia. Qed.

(** ** The EEPROM as a store *)

Lemma EEPROM_read_write_eq e a v : EEPROM_read (EEPROM_write a v e) a = u8 v.
Proof. unfold EEPROM_read, EEPROM_write. by rewrite lookup_insert_eq. Qed.

Lemma EEPROM_read_write_ne e a b v :
  a <> b -> EEPROM_read (EEPROM_write a v e) b = EEPROM_read e b.
Proof. intros. unfold EEPROM_read, EEPROM_write. by rewrite lookup_insert_ne. Qed.

Lemma EEPROM_read_put_outside bytes : forall a e b,
  (b < a \/ a + Z.of_nat (length bytes) <= b) ->
  EEPROM_read (EEPROM_put a bytes e) b = EEPROM_read e b.
Proof.
  induction bytes as [|x bytes IH]; intros a e b Hb; [reflexivity|].
  cbn [EEPROM_put]. rewrite IH.
  - apply EEPROM_read_write_ne. cbn [length] in Hb. lia.
  - cbn [length] in Hb. lia.
Qed.

Lemma EEPROM_get_put_outside n : forall a e b bytes,
  (b + Z.of_nat n <= a \/ a + Z.of_nat (length bytes) <= b) ->
  EEPROM_get b n (EEPROM_put a bytes e) = EEPROM_get b n e.
Proof.
  induction n as [|n IH]; intros a e b bytes Hb; [reflexivity|].
  cbn [EEPROM_get]. rewrite IH by lia.
  f_equal. apply EEPROM_read_put_outside. lia.
Qed.

(** Reading back what [EEPROM.put] wrote gives the bytes, each reduced to
    eight bits. *)
Lemma EEPROM_get_put bytes : forall a e,
  EEPROM_get a (length bytes) (EEPROM_put a bytes e) = u8 <$> bytes.
Proof.
  induction bytes as [|x bytes IH]; intros a e; [reflexivity|].
  cbn [length EEPROM_get EEPROM_put fmap list_fmap]. f_equal.
  - rewrite EEPROM_read_put_outside by lia. apply EEPROM_read_write_eq.
  - apply IH.
Qed.

(** ** Addresses of the settings records *)

Lemma settings_size_values :
  settings_size HVAC_PASSTHROUGH = 6 /\ settings_size HVAC_MAPINPUTTOOUTPUT = 70 /\
  settings_size HVAC_HEAT = 23 /\ settings_size HVAC_COOL = 27 /\
  settings_size HVAC_AUTO = 34.
Proof. repeat split; reflexivity. Qed.

Lemma HVAC_MODES_EEPROM_START_ADDR_value :
  HVAC_MODES_EEPROM_START_ADDR = RadioConfiguration_TOTAL_EEPROM_USED + 103.
Proof.
  unfold HVAC_MODES_EEPROM_START_ADDR, HVAC_NUMBER_OF_MODES_IN_TYPE_ADDR,
    HVAC_EEPROM_TYPE_AND_MODE_ADDR, HVAC_EEPROM_START, TOTAL_EEPROM_USED,
    SCHEDULE_TEMPERATURE_ENTRIES, HEATSAFETY_MAP, HEATSAFETY_TRIGGER_TEMPERATURECx10,
    HEATSAFETY_HOLD_SECONDS, COMPRESSOR_HOLD_SECONDS, COMPRESSOR_MASK,
    DISPLAY_UNITS_ADDRESS, SIGNAL_LABEL_ASSIGNMENT, PACKET_THERMOSTAT_START.
  cbv [NUMBER_OF_SIGNALS MAX_WIRE_NAME_LEN NUM_HEAT_SAFETY_ENTRIES sizeof_HeatSafetyMask_t
       NUM_SCHEDULE_TEMPERATURE_ENTRIES sizeof_ScheduleEntry_t HVAC_SAVED_TYPE_AND_MODE_SIZE
       NUMBER_OF_HVAC_TYPES_IN_EEPROM NUMBER_OF_HVAC_TYPES].
  lia.
Qed.

Lemma base_address_bounds e t :
  counts_are_bytes e -> radio_data_fits ->
  0 <= base_address e t /\
  base_address e t + NumberOfModesInType e t * settings_size t < 65536.
Proof.
  intros Hc Hr. unfold radio_data_fits, EEPROM_length in Hr.
  pose proof (Hc HVAC_PASSTHROUGH). pose proof (Hc HVAC_MAPINPUTTOOUTPUT).
  pose proof (Hc HVAC_HEAT). pose proof (Hc HVAC_COOL). pose proof (Hc HVAC_AUTO).
  destruct settings_size_values as (E0 & E1 & E2 & E3 & E4).
  unfold base_address. rewrite HVAC_MODES_EEPROM_START_ADDR_value, ?E0, ?E1, ?E2, ?E3, ?E4.
  destruct t; rewrite ?E0, ?E1, ?E2, ?E3, ?E4; lia.
Qed.

(** One unfolding of the address function, inside the range. *)
Lemma AddressOfModeTypeSettings_rec_step d e t i :
  counts_are_bytes e -> radio_data_fits ->
  0 <= i <= NumberOfModesInType e t ->
  (match t with
   | HVAC_PASSTHROUGH => True
   | HVAC_MAPINPUTTOOUTPUT =>
       AddressOfModeTypeSettings_rec d e HVAC_PASSTHROUGH
         (NumberOfModesInType e HVAC_PASSTHROUGH) = base_address e t
   | HVAC_HEAT =>
       AddressOfModeTypeSettings_rec d e HVAC_MAPINPUTTOOUTPUT
         (NumberOfModesInType e HVAC_MAPINPUTTOOUTPUT) = base_address e t
   | HVAC_COOL =>
       AddressOfModeTypeSettings_rec d e HVAC_HEAT
         (NumberOfModesInType e HVAC_HEAT) = base_address e t
   | HVAC_AUTO =>
       AddressOfModeTypeSettings_rec d e HVAC_COOL
         (NumberOfModesInType e HVAC_COOL) = base_address e t
   end) ->
  AddressOfModeTypeSettings_rec (S d) e t i = base_address e t + i * settings_size t.
Proof.
  intros Hc Hr Hi Hprev.
  pose proof (base_address_bounds e t Hc Hr) as Hb.
  pose proof (Hc t) as Ht.
  assert (0 < settings_size t) by (destruct t; reflexivity).
  assert (0 <= i * settings_size t <= NumberOfModesInType e t * settings_size t) by nia.
  cbn [AddressOfModeTypeSettings_rec].
  assert ((i >? NumberOfModesInType e t) = false) as -> by lia.
  destruct t; rewrite ?Hprev; rewrite (u16_small (i * _)) by lia;
    rewrite u16_small; solve [reflexivity | unfold base_address in *; lia].
Qed.

Lemma AddressOfModeTypeSettings_rec_enough e t i d :
  counts_are_bytes e -> radio_data_fits ->
  0 <= i <= NumberOfModesInType e t ->
  (Z.to_nat (type_number t) < d)%nat ->
  AddressOfModeTypeSettings_rec d e t i = base_address e t + i * settings_size t.
Proof.
  intros Hc Hr. revert t i. induction d as [|d IH]; intros t i Hi Hd; [lia|].
  apply AddressOfModeTypeSettings_rec_step; try assumption.
  pose proof (Hc HVAC_PASSTHROUGH). pose proof (Hc HVAC_MAPINPUTTOOUTPUT).
  pose proof (Hc HVAC_HEAT). pose proof (Hc HVAC_COOL).
  unfold type_number in Hd.
  destruct t; [exact I| | | |]; rewrite IH;
    solve [unfold base_address; cbv zeta; lia | unfold type_number; lia].
Qed.

Lemma AddressOfModeTypeSettings_base e t i :
  counts_are_bytes e -> radio_data_fits ->
  0 <= i <= NumberOfModesInType e t ->
  AddressOfModeTypeSettings e t i = base_address e t + i * settings_size t.
Proof.
  intros. apply AddressOfModeTypeSettings_rec_enough; try assumption.
  unfold NUMBER_OF_HVAC_TYPES, type_number. destruct t; lia.
Qed.


Lemma count_cell_address t :
  radio_data_fits -> t <> HVAC_PASSTHROUGH ->
  u16 (u16 (type_number t - 1) + HVAC_NUMBER_OF_MODES_IN_TYPE_ADDR) = count_cell t.
Proof.
  intros Hr Ht. unfold radio_data_fits, EEPROM_length in Hr.
  pose proof HVAC_MODES_EEPROM_START_ADDR_value as Hs.
  unfold HVAC_MODES_EEPROM_START_ADDR, NUMBER_OF_HVAC_TYPES_IN_EEPROM,
    NUMBER_OF_HVAC_TYPES in Hs.
  unfold count_cell.
  destruct t; try congruence; unfold type_number;
    rewrite (u16_small (_ - 1)) by lia; rewrite u16_small by lia; lia.
Qed.

Lemma NumberOfModesInType_Set_same e t count :
  radio_data_fits -> t <> HVAC_PASSTHROUGH ->
  NumberOfModesInType (SetNumberOfModesInType t count e) t
  = if u8 count =? 255 then 0 else u8 count.
Proof.
  intros Hr Ht. destruct t; try congruence;
    unfold NumberOfModesInType, SetNumberOfModesInType;
    rewrite count_cell_address by (assumption || discriminate);
    rewrite EEPROM_read_write_eq; reflexivity.
Qed.

Lemma NumberOfModesInType_Set_other e t t' count :
  radio_data_fits -> t <> t' ->
  NumberOfModesInType (SetNumberOfModesInType t count e) t' = NumberOfModesInType e t'.
Proof.
  intros Hr Ht.
  destruct t; [reflexivity| | | |]; destruct t'; try congruence; try reflexivity;
    unfold NumberOfModesInType, SetNumberOfModesInType;
    rewrite !count_cell_address by (assumption || discriminate);
    rewrite EEPROM_read_write_ne; try reflexivity;
    unfold count_cell, type_number; lia.
Qed.

Lemma SetNumberOfModesInType_counts_are_bytes e t count :
  radio_data_fits -> counts_are_bytes e ->
  counts_are_bytes (SetNumberOfModesInType t count e).
Proof.
  intros Hr Hc t'.
  destruct (decide (t = t')) as [<-|Hne].
  - destruct (decide (t = HVAC_PASSTHROUGH)) as [->|Hp]; [apply Hc|].
    rewrite NumberOfModesInType_Set_same by assumption.
    pose proof (u8_range count). destruct (u8 count =? 255); lia.
  - rewrite NumberOfModesInType_Set_other by assumption. apply Hc.
Qed.

Lemma SetNumberOfModesInType_frame e t count a :
  radio_data_fits -> a <> count_cell t ->
  EEPROM_read (SetNumberOfModesInType t count e) a = EEPROM_read e a.
Proof.
  intros Hr Ha. destruct t; [reflexivity| | | |];
    unfold SetNumberOfModesInType;
    rewrite count_cell_address by (assumption || discriminate);
    apply EEPROM_read_write_ne; congruence.
Qed.

(** C2. For every vector of instance counts and every index [i] up to the
    count of its type, the address of the settings of instance [(t, i)] is
    [base t + i * settings_size t]; the record size of a type is the size
    of the name record plus the sizes of the layers of the type; the base
    of the first type is the start of the mode-settings region and the
    base of each next type is the previous base plus the previous count
    times the previous record size.  Hence the addresses of consecutive
    instances of a type grow by exactly the record size, the first
    instance of the next type begins where the last instance of a type
    ends, and setting the count of a type moves the addresses of every
    higher type by the difference of the counts times the record size of
    that type, while no EEPROM cell other than the count is written. *)
Theorem settings_addresses_contiguous (e : gmap Z Z) :
  counts_are_bytes e -> radio_data_fits ->
  (forall t i, 0 <= i <= NumberOfModesInType e t ->
     AddressOfModeTypeSettings e t i = base_address e t + i * settings_size t) /\
  (settings_size HVAC_PASSTHROUGH = sizeof_HvacCommands_Settings /\
   settings_size HVAC_MAPINPUTTOOUTPUT
     = sizeof_HvacCommands_Settings + sizeof_MapInputToOutput_Settings /\
   settings_size HVAC_HEAT
     = sizeof_HvacCommands_Settings + sizeof_OverrideAndDriveFromSensors_Settings /\
   settings_size HVAC_COOL
     = sizeof_HvacCommands_Settings + sizeof_OverrideAndDriveFromSensors_Settings
       + sizeof_HvacCool_Settings /\
   settings_size HVAC_AUTO
     = sizeof_HvacCommands_Settings + sizeof_OverrideAndDriveFromSensors_Settings
       + sizeof_HvacCool_Settings + sizeof_HvacAuto_Settings) /\
  base_address e HVAC_PASSTHROUGH = HVAC_MODES_EEPROM_START_ADDR /\
  (forall t t', next_type t = Some t' ->
     base_address e t' = base_address e t + NumberOfModesInType e t * settings_size t) /\
  (forall t i, 0 <= i < NumberOfModesInType e t ->
     AddressOfModeTypeSettings e t (i + 1)
     = AddressOfModeTypeSettings e t i + settings_size t /\
     AddressOfModeTypeSettings e t i < AddressOfModeTypeSettings e t (i + 1)) /\
  (forall t t', next_type t = Some t' ->
     AddressOfModeTypeSettings e t' 0
     = AddressOfModeTypeSettings e t (NumberOfModesInType e t)) /\
  (forall t count,
     let e' := SetNumberOfModesInType t count e in
     (forall a, a <> count_cell t -> EEPROM_read e' a = EEPROM_read e a) /\
     (forall t' i,
        type_number t < type_number t' -> 0 <= i <= NumberOfModesInType e t' ->
        AddressOfModeTypeSettings e' t' i
        = AddressOfModeTypeSettings e t' i
          + (NumberOfModesInType e' t - NumberOfModesInType e t) * settings_size t)).
Proof.
  intros Hc Hr.
  assert (Hnext : forall t t', next_type t = Some t' ->
            base_address e t' = base_address e t + NumberOfModesInType e t * settings_size t).
  { intros t t' Ht. destruct t; inversion Ht; subst; unfold base_address; cbv zeta; lia. }
  split; [intros; by apply AddressOfModeTypeSettings_base|].
  split; [repeat split; reflexivity|].
  split; [reflexivity|].
  split; [exact Hnext|].
  split.
  { intros t i Hi.
    rewrite !AddressOfModeTypeSettings_base by (assumption || lia).
    assert (0 < settings_size t) by (destruct t; reflexivity). lia. }
  split.
  { intros t t' Ht. pose proof (Hc t). pose proof (Hc t').
    rewrite !AddressOfModeTypeSettings_base by (assumption || lia).
    rewrite (Hnext t t' Ht). lia. }
  intros t count e'. split.
  { intros a Ha. by apply SetNumberOfModesInType_frame. }
  intros t' i Hlt Hi.
  assert (Hc' : counts_are_bytes e')
    by (by apply SetNumberOfModesInType_counts_are_bytes).
  assert (Hother : forall u, t <> u -> NumberOfModesInType e' u = NumberOfModesInType e u)
    by (intros; by apply NumberOfModesInType_Set_other).
  assert (t <> t') by (intros ->; lia).
  rewrite !AddressOfModeTypeSettings_base by (assumption || rewrite ?Hother; assumption).
  unfold base_address; cbv zeta.
  destruct t, t'; unfold type_number in Hlt; try lia;
    repeat match goal with
           | |- context [NumberOfModesInType e' ?u] => rewrite (Hother u) by discriminate
           end; lia.
Qed.


(** ** MapInputToOutput *)

(** Only the output-legal bits of a requested mask matter. *)
Lemma UpdateOutputs_legal_bits a b st :
  Z.land a OUTPUT_SIGNAL_MASK = Z.land b OUTPUT_SIGNAL_MASK ->
  UpdateOutputs a st = UpdateOutputs b st.
Proof. intros H. unfold UpdateOutputs. rewrite H. reflexivity. Qed.

Lemma input_index_range inputs :
  0 <= Z.shiftr (Z.land inputs INPUT_SIGNAL_MASK) BN_FIRST_SIGNAL < 64.
Proof.
  change INPUT_SIGNAL_MASK with (Z.ones 7). rewrite Z.land_ones by lia.
  change BN_FIRST_SIGNAL with 1. rewrite Z.shiftr_div_pow2 by lia.
  pose proof (Z.mod_pos_bound inputs (2 ^ 7) ltac:(lia)).
  change (2 ^ 7) with 128 in *. change (2 ^ 1) with 2.
  split; [apply Z.div_pos; lia | apply Z.div_lt_upper_bound; lia].
Qed.

Lemma input_index_shifted_back inputs :
  Z.land (Z.land inputs INPUT_SIGNAL_MASK) OUTPUT_SIGNAL_MASK
  = Z.land (Z.shiftl (Z.shiftr (Z.land inputs INPUT_SIGNAL_MASK) BN_FIRST_SIGNAL)
              BN_FIRST_SIGNAL) OUTPUT_SIGNAL_MASK.
Proof.
  change BN_FIRST_SIGNAL with 1.
  apply Z.bits_inj'. intros n Hn.
  rewrite !Z.land_spec.
  destruct (Z.eq_dec n 0) as [->|Hn0].
  - change (Z.testbit OUTPUT_SIGNAL_MASK 0) with false. by rewrite !andb_false_r.
  - rewrite Z.shiftl_spec by lia. rewrite Z.shiftr_spec by lia.
    replace (n - 1 + 1) with n by lia. by rewrite Z.land_spec.
Qed.

Lemma hex_digit_parses d :
  0 <= d < 16 ->
  isxdigit (code (hex_digit d)) = true /\
  (if isdigit (code (hex_digit d)) then code (hex_digit d) - 48
   else 10 + toupper (code (hex_digit d)) - 65) = d.
Proof.
  intros Hd.
  assert (exists n, d = Z.of_nat n /\ (n < 16)%nat) as (n & -> & Hn)
    by (exists (Z.to_nat d); lia).
  do 16 (destruct n as [|n]; [split; reflexivity|]). lia.
Qed.

Lemma aHexToInt_hex_byte v r :
  0 <= v < 256 ->
  aHexToInt (hex_byte v ++ hex_values r) = (v, hex_values_body r).
Proof.
  intros Hv.
  assert (0 <= v / 16 < 16) as H1
    by (split; [apply Z.div_pos; lia | apply Z.div_lt_upper_bound; lia]).
  assert (0 <= v mod 16 < 16) as H0 by (apply Z.mod_pos_bound; lia).
  destruct (hex_digit_parses _ H1) as [X1 V1].
  destruct (hex_digit_parses _ H0) as [X0 V0].
  unfold aHexToInt, hex_byte.
  cbn [String.append aHexToInt_loop]. cbv zeta.
  rewrite X1, V1. cbn [String.append aHexToInt_loop]. cbv zeta.
  rewrite X0, V0.
  replace (u32 (u32 (u32 (u32 (0 * 16) + v / 16) * 16) + v mod 16)) with v.
  2:{ change (0 * 16) with 0. rewrite (u32_small 0) by lia.
      rewrite (u32_small (0 + _)) by lia. rewrite (u32_small (_ * 16)) by lia.
      rewrite u32_small by lia. pose proof (Z.div_mod v 16). lia. }
  destruct r as [|w r]; reflexivity.
Qed.

Lemma HVACMAP_loop_writes vs : forall n addr table,
  (length vs < n)%nat ->
  0 <= addr -> addr + Z.of_nat (length vs) <= NUM_INPUT_SIGNAL_COMBINATIONS ->
  Forall (fun v => 0 <= v < 256) vs ->
  HVACMAP_loop n (hex_values_body vs) addr table
  = Some (true, list_inserts (Z.to_nat addr) vs table).
Proof.
  change NUM_INPUT_SIGNAL_COMBINATIONS with 64.
  induction vs as [|v vs IH]; intros n addr table Hn Ha Hlen Hvs.
  - destruct n; [cbn in Hn; lia|]. reflexivity.
  - destruct n; [cbn in Hn; lia|].
    cbn [length] in Hlen, Hn. inversion Hvs as [|? ? Hv Hvs']; subst.
    cbn [HVACMAP_loop hex_values_body].
    assert ((peek (hex_byte v ++ hex_values vs) =? 0) = false) as ->.
    { unfold hex_byte. cbn [String.append peek].
      assert (0 <= v / 16 < 16) as H1
        by (split; [apply Z.div_pos; lia | apply Z.div_lt_upper_bound; lia]).
      destruct (hex_digit_parses _ H1) as [X1 _].
      destruct (code (hex_digit (v / 16)) =? 0) eqn:E; [|reflexivity].
      apply Z.eqb_eq in E. rewrite E in X1. discriminate. }
    change NUM_INPUT_SIGNAL_COMBINATIONS with 64.
    assert ((64 <=? addr) = false) as -> by lia.
    rewrite aHexToInt_hex_byte by assumption.
    rewrite (u8_small (addr + 1)) by lia. rewrite (u8_small v) by assumption.
    rewrite IH by (assumption || lia).
    cbn [list_inserts]. do 2 f_equal.
    replace (Z.to_nat (addr + 1)) with (S (Z.to_nat addr)) by lia.
    symmetry. apply list_insert_inserts_lt. lia.
Qed.


Lemma hex_values_body_length vs :
  (length vs <= String.length (hex_values_body vs))%nat.
Proof.
  assert (H : forall l, (length l <= String.length (hex_values l))%nat).
  { induction l as [|v l IH]; [cbn; lia|].
    cbn [hex_values length]. unfold hex_byte. cbn [String.append String.length]. lia. }
  destruct vs as [|v vs]; [cbn; lia|].
  cbn [hex_values_body length]. unfold hex_byte. cbn [String.append String.length].
  specialize (H vs). lia.
Qed.

Lemma HvacCommands_ProcessCommand_other_keyword this cmd len senderid toMe st :
  match_upper "HVAC " cmd = None ->
  HvacCommands_ProcessCommand this cmd len senderid toMe st = (false, st).
Proof.
  intros H. unfold HvacCommands_ProcessCommand. rewrite H. by destruct toMe.
Qed.

Lemma MapInputToOutput_HVACMAP st addr vs len senderid :
  0 <= addr -> addr + Z.of_nat (length vs) <= NUM_INPUT_SIGNAL_COMBINATIONS ->
  Forall (fun v => 0 <= v < 256) vs ->
  MapInputToOutput_ProcessCommand (HVACMAP_command addr vs) len senderid true st
  = (true, set_map_settings
             {| inputToOutput :=
                  list_inserts (Z.to_nat addr) vs (inputToOutput (map_settings st)) |} st).
Proof.
  intros Ha Hlen Hvs. pose proof Hlen as Hlen'.
  change NUM_INPUT_SIGNAL_COMBINATIONS with 64 in Hlen'.
  unfold MapInputToOutput_ProcessCommand.
  rewrite HvacCommands_ProcessCommand_other_keyword by reflexivity.
  cbn [negb]. unfold HVACMAP_command.
  change (starts_with "HVACMAP=0x" ("HVACMAP=0x" ++ hex_byte addr ++ hex_values vs)) with true.
  change (skip (String.length "HVACMAP=0x")
            ("HVACMAP=0x" ++ hex_byte addr ++ hex_values vs))
    with (hex_byte addr ++ hex_values vs)%string.
  cbv iota. rewrite aHexToInt_hex_byte by lia.
  rewrite (u8_small addr) by lia.
  rewrite HVACMAP_loop_writes; try assumption; [reflexivity|].
  pose proof (hex_values_body_length vs). lia.
Qed.


Lemma OnInputsChanged_MapInputToOutput inputs previous st v :
  inputToOutput (map_settings st) !! Z.to_nat (input_index inputs) = Some v ->
  OnInputsChanged HVAC_MAPINPUTTOOUTPUT inputs previous st
  = UpdateOutputs (if v =? 255 then Z.shiftl (input_index inputs) BN_FIRST_SIGNAL else v) st.
Proof.
  intros Hv. unfold OnInputsChanged, input_index in *. cbv zeta. rewrite Hv.
  unfold default. cbn [from_option id].
  destruct (v =? 255); [|reflexivity].
  apply UpdateOutputs_legal_bits, input_index_shifted_back.
Qed.

Lemma fill_chunk (T vs : list Z) (a : nat) :
  length T = length vs -> (a + 8 <= length vs)%nat ->
  take a T = take a vs ->
  take (a + 8) (list_inserts a (take 8 (drop a vs)) T) = take (a + 8) vs.
Proof.
  intros HT Ha Hpre. apply list_eq. intros i.
  destruct (decide (i < a + 8)%nat) as [Hi|Hi].
  2:{ rewrite !lookup_take_ge by lia. reflexivity. }
  rewrite !lookup_take_lt by lia.
  destruct (decide (i < a)%nat) as [Hlt|Hge].
  - rewrite list_lookup_inserts_lt by lia.
    rewrite <- (lookup_take_lt T a i) by lia. rewrite Hpre.
    by rewrite lookup_take_lt by lia.
  - assert (length (take 8 (drop a vs)) = 8%nat)
      by (rewrite length_take, length_drop; lia).
    rewrite list_lookup_inserts by lia.
    rewrite lookup_take_lt by lia. rewrite lookup_drop. f_equal. lia.
Qed.

Lemma HVACMAP_fill_from (vs : list Z) : forall n k st,
  hvac st = HVAC_MAPINPUTTOOUTPUT ->
  length vs = 64%nat -> Forall (fun v => 0 <= v < 256) vs ->
  length (inputToOutput (map_settings st)) = 64%nat ->
  (k + n <= 8)%nat ->
  take (8 * k) (inputToOutput (map_settings st)) = take (8 * k) vs ->
  exists st',
    fold_left
      (fun acc cmd =>
         let '(handled, st) :=
           hvac_ProcessCommand cmd (Z.of_nat (String.length cmd)) 255 true (snd acc) in
         (fst acc && handled, st))
      ((fun k => HVACMAP_command (8 * Z.of_nat k) (take 8 (drop (8 * k) vs))) <$> seq k n)
      (true, st) = (true, st') /\
    hvac st' = HVAC_MAPINPUTTOOUTPUT /\
    length (inputToOutput (map_settings st')) = 64%nat /\
    take (8 * (k + n)) (inputToOutput (map_settings st')) = take (8 * (k + n)) vs.
Proof.
  induction n as [|n IH]; intros k st Hh Hvs Hb HT Hk Hpre.
  - exists st. replace (k + 0)%nat with k by lia. by repeat split.
  - cbn [seq fmap list_fmap fold_left snd fst].
    unfold hvac_ProcessCommand at 2. rewrite Hh.
    rewrite MapInputToOutput_HVACMAP.
    + cbn [andb].
      destruct (IH (S k)
                  (set_map_settings
                     {| inputToOutput :=
                          list_inserts (Z.to_nat (8 * Z.of_nat k)) (take 8 (drop (8 * k) vs))
                            (inputToOutput (map_settings st)) |} st))
        as (st' & Hrun & Hh' & HT' & Hpre'); try assumption.
      * cbn. by rewrite length_inserts.
      * lia.
      * cbn [map_settings set_map_settings inputToOutput].
        replace (Z.to_nat (8 * Z.of_nat k)) with (8 * k)%nat by lia.
        replace (8 * S k)%nat with (8 * k + 8)%nat by lia.
        apply fill_chunk; [congruence | lia | assumption].
      * exists st'. replace (k + S n)%nat with (S k + n)%nat by lia.
        by repeat split.
    + lia.
    + rewrite length_take, length_drop. change NUM_INPUT_SIGNAL_COMBINATIONS with 64. lia.
    + by apply Forall_take, Forall_drop.
Qed.



(** ** The output arbiter touches the sketch globals only *)

Lemma UpdateOutputs_only_sketch mask st :
  UpdateOutputs mask st = set_sketch (sketch (UpdateOutputs mask st)) st.
Proof.
  unfold UpdateOutputs, getCompressorMask, upd_sketch, millis. destruct st as [e c tr k h ty mo nm mp se co au r].
  cbn [sketch EEPROM clock set_sketch trace hvac MyTypeNumber MyModeNumber name_settings
       map_settings sensor_settings cool_settings auto_settings run].
  repeat match goal with
         | |- context [if ?b then _ else _] => destruct b eqn:?; cbn [sketch set_sketch EEPROM clock fst snd trace hvac MyTypeNumber MyModeNumber name_settings
       map_settings sensor_settings cool_settings auto_settings run]
         end; reflexivity.
Qed.


Lemma UpdateOutputs_EEPROM mask st : EEPROM (UpdateOutputs mask st) = EEPROM st.
Proof. by rewrite UpdateOutputs_only_sketch. Qed.

Lemma UpdateOutputs_clock mask st : clock (UpdateOutputs mask st) = clock st.
Proof. by rewrite UpdateOutputs_only_sketch. Qed.

Lemma UpdateOutputs_trace mask st : trace (UpdateOutputs mask st) = trace st.
Proof. by rewrite UpdateOutputs_only_sketch. Qed.

Lemma UpdateOutputs_hvac mask st : hvac (UpdateOutputs mask st) = hvac st.
Proof. by rewrite UpdateOutputs_only_sketch. Qed.

Lemma UpdateOutputs_MyTypeNumber mask st : MyTypeNumber (UpdateOutputs mask st) = MyTypeNumber st.
Proof. by rewrite UpdateOutputs_only_sketch. Qed.

Lemma UpdateOutputs_MyModeNumber mask st : MyModeNumber (UpdateOutputs mask st) = MyModeNumber st.
Proof. by rewrite UpdateOutputs_only_sketch. Qed.

Lemma UpdateOutputs_name_settings mask st : name_settings (UpdateOutputs mask st) = name_settings st.
Proof. by rewrite UpdateOutputs_only_sketch. Qed.

Lemma UpdateOutputs_map_settings mask st : map_settings (UpdateOutputs mask st) = map_settings st.
Proof. by rewrite UpdateOutputs_only_sketch. Qed.

Lemma UpdateOutputs_sensor_settings mask st : sensor_settings (UpdateOutputs mask st) = sensor_settings st.
Proof. by rewrite UpdateOutputs_only_sketch. Qed.

Lemma UpdateOutputs_cool_settings mask st : cool_settings (UpdateOutputs mask st) = cool_settings st.
Proof. by rewrite UpdateOutputs_only_sketch. Qed.

Lemma UpdateOutputs_auto_settings mask st : auto_settings (UpdateOutputs mask st) = auto_settings st.
Proof. by rewrite UpdateOutputs_only_sketch. Qed.

Lemma UpdateOutputs_run mask st : run (UpdateOutputs mask st) = run st.
Proof. by rewrite UpdateOutputs_only_sketch. Qed.

Create Rewrite HintDb frame.
#[local] Hint Rewrite UpdateOutputs_EEPROM UpdateOutputs_clock UpdateOutputs_trace UpdateOutputs_hvac UpdateOutputs_MyTypeNumber UpdateOutputs_MyModeNumber UpdateOutputs_name_settings UpdateOutputs_map_settings UpdateOutputs_sensor_settings UpdateOutputs_cool_settings UpdateOutputs_auto_settings UpdateOutputs_run : frame.


(** ** Sensor arbitration *)

Ltac destruct_ifs :=
  repeat match goal with
         | |- context [if ?b then _ else _] => destruct b eqn:?
         | |- context [match ?x with (_, _) => _ end] => destruct x eqn:?
         end.

Ltac run_fields :=
  cbn [run set_run upd_run lastHeardFromSensor lastHeardSensorId timeEnteredStage1
       fancoilState fanIsOn previousActual cool_dehumidifyState auto_dehumidifyState
       heatState autoTarget set_lastHeardFromSensor set_lastHeardSensorId
       set_timeEnteredStage1 set_fancoilState set_fanIsOn set_previousActual
       set_cool_dehumidifyState set_auto_dehumidifyState set_heatState set_autoTarget
       fst snd] in *.

(** A packet sniffed by a sensor-driven mode (not addressed to this node)
    goes to [sensor_report]. *)
Lemma hvac_ProcessCommand_sniffed cmd len senderid st :
  sensor_driven (hvac st) ->
  fst (sensor_report (hvac st) cmd len senderid st) = true ->
  hvac_ProcessCommand cmd len senderid false st
  = sensor_report (hvac st) cmd len senderid st.
Proof.
  intros Hs Hr. unfold hvac_ProcessCommand.
  destruct Hs as [H|[H|H]]; rewrite H in *;
    unfold HvacAuto_ProcessCommand, HvacCool_ProcessCommand,
      OverrideAndDriveFromSensors_ProcessCommand, HvacCommands_ProcessCommand;
    cbn [negb];
    destruct (sensor_report _ cmd len senderid st) as [b s]; cbn in Hr; subst b;
    reflexivity.
Qed.

Lemma OnReceivedTemperatureInput_heard this t st :
  lastHeardSensorId (run (snd (OnReceivedTemperatureInput this t st)))
  = lastHeardSensorId (run st) /\
  lastHeardFromSensor (run (snd (OnReceivedTemperatureInput this t st)))
  = lastHeardFromSensor (run st).
Proof.
  unfold OnReceivedTemperatureInput. destruct this; cbn [snd]; try (split; reflexivity).
  destruct (HvacCool_OnReceivedTemperatureInput t st); split; reflexivity.
Qed.

Lemma OnReceivedTemperatureInput2_heard this t m st :
  lastHeardSensorId (run (snd (OnReceivedTemperatureInput2 this t m st)))
  = lastHeardSensorId (run st) /\
  lastHeardFromSensor (run (snd (OnReceivedTemperatureInput2 this t m st)))
  = lastHeardFromSensor (run st).
Proof.
  unfold OnReceivedTemperatureInput2. destruct this; cbn [snd]; try (split; reflexivity).
  destruct_ifs; split; reflexivity.
Qed.

Lemma OnReceivedHumidityInput_run this rh t m st :
  lastHeardSensorId (run (snd (OnReceivedHumidityInput this rh t m st)))
  = lastHeardSensorId (run st) /\
  lastHeardFromSensor (run (snd (OnReceivedHumidityInput this rh t m st)))
  = lastHeardFromSensor (run st) /\
  previousActual (run (snd (OnReceivedHumidityInput this rh t m st)))
  = previousActual (run st) /\
  fancoilState (run (snd (OnReceivedHumidityInput this rh t m st)))
  = fancoilState (run st) /\
  timeEnteredStage1 (run (snd (OnReceivedHumidityInput this rh t m st)))
  = timeEnteredStage1 (run st) /\
  heatState (run (snd (OnReceivedHumidityInput this rh t m st)))
  = heatState (run st).
Proof.
  unfold OnReceivedHumidityInput, HvacCool_OnReceivedHumidityInput.
  destruct this; cbn [snd]; try (repeat split; reflexivity);
    destruct_ifs; repeat split; reflexivity.
Qed.


Lemma lower_sender_heard_recently_test senderid st :
  (0 <? lastHeardSensorId (run st)) && (lastHeardSensorId (run st) <? senderid)
  && (u32 (millis st - lastHeardFromSensor (run st)) <? SENSOR_TIMEOUT_MSEC) = true
  <-> lower_sender_heard_recently senderid st.
Proof.
  unfold lower_sender_heard_recently.
  rewrite !andb_true_iff, !Z.ltb_lt. tauto.
Qed.

(** C1 (amended). In a sensor-driven mode, a report from a sender whose
    bit is set in SensorMask is ignored, leaving the state as it was,
    when the sender heard last has a strictly lower non-zero id and was
    heard less than 15 minutes ago; otherwise the report is accepted: the
    sender becomes the sender heard last, and a report that carries a
    temperature is acted on (the temperature is recorded and the outputs
    are updated). *)
Theorem sensor_arbitration st cmd len senderid :
  sensor_driven (hvac st) ->
  sensor_is_configured senderid st ->
  (lower_sender_heard_recently senderid st ->
   hvac_ProcessCommand cmd len senderid false st = (true, st)) /\
  (~ lower_sender_heard_recently senderid st ->
   parseForColon 84 cmd len <> -1 ->
   exists output st1,
     hvac_ProcessCommand cmd len senderid false st = (true, UpdateOutputs output st1) /\
     lastHeardSensorId (run (UpdateOutputs output st1)) = senderid /\
     lastHeardFromSensor (run (UpdateOutputs output st1)) = millis st /\
     previousActual (run (UpdateOutputs output st1)) = u16 (parseForColon 84 cmd len)).
Proof.
  intros Hs Hc. unfold sensor_is_configured in Hc.
  apply Z.eqb_neq in Hc.
  split.
  - intros Hlow. apply lower_sender_heard_recently_test in Hlow.
    assert (Hr : sensor_report (hvac st) cmd len senderid st = (true, st)).
    { unfold sensor_report. rewrite Hc. cbn [negb]. cbv zeta. rewrite Hlow. reflexivity. }
    rewrite hvac_ProcessCommand_sniffed; [exact Hr | exact Hs | by rewrite Hr].
  - intros Hlow HT.
    assert (Hlow' : (0 <? lastHeardSensorId (run st))
                    && (lastHeardSensorId (run st) <? senderid)
                    && (u32 (millis st - lastHeardFromSensor (run st))
                        <? SENSOR_TIMEOUT_MSEC) = false).
    { apply not_true_is_false. by rewrite lower_sender_heard_recently_test. }
    apply Z.eqb_neq in HT.
    assert (Hr : exists output st1,
               sensor_report (hvac st) cmd len senderid st
               = (true, UpdateOutputs output st1) /\
               lastHeardSensorId (run st1) = senderid /\
               lastHeardFromSensor (run st1) = millis st /\
               previousActual (run st1) = u16 (parseForColon 84 cmd len)).
    { unfold sensor_report. rewrite Hc. cbn [negb]. cbv zeta. rewrite Hlow', HT.
      set (st0 := upd_run _ st).
      pose proof (OnReceivedTemperatureInput_heard (hvac st)
                    (parseForColon 84 cmd len) st0) as [Ha1 Ha2].
      assert (Hp : previousActual (run st0) = previousActual (run st0)) by reflexivity.
      destruct (OnReceivedTemperatureInput (hvac st) (parseForColon 84 cmd len) st0)
        as [needToBeOn sta].
      cbn [snd] in Ha1, Ha2.
      set (stb := upd_run (set_previousActual _) sta).
      assert (Hb : lastHeardSensorId (run stb) = senderid /\
                   lastHeardFromSensor (run stb) = millis st /\
                   previousActual (run stb) = u16 (parseForColon 84 cmd len)).
      { subst stb st0. run_fields. rewrite Ha1, Ha2. by repeat split. }
      clearbody stb. clear Ha1 Ha2 Hp.
      match goal with
      | |- context [let '(output, st) := ?X in _] =>
          assert (Hc2 : lastHeardSensorId (run (snd X)) = senderid /\
                        lastHeardFromSensor (run (snd X)) = millis st /\
                        previousActual (run (snd X)) = u16 (parseForColon 84 cmd len));
          [|destruct X as [out1 stc]]
      end.
      { destruct needToBeOn; cbn [negb].
        - destruct (FurnaceState_eqb (fancoilState (run stb)) STATE_OFF);
            cbn [snd]; run_fields; exact Hb.
        - pose proof (OnReceivedTemperatureInput2_heard (hvac st)
                        (parseForColon 84 cmd len) (AlwaysOnMask (sensor_settings stb))
                        (upd_run (set_fancoilState STATE_OFF) stb)) as [H1 H2].
          unfold OnReceivedTemperatureInput2 in *.
          destruct (hvac st); cbn [snd] in *; run_fields; try exact Hb.
          destruct_ifs; cbn [snd] in *; run_fields; exact Hb. }
      cbn [snd] in Hc2.
      pose proof (OnReceivedHumidityInput_run (hvac st) (parseForColon 82 cmd len)
                    (parseForColon 84 cmd len) out1 stc) as (H1 & H2 & H3 & _).
      destruct (0 <? parseForColon 82 cmd len).
      - destruct (OnReceivedHumidityInput (hvac st) (parseForColon 82 cmd len)
                    (parseForColon 84 cmd len) out1 stc) as [out2 std].
        cbn [snd] in *. eexists _, std. split; [reflexivity|].
        rewrite H1, H2, H3. exact Hc2.
      - eexists _, stc. split; [reflexivity|]. exact Hc2. }
    destruct Hr as (output & st1 & Hr & H1 & H2 & H3).
    exists output, st1. autorewrite with frame.
    split; [|by repeat split].
    rewrite hvac_ProcessCommand_sniffed; [exact Hr | exact Hs | by rewrite Hr].
Qed.


(** ** Staged activation *)

Lemma OnReceivedTemperatureInput_frame this t st :
  let st' := snd (OnReceivedTemperatureInput this t st) in
  fancoilState (run st') = fancoilState (run st) /\
  timeEnteredStage1 (run st') = timeEnteredStage1 (run st) /\
  heatState (run st') = heatState (run st) /\
  fanIsOn (run st') = fanIsOn (run st) /\
  sensor_settings st' = sensor_settings st /\
  auto_settings st' = auto_settings st /\
  clock st' = clock st.
Proof.
  unfold OnReceivedTemperatureInput. destruct this; cbn [snd]; try (repeat split; reflexivity).
  destruct (HvacCool_OnReceivedTemperatureInput t st); repeat split; reflexivity.
Qed.

(** The activation test looks at the stage and at the settings only. *)
Lemma OnReceivedTemperatureInput_test this t st st' :
  fancoilState (run st') = fancoilState (run st) ->
  sensor_settings st' = sensor_settings st ->
  fst (OnReceivedTemperatureInput this t st') = fst (OnReceivedTemperatureInput this t st).
Proof.
  intros H1 H2. unfold OnReceivedTemperatureInput, HvacCool_OnReceivedTemperatureInput.
  destruct this; cbn [fst]; rewrite ?H1, ?H2; reflexivity.
Qed.

Lemma report_overlays_frame this rh t m st :
  let st' := snd (report_overlays this rh t m st) in
  fancoilState (run st') = fancoilState (run st) /\
  timeEnteredStage1 (run st') = timeEnteredStage1 (run st) /\
  heatState (run st') = heatState (run st).
Proof.
  unfold report_overlays. cbn [snd].
  pose proof (OnReceivedHumidityInput_run this rh t m st) as (_ & _ & _ & H1 & H2 & H3).
  destruct (0 <? rh); [by repeat split | repeat split; reflexivity].
Qed.

Lemma report_overlays_none this rh t m st :
  rh <= 0 -> fanIsOn (run st) = false ->
  report_overlays this rh t m st = (m, st).
Proof.
  intros Hrh Hfan. unfold report_overlays.
  assert ((0 <? rh) = false) as -> by lia. cbn [fst snd]. by rewrite Hfan.
Qed.

(** The shape of [sensor_report] on a qualifying report. *)
Lemma sensor_report_qualifying this cmd len senderid st :
  qualifying_report this cmd len senderid st ->
  let T := parseForColon 84 cmd len in
  let st0 := upd_run (fun r => set_lastHeardSensorId senderid
                                 (set_lastHeardFromSensor (millis st) r)) st in
  let sta := upd_run (set_previousActual (u16 T))
               (snd (OnReceivedTemperatureInput this T st0)) in
  let staged :=
    if FurnaceState_eqb (fancoilState (run st)) STATE_OFF
    then (OutputStage1 (sensor_settings st),
          upd_run (fun r => set_timeEnteredStage1 (millis st)
                              (set_fancoilState STATE_STAGE1 r)) sta)
    else (mask_since_stage1 (i32 (millis st - timeEnteredStage1 (run st))) st
            (OutputStage1 (sensor_settings st)) (OutputStage2 (sensor_settings st))
            (OutputStage3 (sensor_settings st)), sta) in
  let over := report_overlays this (parseForColon 82 cmd len) T (fst staged) (snd staged) in
  sensor_report this cmd len senderid st = (true, UpdateOutputs (fst over) (snd over)).
Proof.
  intros (Hc & Hlow & HT & Hon). cbv zeta.
  unfold sensor_is_configured in Hc. apply Z.eqb_neq in Hc, HT.
  assert (Hlow' : (0 <? lastHeardSensorId (run st))
                  && (lastHeardSensorId (run st) <? senderid)
                  && (u32 (millis st - lastHeardFromSensor (run st))
                      <? SENSOR_TIMEOUT_MSEC) = false).
  { apply not_true_is_false. by rewrite lower_sender_heard_recently_test. }
  unfold sensor_report. rewrite Hc. cbn [negb]. cbv zeta. rewrite Hlow', HT.
  set (st0 := upd_run _ st).
  assert (Hon0 : fst (OnReceivedTemperatureInput this (parseForColon 84 cmd len) st0) = true).
  { rewrite <- Hon. apply OnReceivedTemperatureInput_test; reflexivity. }
  pose proof (OnReceivedTemperatureInput_frame this (parseForColon 84 cmd len) st0)
    as (F1 & F2 & _ & _ & F5 & _ & F7).
  destruct (OnReceivedTemperatureInput this (parseForColon 84 cmd len) st0)
    as [needToBeOn sta]. cbn [fst snd] in *. subst needToBeOn. cbn [negb].
  set (stb := upd_run (set_previousActual _) sta).
  assert (E1 : fancoilState (run stb) = fancoilState (run st)) by (subst stb; exact F1).
  assert (E2 : timeEnteredStage1 (run stb) = timeEnteredStage1 (run st))
    by (subst stb; exact F2).
  assert (E3 : sensor_settings stb = sensor_settings st) by (subst stb; exact F5).
  assert (E4 : millis stb = millis st) by (subst stb; exact F7).
  rewrite E1.
  unfold report_overlays, mask_since_stage1.
  destruct (FurnaceState_eqb (fancoilState (run st)) STATE_OFF); cbn [fst snd];
    rewrite ?E2, ?E3, ?E4;
    destruct (0 <? parseForColon 82 cmd len);
    try destruct (OnReceivedHumidityInput _ _ _ _ _) as [o s] eqn:E; cbn [fst snd];
    reflexivity.
Qed.

Lemma FurnaceState_eqb_eq a b : FurnaceState_eqb a b = true <-> a = b.
Proof. destruct a, b; cbn; split; congruence. Qed.

Lemma FurnaceState_eqb_neq a b : FurnaceState_eqb a b = false <-> a <> b.
Proof. destruct a, b; cbn; split; congruence. Qed.

(** ** Compressor short-cycle lockout *)

Lemma land_lor_bit0 a cm : Z.land cm 1 = 0 -> Z.land (Z.lor a 1) cm = Z.land a cm.
Proof.
  intros H. apply Z.bits_inj'. intros n Hn.
  rewrite !Z.land_spec, Z.lor_spec.
  destruct (Z.eq_dec n 0) as [->|Hn0].
  - assert (Z.testbit cm 0 = false) as ->; [|by rewrite !andb_false_r].
    rewrite <- (andb_true_r (Z.testbit cm 0)).
    change true with (Z.testbit 1 0). rewrite <- Z.land_spec, H. apply Z.bits_0.
  - assert (Z.testbit 1 n = false) as ->; [|by rewrite orb_false_r].
    apply Z.bits_above_log2; [lia|]. change (Z.log2 1) with 0. lia.
Qed.

Lemma land_lnot_same m cm : Z.land (Z.land m (Z.lnot cm)) cm = 0.
Proof.
  apply Z.bits_inj'. intros n Hn.
  rewrite !Z.land_spec, Z.lnot_spec, Z.bits_0 by lia.
  destruct (Z.testbit m n), (Z.testbit cm n); reflexivity.
Qed.

Ltac sketch_fields :=
  cbn [sketch set_sketch upd_sketch set_LastOutputWrite set_CompressorOffTimeActive
       set_CompressorOffStartTime set_relayIsOn set_onAtTime set_OutputRegister
       set_HeatSafetyOffTimeActive set_HeatSafetyOffStartTime set_HeatSafetyShutoffMask
       set_InputsToHvacFlag set_InputRegister set_TinletTemperatureCx10
       set_displayLcdFarenheit
       OutputRegister InputRegister InputsToHvacFlag CompressorOffStartTime
       CompressorOffTimeActive HeatSafetyOffStartTime HeatSafetyShutoffMask
       HeatSafetyOffTimeActive TinletTemperatureCx10 displayLcdFarenheit LastOutputWrite
       relayIsOn onAtTime clock EEPROM negb andb orb fst snd] in *.

(** The arbiter as one update of the sketch globals. *)
Lemma UpdateOutputs_unfold mask st :
  let cm := getCompressorMask st in
  let request := arbitrated_request mask st in
  let starts :=
    negb (CompressorOffTimeActive (sketch st))
    && negb (Z.land (OutputRegister (sketch st)) cm =? 0)
    && (Z.land request cm =? 0) in
  let active := CompressorOffTimeActive (sketch st) || starts in
  let held := if active then Z.land request (Z.lnot cm) else request in
  let relay_kept :=
    relayIsOn (sketch st) && (u32 (millis st - onAtTime (sketch st)) <? MINIMUM_ON_MSEC) in
  let relay_pulled :=
    negb relay_kept
    && negb (Z.lxor (Z.land held (bit BN_W))
                    (Z.land (InputRegister (sketch st)) (bit BN_W)) =? 0) in
  UpdateOutputs mask st
  = set_sketch
      {| OutputRegister :=
           if relay_kept || relay_pulled then Z.lor held (bit BN_W_FAILSAFE) else held;
         InputRegister := InputRegister (sketch st);
         InputsToHvacFlag := InputsToHvacFlag (sketch st);
         CompressorOffStartTime :=
           if starts then millis st else CompressorOffStartTime (sketch st);
         CompressorOffTimeActive := active;
         HeatSafetyOffStartTime := HeatSafetyOffStartTime (sketch st);
         HeatSafetyShutoffMask := HeatSafetyShutoffMask (sketch st);
         HeatSafetyOffTimeActive := HeatSafetyOffTimeActive (sketch st);
         TinletTemperatureCx10 := TinletTemperatureCx10 (sketch st);
         displayLcdFarenheit := displayLcdFarenheit (sketch st);
         LastOutputWrite := Z.land mask OUTPUT_SIGNAL_MASK;
         relayIsOn := relayIsOn (sketch st) || relay_pulled;
         onAtTime := if relay_pulled then millis st else onAtTime (sketch st) |} st.
Proof.
  cbv zeta.
  unfold UpdateOutputs, arbitrated_request, getCompressorMask, millis.
  destruct st as [e c tr k h ty mo nm mp se co au r].
  destruct k as [oreg ireg flag cstart cactive hstart hmask hactive tin du lw ron onat].
  sketch_fields.
  set (cm := if EEPROM_read e COMPRESSOR_MASK =? 255 then 0
             else EEPROM_read e COMPRESSOR_MASK).
  assert ((cm =? 255) = false) as ->.
  { subst cm. destruct (EEPROM_read e COMPRESSOR_MASK =? 255) eqn:E; [reflexivity|exact E]. }
  set (request := if hactive then Z.land (Z.land mask OUTPUT_SIGNAL_MASK) hmask
                  else Z.land mask OUTPUT_SIGNAL_MASK).
  destruct cactive, (Z.land oreg cm =? 0), (Z.land request cm =? 0); sketch_fields;
    destruct ron, (u32 (c - onat) <? MINIMUM_ON_MSEC); sketch_fields;
    try reflexivity;
    match goal with
    | |- context [Z.lxor ?a ?b =? 0] => destruct (Z.lxor a b =? 0)
    end; sketch_fields; reflexivity.
Qed.

Lemma UpdateOutputs_steps mask st :
  let st' := UpdateOutputs mask st in
  let cm := getCompressorMask st in
  let request := arbitrated_request mask st in
  let starts :=
    negb (CompressorOffTimeActive (sketch st))
    && negb (Z.land (OutputRegister (sketch st)) cm =? 0)
    && (Z.land request cm =? 0) in
  LastOutputWrite (sketch st') = Z.land mask OUTPUT_SIGNAL_MASK /\
  CompressorOffTimeActive (sketch st')
  = CompressorOffTimeActive (sketch st) || starts /\
  CompressorOffStartTime (sketch st')
  = (if starts then millis st else CompressorOffStartTime (sketch st)) /\
  HeatSafetyOffTimeActive (sketch st') = HeatSafetyOffTimeActive (sketch st) /\
  HeatSafetyShutoffMask (sketch st') = HeatSafetyShutoffMask (sketch st) /\
  HeatSafetyOffStartTime (sketch st') = HeatSafetyOffStartTime (sketch st) /\
  TinletTemperatureCx10 (sketch st') = TinletTemperatureCx10 (sketch st) /\
  InputRegister (sketch st') = InputRegister (sketch st) /\
  InputsToHvacFlag (sketch st') = InputsToHvacFlag (sketch st) /\
  (let held := if CompressorOffTimeActive (sketch st')
               then Z.land request (Z.lnot cm) else request in
   OutputRegister (sketch st') = held \/
   OutputRegister (sketch st') = Z.lor held (bit BN_W_FAILSAFE)).
Proof.
  cbv zeta. rewrite UpdateOutputs_unfold. cbv zeta.
  cbn [sketch set_sketch OutputRegister InputRegister InputsToHvacFlag
       CompressorOffStartTime CompressorOffTimeActive HeatSafetyOffStartTime
       HeatSafetyShutoffMask HeatSafetyOffTimeActive TinletTemperatureCx10
       displayLcdFarenheit LastOutputWrite relayIsOn onAtTime].
  repeat (split; [reflexivity|]).
  match goal with
  | |- context [if ?b then Z.lor _ _ else _] => destruct b
  end; [right|left]; reflexivity.
Qed.


Lemma getCompressorMask_UpdateOutputs mask st :
  getCompressorMask (UpdateOutputs mask st) = getCompressorMask st.
Proof. unfold getCompressorMask. by rewrite UpdateOutputs_EEPROM. Qed.

Lemma OutputRegister_compressor_bits mask st :
  compressor_group_is_signals st ->
  Z.land (OutputRegister (sketch (UpdateOutputs mask st))) (getCompressorMask st)
  = if CompressorOffTimeActive (sketch (UpdateOutputs mask st)) then 0
    else Z.land (arbitrated_request mask st) (getCompressorMask st).
Proof.
  intros Hg. unfold compressor_group_is_signals in Hg.
  change (bit BN_W_FAILSAFE) with 1 in Hg.
  pose proof (UpdateOutputs_steps mask st) as (_ & _ & _ & _ & _ & _ & _ & _ & _ & Hout).
  cbv zeta in Hout. change (bit BN_W_FAILSAFE) with 1 in Hout.
  destruct (CompressorOffTimeActive (sketch (UpdateOutputs mask st)));
    destruct Hout as [-> | ->]; rewrite ?land_lor_bit0 by assumption;
    rewrite ?land_lnot_same; reflexivity.
Qed.



(** ** Heat safety *)

Lemma heat_safety_entry_test i st :
  (u8 (Z.land (Z.lnot (dontCareMask (getHeatSafetyMask i st))) (LastOutputWrite (sketch st)))
   =? mustMatchMask (getHeatSafetyMask i st))
  && negb (toClear (getHeatSafetyMask i st) =? 0) = true
  <-> heat_safety_entry_triggers i st.
Proof.
  unfold heat_safety_entry_triggers, heat_safety_entry_matches.
  rewrite andb_true_iff, negb_true_iff, Z.eqb_eq, Z.eqb_neq. tauto.
Qed.

Lemma heat_safety_entries_none n : forall i0 st,
  (forall j, i0 <= j < i0 + Z.of_nat n -> ~ heat_safety_entry_triggers j st) ->
  heat_safety_entries n i0 st = st.
Proof.
  induction n as [|n IH]; intros i0 st Hnone; [reflexivity|].
  cbn [heat_safety_entries]. cbv zeta.
  destruct (_ && _) eqn:E.
  - apply heat_safety_entry_test in E. exfalso. apply (Hnone i0); [lia|exact E].
  - apply IH. intros j Hj. apply Hnone. lia.
Qed.

Lemma heat_safety_entries_first n : forall i0 st i,
  i0 <= i < i0 + Z.of_nat n ->
  (forall j, i0 <= j < i -> ~ heat_safety_entry_triggers j st) ->
  heat_safety_entry_triggers i st ->
  heat_safety_entries n i0 st = heat_safety_tripped i st.
Proof.
  induction n as [|n IH]; intros i0 st i Hi Hbefore Htrig; [lia|].
  cbn [heat_safety_entries]. cbv zeta.
  destruct (_ && _) eqn:E.
  - apply heat_safety_entry_test in E.
    destruct (Z.eq_dec i i0) as [->|Hne]; [reflexivity|].
    exfalso. apply (Hbefore i0); [lia|exact E].
  - destruct (Z.eq_dec i i0) as [->|Hne].
    + apply heat_safety_entry_test in Htrig. congruence.
    + apply IH; [lia| |exact Htrig]. intros j Hj. apply Hbefore. lia.
Qed.

Lemma heat_safety_tripped_fields i st :
  HeatSafetyOffTimeActive (sketch (heat_safety_tripped i st)) = true /\
  HeatSafetyOffStartTime (sketch (heat_safety_tripped i st)) = millis st /\
  HeatSafetyShutoffMask (sketch (heat_safety_tripped i st))
  = u8 (Z.lnot (toClear (getHeatSafetyMask i st))).
Proof.
  unfold heat_safety_tripped, SetOutputBits. cbv zeta.
  match goal with
  | |- context [UpdateOutputs ?m ?s] =>
      pose proof (UpdateOutputs_steps m s) as (_ & _ & _ & H1 & H2 & H3 & _)
  end.
  cbv zeta in H1, H2, H3. rewrite H1, H2, H3. repeat split; reflexivity.
Qed.

(** While the shutdown is active, no output signal among the bits to
    clear is written. *)
Lemma heat_safety_masks_outputs mask st tc :
  HeatSafetyOffTimeActive (sketch st) = true ->
  HeatSafetyShutoffMask (sketch st) = u8 (Z.lnot tc) ->
  Z.land (Z.land (OutputRegister (sketch (UpdateOutputs mask st))) OUTPUT_SIGNAL_MASK) tc = 0.
Proof.
  intros Hact Hmask.
  pose proof (UpdateOutputs_steps mask st) as (_ & _ & _ & _ & _ & _ & _ & _ & _ & Hout).
  cbv zeta in Hout. unfold arbitrated_request in Hout. rewrite Hact, Hmask in Hout.
  assert (Hbits : forall n, 0 <= n ->
            Z.testbit (Z.land (Z.land mask OUTPUT_SIGNAL_MASK) (u8 (Z.lnot tc))) n
            && Z.testbit tc n = false).
  { intros n Hn. rewrite !Z.land_spec. unfold u8.
    change 256 with (2 ^ 8).
    destruct (Z.ltb_spec n 8).
    - rewrite Z.mod_pow2_bits_low by lia. rewrite Z.lnot_spec by lia.
      destruct (Z.testbit tc n); [by rewrite andb_false_r | by rewrite andb_false_r].
    - assert (Z.testbit OUTPUT_SIGNAL_MASK n = false) as ->.
      { apply Z.bits_above_log2; [by cbn|]. change (Z.log2 OUTPUT_SIGNAL_MASK) with 7. lia. }
      by rewrite andb_false_r. }
  apply Z.bits_inj'. intros n Hn. rewrite Z.bits_0, !Z.land_spec.
  specialize (Hbits n Hn). rewrite !Z.land_spec in Hbits.
  destruct (Z.eq_dec n 0) as [->|Hn0].
  - change (Z.testbit OUTPUT_SIGNAL_MASK 0) with false. by rewrite andb_false_r.
  - assert (Hone : Z.testbit (bit BN_W_FAILSAFE) n = false).
    { apply Z.bits_above_log2; [by cbn|]. change (Z.log2 (bit BN_W_FAILSAFE)) with 0. lia. }
    destruct (CompressorOffTimeActive (sketch (UpdateOutputs mask st)));
      destruct Hout as [-> | ->];
      rewrite ?Z.lor_spec, ?Z.land_spec, ?Hone, ?orb_false_r;
      destruct (Z.testbit mask n), (Z.testbit OUTPUT_SIGNAL_MASK n),
        (Z.testbit (u8 (Z.lnot tc)) n), (Z.testbit tc n);
      cbn in *; try reflexivity; try discriminate;
      by rewrite ?andb_false_r.
Qed.


(** C5 (amended). On a loop iteration while no heat-safety hold is
    active, provided the heat safety is switched on (hold seconds neither
    0 nor 0xFFFF, trigger temperature positive) and the inlet temperature
    is at least the trigger temperature, the first of the three entries
    for which the last requested output outside dontCare equals mustMatch
    and whose toClear is not zero starts the hold: the start time is
    recorded and the complement of its toClear becomes the shutoff mask;
    when a guard fails or no entry triggers, the iteration changes
    nothing.  While the hold is active no output signal of toClear is
    written and output updates leave the hold as it is; the loop leaves
    it until more than the hold seconds have passed; then it clears the
    shutdown and writes the last request again, unmasked, before it
    checks the trigger condition again. *)
Theorem heat_safety st :
  (forall now i,
     HeatSafetyOffTimeActive (sketch st) = false ->
     heat_safety_enabled st ->
     getHeatSafetyTemperatureCx10 st <= TinletTemperatureCx10 (sketch st) ->
     0 <= i < NUM_HEAT_SAFETY_ENTRIES ->
     (forall j, 0 <= j < i -> ~ heat_safety_entry_triggers j st) ->
     heat_safety_entry_triggers i st ->
     loop_heat_safety now st = heat_safety_tripped i st /\
     HeatSafetyOffTimeActive (sketch (loop_heat_safety now st)) = true /\
     HeatSafetyOffStartTime (sketch (loop_heat_safety now st)) = millis st /\
     HeatSafetyShutoffMask (sketch (loop_heat_safety now st))
     = u8 (Z.lnot (toClear (getHeatSafetyMask i st)))) /\
  (forall now,
     HeatSafetyOffTimeActive (sketch st) = false ->
     (~ heat_safety_enabled st \/
      TinletTemperatureCx10 (sketch st) < getHeatSafetyTemperatureCx10 st \/
      (forall j, 0 <= j < NUM_HEAT_SAFETY_ENTRIES -> ~ heat_safety_entry_triggers j st)) ->
     loop_heat_safety now st = st) /\
  (forall mask tc,
     HeatSafetyOffTimeActive (sketch st) = true ->
     HeatSafetyShutoffMask (sketch st) = u8 (Z.lnot tc) ->
     Z.land (Z.land (OutputRegister (sketch (UpdateOutputs mask st))) OUTPUT_SIGNAL_MASK) tc
     = 0 /\
     HeatSafetyOffTimeActive (sketch (UpdateOutputs mask st)) = true /\
     HeatSafetyShutoffMask (sketch (UpdateOutputs mask st)) = u8 (Z.lnot tc)) /\
  (forall now,
     HeatSafetyOffTimeActive (sketch st) = true ->
     ~ heat_safety_hold_expired now st ->
     loop_heat_safety now st = st) /\
  (forall now,
     HeatSafetyOffTimeActive (sketch st) = true ->
     heat_safety_hold_expired now st ->
     let st1 := SetOutputBits 0
                  (printBanner (ModeNameString st)
                     (upd_sketch (set_HeatSafetyOffTimeActive false) st)) in
     loop_heat_safety now st = loop_heat_safety now st1 /\
     HeatSafetyOffTimeActive (sketch st1) = false /\
     forall mask, arbitrated_request mask st1 = Z.land mask OUTPUT_SIGNAL_MASK).
Proof.
  split; [|split; [|split; [|split]]].
  - intros now i Hoff (Hs0 & Hs1 & Ht0) Htemp Hi Hbefore Htrig.
    assert (E : loop_heat_safety now st = heat_safety_tripped i st).
    { unfold loop_heat_safety. rewrite Hoff. cbv zeta. rewrite Hoff. cbn [negb].
      assert ((0 <? getHeatSafetyHoldSeconds st) = true) as -> by lia.
      assert ((getHeatSafetyHoldSeconds st =? 65535) = false) as -> by lia.
      assert ((0 <? getHeatSafetyTemperatureCx10 st) = true) as -> by lia.
      assert ((getHeatSafetyTemperatureCx10 st <=? TinletTemperatureCx10 (sketch st)) = true)
        as -> by lia.
      cbn [negb andb].
      apply heat_safety_entries_first; [|exact Hbefore|exact Htrig].
      change NUM_HEAT_SAFETY_ENTRIES with 3 in *. lia. }
    rewrite E. split; [reflexivity|]. apply heat_safety_tripped_fields.
  - intros now Hoff Hguard. unfold loop_heat_safety. rewrite Hoff. cbv zeta.
    rewrite Hoff. cbn [negb].
    unfold heat_safety_enabled in Hguard.
    destruct (Z.ltb_spec 0 (getHeatSafetyHoldSeconds st)); [|reflexivity].
    destruct (Z.eqb_spec (getHeatSafetyHoldSeconds st) 65535); [reflexivity|].
    cbn [negb andb].
    destruct (Z.ltb_spec 0 (getHeatSafetyTemperatureCx10 st)); [|reflexivity].
    destruct (Z.leb_spec (getHeatSafetyTemperatureCx10 st) (TinletTemperatureCx10 (sketch st)));
      [|reflexivity].
    destruct Hguard as [Hg|[Hg|Hg]]; [exfalso; apply Hg; by repeat split | lia |].
    apply heat_safety_entries_none. intros j Hj. apply Hg.
    change NUM_HEAT_SAFETY_ENTRIES with 3 in *. lia.
  - intros mask tc Hact Hmask.
    split; [by apply heat_safety_masks_outputs|].
    pose proof (UpdateOutputs_steps mask st) as (_ & _ & _ & H1 & H2 & _).
    cbv zeta in H1, H2. rewrite H1, H2. by split.
  - intros now Hact Hexp. unfold loop_heat_safety, heat_safety_hold_expired in *.
    rewrite Hact.
    destruct (Z.ltb_spec (1000 * getHeatSafetyHoldSeconds st)
                (u32 (now - HeatSafetyOffStartTime (sketch st)))); [lia|].
    rewrite Hact. reflexivity.
  - intros now Hact Hexp. cbv zeta.
    set (st1 := SetOutputBits 0 _).
    assert (Hoff1 : HeatSafetyOffTimeActive (sketch st1) = false).
    { subst st1. unfold SetOutputBits.
      match goal with
      | |- context [UpdateOutputs ?m ?s] =>
          pose proof (UpdateOutputs_steps m s) as (_ & _ & _ & H1 & _)
      end.
      cbv zeta in H1. rewrite H1. reflexivity. }
    split; [|split; [exact Hoff1|]].
    + unfold loop_heat_safety at 1. unfold heat_safety_hold_expired in Hexp.
      rewrite Hact.
      destruct (Z.ltb_spec (1000 * getHeatSafetyHoldSeconds st)
                  (u32 (now - HeatSafetyOffStartTime (sketch st)))); [|lia].
      cbv zeta.
      change (SetOutputBits 0 (printBanner (ModeNameString _) _)) with st1.
      unfold loop_heat_safety. rewrite Hoff1. cbv zeta. rewrite Hoff1.
      reflexivity.
    + intros mask. unfold arbitrated_request. by rewrite Hoff1.
Qed.


(** ** Numeric fields *)

Lemma u16_step a d : u16 (u16 (u16 a * 10) + d) = u16 (a * 10 + d).
Proof.
  unfold u16. rewrite Zplus_mod_idemp_l.
  rewrite <- (Zplus_mod_idemp_l (a mod 65536 * 10)).
  rewrite Zmult_mod_idemp_l. by rewrite Zplus_mod_idemp_l.
Qed.

Lemma u32_step a d : u32 (u32 (u32 a * 16) + d) = u32 (a * 16 + d).
Proof.
  unfold u32. rewrite Zplus_mod_idemp_l.
  rewrite <- (Zplus_mod_idemp_l (a mod 4294967296 * 16)).
  rewrite Zmult_mod_idemp_l. by rewrite Zplus_mod_idemp_l.
Qed.

Lemma u16_idem a : u16 (u16 a) = u16 a.
Proof. unfold u16. apply Zmod_mod. Qed.

Lemma u32_idem a : u32 (u32 a) = u32 a.
Proof. unfold u32. apply Zmod_mod. Qed.

Lemma dec_digit_code d : 0 <= d < 10 -> code (hex_digit d) = 48 + d.
Proof.
  intros Hd.
  assert (exists n, d = Z.of_nat n /\ (n < 10)%nat) as (n & -> & Hn)
    by (exists (Z.to_nat d); lia).
  do 10 (destruct n as [|n]; [reflexivity|]). lia.
Qed.

Lemma aDecimalToInt_loop_digits ds : forall acc tail,
  Forall (fun d => 0 <= d < 10) ds ->
  aDecimalToInt_loop (u16 acc) (digits_text ds ++ tail)
  = aDecimalToInt_loop (u16 (fold_left (fun a d => a * 10 + d) ds acc)) tail.
Proof.
  induction ds as [|d ds IH]; intros acc tail Hds; [reflexivity|].
  inversion Hds as [|? ? Hd Hds']; subst.
  cbn [digits_text String.append aDecimalToInt_loop fold_left]. cbv zeta.
  rewrite (dec_digit_code d Hd).
  assert ((48 <=? 48 + d) && (48 + d <=? 57) = true) as -> by lia.
  replace (48 + d - 48) with d by lia.
  rewrite u16_step. apply IH. assumption.
Qed.

Lemma aHexToInt_loop_digits ds : forall acc tail,
  Forall (fun d => 0 <= d < 16) ds ->
  aHexToInt_loop (u32 acc) (digits_text ds ++ tail)
  = aHexToInt_loop (u32 (fold_left (fun a d => a * 16 + d) ds acc)) tail.
Proof.
  induction ds as [|d ds IH]; intros acc tail Hds; [reflexivity|].
  inversion Hds as [|? ? Hd Hds']; subst.
  cbn [digits_text String.append aHexToInt_loop fold_left]. cbv zeta.
  destruct (hex_digit_parses d Hd) as [X V]. rewrite X, V.
  rewrite u32_step. apply IH. assumption.
Qed.

Lemma aDecimalToInt_field t r :
  is_number 10 t ->
  aDecimalToInt (digits_text t ++ fields_tail r) = (dec_field t, fields_body r).
Proof.
  intros [_ Ht]. unfold aDecimalToInt, dec_field, digits_value.
  change 0 with (u16 0) at 1. rewrite aDecimalToInt_loop_digits by assumption.
  destruct r as [|t' r]; reflexivity.
Qed.

Lemma aHexToInt_field t r :
  is_number 16 t ->
  aHexToInt (digits_text t ++ fields_tail r) = (hex_field t, fields_body r).
Proof.
  intros [_ Ht]. unfold aHexToInt, hex_field, digits_value.
  change 0 with (u32 0) at 1. rewrite aHexToInt_loop_digits by assumption.
  destruct r as [|t' r]; reflexivity.
Qed.

Lemma peek_digits_text b t tail :
  is_number b t -> b <= 16 -> (peek (digits_text t ++ tail) =? 0) = false.
Proof.
  intros [Hne Ht] Hb. destruct t as [|d t]; [congruence|].
  inversion Ht as [|? ? Hd _]; subst.
  cbn [digits_text String.append peek].
  destruct (hex_digit_parses d ltac:(lia)) as [X _].
  destruct (code (hex_digit d) =? 0) eqn:E; [|reflexivity].
  apply Z.eqb_eq in E. rewrite E in X. discriminate.
Qed.


Lemma peek_fields_body_nil : (peek (fields_body []) =? 0) = true.
Proof. reflexivity. Qed.

Lemma peek_fields_body_cons b t r :
  is_number b t -> b <= 16 -> (peek (fields_body (t :: r)) =? 0) = false.
Proof. intros. cbn [fields_body]. by eapply peek_digits_text. Qed.

Ltac field_step :=
  first [ rewrite aDecimalToInt_field by assumption
        | rewrite aHexToInt_field by assumption ];
  cbv beta iota zeta;
  try first [ rewrite peek_fields_body_nil
            | erewrite peek_fields_body_cons by (eassumption || lia) ];
  cbv beta iota zeta; cbn [fields_body].

Ltac fields_inversion H :=
  repeat match type of H with
         | Forall2 _ _ (_ :: _) =>
             let Hn := fresh "Hnum" in
             let H' := fresh "Hrest" in
             inversion H as [|? ? ? ? Hn H']; subst; clear H; rename H' into H
         | Forall2 _ _ [] => clear H
         end.

Lemma HVAC_SETTINGS_fields_result this toks s off :
  toks <> [] -> fields_fit HVAC_SETTINGS_bases toks ->
  fst (HVAC_SETTINGS_fields this (fields_body toks) s off)
  = HVAC_SETTINGS_result this toks s.
Proof.
  intros Hne Hfit. unfold fields_fit, HVAC_SETTINGS_bases in Hfit.
  destruct toks as [|t0 toks]; [congruence|]. clear Hne.
  unfold HVAC_SETTINGS_fields, HVAC_SETTINGS_result. cbv zeta.
  do 10 (destruct toks as [|? toks];
         [ cbn [length take] in Hfit; fields_inversion Hfit;
           cbn [fields_body]; repeat field_step;
           destruct s; reflexivity
         | ]).
  cbn [length take] in Hfit. apply Forall2_length in Hfit. cbn [length] in Hfit. lia.
Qed.


Lemma HUM_SETTINGS_fields_result toks s :
  fields_fit HUM_SETTINGS_bases toks ->
  HUM_SETTINGS_fields (fields_tail toks) s = HUM_SETTINGS_result toks s.
Proof.
  intros Hfit. unfold fields_fit, HUM_SETTINGS_bases in Hfit.
  unfold HUM_SETTINGS_fields, HUM_SETTINGS_result. cbv zeta.
  destruct toks as [|t0 toks]; [by destruct s|].
  cbn [fields_tail String.append peek next].
  change (code " " =? 0) with false. cbv iota.
  do 3 (destruct toks as [|? toks];
        [ cbn [length take] in Hfit; fields_inversion Hfit;
          repeat field_step; destruct s; reflexivity
        | ]).
  cbn [length take] in Hfit. apply Forall2_length in Hfit. cbn [length] in Hfit. lia.
Qed.

Lemma AUTO_SETTINGS_fields_result toks s :
  toks <> [] -> fields_fit AUTO_SETTINGS_bases toks ->
  AUTO_SETTINGS_fields (fields_tail toks) s = AUTO_SETTINGS_result toks s.
Proof.
  intros Hne Hfit. unfold fields_fit, AUTO_SETTINGS_bases in Hfit.
  unfold AUTO_SETTINGS_fields, AUTO_SETTINGS_result. cbv zeta.
  destruct toks as [|t0 toks]; [congruence|]. clear Hne.
  cbn [fields_tail String.append peek next].
  change (code " " =? 0) with false. cbv iota.
  do 5 (destruct toks as [|? toks];
        [ cbn [length take] in Hfit; fields_inversion Hfit;
          repeat field_step; destruct s; reflexivity
        | ]).
  cbn [length take] in Hfit. apply Forall2_length in Hfit. cbn [length] in Hfit. lia.
Qed.


(** ** Settings commands, field by field *)

Lemma hex_digit_code_range d : 0 <= d < 16 -> 48 <= code (hex_digit d) <= 70.
Proof.
  intros Hd.
  assert (exists n, d = Z.of_nat n /\ (n < 16)%nat) as (n & -> & Hn)
    by (exists (Z.to_nat d); lia).
  do 16 (destruct n as [|n]; [vm_compute; split; discriminate|]). lia.
Qed.

Lemma strstr_digits_text c n ds tail :
  70 < code c -> Forall (fun d => 0 <= d < 16) ds ->
  strstr (digits_text ds ++ tail) (String c n) = strstr tail (String c n).
Proof.
  intros Hc Hds. induction Hds as [|d ds Hd _ IH]; [reflexivity|].
  pose proof (hex_digit_code_range d Hd) as Hr.
  cbn [digits_text String.append strstr starts_with].
  replace (code c =? code (hex_digit d)) with false by (symmetry; apply Z.eqb_neq; lia).
  replace (code (hex_digit d) =? 0) with false by (symmetry; apply Z.eqb_neq; lia).
  cbn [andb]. exact IH.
Qed.

Lemma strstr_fields_tail c n toks :
  70 < code c -> Forall (is_number 16) toks ->
  strstr (fields_tail toks) (String c n) = None.
Proof.
  intros Hc Htoks. induction Htoks as [|t toks [_ Ht] _ IH]; [reflexivity|].
  cbn [fields_tail String.append strstr starts_with].
  replace (code c =? code " ") with false
    by (symmetry; apply Z.eqb_neq; change (code " ") with 32; lia).
  change (code " " =? 0) with false. cbn [andb].
  by rewrite strstr_digits_text.
Qed.

Lemma fields_fit_hex bases toks :
  Forall (fun b => b <= 16) bases -> fields_fit bases toks ->
  Forall (is_number 16) toks.
Proof.
  unfold fields_fit. intros Hb Hfit.
  apply (Forall_take _ (length toks)) in Hb.
  induction Hfit as [|b t bs ts [Hne Ht] _ IH]; [constructor|].
  inversion Hb; subst. constructor; [|by apply IH].
  split; [done|]. eapply Forall_impl; [exact Ht|]. cbv beta. lia.
Qed.


Lemma strstr_skip_char a h c n :
  code a <> 0 -> starts_with (String c n) (String a h) = false ->
  strstr (String a h) (String c n) = strstr h (String c n).
Proof.
  intros Ha Hs. cbn [strstr]. rewrite Hs.
  by apply Z.eqb_neq in Ha as ->.
Qed.

(** A keyword that begins with [H] is not found past the keyword of
    another command followed by numeric fields. *)
Ltac keyword_absent Hhex :=
  unfold after_keyword; cbn [String.append];
  repeat rewrite strstr_skip_char by (vm_compute; first [reflexivity | discriminate]);
  rewrite strstr_fields_tail by first [exact Hhex | vm_compute; reflexivity];
  reflexivity.

Lemma HUM_SETTINGS_is_not_HVAC_SETTINGS toks :
  Forall (is_number 16) toks ->
  after_keyword ("HUM_SETTINGS" ++ fields_tail toks) "HVAC_SETTINGS " = None.
Proof. intros Hhex. keyword_absent Hhex. Qed.

Lemma AUTO_SETTINGS_is_not_HVAC_SETTINGS toks :
  Forall (is_number 16) toks ->
  after_keyword ("AUTO_SETTINGS" ++ fields_tail toks) "HVAC_SETTINGS " = None.
Proof. intros Hhex. keyword_absent Hhex. Qed.

Lemma AUTO_SETTINGS_is_not_HUM_SETTINGS toks :
  Forall (is_number 16) toks ->
  after_keyword ("AUTO_SETTINGS" ++ fields_tail toks) "HUM_SETTINGS" = None.
Proof. intros Hhex. keyword_absent Hhex. Qed.

Lemma OverrideAndDriveFromSensors_HVAC_SETTINGS this toks len senderid st :
  toks <> [] -> fields_fit HVAC_SETTINGS_bases toks ->
  exists off,
    OverrideAndDriveFromSensors_ProcessCommand this
      ("HVAC_SETTINGS " ++ fields_body toks) len senderid true st
    = (true, UpdateOutputs off
               (set_sensor_settings
                  (HVAC_SETTINGS_result this toks (sensor_settings st))
                  (upd_run (set_fancoilState STATE_OFF) st))).
Proof.
  intros Hne Hfit. unfold OverrideAndDriveFromSensors_ProcessCommand.
  rewrite HvacCommands_ProcessCommand_other_keyword by reflexivity.
  change (match_upper "HVAC FAN=O" ("HVAC_SETTINGS " ++ fields_body toks)) with (@None string).
  change (after_keyword ("HVAC_SETTINGS " ++ fields_body toks) "HVAC_SETTINGS ")
    with (Some (fields_body toks)).
  cbv beta iota zeta.
  match goal with
  | |- context [HVAC_SETTINGS_fields ?t ?q ?s ?o] =>
      pose proof (HVAC_SETTINGS_fields_result t toks s o Hne Hfit) as Hres;
      destruct (HVAC_SETTINGS_fields t q s o) as [s' off'] eqn:E
  end.
  cbn [fst] in Hres. subst s'. exists off'. by destruct st.
Qed.

Lemma OverrideAndDriveFromSensors_other_settings this cmd len senderid st :
  match_upper "HVAC " cmd = None -> after_keyword cmd "HVAC_SETTINGS " = None ->
  OverrideAndDriveFromSensors_ProcessCommand this cmd len senderid true st = (false, st).
Proof.
  intros Hk Hs. unfold OverrideAndDriveFromSensors_ProcessCommand.
  rewrite HvacCommands_ProcessCommand_other_keyword by exact Hk.
  cbv iota.
  assert (match_upper "HVAC FAN=O" cmd = None) as ->; [|by rewrite Hs].
  cbn [match_upper] in *.
  repeat match goal with
         | H : (if ?c then _ else None) = None |- _ =>
             destruct c; [|reflexivity]
         end.
  discriminate.
Qed.

Lemma HvacCool_HUM_SETTINGS this toks len senderid st :
  fields_fit HUM_SETTINGS_bases toks ->
  HvacCool_ProcessCommand this ("HUM_SETTINGS" ++ fields_tail toks) len senderid true st
  = (true, upd_cool_settings (fun s => HUM_SETTINGS_result toks s) st).
Proof.
  intros Hfit. unfold HvacCool_ProcessCommand.
  rewrite OverrideAndDriveFromSensors_other_settings;
    [| reflexivity
     | apply HUM_SETTINGS_is_not_HVAC_SETTINGS;
       by apply (fields_fit_hex HUM_SETTINGS_bases); [repeat constructor|] ].
  change (after_keyword ("HUM_SETTINGS" ++ fields_tail toks) "HUM_SETTINGS")
    with (Some (fields_tail toks)).
  cbv iota. unfold upd_cool_settings. by rewrite HUM_SETTINGS_fields_result.
Qed.

Lemma HvacAuto_AUTO_SETTINGS toks len senderid st :
  toks <> [] -> fields_fit AUTO_SETTINGS_bases toks ->
  HvacAuto_ProcessCommand ("AUTO_SETTINGS" ++ fields_tail toks) len senderid true st
  = (true, upd_auto_settings (fun s => AUTO_SETTINGS_result toks s) st).
Proof.
  intros Hne Hfit.
  assert (Hhex : Forall (is_number 16) toks)
    by (by apply (fields_fit_hex AUTO_SETTINGS_bases); [repeat constructor|]).
  unfold HvacAuto_ProcessCommand, HvacCool_ProcessCommand.
  rewrite OverrideAndDriveFromSensors_other_settings;
    [| reflexivity | by apply AUTO_SETTINGS_is_not_HVAC_SETTINGS ].
  rewrite AUTO_SETTINGS_is_not_HUM_SETTINGS by exact Hhex.
  change (after_keyword ("AUTO_SETTINGS" ++ fields_tail toks) "AUTO_SETTINGS")
    with (Some (fields_tail toks)).
  cbv iota. unfold upd_auto_settings. by rewrite AUTO_SETTINGS_fields_result.
Qed.


(** C9 (amended).  A settings command whose fields are numbers, each after
    one space, is handled, and its fields are applied from left to right:
    a field present in the text gives its setting the value written, and
    a trailing field left out keeps the prior in-memory value of its
    setting, with these exceptions.  [HVAC_SETTINGS] (in Heat, Cool and
    Auto) with the activate temperature left out sets it to the target
    plus 6 tenths of a degree in Cool and Auto and to the target minus 6
    in Heat.  [AUTO_SETTINGS] (in Auto) with the activate temperature left
    out sets it to the target minus 6, and a stage-1 heat mask that is
    present is also the value of the stage-2 and stage-3 heat masks left
    out.  [HUM_SETTINGS] (in Cool and Auto) with the humidity left out
    sets it to [0xFFFF], which turns dehumidifying off.  The settings of
    the other layers are not touched. *)
Theorem settings_commands_field_by_field st toks len senderid :
  (sensor_driven (hvac st) -> toks <> [] -> fields_fit HVAC_SETTINGS_bases toks ->
   let r := hvac_ProcessCommand ("HVAC_SETTINGS " ++ fields_body toks) len senderid true st in
   fst r = true /\
   sensor_settings (snd r) = HVAC_SETTINGS_result (hvac st) toks (sensor_settings st) /\
   cool_settings (snd r) = cool_settings st /\
   auto_settings (snd r) = auto_settings st) /\
  (hvac st = HVAC_COOL \/ hvac st = HVAC_AUTO -> fields_fit HUM_SETTINGS_bases toks ->
   let r := hvac_ProcessCommand ("HUM_SETTINGS" ++ fields_tail toks) len senderid true st in
   fst r = true /\
   cool_settings (snd r) = HUM_SETTINGS_result toks (cool_settings st) /\
   sensor_settings (snd r) = sensor_settings st /\
   auto_settings (snd r) = auto_settings st) /\
  (hvac st = HVAC_AUTO -> toks <> [] -> fields_fit AUTO_SETTINGS_bases toks ->
   let r := hvac_ProcessCommand ("AUTO_SETTINGS" ++ fields_tail toks) len senderid true st in
   fst r = true /\
   auto_settings (snd r) = AUTO_SETTINGS_result toks (auto_settings st) /\
   sensor_settings (snd r) = sensor_settings st /\
   cool_settings (snd r) = cool_settings st).
Proof.
  split; [|split].
  - intros Hs Hne Hfit. cbv zeta.
    assert (Hhex : Forall (is_number 16) toks)
      by (by apply (fields_fit_hex HVAC_SETTINGS_bases); [repeat constructor|]).
    unfold hvac_ProcessCommand.
    destruct Hs as [Hm | [Hm | Hm]]; rewrite Hm.
    + destruct (OverrideAndDriveFromSensors_HVAC_SETTINGS HVAC_HEAT toks len senderid st
                  Hne Hfit) as [off ->].
      cbn [fst snd]. autorewrite with frame. by destruct st.
    + unfold HvacCool_ProcessCommand.
      destruct (OverrideAndDriveFromSensors_HVAC_SETTINGS HVAC_COOL toks len senderid st
                  Hne Hfit) as [off ->].
      cbn [fst snd]. autorewrite with frame. by destruct st.
    + unfold HvacAuto_ProcessCommand, HvacCool_ProcessCommand.
      destruct (OverrideAndDriveFromSensors_HVAC_SETTINGS HVAC_AUTO toks len senderid st
                  Hne Hfit) as [off ->].
      cbn [fst snd]. autorewrite with frame. by destruct st.
  - intros Hm Hfit. cbv zeta. unfold hvac_ProcessCommand.
    destruct Hm as [Hm | Hm]; rewrite Hm.
    + rewrite HvacCool_HUM_SETTINGS by exact Hfit. by destruct st.
    + unfold HvacAuto_ProcessCommand.
      rewrite HvacCool_HUM_SETTINGS by exact Hfit. by destruct st.
  - intros Hm Hne Hfit. cbv zeta. unfold hvac_ProcessCommand. rewrite Hm.
    rewrite HvacAuto_AUTO_SETTINGS by assumption. by destruct st.
Qed.


(** ** Committing and reloading the settings *)

(** *** Object representations are read back *)

Lemma le_combine_split_1 x : 0 <= x < 256 -> le_combine (le_split 1 x) = x.
Proof. intros. cbn [le_split le_combine]. Z.div_mod_to_equations. lia. Qed.

Lemma le_combine_split_2 x : 0 <= x < 65536 -> le_combine (le_split 2 x) = x.
Proof. intros. cbn [le_split le_combine]. Z.div_mod_to_equations. lia. Qed.

Lemma le_combine_split_4 x : 0 <= x < 4294967296 -> le_combine (le_split 4 x) = x.
Proof. intros. cbn [le_split le_combine]. Z.div_mod_to_equations. lia. Qed.

Lemma le_combine_split_i16 x :
  -32768 <= x < 32768 -> i16 (le_combine (le_split 2 x)) = x.
Proof. intros. unfold i16. cbn [le_split le_combine]. Z.div_mod_to_equations. lia. Qed.

Lemma le_split_bytes n : forall x, byte_values (le_split n x).
Proof.
  induction n as [|n IH]; intros x; [constructor|].
  constructor; [apply Z.mod_pos_bound; lia | apply IH].
Qed.

Lemma byte_values_u8 l : byte_values l -> u8 <$> l = l.
Proof.
  induction 1 as [|b l Hb _ IH]; [reflexivity|].
  cbn [fmap list_fmap]. rewrite u8_small by exact Hb. f_equal. exact IH.
Qed.

Lemma byte_values_app l k : byte_values l -> byte_values k -> byte_values (l ++ k).
Proof. apply Forall_app_2. Qed.

Lemma sensor_settings_bytes s :
  length (bytes_of_sensor_settings s)
  = Z.to_nat sizeof_OverrideAndDriveFromSensors_Settings /\
  byte_values (bytes_of_sensor_settings s).
Proof.
  split; [reflexivity|].
  unfold bytes_of_sensor_settings. repeat apply byte_values_app; apply le_split_bytes.
Qed.

Lemma cool_settings_bytes s :
  length (bytes_of_cool_settings s) = Z.to_nat sizeof_HvacCool_Settings /\
  byte_values (bytes_of_cool_settings s).
Proof.
  split; [reflexivity|].
  unfold bytes_of_cool_settings. repeat apply byte_values_app; apply le_split_bytes.
Qed.

Lemma auto_settings_bytes s :
  length (bytes_of_auto_settings s) = Z.to_nat sizeof_HvacAuto_Settings /\
  byte_values (bytes_of_auto_settings s).
Proof.
  split; [reflexivity|].
  unfold bytes_of_auto_settings. repeat apply byte_values_app; apply le_split_bytes.
Qed.

Lemma sensor_settings_of_bytes_of s :
  sensor_is_storable s -> sensor_settings_of_bytes (bytes_of_sensor_settings s) = s.
Proof.
  intros (H1 & H2 & H3 & H4 & H5 & H6 & H7 & H8 & H9 & H10). destruct s.
  cbn [TemperatureTargetDegreesCx10 TemperatureActivateDegreesCx10 SensorMask MaskFanOnly
       AlwaysOnMask OutputStage1 OutputStage2 OutputStage3 SecondsToSecondStage
       SecondsToThirdStage] in *.
  unfold sensor_settings_of_bytes, bytes_of_sensor_settings.
  cbn [TemperatureTargetDegreesCx10 TemperatureActivateDegreesCx10 SensorMask MaskFanOnly
       AlwaysOnMask OutputStage1 OutputStage2 OutputStage3 SecondsToSecondStage
       SecondsToThirdStage le_split app take drop].
  f_equal;
    first [ by apply le_combine_split_i16 | by apply le_combine_split_1
          | by apply le_combine_split_2 | by apply le_combine_split_4 ].
Qed.

Lemma cool_settings_of_bytes_of s :
  cool_is_storable s -> cool_settings_of_bytes (bytes_of_cool_settings s) = s.
Proof.
  intros (H1 & H2 & H3). destruct s.
  cbn [MaskDehumidifyBitsOn MaskDehumidifyBitsOff HumiditySettingX10] in *.
  unfold cool_settings_of_bytes, bytes_of_cool_settings.
  cbn [MaskDehumidifyBitsOn MaskDehumidifyBitsOff HumiditySettingX10
       le_split app take drop].
  f_equal; first [ by apply le_combine_split_1 | by apply le_combine_split_2 ].
Qed.

Lemma auto_settings_of_bytes_of s :
  auto_is_storable s -> auto_settings_of_bytes (bytes_of_auto_settings s) = s.
Proof.
  intros (H1 & H2 & H3 & H4 & H5). destruct s.
  cbn [TemperatureTargetHeatDegreesCx10 TemperatureActivateHeatDegreesCx10 HeatMaskStage1
       HeatMaskStage2 HeatMaskStage3] in *.
  unfold auto_settings_of_bytes, bytes_of_auto_settings.
  cbn [TemperatureTargetHeatDegreesCx10 TemperatureActivateHeatDegreesCx10 HeatMaskStage1
       HeatMaskStage2 HeatMaskStage3 le_split app take drop].
  f_equal; first [ by apply le_combine_split_i16 | by apply le_combine_split_1 ].
Qed.


(** *** The address of the record does not depend on its contents *)

Lemma AddressOfModeTypeSettings_rec_counts e e' d :
  (forall u, NumberOfModesInType e' u = NumberOfModesInType e u) ->
  forall t i, AddressOfModeTypeSettings_rec d e' t i = AddressOfModeTypeSettings_rec d e t i.
Proof.
  intros Hn. induction d as [|d IH]; intros t i; [reflexivity|].
  cbn [AddressOfModeTypeSettings_rec]. rewrite !Hn, !IH. reflexivity.
Qed.

Lemma AddressOfModeTypeSettings_counts e e' t i :
  (forall u, NumberOfModesInType e' u = NumberOfModesInType e u) ->
  AddressOfModeTypeSettings e' t i = AddressOfModeTypeSettings e t i.
Proof. intros. by apply AddressOfModeTypeSettings_rec_counts. Qed.

Lemma NumberOfModesInType_put a bytes e t :
  radio_data_fits -> HVAC_MODES_EEPROM_START_ADDR <= a ->
  NumberOfModesInType (EEPROM_put a bytes e) t = NumberOfModesInType e t.
Proof.
  intros Hr Ha. destruct t; [reflexivity| | | |];
    unfold NumberOfModesInType;
    rewrite count_cell_address by (assumption || discriminate);
    (rewrite EEPROM_read_put_outside; [reflexivity|]);
    left; unfold count_cell, type_number, HVAC_MODES_EEPROM_START_ADDR,
      NUMBER_OF_HVAC_TYPES_IN_EEPROM, NUMBER_OF_HVAC_TYPES in *; lia.
Qed.

Lemma selected_address st :
  counts_are_bytes (EEPROM st) -> radio_data_fits -> instance_is_selected st ->
  let A := AddressOfModeTypeSettings (EEPROM st) (hvac st) (instance_index st) in
  HVAC_MODES_EEPROM_START_ADDR <= A /\ A + settings_size (hvac st) < 65536.
Proof.
  intros Hc Hr Hsel. cbv zeta. unfold instance_is_selected in Hsel.
  rewrite AddressOfModeTypeSettings_base by (assumption || lia).
  pose proof (base_address_bounds (EEPROM st) (hvac st) Hc Hr) as [_ Hhi].
  assert (Hlo : HVAC_MODES_EEPROM_START_ADDR <= base_address (EEPROM st) (hvac st)).
  { pose proof (Hc HVAC_PASSTHROUGH). pose proof (Hc HVAC_MAPINPUTTOOUTPUT).
    pose proof (Hc HVAC_HEAT). pose proof (Hc HVAC_COOL).
    destruct settings_size_values as (E0 & E1 & E2 & E3 & E4).
    unfold base_address. cbv zeta. rewrite ?E0, ?E1, ?E2, ?E3, ?E4.
    destruct (hvac st); lia. }
  assert (0 < settings_size (hvac st)) by (destruct (hvac st); reflexivity).
  nia.
Qed.

(** *** Writing and reading layer by layer *)

Lemma HvacCommands_WriteEprom_eq addr st :
  exists tr,
    HvacCommands_WriteEprom addr st
    = (u16 (addr + sizeof_HvacCommands_Settings),
       set_trace tr
         (set_EEPROM (EEPROM_put addr (ModeName (name_settings st)) (EEPROM st)) st)).
Proof.
  unfold HvacCommands_WriteEprom. cbv zeta.
  destruct (_ <? 0); eexists; reflexivity.
Qed.

Lemma HvacCommands_ReadEprom_eq addr st nm :
  name_is_storable nm ->
  EEPROM_get addr (Z.to_nat sizeof_HvacCommands_Settings) (EEPROM st) = ModeName nm ->
  HvacCommands_ReadEprom addr st
  = (u16 (addr + sizeof_HvacCommands_Settings), set_name_settings nm st).
Proof.
  intros (_ & _ & Hfirst) Hget. unfold HvacCommands_ReadEprom. rewrite Hget.
  change (Z.to_nat sizeof_HvacCommands_Settings) with 6%nat in Hget.
  cbn [EEPROM_get] in Hget. rewrite <- Hget in Hfirst. cbn in Hfirst.
  destruct (EEPROM_read (EEPROM st) addr =? 255) eqn:E.
  - apply Z.eqb_eq in E. congruence.
  - cbn [negb]. by destruct nm.
Qed.


Lemma EEPROM_get_put_here a bytes e n :
  n = length bytes -> byte_values bytes ->
  EEPROM_get a n (EEPROM_put a bytes e) = bytes.
Proof. intros -> Hb. rewrite EEPROM_get_put. by apply byte_values_u8. Qed.

Ltac storable_bytes :=
  first [ apply sensor_settings_bytes | apply cool_settings_bytes
        | apply auto_settings_bytes | assumption ].

(** One region of the record, read after the whole record was written. *)
Ltac region_lengths :=
  rewrite ?(proj1 (sensor_settings_bytes _)), ?(proj1 (cool_settings_bytes _)),
    ?(proj1 (auto_settings_bytes _));
  cbv [sizeof_HvacCommands_Settings sizeof_MapInputToOutput_Settings
       sizeof_OverrideAndDriveFromSensors_Settings sizeof_HvacCool_Settings
       sizeof_HvacAuto_Settings NAME_LENGTH NUM_INPUT_SIGNAL_COMBINATIONS
       NUM_HVAC_INPUT_SIGNALS BN_LAST_SIGNAL BN_FIRST_SIGNAL BN_X1 BN_Z2].

Ltac read_region Hnl Hml :=
  repeat (rewrite EEPROM_get_put_outside by (rewrite ?Hnl, ?Hml; region_lengths; lia));
  rewrite EEPROM_get_put_here
    by first [ symmetry; assumption | reflexivity | assumption
             | apply sensor_settings_bytes | apply cool_settings_bytes
             | apply auto_settings_bytes ].

(** Committing writes the record of the current mode only: the cells
    below the records keep their contents, among them the counts. *)
Lemma CommitSettings_below st b :
  counts_are_bytes (EEPROM st) -> radio_data_fits -> instance_is_selected st ->
  b < HVAC_MODES_EEPROM_START_ADDR ->
  EEPROM_read (EEPROM (CommitSettings (hvac st) st)) b = EEPROM_read (EEPROM st) b.
Proof.
  intros Hc Hr Hsel Hb.
  pose proof (selected_address st Hc Hr Hsel) as [Hlo Hhi]. cbv zeta in Hlo, Hhi.
  pose proof HVAC_MODES_EEPROM_START_ADDR_value as Hstart.
  pose proof Hr as [Hr0 _].
  unfold instance_index in Hlo, Hhi.
  destruct settings_size_values as (E0 & E1 & E2 & E3 & E4).
  set (A := AddressOfModeTypeSettings (EEPROM st) (hvac st)
              match hvac st with HVAC_PASSTHROUGH => 0 | _ => MyModeNumber st end) in *.
  destruct (HvacCommands_WriteEprom_eq A st) as [tr Hw].
  unfold CommitSettings, HvacAuto_WriteEprom, HvacCool_WriteEprom,
    OverrideAndDriveFromSensors_WriteEprom, MapInputToOutput_WriteEprom.
  destruct (hvac st); fold A; rewrite Hw;
    cbn [fst snd EEPROM set_EEPROM set_trace name_settings map_settings sensor_settings
         cool_settings auto_settings];
    cbv [sizeof_HvacCommands_Settings sizeof_MapInputToOutput_Settings
         sizeof_OverrideAndDriveFromSensors_Settings sizeof_HvacCool_Settings
         sizeof_HvacAuto_Settings NAME_LENGTH NUM_INPUT_SIGNAL_COMBINATIONS
         NUM_HVAC_INPUT_SIGNALS BN_LAST_SIGNAL BN_FIRST_SIGNAL BN_X1 BN_Z2];
    rewrite ?E0, ?E1, ?E2, ?E3, ?E4 in Hhi;
    change (Z.shiftl 1 (6 + 1 - 1)) with 64;
    repeat match goal with
           | |- context [u16 ?x] => rewrite (u16_small x) by lia
           end;
    rewrite !EEPROM_read_put_outside by lia; reflexivity.
Qed.

Lemma CommitSettings_counts st t :
  counts_are_bytes (EEPROM st) -> radio_data_fits -> instance_is_selected st ->
  NumberOfModesInType (EEPROM (CommitSettings (hvac st) st)) t
  = NumberOfModesInType (EEPROM st) t.
Proof.
  intros Hc Hr Hsel. destruct t; [reflexivity| | | |];
    unfold NumberOfModesInType;
    rewrite count_cell_address by (assumption || discriminate);
    (rewrite CommitSettings_below; [reflexivity | assumption.. |]);
    unfold count_cell, type_number, HVAC_MODES_EEPROM_START_ADDR,
      NUMBER_OF_HVAC_TYPES_IN_EEPROM, NUMBER_OF_HVAC_TYPES; lia.
Qed.

Lemma reload_after_commit st st' :
  counts_are_bytes (EEPROM st) -> radio_data_fits ->
  instance_is_selected st -> working_copy_is_storable st ->
  EEPROM st' = EEPROM (CommitSettings (hvac st) st) ->
  instance_index st' = instance_index st -> hvac st' = hvac st ->
  working_copy (hvac st) (ReadSettings (hvac st) st') = working_copy (hvac st) st.
Proof.
  intros Hc Hr Hsel (Hnm & Hmp & Hse & Hco & Hau) He Hmode Hh'.
  pose proof (selected_address st Hc Hr Hsel) as [Hlo Hhi]. cbv zeta in Hlo, Hhi.
  pose proof HVAC_MODES_EEPROM_START_ADDR_value as Hstart.
  pose proof Hr as [Hr0 _].
  unfold instance_index in Hlo, Hhi, Hmode. rewrite Hh' in Hmode.
  destruct settings_size_values as (E0 & E1 & E2 & E3 & E4).
  pose proof Hnm as (Hnl & Hnb & _). pose proof Hmp as (Hml & Hmb).
  set (A := AddressOfModeTypeSettings (EEPROM st) (hvac st)
              match hvac st with HVAC_PASSTHROUGH => 0 | _ => MyModeNumber st end) in *.
  destruct (HvacCommands_WriteEprom_eq A st) as [tr Hw].
  assert (Haddr : AddressOfModeTypeSettings (EEPROM st') (hvac st)
                    match hvac st with HVAC_PASSTHROUGH => 0 | _ => MyModeNumber st' end = A).
  { rewrite Hmode. apply AddressOfModeTypeSettings_counts. intros u. rewrite He.
    by apply CommitSettings_counts. }
  unfold CommitSettings, HvacAuto_WriteEprom, HvacCool_WriteEprom,
    OverrideAndDriveFromSensors_WriteEprom, MapInputToOutput_WriteEprom in He.
  unfold ReadSettings, HvacAuto_ReadEprom, HvacCool_ReadEprom,
    OverrideAndDriveFromSensors_ReadEprom, MapInputToOutput_ReadEprom.
  destruct (hvac st); fold A in He; rewrite Hw in He;
    cbn [fst snd EEPROM set_EEPROM set_trace name_settings map_settings sensor_settings
         cool_settings auto_settings] in He;
    rewrite Haddr;
    rewrite ?E0, ?E1, ?E2, ?E3, ?E4 in Hhi;
    (rewrite (HvacCommands_ReadEprom_eq A st' (name_settings st) Hnm);
     [| rewrite He ]);
    cbv [sizeof_HvacCommands_Settings sizeof_MapInputToOutput_Settings
         sizeof_OverrideAndDriveFromSensors_Settings sizeof_HvacCool_Settings
         sizeof_HvacAuto_Settings NAME_LENGTH NUM_INPUT_SIGNAL_COMBINATIONS
         NUM_HVAC_INPUT_SIGNALS BN_LAST_SIGNAL BN_FIRST_SIGNAL BN_X1 BN_Z2] in *;
    change (Z.shiftl 1 (6 + 1 - 1)) with 64 in *;
    repeat match type of He with
           | context [u16 ?x] => rewrite (u16_small x) in He by lia
           end;
    repeat match goal with
           | |- context [u16 ?x] => rewrite (u16_small x) by lia
           end.
  all: try (by read_region Hnl Hml).
  all: cbn [snd EEPROM set_name_settings set_map_settings set_sensor_settings
            set_cool_settings set_auto_settings];
    rewrite ?He; repeat read_region Hnl Hml;
    rewrite ?sensor_settings_of_bytes_of, ?cool_settings_of_bytes_of,
      ?auto_settings_of_bytes_of by assumption;
    unfold working_copy;
    cbn [name_settings map_settings sensor_settings cool_settings auto_settings
         set_name_settings set_map_settings set_sensor_settings set_cool_settings
         set_auto_settings];
    try reflexivity.
  by destruct (map_settings st).
Qed.


(** *** Commands that do not touch the EEPROM *)

Lemma UpdateOutputs_selection mask st : selection (UpdateOutputs mask st) = selection st.
Proof. unfold selection. by autorewrite with frame. Qed.

Lemma sensor_report_selection this cmd len senderid st :
  selection (snd (sensor_report this cmd len senderid st)) = selection st.
Proof.
  unfold sensor_report, OnReceivedTemperatureInput, OnReceivedTemperatureInput2,
    OnReceivedHumidityInput, HvacCool_OnReceivedHumidityInput.
  destruct this; cbv zeta; destruct_ifs; cbn [snd];
    rewrite ?UpdateOutputs_selection; try reflexivity;
    repeat match goal with
           | H : (_, _) = (_, _) |- _ => inversion H; subst; clear H
           end;
    reflexivity.
Qed.


(** The base class refuses a command without touching anything. *)
Lemma HvacCommands_ProcessCommand_refused this cmd len senderid toMe st :
  fst (HvacCommands_ProcessCommand this cmd len senderid toMe st) = false ->
  HvacCommands_ProcessCommand this cmd len senderid toMe st = (false, st).
Proof.
  unfold HvacCommands_ProcessCommand. cbv zeta.
  repeat case_match; cbn [fst]; intros; try discriminate; reflexivity.
Qed.

Lemma HvacCommands_ProcessCommand_selection this cmd len senderid toMe st :
  settings_command cmd ->
  selection (snd (HvacCommands_ProcessCommand this cmd len senderid toMe st))
  = selection st.
Proof.
  intros [H | H].
  - by rewrite HvacCommands_ProcessCommand_other_keyword.
  - unfold HvacCommands_ProcessCommand. cbv zeta.
    destruct (after_keyword cmd "NAME=") as [q|]; [|congruence].
    repeat case_match; reflexivity.
Qed.

Lemma match_upper_FAN cmd :
  match_upper "HVAC " cmd = None -> match_upper "HVAC FAN=O" cmd = None.
Proof.
  cbn [match_upper]. intros H.
  repeat match type of H with
         | (if ?c then _ else None) = None => destruct c; [|reflexivity]
         end.
  discriminate.
Qed.

(** Past the base class, no command of a mode touches the EEPROM or the
    selection of the current mode. *)
Lemma hvac_ProcessCommand_selection cmd len senderid toMe st :
  selection (snd (HvacCommands_ProcessCommand (hvac st) cmd len senderid toMe st))
  = selection st ->
  selection (snd (hvac_ProcessCommand cmd len senderid toMe st)) = selection st.
Proof.
  intros Hbase.
  assert (Hsensor : forall this,
            selection (snd (HvacCommands_ProcessCommand this cmd len senderid toMe st))
            = selection st ->
            selection (snd (OverrideAndDriveFromSensors_ProcessCommand this cmd len
                              senderid toMe st)) = selection st).
  { intros this Hb. unfold OverrideAndDriveFromSensors_ProcessCommand.
    destruct (HvacCommands_ProcessCommand this cmd len senderid toMe st) as [b s] eqn:E.
    cbn [snd] in Hb. destruct b; [exact Hb|].
    pose proof (HvacCommands_ProcessCommand_refused this cmd len senderid toMe st) as Hr.
    rewrite E in Hr. specialize (Hr eq_refl). inversion Hr; subst s. clear Hr Hb E.
    destruct toMe; [|apply sensor_report_selection].
    unfold SetOutputBits, ClearOutputBits.
    repeat case_match; cbn [snd]; rewrite ?UpdateOutputs_selection; reflexivity. }
  assert (Hcool : forall this,
            selection (snd (HvacCommands_ProcessCommand this cmd len senderid toMe st))
            = selection st ->
            selection (snd (HvacCool_ProcessCommand this cmd len senderid toMe st))
            = selection st).
  { intros this Hb. unfold HvacCool_ProcessCommand.
    specialize (Hsensor this Hb).
    destruct (OverrideAndDriveFromSensors_ProcessCommand this cmd len senderid toMe st)
      as [b s].
    cbn [snd] in Hsensor. repeat case_match; cbn [snd]; try assumption;
      by rewrite <- Hsensor. }
  unfold hvac_ProcessCommand.
  destruct (hvac st) eqn:Hh; [exact Hbase| |by apply Hsensor|by apply Hcool|].
  - unfold MapInputToOutput_ProcessCommand.
    destruct (HvacCommands_ProcessCommand HVAC_MAPINPUTTOOUTPUT cmd len senderid toMe st)
      as [b s].
    cbn [snd] in Hbase. repeat case_match; cbn [snd]; try assumption;
      by rewrite <- Hbase.
  - unfold HvacAuto_ProcessCommand. specialize (Hcool HVAC_AUTO Hbase).
    destruct (HvacCool_ProcessCommand HVAC_AUTO cmd len senderid toMe st) as [b s].
    cbn [snd] in Hcool. repeat case_match; cbn [snd]; try assumption;
      by rewrite <- Hcool.
Qed.


Lemma settings_command_selection cmd len senderid toMe st :
  settings_command cmd ->
  selection (snd (hvac_ProcessCommand cmd len senderid toMe st)) = selection st.
Proof.
  intros H. apply hvac_ProcessCommand_selection.
  by apply HvacCommands_ProcessCommand_selection.
Qed.

Lemma hvac_commands_selection cmds st :
  Forall settings_command cmds ->
  selection (snd (hvac_commands cmds st)) = selection st.
Proof.
  intros H. unfold hvac_commands. change st with (snd (true, st)) at 2.
  generalize (true, st). induction H as [|c cmds Hc _ IH]; intros acc; [reflexivity|].
  cbn [fold_left]. rewrite IH.
  destruct (hvac_ProcessCommand c (Z.of_nat (String.length c)) 255 true (snd acc))
    as [h s] eqn:E.
  cbn [snd]. change s with (snd (h, s)). rewrite <- E.
  by apply settings_command_selection.
Qed.

Lemma hvac_ProcessCommand_COMMIT len senderid st :
  hvac_ProcessCommand "HVAC COMMIT" len senderid true st
  = (true, CommitSettings (hvac st) st).
Proof. unfold hvac_ProcessCommand. by destruct (hvac st). Qed.


Lemma working_copy_UpdateOutputs this mask st :
  working_copy this (UpdateOutputs mask st) = working_copy this st.
Proof. unfold working_copy. by autorewrite with frame. Qed.

Lemma type_of_number_type_number t : type_of_number (type_number t) = Some t.
Proof. by destruct t. Qed.

(** Power-up after a commit: [setup] selects the saved mode and loads
    the record that was committed. *)
Lemma power_up_after_commit st t0 :
  counts_are_bytes (EEPROM st) -> radio_data_fits ->
  instance_is_selected st -> working_copy_is_storable st -> selection_is_saved st ->
  let up := setup (EEPROM (CommitSettings (hvac st) st)) t0 in
  hvac up = hvac st /\ instance_index up = instance_index st /\
  working_copy (hvac st) up = working_copy (hvac st) st.
Proof.
  intros Hc Hr Hsel Hst [Htype Hmode]. cbv zeta.
  pose proof HVAC_MODES_EEPROM_START_ADDR_value as Hstart.
  assert (Hbelow : HVAC_EEPROM_TYPE_AND_MODE_ADDR + 1 < HVAC_MODES_EEPROM_START_ADDR)
    by (unfold HVAC_MODES_EEPROM_START_ADDR, HVAC_NUMBER_OF_MODES_IN_TYPE_ADDR,
          HVAC_SAVED_TYPE_AND_MODE_SIZE, NUMBER_OF_HVAC_TYPES_IN_EEPROM,
          NUMBER_OF_HVAC_TYPES; lia).
  unfold setup, ThermostatCommon_setup. cbv zeta.
  rewrite !UpdateOutputs_EEPROM.
  cbn [EEPROM upd_sketch set_sketch reset_state].
  rewrite !CommitSettings_below by (assumption || lia).
  rewrite Htype, Hmode, type_of_number_type_number, CommitSettings_counts by assumption.
  destruct Hsel as [Hi0 Hi1].
  assert ((instance_index st <? NumberOfModesInType (EEPROM st) (hvac st)) = true) as ->
    by lia.
  unfold InitFromEeprom.
  match goal with
  | |- context [ReadSettings (hvac st) ?s] => set (st' := s)
  end.
  assert (Hhvac : hvac st' = hvac st) by reflexivity.
  assert (Hidx : instance_index st' = instance_index st).
  { unfold instance_index at 1. rewrite Hhvac. subst st'.
    cbn [MyModeNumber set_MyModeNumber].
    unfold instance_index. destruct (hvac st); reflexivity. }
  assert (HE : EEPROM st' = EEPROM (CommitSettings (hvac st) st)).
  { subst st'. cbn [EEPROM set_MyModeNumber set_MyTypeNumber set_hvac].
    by rewrite UpdateOutputs_EEPROM. }
  pose proof (reload_after_commit st st' Hc Hr (conj Hi0 Hi1) Hst HE Hidx Hhvac) as Hreload.
  assert (Hframe : forall s, hvac (ReadSettings (hvac st) s) = hvac s /\
                             MyModeNumber (ReadSettings (hvac st) s) = MyModeNumber s).
  { intros s. unfold ReadSettings, HvacAuto_ReadEprom, HvacCool_ReadEprom,
      OverrideAndDriveFromSensors_ReadEprom, MapInputToOutput_ReadEprom,
      HvacCommands_ReadEprom.
    destruct (hvac st); cbv zeta; repeat case_match; split; reflexivity. }
  unfold TurnFurnaceOff.
  assert (Hup : forall m, hvac (UpdateOutputs m (ReadSettings (hvac st) st')) = hvac st /\
            instance_index (UpdateOutputs m (ReadSettings (hvac st) st')) = instance_index st /\
            working_copy (hvac st) (UpdateOutputs m (ReadSettings (hvac st) st'))
            = working_copy (hvac st) st).
  { intros m. rewrite working_copy_UpdateOutputs. unfold instance_index at 1.
    autorewrite with frame. destruct (Hframe st') as [-> ->].
    split; [exact Hhvac|]. split; [|exact Hreload].
    rewrite <- Hidx. unfold instance_index. reflexivity. }
  destruct (hvac st); apply Hup.
Qed.


Lemma CommitSettings_frame this st :
  hvac (CommitSettings this st) = hvac st /\
  MyTypeNumber (CommitSettings this st) = MyTypeNumber st /\
  MyModeNumber (CommitSettings this st) = MyModeNumber st /\
  forall t, working_copy t (CommitSettings this st) = working_copy t st.
Proof.
  unfold CommitSettings, HvacAuto_WriteEprom, HvacCool_WriteEprom,
    OverrideAndDriveFromSensors_WriteEprom, MapInputToOutput_WriteEprom.
  destruct this;
    match goal with
    | |- context [HvacCommands_WriteEprom ?a st] =>
        destruct (HvacCommands_WriteEprom_eq a st) as [tr ->]
    end; repeat split; reflexivity.
Qed.



(** ** Auto: the cool and the heat sub-machines *)

(** Within one report the heat side is consulted only when the cool
    test answers "off", and at most one of the two sub-machines leaves
    OFF. *)
Lemma HvacAuto_report_starts_one cmd len senderid st :
  let st' := snd (sensor_report HVAC_AUTO cmd len senderid st) in
  (fancoilState (run st) = STATE_OFF -> fancoilState (run st') <> STATE_OFF ->
   heatState (run st') = heatState (run st)) /\
  (heatState (run st) = HEAT_OFF -> heatState (run st') <> HEAT_OFF ->
   fancoilState (run st') = STATE_OFF).
Proof.
  cbv zeta.
  unfold sensor_report, OnReceivedTemperatureInput, OnReceivedTemperatureInput2,
    OnReceivedHumidityInput, HvacCool_OnReceivedHumidityInput.
  cbv zeta; destruct_ifs; cbn [snd]; rewrite ?UpdateOutputs_run;
    repeat match goal with
           | H : (_, _) = (_, _) |- _ => inversion H; subst; clear H
           end;
    run_fields; split; intros; congruence.
Qed.


(** ** Commands that no stage recognizes *)

(** The sketch refuses a command without touching anything. *)
Lemma ProcessCommand_refused cmd len st :
  fst (ProcessCommand cmd len st) = false -> ProcessCommand cmd len st = (false, st).
Proof.
  unfold ProcessCommand. cbv zeta.
  repeat case_match; cbn [fst]; intros; try discriminate; reflexivity.
Qed.

Lemma sensor_report_refused this cmd len senderid st :
  fst (sensor_report this cmd len senderid st) = false ->
  sensor_report this cmd len senderid st = (false, st) \/
  sensor_report this cmd len senderid st = (false, heard senderid st).
Proof.
  unfold sensor_report. cbv zeta.
  repeat case_match; cbn [fst]; intros; try discriminate;
    solve [left; reflexivity | right; reflexivity].
Qed.

Lemma OverrideAndDriveFromSensors_refused this cmd len senderid toMe st :
  fst (OverrideAndDriveFromSensors_ProcessCommand this cmd len senderid toMe st) = false ->
  OverrideAndDriveFromSensors_ProcessCommand this cmd len senderid toMe st = (false, st) \/
  toMe = false /\
  OverrideAndDriveFromSensors_ProcessCommand this cmd len senderid toMe st
  = (false, heard senderid st).
Proof.
  unfold OverrideAndDriveFromSensors_ProcessCommand.
  destruct (HvacCommands_ProcessCommand this cmd len senderid toMe st) as [b s] eqn:E.
  destruct b; [discriminate|].
  pose proof (HvacCommands_ProcessCommand_refused this cmd len senderid toMe st) as Hr.
  rewrite E in Hr. specialize (Hr eq_refl). inversion Hr; subst s. clear Hr E.
  destruct toMe.
  - repeat case_match; cbn [fst]; intros; try discriminate; by left.
  - intros H. destruct (sensor_report_refused this cmd len senderid st H) as [-> | ->];
      [by left | by right].
Qed.


(** The loop of the [HVACMAP=0x] command writes at the address it is
    given and above, inside the table. *)
Lemma HVACMAP_loop_keeps n : forall q addr table r table',
  0 <= addr ->
  HVACMAP_loop n q addr table = Some (r, table') ->
  table_kept_outside addr table table'.
Proof.
  induction n as [|n IH]; intros q addr table r table' Ha; [discriminate|].
  cbn [HVACMAP_loop].
  destruct (peek q =? 0); [intros [= _ <-]; by split|].
  destruct (Z.leb_spec NUM_INPUT_SIGNAL_COMBINATIONS addr) as [Hge|Hlt];
    [intros [= _ <-]; by split|].
  destruct (aHexToInt q) as [v q'].
  change NUM_INPUT_SIGNAL_COMBINATIONS with 64 in *.
  rewrite (u8_small (addr + 1)) by lia.
  intros Hrun. apply IH in Hrun; [|lia]. destruct Hrun as [Hlen Hkeep].
  change NUM_INPUT_SIGNAL_COMBINATIONS with 64 in *.
  split; [by rewrite Hlen, length_insert|].
  intros i Hi. change NUM_INPUT_SIGNAL_COMBINATIONS with 64 in Hi. rewrite Hkeep by lia.
  apply list_lookup_insert_ne. lia.
Qed.


(** What a refused command can leave behind in a mode: nothing, or table
    entries written by an [HVACMAP] command before it ran past the end
    of the table, or the sender and time of a report without a
    temperature. *)
Lemma hvac_ProcessCommand_refused cmd len senderid toMe st :
  fst (hvac_ProcessCommand cmd len senderid toMe st) = false ->
  hvac_ProcessCommand cmd len senderid toMe st = (false, st) \/
  (hvac st = HVAC_MAPINPUTTOOUTPUT /\ toMe = true /\
   starts_with "HVACMAP=0x" cmd = true /\
   exists table,
     table_kept_outside (HVACMAP_address cmd) (inputToOutput (map_settings st)) table /\
     hvac_ProcessCommand cmd len senderid toMe st
     = (false, set_map_settings {| inputToOutput := table |} st)) \/
  (sensor_driven (hvac st) /\ toMe = false /\
   hvac_ProcessCommand cmd len senderid toMe st = (false, heard senderid st)).
Proof.
  assert (Hcool : forall this,
            fst (HvacCool_ProcessCommand this cmd len senderid toMe st) = false ->
            HvacCool_ProcessCommand this cmd len senderid toMe st = (false, st) \/
            toMe = false /\
            HvacCool_ProcessCommand this cmd len senderid toMe st
            = (false, heard senderid st)).
  { intros this. unfold HvacCool_ProcessCommand.
    pose proof (OverrideAndDriveFromSensors_refused this cmd len senderid toMe st) as Hr.
    destruct (OverrideAndDriveFromSensors_ProcessCommand this cmd len senderid toMe st)
      as [b s].
    destruct b; [discriminate|]. destruct (Hr eq_refl) as [Hs | [Ht Hs]];
      inversion Hs; subst s; repeat case_match; cbn [fst]; intros;
      try discriminate; auto. }
  unfold hvac_ProcessCommand. destruct (hvac st) eqn:Hh; intros H.
  - left. by apply HvacCommands_ProcessCommand_refused.
  - revert H. unfold MapInputToOutput_ProcessCommand.
    destruct (HvacCommands_ProcessCommand HVAC_MAPINPUTTOOUTPUT cmd len senderid toMe st)
      as [b s] eqn:E.
    destruct b; [discriminate|].
    pose proof (HvacCommands_ProcessCommand_refused HVAC_MAPINPUTTOOUTPUT cmd len senderid
                  toMe st) as Hr.
    rewrite E in Hr. specialize (Hr eq_refl). inversion Hr; subst s. clear Hr E.
    destruct toMe; cbn [negb]; [|by left].
    destruct (starts_with "HVACMAP=0x" cmd) eqn:Hmap; [|by left].
    unfold HVACMAP_address.
    destruct (aHexToInt (skip (String.length "HVACMAP=0x") cmd)) as [addr q]. cbn [fst].
    destruct (HVACMAP_loop (S (String.length q)) q (u8 addr) (inputToOutput (map_settings st)))
      as [[r table]|] eqn:Hloop; [|by left].
    cbn [fst]. intros ->. right. left.
    split; [reflexivity|]. split; [reflexivity|]. split; [reflexivity|].
    exists table. split; [|reflexivity].
    apply (HVACMAP_loop_keeps _ _ _ _ _ _ (proj1 (u8_range addr)) Hloop).
  - destruct (OverrideAndDriveFromSensors_refused HVAC_HEAT cmd len senderid toMe st H)
      as [Hs | [Ht Hs]]; [by left|].
    right. right. split; [left; reflexivity|]. by split.
  - destruct (Hcool HVAC_COOL H) as [Hs | [Ht Hs]]; [by left|].
    right. right. split; [right; left; reflexivity|]. by split.
  - revert H. unfold HvacAuto_ProcessCommand.
    pose proof (Hcool HVAC_AUTO) as Hr.
    destruct (HvacCool_ProcessCommand HVAC_AUTO cmd len senderid toMe st) as [b s].
    destruct b; [discriminate|]. destruct (Hr eq_refl) as [Hs | [Ht Hs]];
      inversion Hs; subst s; repeat case_match; cbn [fst]; intros;
      try discriminate; [by left|].
    right. right. split; [right; right; reflexivity|]. by split.
Qed.

(** The nested call that [setTemperatureCx10] makes returns: an
    [HVAC_SETTINGS] command does not select another mode. *)
Lemma routeCommand_rec_HVAC_SETTINGS text len st :
  exists st',
    routeCommand_rec 1 ("HVAC_SETTINGS " ++ text) len 255 true st = Some st'.
Proof.
  cbn [routeCommand_rec]. cbv zeta.
  change (negb (255 =? 255)) with false. cbv iota.
  destruct (true && RadioConfiguration_ApplyCommand _); [eexists; reflexivity|].
  destruct (ProcessCommand _ _ _) as [main s1]. destruct main; [eexists; reflexivity|].
  destruct (hvac_ProcessCommand _ len 255 true s1) as [handled s2] eqn:E.
  destruct handled; [|eexists; reflexivity].
  pose proof (settings_command_selection ("HVAC_SETTINGS " ++ text) len 255 true s1
                (or_introl eq_refl)) as Hsel.
  rewrite E in Hsel. unfold selection in Hsel. cbn [snd] in Hsel.
  inversion Hsel as [[He Hh Hty Hmo]].
  cbn [MyModeNumber MyTypeNumber emit set_trace].
  rewrite ?Hmo, !Z.eqb_refl. cbn [negb andb].
  destruct (GetTargetAndActual _ s1) as [[target actual]|]; eexists; reflexivity.
Qed.


(** [routeCommand] returns: two levels of nesting are enough. *)
Lemma routeCommand_returns cmd len senderid toMe st :
  exists st', routeCommand cmd len senderid toMe st = Some st'.
Proof.
  unfold routeCommand. change 2%nat with (S 1).
  pose proof routeCommand_rec_HVAC_SETTINGS as Hnested. revert Hnested.
  generalize 1%nat. intros d Hnested.
  cbn [routeCommand_rec]. cbv zeta.
  destruct (toMe && RadioConfiguration_ApplyCommand cmd); [eexists; reflexivity|].
  match goal with
  | |- context [if toMe then ?a else ?b] => destruct (if toMe then a else b) as [main s1]
  end.
  destruct main; [eexists; reflexivity|].
  destruct (hvac_ProcessCommand cmd len senderid toMe s1) as [handled s2].
  destruct handled; [|eexists; reflexivity].
  destruct (GetTargetAndActual (hvac s1) s1) as [[target actual]|];
    [|eexists; reflexivity].
  match goal with
  | |- context [if ?c then _ else _] => destruct c
  end; [|eexists; reflexivity].
  match goal with
  | |- context [routeCommand_rec d (_ ++ ?text) ?l 255 true ?s] =>
      destruct (Hnested text l s) as [st' ->]
  end.
  eexists; reflexivity.
Qed.


(** C10 (amended).  [routeCommand] returns for every command, and the
    serial loop prints the prompt [ready>] after every line, handled or
    not.  A command that every stage refuses (the radio library, the
    sketch, the current mode) produces nothing but the echo of the
    command on the serial port: no "accepted" line, no display update,
    no request to the outputs, no error.  It leaves the EEPROM, the
    clock, the globals of the sketch, the selection of the mode and its
    name and settings as they were, with two exceptions: in the
    table-driven mode a refused [HVACMAP=0x] command addressed to this
    node may have written entries of the table, from its address on,
    before it ran past the end of the table (any other refused command
    leaves the table as it was), and in a sensor-driven mode a refused
    packet of another node changes at most the sender and the time heard
    last (a report without a temperature). *)
Theorem unrecognized_command_effects cmd len senderid toMe st :
  (exists st', routeCommand cmd len senderid toMe st = Some st') /\
  (exists st', routeCommand cmd (Z.of_nat (String.length cmd)) 255 true st = Some st' /\
               serial_line cmd st = Some (emit (Serial_print "ready>") st')) /\
  (refused_by_every_stage cmd len senderid toMe st ->
   exists st',
     routeCommand cmd len senderid toMe st = Some st' /\
     trace st' = trace (echoed cmd senderid st) /\
     EEPROM st' = EEPROM st /\ clock st' = clock st /\ sketch st' = sketch st /\
     hvac st' = hvac st /\ MyTypeNumber st' = MyTypeNumber st /\
     MyModeNumber st' = MyModeNumber st /\
     name_settings st' = name_settings st /\ sensor_settings st' = sensor_settings st /\
     cool_settings st' = cool_settings st /\ auto_settings st' = auto_settings st /\
     (map_settings st' = map_settings st \/
      hvac st = HVAC_MAPINPUTTOOUTPUT /\ toMe = true /\
      starts_with "HVACMAP=0x" cmd = true /\
      table_kept_outside (HVACMAP_address cmd) (inputToOutput (map_settings st))
        (inputToOutput (map_settings st'))) /\
     (run st' = run st \/
      sensor_driven (hvac st) /\ toMe = false /\ run st' = run (heard senderid st))).
Proof.
  split; [apply routeCommand_returns|]. split.
  { unfold serial_line.
    destruct (routeCommand_returns cmd (Z.of_nat (String.length cmd)) 255 true st)
      as [st' ->].
    by exists st'. }
  intros [Hme Hhv]. unfold routeCommand. cbn [routeCommand_rec]. cbv zeta.
  unfold echoed in *. cbv zeta in *.
  match type of Hhv with
  | fst (hvac_ProcessCommand _ _ _ _ ?s) = false =>
      assert (Hecho : EEPROM s = EEPROM st /\ clock s = clock st /\ sketch s = sketch st /\
                      hvac s = hvac st /\ MyTypeNumber s = MyTypeNumber st /\
                      MyModeNumber s = MyModeNumber st /\
                      name_settings s = name_settings st /\
                      sensor_settings s = sensor_settings st /\
                      cool_settings s = cool_settings st /\
                      auto_settings s = auto_settings st /\
                      map_settings s = map_settings st /\ run s = run st)
        by (destruct (negb (senderid =? 255)); repeat split; reflexivity);
      set (st_e := s) in *
  end.
  destruct Hecho as (H1 & H2 & H3 & H4 & H5 & H6 & H7 & H8 & H9 & H10 & H11 & H12).
  assert (Hmain : (if toMe && RadioConfiguration_ApplyCommand cmd
                   then true else
                     fst (if toMe then ProcessCommand cmd len st_e else (false, st_e)))
                  = false /\
                  (if toMe then ProcessCommand cmd len st_e else (false, st_e))
                  = (false, st_e)).
  { destruct toMe; [|by split]. destruct (Hme eq_refl) as [-> Hp].
    cbn [andb]. split; [exact Hp | by apply ProcessCommand_refused]. }
  destruct Hmain as [Hnone Hmain]. rewrite Hmain in *.
  destruct (toMe && RadioConfiguration_ApplyCommand cmd); [discriminate|]. clear Hnone.
  destruct (hvac_ProcessCommand_refused cmd len senderid toMe st_e Hhv)
    as [E | [(Hm & Ht & Hmap & table & Hkept & E) | (Hs & Ht & E)]]; rewrite E; eexists;
    (split; [reflexivity|]).
  - repeat split; try assumption; try reflexivity; by left.
  - cbn [trace EEPROM clock sketch hvac MyTypeNumber MyModeNumber name_settings
         sensor_settings cool_settings auto_settings map_settings run set_map_settings
         inputToOutput].
    rewrite H11 in Hkept.
    repeat (split; [assumption || reflexivity|]).
    split; [|by left].
    right. split; [congruence|]. split; [assumption|]. split; assumption.
  - unfold heard, upd_run. fold (millis st).
    cbn [trace EEPROM clock sketch hvac MyTypeNumber MyModeNumber name_settings
         sensor_settings cool_settings auto_settings map_settings run set_run].
    repeat split; try assumption; try reflexivity; [by left|].
    right. split; [congruence|]. split; [assumption|].
    unfold millis. by rewrite H2, H12.
Qed.


(** ** The table-driven mode and the output arbiter *)

(** The output-legal bits of a byte are all its bits but bit 0. *)
Lemma land_OUTPUT_SIGNAL_MASK_byte v :
  0 <= v < 256 ->
  Z.land v OUTPUT_SIGNAL_MASK = v - v mod 2 /\
  Z.land (v - v mod 2) OUTPUT_SIGNAL_MASK = v - v mod 2.
Proof.
  intros Hv.
  assert (Hall : forallb (fun v => (Z.land v OUTPUT_SIGNAL_MASK =? v - v mod 2)
                                   && (Z.land (v - v mod 2) OUTPUT_SIGNAL_MASK =? v - v mod 2))
                   (Z.of_nat <$> seq 0 256) = true)
    by (vm_compute; reflexivity).
  rewrite forallb_forall in Hall.
  assert (Hin : In v (Z.of_nat <$> seq 0 256)).
  { apply list_elem_of_In, list_elem_of_fmap. exists (Z.to_nat v).
    split; [lia|]. apply elem_of_seq. lia. }
  apply Hall in Hin. apply andb_true_iff in Hin as [H1 H2]. lia.
Qed.

(** With no hold active before or after the update, the signal bits
    of the output register are those of the request. *)
Lemma UpdateOutputs_signals_without_hold mask st :
  HeatSafetyOffTimeActive (sketch st) = false ->
  CompressorOffTimeActive (sketch (UpdateOutputs mask st)) = false ->
  Z.land (OutputRegister (sketch (UpdateOutputs mask st))) OUTPUT_SIGNAL_MASK
  = Z.land mask OUTPUT_SIGNAL_MASK.
Proof.
  intros Hheat Hcomp.
  pose proof (UpdateOutputs_steps mask st) as H. cbv zeta in H.
  destruct H as (_ & _ & _ & _ & _ & _ & _ & _ & _ & Hout).
  rewrite Hcomp in Hout. unfold arbitrated_request in Hout. rewrite Hheat in Hout.
  destruct Hout as [-> | ->].
  - by rewrite <- Z.land_assoc, Z.land_diag.
  - change (bit BN_W_FAILSAFE) with 1. rewrite land_lor_bit0 by reflexivity.
    by rewrite <- Z.land_assoc, Z.land_diag.
Qed.



(** ** Staged activation: what is requested *)

Lemma UpdateOutputs_LastOutputWrite mask st :
  LastOutputWrite (sketch (UpdateOutputs mask st)) = Z.land mask OUTPUT_SIGNAL_MASK.
Proof. pose proof (UpdateOutputs_steps mask st) as H. cbv zeta in H. tauto. Qed.

(** [loop] while the cool side is active and the sensor is heard. *)
Lemma OverrideAndDriveFromSensors_loop_since this now st :
  fancoilState (run st) <> STATE_OFF ->
  stage1_entry_in_past now st ->
  ~ sensor_silent_too_long now st ->
  let elapsed := now - timeEnteredStage1 (run st) in
  let st' := OverrideAndDriveFromSensors_loop this now st in
  fancoilState (run st') = stage_since (sensor_settings st) elapsed (fancoilState (run st)) /\
  timeEnteredStage1 (run st') = timeEnteredStage1 (run st) /\
  heatState (run st') = heatState (run st) /\
  (fancoilState (run st') <> fancoilState (run st) ->
   st' = UpdateOutputs (stage_mask_since (sensor_settings st) elapsed)
           (upd_run (set_fancoilState (fancoilState (run st'))) st)) /\
  (fancoilState (run st') = fancoilState (run st) -> st' = st).
Proof.
  intros Hon Hpast Hsil. cbv zeta.
  unfold stage1_entry_in_past, sensor_silent_too_long in *.
  unfold OverrideAndDriveFromSensors_loop.
  apply FurnaceState_eqb_neq in Hon. rewrite Hon. cbn [negb].
  unfold isSensorTimedOut. cbv zeta.
  assert ((SecondsToThirdStage (sensor_settings st) * 2000
           <? i32 (now - lastHeardFromSensor (run st))) = false) as -> by lia.
  rewrite i32_small by lia.
  unfold stage_since, stage_mask_since.
  destruct (SecondsToThirdStage (sensor_settings st) * 1000
            <=? now - timeEnteredStage1 (run st));
    [|destruct (SecondsToSecondStage (sensor_settings st) * 1000
                <=? now - timeEnteredStage1 (run st))].
  - destruct (fancoilState (run st)) eqn:E; cbn [FurnaceState_eqb negb];
      autorewrite with frame; run_fields; rewrite ?E;
      repeat split; try reflexivity; try congruence.
  - destruct (fancoilState (run st)) eqn:E; cbn [FurnaceState_eqb negb];
      autorewrite with frame; run_fields; rewrite ?E;
      repeat split; try reflexivity; try congruence.
  - repeat split; congruence.
Qed.

Lemma HeatState_eqb_neq a b : HeatState_eqb a b = false <-> a <> b.
Proof. destruct a, b; cbn; split; congruence. Qed.

(** [HvacAuto::loop] while the heat side is active and the sensor is
    heard. *)
Lemma HvacAuto_loop_heat_since now st :
  heatState (run st) <> HEAT_OFF ->
  stage1_entry_in_past now st ->
  ~ sensor_silent_too_long now st ->
  let elapsed := now - timeEnteredStage1 (run st) in
  let st' := HvacAuto_loop now st in
  heatState (run st') = heat_stage_since (sensor_settings st) elapsed (heatState (run st)) /\
  timeEnteredStage1 (run st') = timeEnteredStage1 (run st) /\
  fancoilState (run st') = fancoilState (run st) /\
  (heatState (run st') <> heatState (run st) ->
   st' = UpdateOutputs (heat_mask_since st elapsed)
           (upd_run (set_heatState (heatState (run st'))) st)) /\
  (heatState (run st') = heatState (run st) -> st' = st).
Proof.
  intros Hon Hpast Hsil. cbv zeta.
  unfold stage1_entry_in_past, sensor_silent_too_long in *.
  unfold HvacAuto_loop.
  apply HeatState_eqb_neq in Hon. rewrite Hon. cbn [negb].
  unfold isSensorTimedOut. cbv zeta.
  assert ((SecondsToThirdStage (sensor_settings st) * 2000
           <? i32 (now - lastHeardFromSensor (run st))) = false) as -> by lia.
  rewrite i32_small by lia.
  unfold heat_stage_since, heat_mask_since.
  destruct (SecondsToThirdStage (sensor_settings st) * 1000
            <=? now - timeEnteredStage1 (run st));
    [|destruct (SecondsToSecondStage (sensor_settings st) * 1000
                <=? now - timeEnteredStage1 (run st))].
  - destruct (heatState (run st)) eqn:E; cbn [HeatState_eqb negb];
      autorewrite with frame; run_fields; rewrite ?E;
      repeat split; try reflexivity; try congruence.
  - destruct (heatState (run st)) eqn:E; cbn [HeatState_eqb negb];
      autorewrite with frame; run_fields; rewrite ?E;
      repeat split; try reflexivity; try congruence.
  - repeat split; congruence.
Qed.

(** A qualifying report: the stage, the time of entry and the mask that
    the overlays are laid over. *)
Lemma qualifying_report_result cmd len senderid st :
  sensor_driven (hvac st) ->
  qualifying_report (hvac st) cmd len senderid st ->
  exists st0,
    let mask :=
      if FurnaceState_eqb (fancoilState (run st)) STATE_OFF
      then OutputStage1 (sensor_settings st)
      else stage_mask_since (sensor_settings st)
             (i32 (millis st - timeEnteredStage1 (run st))) in
    let over := report_overlays (hvac st) (parseForColon 82 cmd len)
                  (parseForColon 84 cmd len) mask st0 in
    hvac_ProcessCommand cmd len senderid false st
    = (true, UpdateOutputs (fst over) (snd over)) /\
    fancoilState (run st0)
    = (if FurnaceState_eqb (fancoilState (run st)) STATE_OFF
       then STATE_STAGE1 else fancoilState (run st)) /\
    timeEnteredStage1 (run st0)
    = (if FurnaceState_eqb (fancoilState (run st)) STATE_OFF
       then millis st else timeEnteredStage1 (run st)) /\
    fanIsOn (run st0) = fanIsOn (run st) /\
    sensor_settings st0 = sensor_settings st.
Proof.
  intros Hs Hq.
  pose proof (sensor_report_qualifying _ _ _ _ _ Hq) as Hr. cbv zeta in Hr.
  pose proof (OnReceivedTemperatureInput_frame (hvac st) (parseForColon 84 cmd len)
                (upd_run (fun r => set_lastHeardSensorId senderid
                                     (set_lastHeardFromSensor (millis st) r)) st))
    as (F1 & F2 & _ & F4 & F5 & _).
  rewrite hvac_ProcessCommand_sniffed; [| exact Hs | by rewrite Hr].
  rewrite Hr. cbv zeta.
  change (mask_since_stage1 (i32 (millis st - timeEnteredStage1 (run st))) st
            (OutputStage1 (sensor_settings st)) (OutputStage2 (sensor_settings st))
            (OutputStage3 (sensor_settings st)))
    with (stage_mask_since (sensor_settings st)
            (i32 (millis st - timeEnteredStage1 (run st)))).
  destruct (FurnaceState_eqb (fancoilState (run st)) STATE_OFF); cbn [fst snd];
    eexists; (split; [reflexivity|]).
  - split; [reflexivity|]. split; [reflexivity|]. split; [exact F4 | exact F5].
  - split; [exact F1|]. split; [exact F2|]. split; [exact F4 | exact F5].
Qed.



(** * Further properties of the code *)

(** ** Numbers in command texts *)

Lemma code_range c : 0 <= code c < 256.
Proof.
  unfold code. pose proof (N_ascii_bounded c). lia.
Qed.

Lemma code_ascii_of_code z : 0 <= z < 256 -> code (ascii_of_code z) = z.
Proof.
  intros Hz. unfold code, ascii_of_code.
  rewrite N_ascii_embedding by lia. lia.
Qed.

Lemma ascii_of_code_code c : ascii_of_code (code c) = c.
Proof. unfold code, ascii_of_code. rewrite N2Z.id. apply ascii_N_embedding. Qed.

Lemma text_append_nil s : (s ++ EmptyString)%string = s.
Proof. induction s as [|c s IH]; [reflexivity|]. cbn [String.append]. by rewrite IH. Qed.

Lemma aDecimalToInt_digits ds c rest :
  Forall (fun d => 0 <= d < 10) ds -> isdigit (code c) = false ->
  aDecimalToInt (digits_text ds ++ String c rest)
  = (u16 (digits_value 10 ds), if code c =? 0 then String c rest else rest).
Proof.
  intros Hds Hc. unfold aDecimalToInt, digits_value.
  pose proof (aDecimalToInt_loop_digits ds 0) as Hrun.
  change (u16 0) with 0 in Hrun. rewrite Hrun by assumption.
  cbn [aDecimalToInt_loop]. cbv zeta. unfold isdigit in Hc. by rewrite Hc.
Qed.

Lemma aDecimalToInt_digits_end ds :
  Forall (fun d => 0 <= d < 10) ds ->
  aDecimalToInt (digits_text ds) = (u16 (digits_value 10 ds), EmptyString).
Proof.
  intros Hds. unfold aDecimalToInt, digits_value.
  pose proof (aDecimalToInt_loop_digits ds 0) as Hrun.
  change (u16 0) with 0 in Hrun.
  rewrite <- (text_append_nil (digits_text ds)) at 1.
  by rewrite Hrun.
Qed.

Lemma aHexToInt_digits ds c rest :
  Forall (fun d => 0 <= d < 16) ds -> isxdigit (code c) = false ->
  aHexToInt (digits_text ds ++ String c rest)
  = (u32 (digits_value 16 ds), if code c =? 0 then String c rest else rest).
Proof.
  intros Hds Hc. unfold aHexToInt, digits_value.
  pose proof (aHexToInt_loop_digits ds 0) as Hrun.
  change (u32 0) with 0 in Hrun. rewrite Hrun by assumption.
  cbn [aHexToInt_loop]. cbv zeta. by rewrite Hc.
Qed.

Lemma aHexToInt_digits_end ds :
  Forall (fun d => 0 <= d < 16) ds ->
  aHexToInt (digits_text ds) = (u32 (digits_value 16 ds), EmptyString).
Proof.
  intros Hds. unfold aHexToInt, digits_value.
  pose proof (aHexToInt_loop_digits ds 0) as Hrun.
  change (u32 0) with 0 in Hrun.
  rewrite <- (text_append_nil (digits_text ds)) at 1.
  by rewrite Hrun.
Qed.

(** X1. [aDecimalToInt] on a run of decimal digits (possibly none)
    returns their value reduced modulo 2^16.  When the run is followed by
    a character that is not a digit, the pointer is left after that
    character, unless it is the NUL, at which the pointer stays; when the
    run ends the text, the pointer is left at the end.  A number without
    digits is 0: no error is reported. *)
Theorem aDecimalToInt_number ds c rest :
  Forall (fun d => 0 <= d < 10) ds -> isdigit (code c) = false ->
  aDecimalToInt (digits_text ds ++ String c rest)
  = (u16 (digits_value 10 ds), if code c =? 0 then String c rest else rest) /\
  aDecimalToInt (digits_text ds) = (u16 (digits_value 10 ds), EmptyString).
Proof.
  intros Hds Hc. unfold aDecimalToInt, digits_value.
  pose proof (aDecimalToInt_loop_digits ds 0) as Hrun.
  change (u16 0) with 0 in Hrun. split.
  - rewrite Hrun by assumption.
    cbn [aDecimalToInt_loop]. cbv zeta. unfold isdigit in Hc. by rewrite Hc.
  - rewrite <- (text_append_nil (digits_text ds)) at 1.
    by rewrite Hrun.
Qed.

Lemma aHexToInt_loop_upper s : forall acc,
  fst (aHexToInt_loop acc (upper_text s)) = fst (aHexToInt_loop acc s).
Proof.
  induction s as [|c s IH]; intros acc; [reflexivity|].
  cbn [upper_text aHexToInt_loop]. cbv zeta.
  pose proof (code_range c) as Hc.
  assert (Hu : 0 <= toupper (code c) < 256)
    by (unfold toupper; destruct ((97 <=? code c) && (code c <=? 122)) eqn:E; lia).
  rewrite code_ascii_of_code by exact Hu.
  assert (Hx : isxdigit (toupper (code c)) = isxdigit (code c))
    by (unfold isxdigit, isdigit, toupper;
        destruct ((97 <=? code c) && (code c <=? 122)) eqn:E; lia).
  assert (Hd : isdigit (toupper (code c)) = isdigit (code c))
    by (unfold isdigit, toupper;
        destruct ((97 <=? code c) && (code c <=? 122)) eqn:E; lia).
  assert (Ht : toupper (toupper (code c)) = toupper (code c))
    by (unfold toupper; destruct ((97 <=? code c) && (code c <=? 122)) eqn:E;
        [|by rewrite E];
        assert ((97 <=? code c - 32) && (code c - 32 <=? 122) = false) as -> by lia;
        reflexivity).
  assert (Hdig : isdigit (code c) = true -> toupper (code c) = code c)
    by (unfold isdigit, toupper; intros;
        destruct ((97 <=? code c) && (code c <=? 122)) eqn:E; lia).
  rewrite Hx, Hd, Ht. destruct (isxdigit (code c)); [|reflexivity].
  destruct (isdigit (code c)) eqn:Ed; [rewrite (Hdig eq_refl)|]; apply IH.
Qed.

(** X2. [aHexToInt] on a run of hexadecimal digits (possibly none)
    returns their value reduced modulo 2^32 and leaves the pointer after
    the character that ends the run, or at the NUL; and it reads lower
    case digits as upper case ones. *)
Theorem aHexToInt_number ds c rest :
  Forall (fun d => 0 <= d < 16) ds -> isxdigit (code c) = false ->
  aHexToInt (digits_text ds ++ String c rest)
  = (u32 (digits_value 16 ds), if code c =? 0 then String c rest else rest) /\
  aHexToInt (digits_text ds) = (u32 (digits_value 16 ds), EmptyString) /\
  forall s, fst (aHexToInt (upper_text s)) = fst (aHexToInt s).
Proof.
  intros Hds Hc. unfold aHexToInt, digits_value.
  pose proof (aHexToInt_loop_digits ds 0) as Hrun.
  change (u32 0) with 0 in Hrun. split; [|split].
  - rewrite Hrun by assumption.
    cbn [aHexToInt_loop]. cbv zeta. by rewrite Hc.
  - rewrite <- (text_append_nil (digits_text ds)) at 1.
    by rewrite Hrun.
  - intros s. apply aHexToInt_loop_upper.
Qed.


(** ** Readings in thermometer packets *)

Lemma parseForColon_loop_skip flag prefix s : forall c,
  Forall (fun k => k <> 0 /\ k <> flag) (codes prefix) ->
  0 <= c < 256 -> Z.of_nat (String.length prefix) < c ->
  parseForColon_loop flag (prefix ++ s) c
  = parseForColon_loop flag s (c - Z.of_nat (String.length prefix)).
Proof.
  induction prefix as [|ch prefix IH]; intros c Hp Hc Hlen.
  - cbn [String.append String.length]. f_equal. lia.
  - cbn [codes] in Hp. inversion Hp as [|? ? [H0 Hf] Hp']; subst.
    cbn [String.length] in Hlen.
    cbn [String.append parseForColon_loop].
    assert ((code ch =? 0) = false) as -> by lia.
    assert ((c =? 0) = false) as -> by lia.
    assert ((code ch =? flag) = false) as -> by lia.
    cbn [andb]. rewrite (u8_small (c - 1)) by lia.
    rewrite IH by (assumption || lia).
    f_equal. cbn [String.length]. lia.
Qed.

Lemma parseForColon_loop_missing flag text : forall c,
  Forall (fun k => k <> flag) (codes text) -> parseForColon_loop flag text c = -1.
Proof.
  induction text as [|ch text IH]; intros c Ht; [reflexivity|].
  cbn [codes] in Ht. inversion Ht as [|? ? Hf Ht']; subst.
  cbn [parseForColon_loop].
  assert ((code ch =? flag) = false) as -> by lia.
  cbn [andb]. rewrite IH by assumption. by repeat case_match.
Qed.

Lemma digits_value_nonneg b ds :
  0 <= b -> Forall (fun k => 0 <= k < b) ds -> 0 <= digits_value b ds.
Proof.
  intros Hb Hds. unfold digits_value.
  assert (forall a, 0 <= a -> 0 <= fold_left (fun acc k => acc * b + k) ds a) as Hf.
  { induction Hds as [|k ks Hk _ IH]; intros a Ha; [exact Ha|].
    cbn [fold_left]. apply IH. nia. }
  apply Hf. lia.
Qed.


(** X3. [parseForColon] answers -1 when the packet has no character
    [flag].  When the first [flag] is followed by a colon, an optional
    sign, a whole part and one or more decimals, and it lies within the
    first [len] characters, the answer is the reading times ten with its
    sign: the first decimal is kept and the others are dropped, not
    rounded.  (A reading of -0.1 therefore gives the same answer as a
    missing reading.) *)
Theorem parseForColon_reading flag len :
  (forall text, Forall (fun k => k <> flag) (codes text) ->
     parseForColon flag text len = -1) /\
  (forall prefix neg ds d rest,
     0 < flag < 256 ->
     Forall (fun k => k <> 0 /\ k <> flag) (codes prefix) ->
     Z.of_nat (String.length prefix) < u8 len ->
     Forall (fun k => 0 <= k < 10) ds -> (neg = None -> ds <> []) ->
     0 <= d < 10 -> digits_value 10 ds * 10 + d < 32768 ->
     parseForColon flag (reading_text prefix flag neg ds d rest) len
     = sign_factor neg * (digits_value 10 ds * 10 + d)).
Proof.
  split; [intros; by apply parseForColon_loop_missing|].
  intros prefix neg ds d rest Hflag Hp Hlen Hds Hneg Hd Hv.
  pose proof (digits_value_nonneg 10 ds ltac:(lia) Hds) as Hnn.
  pose proof (u8_range len) as Hu.
  unfold parseForColon, reading_text.
  rewrite parseForColon_loop_skip by (assumption || lia).
  cbn [parseForColon_loop String.append]. rewrite code_ascii_of_code by lia.
  assert ((flag =? 0) = false) as -> by lia.
  assert ((u8 len - Z.of_nat (String.length prefix) =? 0) = false) as -> by lia.
  rewrite Z.eqb_refl. cbn [peek next]. change (code ":" =? 58) with true. cbn [andb].
  assert (Hparse : forall tail,
            aDecimalToInt (digits_text ds ++ String "." (String (hex_digit d) tail))
            = (digits_value 10 ds, String (hex_digit d) tail)).
  { intros tail.
    rewrite (aDecimalToInt_digits ds "." _ Hds eq_refl).
    rewrite u16_small by lia. reflexivity. }
  assert (Hfirst : ds <> [] ->
            forall tail, (peek (digits_text ds ++ tail) =? 45) = false /\
                         (peek (digits_text ds ++ tail) =? 43) = false).
  { intros Hne tail. destruct ds as [|k ks]; [congruence|].
    inversion Hds as [|? ? Hk _]; subst.
    cbn [digits_text String.append peek]. rewrite dec_digit_code by exact Hk. lia. }
  assert (Hval : i16 (i16 (u16 (digits_value 10 ds * 10)) + (48 + d - 48))
                 = digits_value 10 ds * 10 + d).
  { rewrite u16_small by lia. rewrite (i16_small (digits_value 10 ds * 10)) by lia.
    rewrite i16_small by lia. lia. }
  destruct neg as [[|]|]; cbn [sign_text sign_factor String.append peek next].
  - change (code "-" =? 45) with true. cbn [orb next].
    rewrite Hparse. cbv beta iota zeta. cbn [peek]. rewrite !dec_digit_code by exact Hd.
    assert (isdigit (48 + d) = true) as -> by (unfold isdigit; lia).
    rewrite Hval. rewrite i16_small by lia. lia.
  - change (code "+" =? 45) with false. change (code "+" =? 43) with true.
    cbn [orb next]. rewrite Hparse. cbv beta iota zeta. cbn [peek]. rewrite !dec_digit_code by exact Hd.
    assert (isdigit (48 + d) = true) as -> by (unfold isdigit; lia).
    rewrite Hval. lia.
  - destruct (Hfirst (Hneg eq_refl) (String "." (String (hex_digit d) rest))) as [-> ->].
    cbn [orb]. rewrite Hparse. cbv beta iota zeta. cbn [peek]. rewrite !dec_digit_code by exact Hd.
    assert (isdigit (48 + d) = true) as -> by (unfold isdigit; lia).
    rewrite Hval. lia.
Qed.


(** ** The output arbiter *)

Lemma testbit_OUTPUT_SIGNAL_MASK n :
  Z.testbit OUTPUT_SIGNAL_MASK n = (1 <=? n) && (n <=? 7).
Proof.
  destruct (Z.ltb_spec n 0) as [Hneg|Hnn].
  { rewrite Z.testbit_neg_r by lia. lia. }
  destruct (Z.ltb_spec 7 n) as [Hhi|Hlo].
  { rewrite Z.bits_above_log2; [lia | by cbn | change (Z.log2 OUTPUT_SIGNAL_MASK) with 7; lia]. }
  assert (n = 0 \/ n = 1 \/ n = 2 \/ n = 3 \/ n = 4 \/ n = 5 \/ n = 6 \/ n = 7)
    as [->|[->|[->|[->|[->|[->|[->| ->]]]]]]] by lia; reflexivity.
Qed.

Lemma testbit_one n : Z.testbit 1 n = (n =? 0).
Proof.
  destruct (Z.ltb_spec n 0) as [Hneg|Hnn].
  { rewrite Z.testbit_neg_r by lia. lia. }
  destruct (Z.eqb_spec n 0) as [->|Hne]; [reflexivity|].
  apply Z.bits_above_log2; [lia | change (Z.log2 1) with 0; lia].
Qed.

(** The bits of the requested mask that survive the two holds. *)
Lemma testbit_held mask st n :
  let cm := getCompressorMask st in
  let request := arbitrated_request mask st in
  forall active : bool,
    Z.testbit (if active then Z.land request (Z.lnot cm) else request) n = true ->
    Z.testbit mask n = true /\ 1 <= n <= 7.
Proof.
  cbv zeta. intros active H.
  assert (Hreq : Z.testbit (arbitrated_request mask st) n = true).
  { destruct active; [|exact H]. rewrite Z.land_spec in H. by apply andb_true_iff in H as [H _]. }
  unfold arbitrated_request in Hreq. cbv zeta in Hreq.
  assert (Hlegal : Z.testbit (Z.land mask OUTPUT_SIGNAL_MASK) n = true).
  { destruct (HeatSafetyOffTimeActive (sketch st)); [|exact Hreq].
    rewrite Z.land_spec in Hreq. by apply andb_true_iff in Hreq as [Hreq _]. }
  rewrite Z.land_spec, testbit_OUTPUT_SIGNAL_MASK in Hlegal.
  apply andb_true_iff in Hlegal as [Hm Hn]. split; [exact Hm | lia].
Qed.

Lemma UpdateOutputs_output_bit mask st n :
  Z.testbit (OutputRegister (sketch (UpdateOutputs mask st))) n = true ->
  n = 0 \/ (1 <= n <= 7 /\ Z.testbit mask n = true).
Proof.
  rewrite UpdateOutputs_unfold. cbv zeta.
  cbn [sketch set_sketch OutputRegister]. change (bit BN_W_FAILSAFE) with 1.
  match goal with
  | |- context [if ?b then Z.lor ?h 1 else _] => destruct b
  end; intros H.
  - rewrite Z.lor_spec, testbit_one in H. apply orb_true_iff in H as [H | H]; [|lia].
    right. apply testbit_held in H. tauto.
  - right. apply testbit_held in H. tauto.
Qed.

(** X4. Whatever mask is requested and whatever the state, a signal
    output is written as on only if the request has it on: the holds only
    take bits away.  Bit 0, the failsafe relay on W, is the arbiter's
    own; it is the only bit written that is not an output signal of the
    request. *)
Theorem UpdateOutputs_writes_requested_signals mask st n :
  Z.testbit (OutputRegister (sketch (UpdateOutputs mask st))) n = true ->
  n = 0 \/ (1 <= n <= 7 /\ Z.testbit mask n = true).
Proof.
  rewrite UpdateOutputs_unfold. cbv zeta.
  cbn [sketch set_sketch OutputRegister]. change (bit BN_W_FAILSAFE) with 1.
  match goal with
  | |- context [if ?b then Z.lor ?h 1 else _] => destruct b
  end; intros H.
  - rewrite Z.lor_spec, testbit_one in H. apply orb_true_iff in H as [H | H]; [|lia].
    right. apply testbit_held in H. tauto.
  - right. apply testbit_held in H. tauto.
Qed.


Lemma testbit_held_bit0 mask st (active : bool) :
  Z.testbit (if active
             then Z.land (arbitrated_request mask st) (Z.lnot (getCompressorMask st))
             else arbitrated_request mask st) 0 = false.
Proof.
  destruct (Z.testbit _ 0) eqn:E; [|reflexivity].
  pose proof (testbit_held mask st 0 active E). lia.
Qed.

(** X5. The failsafe relay on W.  While the relay has been on for less
    than a minute, every output update writes it as on and leaves its
    timer alone, whatever the request.  And whenever an output update
    writes the relay as off, the W output that is written equals the W
    input: the relay is pulled before the two can differ. *)
Theorem UpdateOutputs_failsafe_relay mask st :
  let st' := UpdateOutputs mask st in
  (relayIsOn (sketch st) = true ->
   u32 (millis st - onAtTime (sketch st)) < MINIMUM_ON_MSEC ->
   Z.testbit (OutputRegister (sketch st')) BN_W_FAILSAFE = true /\
   relayIsOn (sketch st') = true /\ onAtTime (sketch st') = onAtTime (sketch st)) /\
  (Z.testbit (OutputRegister (sketch st')) BN_W_FAILSAFE = false ->
   Z.testbit (OutputRegister (sketch st')) BN_W
   = Z.testbit (InputRegister (sketch st)) BN_W) /\
  (Z.testbit (OutputRegister (sketch st')) BN_W_FAILSAFE = true ->
   relayIsOn (sketch st') = true /\
   u32 (millis st - onAtTime (sketch st')) < MINIMUM_ON_MSEC).
Proof.
  cbv zeta. rewrite UpdateOutputs_unfold. cbv zeta.
  cbn [sketch set_sketch OutputRegister relayIsOn onAtTime].
  change (bit BN_W_FAILSAFE) with 1. change (bit BN_W) with 8.
  change BN_W_FAILSAFE with 0. change BN_W with 3.
  set (held := if _ || _ then Z.land _ _ else arbitrated_request mask st).
  assert (H0 : Z.testbit held 0 = false) by apply testbit_held_bit0.
  set (kept := relayIsOn (sketch st)
               && (u32 (millis st - onAtTime (sketch st)) <? MINIMUM_ON_MSEC)).
  split; [|split].
  - intros Hon Hrecent.
    assert (kept = true) as -> by (subst kept; rewrite Hon; cbn [andb]; lia).
    cbn [orb negb andb]. rewrite Z.lor_spec, orb_true_r, Hon. by repeat split.
  - destruct kept; cbn [orb negb andb].
    { rewrite Z.lor_spec, orb_true_r. discriminate. }
    destruct (Z.lxor (Z.land held 8) (Z.land (InputRegister (sketch st)) 8) =? 0) eqn:E;
      cbn [negb].
    + intros _. apply Z.eqb_eq, Z.lxor_eq in E.
      apply (f_equal (fun z => Z.testbit z 3)) in E.
      rewrite !Z.land_spec in E. change (Z.testbit 8 3) with true in E.
      by rewrite !andb_true_r in E.
    + rewrite Z.lor_spec, orb_true_r. discriminate.
  - destruct kept eqn:Ek; cbn [orb negb andb].
    { intros _. subst kept. apply andb_true_iff in Ek as [-> Hk]. split; [reflexivity | lia]. }
    destruct (Z.lxor (Z.land held 8) (Z.land (InputRegister (sketch st)) 8) =? 0);
      cbn [negb].
    + rewrite H0. discriminate.
    + intros _. rewrite orb_true_r, Z.sub_diag. split; [reflexivity | by cbn].
Qed.


Lemma arbitrated_request_UpdateOutputs m mask st :
  arbitrated_request m (UpdateOutputs mask st) = arbitrated_request m st.
Proof.
  unfold arbitrated_request. cbv zeta.
  pose proof (UpdateOutputs_steps mask st) as (_ & _ & _ & -> & -> & _). reflexivity.
Qed.

(** X6. Writing the same request twice in a row is the same as writing
    it once, and so is [SetOutputBits()] (which writes the last request
    again) straight after an output update, provided the compressor
    bit-group does not contain the relay bit 0. *)
Theorem UpdateOutputs_idempotent mask st :
  compressor_group_is_signals st ->
  UpdateOutputs mask (UpdateOutputs mask st) = UpdateOutputs mask st /\
  SetOutputBits 0 (UpdateOutputs mask st) = UpdateOutputs mask st.
Proof.
  intros Hg. unfold compressor_group_is_signals in Hg.
  change (bit BN_W_FAILSAFE) with 1 in Hg.
  assert (Hsame : forall m,
            Z.land m OUTPUT_SIGNAL_MASK = Z.land mask OUTPUT_SIGNAL_MASK ->
            UpdateOutputs m (UpdateOutputs mask st) = UpdateOutputs mask st).
  { intros m Hm.
    rewrite (UpdateOutputs_unfold m (UpdateOutputs mask st)). cbv zeta.
    rewrite getCompressorMask_UpdateOutputs, arbitrated_request_UpdateOutputs.
    assert (Hreq : arbitrated_request m st = arbitrated_request mask st)
      by (unfold arbitrated_request; cbv zeta; by rewrite Hm).
    rewrite Hreq, Hm. unfold millis. rewrite UpdateOutputs_clock.
    rewrite (UpdateOutputs_unfold mask st). cbv zeta.
    set (cm := getCompressorMask st) in *.
    set (request := arbitrated_request mask st).
    unfold millis.
    destruct st as [e c tr k h ty mo nm mp se co au r].
    cbn [sketch set_sketch clock OutputRegister CompressorOffTimeActive relayIsOn onAtTime
         InputRegister InputsToHvacFlag CompressorOffStartTime HeatSafetyOffStartTime
         HeatSafetyShutoffMask HeatSafetyOffTimeActive TinletTemperatureCx10
         displayLcdFarenheit LastOutputWrite].
    change (bit BN_W_FAILSAFE) with 1.
    assert (Hbits : forall (b : bool) held,
              Z.land (if b then Z.lor held 1 else held) cm = Z.land held cm)
      by (intros [] held; [by apply land_lor_bit0 | reflexivity]).
    destruct (CompressorOffTimeActive k);
      destruct (Z.land (OutputRegister k) cm =? 0);
      destruct (Z.land request cm =? 0) eqn:Eoff;
      cbn [negb andb orb];
      rewrite ?Hbits, ?land_lnot_same, ?Eoff; change (0 =? 0) with true;
      cbn [negb andb orb];
      destruct (relayIsOn k);
      destruct (u32 (c - onAtTime k) <? MINIMUM_ON_MSEC) eqn:Erecent;
      cbn [negb andb orb]; rewrite ?Erecent; cbn [negb andb orb];
      try reflexivity;
      match goal with
      | |- context [Z.lxor ?a ?b =? 0] => destruct (Z.lxor a b =? 0) eqn:Emis
      end;
      cbn [negb andb orb]; rewrite ?Erecent, ?Z.sub_diag, ?Emis;
      change (u32 0 <? MINIMUM_ON_MSEC) with true;
      cbn [negb andb orb]; rewrite ?Emis; reflexivity. }
  split; [by apply Hsame|].
  unfold SetOutputBits. apply Hsame.
  pose proof (UpdateOutputs_steps mask st) as (-> & _).
  apply Z.bits_inj'. intros n Hn.
  rewrite !Z.land_spec, Z.lor_spec, Z.land_spec. cbn [Z.testbit orb].
  rewrite Z.testbit_0_l. cbn [orb]. by rewrite <- andb_assoc, andb_diag.
Qed.


Lemma land_OUTPUT_SIGNAL_MASK_relay held (b : bool) :
  Z.land (if b then Z.lor held (bit BN_W_FAILSAFE) else held) OUTPUT_SIGNAL_MASK
  = Z.land held OUTPUT_SIGNAL_MASK.
Proof.
  destruct b; [|reflexivity]. change (bit BN_W_FAILSAFE) with 1.
  by apply land_lor_bit0.
Qed.

Lemma UpdateOutputs_unconfigured mask st :
  safety_unconfigured st ->
  safety_unconfigured (UpdateOutputs mask st) /\
  Z.land (OutputRegister (sketch (UpdateOutputs mask st))) OUTPUT_SIGNAL_MASK
  = Z.land mask OUTPUT_SIGNAL_MASK.
Proof.
  intros (Hcm & Hhs & Hc & Hh).
  assert (Hmask : getCompressorMask st = 0)
    by (unfold getCompressorMask; rewrite Hcm; reflexivity).
  pose proof (UpdateOutputs_steps mask st) as (_ & Ha & _ & Hb & _).
  cbv zeta in Ha. rewrite Hc, Hmask, Z.land_0_r in Ha.
  cbn [negb andb orb] in Ha. change (0 =? 0) with true in Ha.
  cbn [negb andb orb] in Ha.
  split.
  - unfold safety_unconfigured, getHeatSafetyHoldSeconds.
    rewrite UpdateOutputs_EEPROM, Ha, Hb. by repeat split.
  - rewrite UpdateOutputs_unfold. cbv zeta.
    cbn [sketch set_sketch OutputRegister].
    rewrite land_OUTPUT_SIGNAL_MASK_relay, Hc, Hmask, Z.land_0_r.
    cbn [negb andb orb]. change (0 =? 0) with true. cbn [negb andb orb].
    unfold arbitrated_request. cbv zeta. rewrite Hh.
    by rewrite <- Z.land_assoc, Z.land_diag.
Qed.

(** X7. With safety settings that were never written (an erased
    compressor mask and heat-safety hold time) and no hold running, no
    hold ever starts: output updates write the output signals exactly as
    requested and the two safety blocks of [loop] do nothing; the
    condition is kept by all three. *)
Theorem unconfigured_safety_never_holds mask now st :
  safety_unconfigured st ->
  (safety_unconfigured (UpdateOutputs mask st) /\
   Z.land (OutputRegister (sketch (UpdateOutputs mask st))) OUTPUT_SIGNAL_MASK
   = Z.land mask OUTPUT_SIGNAL_MASK) /\
  loop_compressor_hold now st = st /\
  loop_heat_safety now st = st.
Proof.
  intros Hsafe. split; [by apply UpdateOutputs_unconfigured|].
  destruct Hsafe as (Hcm & Hhs & Hc & Hh). split.
  - unfold loop_compressor_hold. by rewrite Hc.
  - unfold loop_heat_safety. rewrite Hh. cbv zeta. rewrite Hh. cbn [negb].
    rewrite Hhs. reflexivity.
Qed.

(** X8. The pass-through mode requests the six signal inputs as outputs:
    the request is the input register without the R bit, the output X3
    is never written as on, and a signal output is written as on only if
    its input is on.  With safety settings that were never written, each
    of the six signal outputs is written as its input is. *)
Theorem PassThrough_copies_inputs inputs previous st :
  let st' := OnInputsChanged HVAC_PASSTHROUGH inputs previous st in
  LastOutputWrite (sketch st')
  = Z.land inputs (Z.land INPUT_SIGNAL_MASK OUTPUT_SIGNAL_MASK) /\
  (forall n, Z.testbit (OutputRegister (sketch st')) n = true ->
     n = BN_W_FAILSAFE \/
     (BN_FIRST_SIGNAL <= n <= BN_LAST_SIGNAL /\ Z.testbit inputs n = true)) /\
  (safety_unconfigured st ->
   forall n, BN_FIRST_SIGNAL <= n <= BN_LAST_SIGNAL ->
     Z.testbit (OutputRegister (sketch st')) n = Z.testbit inputs n).
Proof.
  cbv zeta. unfold OnInputsChanged. cbv zeta.
  change BN_W_FAILSAFE with 0. change BN_FIRST_SIGNAL with 1. change BN_LAST_SIGNAL with 6.
  assert (Hin : forall n, Z.testbit (Z.land INPUT_SIGNAL_MASK inputs) n = true ->
                          n <= 6 /\ Z.testbit inputs n = true).
  { intros n H. rewrite Z.land_spec in H. apply andb_true_iff in H as [Hm Hi].
    split; [|exact Hi].
    destruct (Z.ltb_spec 6 n) as [Hhi|]; [|lia].
    rewrite Z.bits_above_log2 in Hm; [discriminate | by cbn |].
    change (Z.log2 INPUT_SIGNAL_MASK) with 6. lia. }
  split; [|split].
  - pose proof (UpdateOutputs_steps (Z.land INPUT_SIGNAL_MASK inputs) st) as (-> & _).
    rewrite (Z.land_comm INPUT_SIGNAL_MASK inputs). by rewrite Z.land_assoc.
  - intros n H. apply UpdateOutputs_output_bit in H as [-> | [Hn Hb]];
      [by left|].
    right. apply Hin in Hb. split; [lia | tauto].
  - intros Hsafe n Hn.
    destruct (UpdateOutputs_unconfigured (Z.land INPUT_SIGNAL_MASK inputs) st Hsafe)
      as (_ & Hout).
    apply (f_equal (fun z => Z.testbit z n)) in Hout.
    rewrite !Z.land_spec, testbit_OUTPUT_SIGNAL_MASK in Hout.
    assert ((1 <=? n) && (n <=? 7) = true) as Hr by lia. rewrite Hr, !andb_true_r in Hout.
    rewrite Hout.
    assert (Z.testbit INPUT_SIGNAL_MASK n = true) as ->; [|reflexivity].
    assert (n = 1 \/ n = 2 \/ n = 3 \/ n = 4 \/ n = 5 \/ n = 6)
      as [->|[->|[->|[->|[->| ->]]]]] by lia; reflexivity.
Qed.


(** ** Keywords in command texts *)

Lemma codes_app s t : codes (s ++ t) = codes s ++ codes t.
Proof. induction s as [|c s IH]; [reflexivity|]. cbn [String.append codes app]. by rewrite IH. Qed.

Lemma codes_digits_text ds :
  Forall (fun d => 0 <= d < 16) ds ->
  Forall (fun k => 48 <= k <= 70) (codes (digits_text ds)).
Proof.
  induction 1 as [|d ds Hd _ IH]; [constructor|].
  cbn [digits_text codes]. constructor; [by apply hex_digit_code_range | exact IH].
Qed.

Lemma starts_with_codes needle : forall hay,
  starts_with needle hay = true -> forall k, k ∈ codes needle -> k ∈ codes hay.
Proof.
  induction needle as [|a n IH]; intros hay H k Hk; [by apply elem_of_nil in Hk|].
  destruct hay as [|b h]; [discriminate|].
  cbn [starts_with] in H. apply andb_true_iff in H as [Hab Hn].
  cbn [codes] in *. apply elem_of_cons in Hk as [-> | Hk].
  - apply elem_of_cons. left. lia.
  - apply elem_of_cons. right. by apply (IH h).
Qed.

(** A keyword with a character that the text does not have is not found. *)
Lemma strstr_absent hay needle k :
  k ∈ codes needle -> k ∉ codes hay -> strstr hay needle = None.
Proof.
  intros Hk. induction hay as [|c h IH]; intros Hh.
  - cbn [strstr]. destruct (starts_with needle "") eqn:E; [|reflexivity].
    exfalso. apply Hh. by apply (starts_with_codes needle "" E).
  - cbn [strstr]. destruct (starts_with needle (String c h)) eqn:E.
    + exfalso. apply Hh. by apply (starts_with_codes needle _ E).
    + destruct (code c =? 0); [reflexivity|]. apply IH.
      intros Hin. apply Hh. cbn [codes]. apply elem_of_cons. by right.
Qed.

Lemma after_keyword_absent hay needle k :
  k ∈ codes needle -> k ∉ codes hay -> after_keyword hay needle = None.
Proof. intros. unfold after_keyword. by erewrite strstr_absent. Qed.

Lemma skip_spaces_digits ds tail :
  Forall (fun d => 0 <= d < 16) ds -> ds <> [] ->
  skip_spaces (digits_text ds ++ tail) = (digits_text ds ++ tail)%string.
Proof.
  intros Hds Hne. destruct ds as [|d ds]; [congruence|].
  inversion Hds as [|? ? Hd _]; subst.
  cbn [digits_text String.append skip_spaces].
  pose proof (hex_digit_code_range d Hd).
  assert (isspace (code (hex_digit d)) = false) as -> by (unfold isspace; lia).
  reflexivity.
Qed.

(** ** The safety settings of the sketch *)

Lemma le_combine_split_u16 s : le_combine (le_split 2 s) = u16 s.
Proof. unfold u16. cbn [le_split le_combine]. Z.div_mod_to_equations. lia. Qed.

Lemma i16_u16 s : i16 (u16 s) = i16 s.
Proof. unfold i16, u16. Z.div_mod_to_equations. lia. Qed.

Lemma EEPROM_get_put_bytes a bytes e :
  byte_values bytes -> EEPROM_get a (length bytes) (EEPROM_put a bytes e) = bytes.
Proof. intros. by apply EEPROM_get_put_here. Qed.


Lemma COMPRESSOR_MASK_layout :
  COMPRESSOR_HOLD_SECONDS = COMPRESSOR_MASK + 1 /\
  HEATSAFETY_HOLD_SECONDS = COMPRESSOR_MASK + 3 /\
  HEATSAFETY_TRIGGER_TEMPERATURECx10 = COMPRESSOR_MASK + 5 /\
  HEATSAFETY_MAP = COMPRESSOR_MASK + 7 /\
  SCHEDULE_TEMPERATURE_ENTRIES = COMPRESSOR_MASK + 16.
Proof.
  unfold SCHEDULE_TEMPERATURE_ENTRIES, HEATSAFETY_MAP, HEATSAFETY_TRIGGER_TEMPERATURECx10,
    HEATSAFETY_HOLD_SECONDS, COMPRESSOR_HOLD_SECONDS, NUM_HEAT_SAFETY_ENTRIES,
    sizeof_HeatSafetyMask_t.
  repeat split; lia.
Qed.

Ltac safety_cells :=
  destruct COMPRESSOR_MASK_layout as (Lch & Lhh & Lht & Lhm & Lse);
  unfold safety_settings, only_safety_cells_differ, getCompressorMask,
    getCompressorHoldSeconds, getHeatSafetyHoldSeconds, getHeatSafetyTemperatureCx10,
    getHeatSafetyMask, setCompressorMask, setCompressorHoldSeconds,
    setHeatSafetyHoldSeconds, setHeatSafetyTemperatureX10, setHeatSafetyMask;
  change (0 <? NUM_HEAT_SAFETY_ENTRIES) with true;
  change (1 <? NUM_HEAT_SAFETY_ENTRIES) with true;
  change (2 <? NUM_HEAT_SAFETY_ENTRIES) with true;
  change sizeof_HeatSafetyMask_t with 3;
  cbv beta iota zeta;
  cbn [EEPROM set_EEPROM EEPROM_get EEPROM_put le_split];
  rewrite Lch, Lhh, Lht, Lhm in *.

Lemma EEPROM_read_write_same e a b v :
  a = b -> EEPROM_read (EEPROM_write a v e) b = u8 v.
Proof. intros ->. apply EEPROM_read_write_eq. Qed.

Ltac cell :=
  repeat first
    [ rewrite EEPROM_read_write_same by lia
    | rewrite EEPROM_read_write_ne by lia ].

(** What the two setters of the compressor settings store. *)
Lemma compressor_settings_stored mask seconds st :
  let st' := setCompressorHoldSeconds seconds (setCompressorMask mask st) in
  only_safety_cells_differ st st' /\
  safety_settings st'
  = (if u8 mask =? 255 then 0 else u8 mask, u16 seconds,
     getHeatSafetyHoldSeconds st, getHeatSafetyTemperatureCx10 st,
     (getHeatSafetyMask 0 st, getHeatSafetyMask 1 st, getHeatSafetyMask 2 st)).
Proof.
  cbv zeta. safety_cells. split; [split|].
  - by destruct st.
  - intros a Ha. rewrite Lse in Ha. cell. reflexivity.
  - cell. cbn [le_combine].
    repeat f_equal. unfold u8, u16. Z.div_mod_to_equations. lia.
Qed.


Lemma heat_safety_temperature_stored t st :
  let st' := setHeatSafetyTemperatureX10 t st in
  only_safety_cells_differ st st' /\
  safety_settings st'
  = (getCompressorMask st, getCompressorHoldSeconds st, getHeatSafetyHoldSeconds st,
     i16 t, (getHeatSafetyMask 0 st, getHeatSafetyMask 1 st, getHeatSafetyMask 2 st)).
Proof.
  cbv zeta. safety_cells. split; [split|].
  - by destruct st.
  - intros a Ha. rewrite Lse in Ha. cell. reflexivity.
  - cell. cbn [le_combine]. rewrite <- (i16_u16 t).
    repeat f_equal. unfold u8, u16. Z.div_mod_to_equations. lia.
Qed.

Lemma heat_safety_hold_stored t st :
  let st' := setHeatSafetyHoldSeconds t st in
  only_safety_cells_differ st st' /\
  safety_settings st'
  = (getCompressorMask st, getCompressorHoldSeconds st, u16 t,
     getHeatSafetyTemperatureCx10 st,
     (getHeatSafetyMask 0 st, getHeatSafetyMask 1 st, getHeatSafetyMask 2 st)).
Proof.
  cbv zeta. safety_cells. split; [split|].
  - by destruct st.
  - intros a Ha. rewrite Lse in Ha. cell. reflexivity.
  - cell. cbn [le_combine].
    repeat f_equal. unfold u8, u16. Z.div_mod_to_equations. lia.
Qed.

Lemma heat_safety_mask_stored which m st :
  0 <= which < 3 ->
  let st' := setHeatSafetyMask which m st in
  let stored := {| dontCareMask := u8 (dontCareMask m);
                   mustMatchMask := u8 (mustMatchMask m);
                   toClear := u8 (toClear m) |} in
  only_safety_cells_differ st st' /\
  safety_settings st'
  = (getCompressorMask st, getCompressorHoldSeconds st, getHeatSafetyHoldSeconds st,
     getHeatSafetyTemperatureCx10 st,
     (if which =? 0 then stored else getHeatSafetyMask 0 st,
      if which =? 1 then stored else getHeatSafetyMask 1 st,
      if which =? 2 then stored else getHeatSafetyMask 2 st)).
Proof.
  intros Hw. cbv zeta.
  assert (which = 0 \/ which = 1 \/ which = 2) as [-> | [-> | ->]] by lia;
    safety_cells; (split; [split|]);
    [ by destruct st | intros a Ha; rewrite Lse in Ha; cell; reflexivity
    | cell; cbn [Z.eqb Pos.eqb]; repeat f_equal; lia
    | by destruct st | intros a Ha; rewrite Lse in Ha; cell; reflexivity
    | cell; cbn [Z.eqb Pos.eqb]; repeat f_equal; lia
    | by destruct st | intros a Ha; rewrite Lse in Ha; cell; reflexivity
    | cell; cbn [Z.eqb Pos.eqb]; repeat f_equal; lia ].
Qed.


(** X9. The command [COMPRESSOR=0x<mask> <seconds>] of the sketch stores
    the low byte of the hexadecimal mask and the seconds modulo 2^16, and
    the getters give them back, except that a mask of FF reads back as 0
    (no compressor bits); the heat-safety settings and all EEPROM cells
    outside of the safety settings stay as they were, and nothing but the
    EEPROM changes.  Without the seconds the command is refused and
    nothing is stored. *)
Theorem COMPRESSOR_command_stores ms ss len st :
  Forall (fun d => 0 <= d < 16) ms -> Forall (fun d => 0 <= d < 10) ss -> ss <> [] ->
  let cmd := ("COMPRESSOR=0x" ++ digits_text ms ++ " " ++ digits_text ss)%string in
  let st' := snd (ProcessCommand cmd len st) in
  fst (ProcessCommand cmd len st) = true /\
  only_safety_cells_differ st st' /\
  safety_settings st'
  = (if u8 (digits_value 16 ms) =? 255 then 0 else u8 (digits_value 16 ms),
     u16 (digits_value 10 ss),
     getHeatSafetyHoldSeconds st, getHeatSafetyTemperatureCx10 st,
     (getHeatSafetyMask 0 st, getHeatSafetyMask 1 st, getHeatSafetyMask 2 st)) /\
  ProcessCommand ("COMPRESSOR=0x" ++ digits_text ms) len st = (false, st).
Proof.
  intros Hms Hss Hne. cbv zeta.
  assert (Hkey : forall tail,
            ProcessCommand ("COMPRESSOR=0x" ++ tail) len st
            = let '(mask, q) := aHexToInt tail in
              if peek q =? 0 then (false, st)
              else let '(seconds, q) := aDecimalToInt q in
                   (true, setCompressorHoldSeconds seconds (setCompressorMask (u8 mask) st)))
    by (intros tail; reflexivity).
  rewrite !Hkey. clear Hkey. cbn [String.append].
  rewrite (aHexToInt_digits ms " " _ Hms eq_refl), (aHexToInt_digits_end ms Hms).
  change (code " " =? 0) with false. cbv beta iota zeta.
  assert (Hpeek : (peek (digits_text ss) =? 0) = false).
  { destruct ss as [|d ds]; [congruence|]. inversion Hss as [|? ? Hd _]; subst.
    cbn [digits_text peek]. rewrite dec_digit_code by exact Hd. lia. }
  rewrite Hpeek, (aDecimalToInt_digits_end ss Hss). cbn [fst snd peek].
  change (0 =? 0) with true. cbv iota.
  pose proof (compressor_settings_stored (u8 (u32 (digits_value 16 ms)))
                (u16 (digits_value 10 ss)) st) as [Hcells Hset].
  cbv zeta in Hcells, Hset.
  assert (Hu : u8 (u8 (u32 (digits_value 16 ms))) = u8 (digits_value 16 ms))
    by (unfold u8, u32; Z.div_mod_to_equations; lia).
  assert (Hv : u16 (u16 (digits_value 10 ss)) = u16 (digits_value 10 ss))
    by (unfold u16; Z.div_mod_to_equations; lia).
  rewrite Hu, Hv in Hset.
  split; [reflexivity|]. split; [exact Hcells|]. split; [exact Hset | reflexivity].
Qed.


Lemma dec_digits_are_hex ds :
  Forall (fun d => 0 <= d < 10) ds -> Forall (fun d => 0 <= d < 16) ds.
Proof. intros H. eapply Forall_impl; [exact H|]. intros d Hd. cbv beta in Hd. lia. Qed.

Lemma skip_spaces_digits_end ds :
  Forall (fun d => 0 <= d < 16) ds -> skip_spaces (digits_text ds) = digits_text ds.
Proof.
  intros Hds. destruct ds as [|d ds]; [reflexivity|].
  inversion Hds as [|? ? Hd _]; subst.
  cbn [digits_text skip_spaces].
  pose proof (hex_digit_code_range d Hd).
  assert (isspace (code (hex_digit d)) = false) as -> by (unfold isspace; lia).
  reflexivity.
Qed.

Lemma digits_without k ds :
  Forall (fun d => 0 <= d < 16) ds -> ~ 48 <= k <= 70 -> k ∉ codes (digits_text ds).
Proof.
  intros Hds Hk Hin. apply codes_digits_text in Hds.
  rewrite Forall_forall in Hds. apply Hds in Hin. lia.
Qed.

(** The decisions of the sketch on a command that starts with [HS] and
    has no letter O. *)
Lemma ProcessCommand_HS tail len st :
  79 ∉ codes tail ->
  ProcessCommand ("HS" ++ tail) len st
  = let q := skip_spaces tail in
    let c := peek q in
    let q := next q in
    if negb (c =? 0) then
      let q := skip_spaces q in
      if c =? 67 then (true, setHeatSafetyTemperatureX10 (fst (aDecimalToInt q)) st)
      else if c =? 84 then (true, setHeatSafetyHoldSeconds (fst (aDecimalToInt q)) st)
      else if (c =? 49) || (c =? 50) || (c =? 51) then
        let which := c - 49 in
        let '(dc, q) := aHexToInt q in
        let '(mm, q) := if negb (peek q =? 0) then aHexToInt q else (0, q) in
        let '(tc, q) := if negb (peek q =? 0) then aHexToInt q else (0, q) in
        (true, setHeatSafetyMask which
                 {| dontCareMask := u8 dc; mustMatchMask := u8 mm; toClear := u8 tc |} st)
      else (false, st)
    else (false, st).
Proof.
  intros Habsent. unfold ProcessCommand.
  rewrite (after_keyword_absent ("HS" ++ tail) "COMPRESSOR=0x" 79).
  - reflexivity.
  - cbn [codes]. change (code "O") with 79. repeat constructor.
  - cbn [String.append codes]. change (code "H") with 72. change (code "S") with 83.
    rewrite !not_elem_of_cons. by repeat split.
Qed.


Lemma peek_digits_tail ds c rest :
  Forall (fun d => 0 <= d < 16) ds -> code c <> 0 ->
  (peek (digits_text ds ++ String c rest) =? 0) = false.
Proof.
  intros Hds Hc. destruct ds as [|d ds]; cbn [digits_text String.append peek]; [lia|].
  inversion Hds as [|? ? Hd _]; subst. pose proof (hex_digit_code_range d Hd). lia.
Qed.

Lemma u8_u8_u32 v : u8 (u8 (u32 v)) = u8 v.
Proof. unfold u8, u32. Z.div_mod_to_equations. lia. Qed.

(** X10. The heat-safety commands of the sketch.  [HS C <n>] stores the
    trigger temperature (tenths of a degree, read back as a signed 16-bit
    number), [HS T <n>] the hold time in seconds modulo 2^16, and
    [HS <1|2|3> <dc> <mm> <tc>] the low bytes of the three hexadecimal
    masks of that entry.  Each is accepted, is given back by its getter,
    and leaves the other safety settings, the EEPROM outside of the safety
    settings and everything but the EEPROM as they were. *)
Theorem HS_command_stores len st :
  (forall ds, Forall (fun d => 0 <= d < 10) ds ->
     let result := ProcessCommand ("HS C " ++ digits_text ds) len st in
     fst result = true /\ only_safety_cells_differ st (snd result) /\
     safety_settings (snd result)
     = (getCompressorMask st, getCompressorHoldSeconds st, getHeatSafetyHoldSeconds st,
        i16 (digits_value 10 ds),
        (getHeatSafetyMask 0 st, getHeatSafetyMask 1 st, getHeatSafetyMask 2 st))) /\
  (forall ds, Forall (fun d => 0 <= d < 10) ds ->
     let result := ProcessCommand ("HS T " ++ digits_text ds) len st in
     fst result = true /\ only_safety_cells_differ st (snd result) /\
     safety_settings (snd result)
     = (getCompressorMask st, getCompressorHoldSeconds st, u16 (digits_value 10 ds),
        getHeatSafetyTemperatureCx10 st,
        (getHeatSafetyMask 0 st, getHeatSafetyMask 1 st, getHeatSafetyMask 2 st))) /\
  (forall k dc mm tc,
     0 <= k < 3 -> dc <> [] ->
     Forall (fun d => 0 <= d < 16) dc -> Forall (fun d => 0 <= d < 16) mm ->
     Forall (fun d => 0 <= d < 16) tc ->
     let cmd := ("HS " ++ String (hex_digit (1 + k))
                   (" " ++ digits_text dc ++ " " ++ digits_text mm ++ " " ++ digits_text tc))%string in
     let result := ProcessCommand cmd len st in
     let stored := {| dontCareMask := u8 (digits_value 16 dc);
                      mustMatchMask := u8 (digits_value 16 mm);
                      toClear := u8 (digits_value 16 tc) |} in
     fst result = true /\ only_safety_cells_differ st (snd result) /\
     safety_settings (snd result)
     = (getCompressorMask st, getCompressorHoldSeconds st, getHeatSafetyHoldSeconds st,
        getHeatSafetyTemperatureCx10 st,
        (if k =? 0 then stored else getHeatSafetyMask 0 st,
         if k =? 1 then stored else getHeatSafetyMask 1 st,
         if k =? 2 then stored else getHeatSafetyMask 2 st))).
Proof.
  pose proof dec_digits_are_hex as Hdec.
  split; [|split].
  - intros ds Hds. cbv zeta.
    change ("HS C " ++ digits_text ds)%string with ("HS" ++ String " " (String "C" (String " " (digits_text ds))))%string.
    rewrite ProcessCommand_HS.
    2:{ cbn [codes]. rewrite !not_elem_of_cons. repeat split; try discriminate.
        apply digits_without; [by apply Hdec | lia]. }
    cbn [skip_spaces]. change (isspace (code " ")) with true.
    change (isspace (code "C")) with false. cbv iota zeta. cbn [peek next skip_spaces].
    change (isspace (code " ")) with true. cbv iota.
    change (code "C" =? 0) with false. change (code "C" =? 67) with true.
    cbn [negb]. cbv iota.
    rewrite skip_spaces_digits_end by (by apply Hdec).
    rewrite (aDecimalToInt_digits_end ds Hds). cbn [fst snd].
    destruct (heat_safety_temperature_stored (u16 (digits_value 10 ds)) st) as [Hc Hs].
    cbv zeta in Hc, Hs. rewrite i16_u16 in Hs.
    split; [reflexivity|]. split; [exact Hc | exact Hs].
  - intros ds Hds. cbv zeta.
    change ("HS T " ++ digits_text ds)%string with ("HS" ++ String " " (String "T" (String " " (digits_text ds))))%string.
    rewrite ProcessCommand_HS.
    2:{ cbn [codes]. rewrite !not_elem_of_cons. repeat split; try discriminate.
        apply digits_without; [by apply Hdec | lia]. }
    cbn [skip_spaces]. change (isspace (code " ")) with true.
    change (isspace (code "T")) with false. cbv iota zeta. cbn [peek next skip_spaces].
    change (isspace (code " ")) with true. cbv iota.
    change (code "T" =? 0) with false. change (code "T" =? 67) with false.
    change (code "T" =? 84) with true.
    cbn [negb]. cbv iota.
    rewrite skip_spaces_digits_end by (by apply Hdec).
    rewrite (aDecimalToInt_digits_end ds Hds). cbn [fst snd].
    destruct (heat_safety_hold_stored (u16 (digits_value 10 ds)) st) as [Hc Hs].
    cbv zeta in Hc, Hs.
    assert (Hv : u16 (u16 (digits_value 10 ds)) = u16 (digits_value 10 ds))
      by (unfold u16; Z.div_mod_to_equations; lia).
    rewrite Hv in Hs.
    split; [reflexivity|]. split; [exact Hc | exact Hs].
  - intros k dc mm tc Hk Hne Hdc Hmm Htc. cbv zeta.
    pose proof (dec_digit_code (1 + k) ltac:(lia)) as Hcode.
    match goal with
    | |- context [ProcessCommand ?c len st] =>
        change c with ("HS" ++ String " " (String (hex_digit (1 + k))
                         (String " " (digits_text dc ++ String " "
                            (digits_text mm ++ String " " (digits_text tc))))))%string
    end.
    rewrite ProcessCommand_HS.
    2:{ repeat first [ rewrite codes_app | rewrite not_elem_of_cons
                     | rewrite not_elem_of_app | progress cbn [codes] ].
        repeat split; try discriminate; try lia;
          apply digits_without; (assumption || lia). }
    cbn [skip_spaces]. change (isspace (code " ")) with true. cbv iota.
    assert (isspace (code (hex_digit (1 + k))) = false) as ->
      by (rewrite Hcode; unfold isspace; lia).
    cbv zeta. cbn [peek next skip_spaces]. change (isspace (code " ")) with true.
    cbv iota. rewrite Hcode.
    assert ((48 + (1 + k) =? 0) = false) as -> by lia.
    assert ((48 + (1 + k) =? 67) = false) as -> by lia.
    assert ((48 + (1 + k) =? 84) = false) as -> by lia.
    assert ((48 + (1 + k) =? 49) || (48 + (1 + k) =? 50) || (48 + (1 + k) =? 51) = true)
      as -> by lia.
    cbn [negb]. cbv iota.
    rewrite skip_spaces_digits by assumption.
    rewrite (aHexToInt_digits dc " " _ Hdc eq_refl).
    change (code " " =? 0) with false. cbv iota.
    rewrite peek_digits_tail by (assumption || discriminate). cbn [negb]. cbv iota.
    rewrite (aHexToInt_digits mm " " _ Hmm eq_refl).
    change (code " " =? 0) with false. cbv iota.
    assert (Hlast : (if negb (peek (digits_text tc) =? 0)
                     then aHexToInt (digits_text tc) else (0, digits_text tc))
                    = (u32 (digits_value 16 tc), EmptyString)).
    { destruct (peek (digits_text tc) =? 0) eqn:E; cbn [negb];
        [|by apply aHexToInt_digits_end].
      destruct tc as [|d tc]; [reflexivity|].
      inversion Htc as [|? ? Hd _]; subst. cbn [digits_text peek] in E.
      pose proof (hex_digit_code_range d Hd). lia. }
    rewrite Hlast. cbn [fst snd].
    destruct (heat_safety_mask_stored (48 + (1 + k) - 49)
                {| dontCareMask := u8 (u32 (digits_value 16 dc));
                   mustMatchMask := u8 (u32 (digits_value 16 mm));
                   toClear := u8 (u32 (digits_value 16 tc)) |} st ltac:(lia)) as [Hc Hs].
    cbv zeta in Hc, Hs. cbn [dontCareMask mustMatchMask toClear] in Hs.
    rewrite !u8_u8_u32 in Hs.
    replace (48 + (1 + k) - 49 =? 0) with (k =? 0) in Hs by lia.
    replace (48 + (1 + k) - 49 =? 1) with (k =? 1) in Hs by lia.
    replace (48 + (1 + k) - 49 =? 2) with (k =? 2) in Hs by lia.
    split; [reflexivity|]. split; [exact Hc | exact Hs].
Qed.


(** ** Wire names *)

Lemma HV_names_end n : forall i st, HV_names n i EmptyString st = st.
Proof. induction n as [|n IH]; intros i st; [reflexivity|]. cbn [HV_names HV_name]. apply IH. Qed.

Lemma wire_names_text_shape ns :
  wire_names_text ns = EmptyString \/ exists t, wire_names_text ns = String " " t.
Proof. destruct ns as [|n r]; [by left|]. right. cbn [wire_names_text String.append]. by eexists. Qed.

Lemma HV_name_one nm tail :
  is_wire_name nm ->
  (tail = EmptyString \/ exists t, tail = String " " t) ->
  exists c0 c1,
    0 < c0 < 255 /\ 0 <= c1 < 255 /\
    c_string [c0; c1; 0] = text_of_codes nm /\
    HV_name (" " ++ text_of_codes nm ++ tail) false 0 [0; 0] = (true, [c0; c1], tail).
Proof.
  intros [Hlen Hall] Htail.
  destruct nm as [|c0 [|c1 [|c2 r]]]; cbn [length] in Hlen; try lia.
  - inversion Hall as [|? ? [Hc Hs] _]; subst.
    exists c0, 0. split; [lia|]. split; [lia|]. split.
    + cbn [c_string text_of_codes]. assert ((c0 =? 0) = false) as -> by lia. reflexivity.
    + cbn [String.append text_of_codes HV_name]. change (isspace (code " ")) with true.
      cbn [negb]. rewrite code_ascii_of_code by lia. rewrite Hs.
      assert ((c0 =? 0) = false) as -> by lia.
      change (MAX_WIRE_NAME_LEN <=? 0 + 1) with false. cbv iota.
      destruct Htail as [-> | [t ->]]; cbn [HV_name]; [reflexivity|].
      change (isspace (code " ")) with true. reflexivity.
  - inversion Hall as [|? ? [Hc Hs] Hall']; subst.
    inversion Hall' as [|? ? [Hc1 Hs1] _]; subst.
    exists c0, c1. split; [lia|]. split; [lia|]. split.
    + cbn [c_string text_of_codes]. assert ((c0 =? 0) = false) as -> by lia.
      assert ((c1 =? 0) = false) as -> by lia. reflexivity.
    + cbn [String.append text_of_codes HV_name]. change (isspace (code " ")) with true.
      cbn [negb]. rewrite !code_ascii_of_code by lia. rewrite Hs, Hs1.
      assert ((c0 =? 0) = false) as -> by lia.
      assert ((c1 =? 0) = false) as -> by lia.
      change (MAX_WIRE_NAME_LEN <=? 0 + 1) with false.
      change (MAX_WIRE_NAME_LEN <=? 0 + 1 + 1) with true. reflexivity.
Qed.

Lemma hvacWireName_setHvacWireName i j c0 c1 st :
  0 <= i < NUMBER_OF_SIGNALS -> 0 <= j < NUMBER_OF_SIGNALS ->
  0 <= c0 < 255 -> 0 <= c1 < 256 ->
  hvacWireName j (setHvacWireName i [c0; c1] st)
  = if j =? i then c_string [c0; c1; 0] else hvacWireName j st.
Proof.
  intros Hi Hj Hc0 Hc1. unfold hvacWireName, setHvacWireName.
  assert ((i <? NUMBER_OF_SIGNALS) = true) as -> by lia.
  assert ((j <? NUMBER_OF_SIGNALS) = true) as -> by lia.
  cbv zeta. cbn [lookup list_lookup default].
  change MAX_WIRE_NAME_LEN with 2.
  match goal with
  | |- context [set_EEPROM ?e ?s] => change (EEPROM (set_EEPROM e s)) with e
  end.
  cbv beta delta [id].
  assert (Hemit : forall b : bool, forall s1 s2 ev,
            EEPROM s1 = EEPROM st -> EEPROM s2 = EEPROM st ->
            EEPROM (emit ev (if b then s1 else s2)) = EEPROM st)
    by (by intros []).
  rewrite Hemit by reflexivity. clear Hemit.
  destruct (Z.eqb_spec j i) as [-> | Hne].
  - cell. rewrite (u8_small c0), (u8_small c1) by lia.
    assert ((c0 =? 255) = false) as -> by lia. reflexivity.
  - cell. reflexivity.
Qed.


Lemma HV_names_spec ns : forall n i st,
  0 <= i -> i + Z.of_nat (length ns) <= NUMBER_OF_SIGNALS -> (length ns <= n)%nat ->
  Forall is_wire_name ns ->
  forall j, 0 <= j < NUMBER_OF_SIGNALS ->
    hvacWireName j (HV_names n i (wire_names_text ns) st)
    = match (if i <=? j then ns !! Z.to_nat (j - i) else None) with
      | Some nm => text_of_codes nm
      | None => hvacWireName j st
      end.
Proof.
  induction ns as [|nm r IH]; intros n i st Hi Hfit Hn Hall j Hj.
  - cbn [wire_names_text]. rewrite HV_names_end, lookup_nil. by destruct (i <=? j).
  - destruct n as [|m]; cbn [length] in Hn, Hfit; [lia|].
    inversion Hall as [|? ? Hnm Hr]; subst.
    destruct (HV_name_one nm (wire_names_text r) Hnm (wire_names_text_shape r))
      as (c0 & c1 & Hc0 & Hc1 & Htext & Hrun).
    cbn [wire_names_text HV_names]. rewrite Hrun.
    rewrite (IH m (i + 1)) by (assumption || lia).
    assert (Hset : hvacWireName j (setHvacWireName i [c0; c1] st)
                   = if j =? i then text_of_codes nm else hvacWireName j st)
      by (rewrite hvacWireName_setHvacWireName by lia; by rewrite Htext).
    destruct (Z.leb_spec (i + 1) j) as [Hgt | Hle].
    + assert ((i <=? j) = true) as -> by lia.
      replace (Z.to_nat (j - i)) with (S (Z.to_nat (j - (i + 1)))) by lia.
      cbn [lookup list_lookup].
      destruct (r !! Z.to_nat (j - (i + 1))); [reflexivity|].
      rewrite Hset. by assert ((j =? i) = false) as -> by lia.
    + rewrite Hset. destruct (Z.eqb_spec j i) as [-> | Hne].
      * rewrite Z.leb_refl, Z.sub_diag. reflexivity.
      * by assert ((i <=? j) = false) as -> by lia.
Qed.

(** X11. The command [HV <name> <name> ...] with up to eight names of
    one or two characters, one space before each, names the signals in
    the order of their bits: afterwards [hvacWireName] gives the i-th name
    for signal i and the name it gave before for the signals the command
    has no name for. *)
Theorem HV_command_names ns len st :
  ns <> [] -> Z.of_nat (length ns) <= NUMBER_OF_SIGNALS -> Forall is_wire_name ns ->
  let result := ProcessCommand ("HV" ++ wire_names_text ns) len st in
  fst result = true /\
  forall j, 0 <= j < NUMBER_OF_SIGNALS ->
    hvacWireName j (snd result)
    = match ns !! Z.to_nat j with
      | Some nm => text_of_codes nm
      | None => hvacWireName j st
      end.
Proof.
  intros Hne Hlen Hall. cbv zeta.
  destruct (wire_names_text_shape ns) as [He | [t Ht]].
  { destruct ns; [congruence | discriminate]. }
  assert (Hrun : ProcessCommand ("HV" ++ wire_names_text ns) len st
                 = (true, HV_names (Z.to_nat NUMBER_OF_SIGNALS) 0 (wire_names_text ns) st))
    by (rewrite Ht; reflexivity).
  rewrite Hrun. split; [reflexivity|]. intros j Hj. cbn [snd].
  rewrite HV_names_spec by (assumption || lia).
  assert ((0 <=? j) = true) as -> by lia. by rewrite Z.sub_0_r.
Qed.


Lemma land_pow2_testbit m i :
  0 <= i -> negb (Z.land m (2 ^ i) =? 0) = Z.testbit m i.
Proof.
  intros Hi.
  assert (H : Z.land m (2 ^ i) = if Z.testbit m i then 2 ^ i else 0).
  { apply Z.bits_inj'. intros n Hn. rewrite Z.land_spec, Z.pow2_bits_eqb by lia.
    destruct (Z.eqb_spec i n) as [-> | Hne].
    - rewrite andb_true_r. destruct (Z.testbit m n) eqn:E.
      + rewrite Z.pow2_bits_eqb by lia. by rewrite Z.eqb_refl.
      + by rewrite Z.bits_0.
    - rewrite andb_false_r. destruct (Z.testbit m i).
      + rewrite Z.pow2_bits_eqb by lia. lia.
      + by rewrite Z.bits_0. }
  rewrite H. destruct (Z.testbit m i); [|reflexivity].
  assert (0 < 2 ^ i) by (apply Z.pow_pos_nonneg; lia).
  assert ((2 ^ i =? 0) = false) as -> by lia. reflexivity.
Qed.

Lemma length_dashes n : String.length (dashes n) = n.
Proof. induction n as [|n IH]; [reflexivity|]. cbn [dashes String.length]. by rewrite IH. Qed.

Lemma length_hvacWireName i st : (String.length (hvacWireName i st) <= 2)%nat.
Proof.
  unfold hvacWireName. destruct (i <? NUMBER_OF_SIGNALS); [|cbn; lia].
  cbv zeta. destruct (_ =? 255); [cbn; lia|].
  cbn [c_string]. repeat case_match; cbn [String.length]; lia.
Qed.

Lemma text_length_app s t :
  String.length (s ++ t) = (String.length s + String.length t)%nat.
Proof. induction s as [|c s IH]; [reflexivity|]. cbn [String.append String.length]. by rewrite IH. Qed.

(** X12. A report of the signals ([HVi=...], [HVo=...]) shows the eight
    signals in the order of their bits, each as its wire name when its
    bit is on in the mask and as dashes of the same length when it is
    off: the column of a signal does not depend on the mask, and the
    report is between 4 and 20 characters long. *)
Theorem reportHvac_columns mask t st :
  reportHvac mask t st
  = ("HV" ++ String (ascii_of_code t)
       ("=" ++ signal_text mask 0 st ++ signal_text mask 1 st ++ signal_text mask 2 st
            ++ signal_text mask 3 st ++ signal_text mask 4 st ++ signal_text mask 5 st
            ++ signal_text mask 6 st ++ signal_text mask 7 st))%string /\
  (forall i mask', String.length (signal_text mask i st)
                   = String.length (signal_text mask' i st)) /\
  (forall mask', String.length (reportHvac mask t st)
                 = String.length (reportHvac mask' t st)) /\
  (4 <= String.length (reportHvac mask t st) <= 20)%nat.
Proof.
  assert (Hlen : forall m i, String.length (signal_text m i st)
                             = String.length (hvacWireName i st)).
  { intros m i. unfold signal_text. destruct (Z.testbit m i); [reflexivity|].
    apply length_dashes. }
  assert (Hrep : forall m,
            reportHvac m t st
            = ("HV" ++ String (ascii_of_code t)
                 ("=" ++ signal_text m 0 st ++ signal_text m 1 st ++ signal_text m 2 st
                      ++ signal_text m 3 st ++ signal_text m 4 st ++ signal_text m 5 st
                      ++ signal_text m 6 st ++ signal_text m 7 st))%string).
  { intros m. unfold reportHvac. change (Z.to_nat NUMBER_OF_SIGNALS) with 8%nat.
    cbn [reportHvac_loop]. cbv zeta.
    change (u8 (0 + 1)) with 1. change (u8 (1 + 1)) with 2. change (u8 (2 + 1)) with 3.
    change (u8 (3 + 1)) with 4. change (u8 (4 + 1)) with 5. change (u8 (5 + 1)) with 6.
    change (u8 (6 + 1)) with 7.
    change (u8 (Z.shiftl 1 1)) with (2 ^ 1). change (u8 (Z.shiftl (2 ^ 1) 1)) with (2 ^ 2).
    change (u8 (Z.shiftl (2 ^ 2) 1)) with (2 ^ 3).
    change (u8 (Z.shiftl (2 ^ 3) 1)) with (2 ^ 4).
    change (u8 (Z.shiftl (2 ^ 4) 1)) with (2 ^ 5).
    change (u8 (Z.shiftl (2 ^ 5) 1)) with (2 ^ 6).
    change (u8 (Z.shiftl (2 ^ 6) 1)) with (2 ^ 7).
    change (Z.land m 1) with (Z.land m (2 ^ 0)).
    rewrite !land_pow2_testbit by lia.
    rewrite text_append_nil. reflexivity. }
  split; [apply Hrep|]. split; [intros; by rewrite !Hlen|].
  assert (Htotal : forall m, String.length (reportHvac m t st)
            = (4 + (String.length (hvacWireName 0 st) + (String.length (hvacWireName 1 st)
               + (String.length (hvacWireName 2 st) + (String.length (hvacWireName 3 st)
               + (String.length (hvacWireName 4 st) + (String.length (hvacWireName 5 st)
               + (String.length (hvacWireName 6 st)
               + String.length (hvacWireName 7 st)))))))))%nat).
  { intros m. rewrite Hrep. cbn [String.append String.length].
    rewrite !text_length_app, !Hlen. reflexivity. }
  split; [intros; by rewrite !Htotal|].
  rewrite Htotal.
  pose proof (length_hvacWireName 0 st). pose proof (length_hvacWireName 1 st).
  pose proof (length_hvacWireName 2 st). pose proof (length_hvacWireName 3 st).
  pose proof (length_hvacWireName 4 st). pose proof (length_hvacWireName 5 st).
  pose proof (length_hvacWireName 6 st). pose proof (length_hvacWireName 7 st).
  lia.
Qed.


(** ** Schedule entries *)

Lemma getScheduleEntry_setScheduleEntry i j d h m ds a st :
  0 <= i < NUM_SCHEDULE_TEMPERATURE_ENTRIES -> 0 <= j < NUM_SCHEDULE_TEMPERATURE_ENTRIES ->
  getScheduleEntry j (setScheduleEntry i d h m ds a st)
  = if j =? i
    then {| degreesCx5 := u8 d; TimeOfDayHour := h mod 32; TimeOfDayMinute := m mod 64;
            DaysOfWeek := ds mod 128; AutoMode := a mod 2 |}
    else getScheduleEntry j st.
Proof.
  intros Hi Hj. unfold getScheduleEntry, setScheduleEntry.
  assert ((i <? NUM_SCHEDULE_TEMPERATURE_ENTRIES) = true) as -> by lia.
  assert ((j <? NUM_SCHEDULE_TEMPERATURE_ENTRIES) = true) as -> by lia.
  cbv zeta. change sizeof_ScheduleEntry_t with 4.
  cbn [EEPROM set_EEPROM EEPROM_get EEPROM_put le_split].
  set (f := h mod 32 + 32 * (m mod 64) + 2048 * (ds mod 128) + 262144 * (a mod 2)).
  destruct (Z.eqb_spec j i) as [-> | Hne].
  - cell. cbn [le_combine].
    assert (Hf : u8 (f mod 256) + 256 * (u8 (f / 256 mod 256)
                   + 256 * (u8 (f / 256 / 256 mod 256) + 256 * 0)) = f).
    { assert (0 <= f < 16777216)
        by (subst f; pose proof (Z.mod_pos_bound h 32); pose proof (Z.mod_pos_bound m 64);
            pose proof (Z.mod_pos_bound ds 128); pose proof (Z.mod_pos_bound a 2); lia).
      unfold u8. Z.div_mod_to_equations. lia. }
    rewrite Hf.
    assert (u8 (u8 d) = u8 d) as -> by (unfold u8; apply Z.mod_mod; lia).
    subst f. f_equal.
    + pose proof (Z.mod_pos_bound h 32). Z.div_mod_to_equations. lia.
    + pose proof (Z.mod_pos_bound h 32). pose proof (Z.mod_pos_bound m 64).
      Z.div_mod_to_equations. lia.
    + pose proof (Z.mod_pos_bound h 32). pose proof (Z.mod_pos_bound m 64).
      pose proof (Z.mod_pos_bound ds 128). Z.div_mod_to_equations. lia.
    + pose proof (Z.mod_pos_bound h 32). pose proof (Z.mod_pos_bound m 64).
      pose proof (Z.mod_pos_bound ds 128). pose proof (Z.mod_pos_bound a 2).
      Z.div_mod_to_equations. lia.
  - cell. reflexivity.
Qed.


(** The decisions of the sketch on a command that starts with [SE] and
    has no letter O. *)
Lemma ProcessCommand_SE tail len st :
  79 ∉ codes tail ->
  ProcessCommand ("SE" ++ tail) len st
  = let q := skip_spaces tail in
    let '(which, q) := aDecimalToInt q in
    let which := u8 which in
    if NUM_SCHEDULE_TEMPERATURE_ENTRIES <=? which then (false, st)
    else
      let '(t, q) := aDecimalToInt q in
      let '(hour, q) := aDecimalToInt q in
      let '(minute, q) := aDecimalToInt q in
      let '(days, q) := aHexToInt q in
      let autoMode := if peek q =? 49 then 1 else 0 in
      (true, setScheduleEntry which (Z.shiftr t 1) hour minute days autoMode st).
Proof.
  intros Habsent. unfold ProcessCommand.
  rewrite (after_keyword_absent ("SE" ++ tail) "COMPRESSOR=0x" 79).
  - reflexivity.
  - cbn [codes]. change (code "O") with 79. repeat constructor.
  - cbn [String.append codes]. change (code "S") with 83. change (code "E") with 69.
    rewrite !not_elem_of_cons. by repeat split.
Qed.

(** X13. The command [SE <which> <Cx10> <hour> <minute> <days> [1]]
    stores a schedule entry, and [getScheduleEntry] gives it back: the
    temperature halved and reduced to a byte, the hour modulo 32, the
    minute modulo 64, the hexadecimal day mask modulo 128 and the auto
    flag; the other fifteen entries are as before.  The entry number is
    reduced to a byte before it is checked: the command is refused, and
    nothing is stored, when that byte is 16 or more. *)
Theorem SE_command_stores w t h m ds (auto : bool) len st :
  is_number 10 w -> Forall (fun d => 0 <= d < 10) t -> Forall (fun d => 0 <= d < 10) h ->
  Forall (fun d => 0 <= d < 10) m -> Forall (fun d => 0 <= d < 16) ds ->
  let cmd := ("SE " ++ digits_text w ++ " " ++ digits_text t ++ " " ++ digits_text h
                ++ " " ++ digits_text m ++ " " ++ digits_text ds
                ++ (if auto then " 1" else ""))%string in
  let which := u8 (digits_value 10 w) in
  let result := ProcessCommand cmd len st in
  (which < NUM_SCHEDULE_TEMPERATURE_ENTRIES ->
   fst result = true /\
   forall j, 0 <= j < NUM_SCHEDULE_TEMPERATURE_ENTRIES ->
     getScheduleEntry j (snd result)
     = if j =? which
       then {| degreesCx5 := u8 (u16 (digits_value 10 t) / 2);
               TimeOfDayHour := digits_value 10 h mod 32;
               TimeOfDayMinute := digits_value 10 m mod 64;
               DaysOfWeek := digits_value 16 ds mod 128;
               AutoMode := if auto then 1 else 0 |}
       else getScheduleEntry j st) /\
  (NUM_SCHEDULE_TEMPERATURE_ENTRIES <= which -> result = (false, st)).
Proof.
  intros [Hwne Hw] Ht Hh Hm Hds. cbv zeta.
  pose proof dec_digits_are_hex as Hdec.
  match goal with
  | |- context [ProcessCommand ?c len st] =>
      change c with ("SE" ++ String " " (digits_text w ++ String " " (digits_text t
                       ++ String " " (digits_text h ++ String " " (digits_text m
                       ++ String " " (digits_text ds ++ (if auto then " 1" else "")))))))%string
  end.
  rewrite ProcessCommand_SE.
  2:{ repeat first [ rewrite codes_app | rewrite not_elem_of_cons
                   | rewrite not_elem_of_app | progress cbn [codes] ].
      repeat split; try discriminate; try lia;
        try (apply digits_without; [by (assumption || apply Hdec) | lia]).
      destruct auto; cbn [codes]; rewrite ?not_elem_of_cons; repeat split;
        try discriminate; apply not_elem_of_nil. }
  cbn [skip_spaces]. change (isspace (code " ")) with true. cbv iota zeta.
  rewrite skip_spaces_digits by (by (assumption || apply Hdec)).
  rewrite (aDecimalToInt_digits w " " _ Hw eq_refl).
  change (code " " =? 0) with false. cbv iota.
  assert (Hwhich : u8 (u16 (digits_value 10 w)) = u8 (digits_value 10 w))
    by (unfold u8, u16; Z.div_mod_to_equations; lia).
  rewrite Hwhich.
  pose proof (u8_range (digits_value 10 w)) as Hrange.
  split.
  - intros Hlt.
    assert ((NUM_SCHEDULE_TEMPERATURE_ENTRIES <=? u8 (digits_value 10 w)) = false) as ->
      by lia.
    rewrite (aDecimalToInt_digits t " " _ Ht eq_refl).
    change (code " " =? 0) with false. cbv iota.
    rewrite (aDecimalToInt_digits h " " _ Hh eq_refl).
    change (code " " =? 0) with false. cbv iota.
    rewrite (aDecimalToInt_digits m " " _ Hm eq_refl).
    change (code " " =? 0) with false. cbv iota.
    assert (Hlast : aHexToInt (digits_text ds ++ (if auto then " 1" else ""))
                    = (u32 (digits_value 16 ds),
                       if auto then "1"%string else EmptyString)).
    { destruct auto.
      - by rewrite (aHexToInt_digits ds " " _ Hds eq_refl).
      - rewrite text_append_nil. by apply aHexToInt_digits_end. }
    rewrite Hlast. cbn [fst snd]. split; [reflexivity|].
    intros j Hj. rewrite getScheduleEntry_setScheduleEntry by lia.
    destruct (j =? u8 (digits_value 10 w)); [|reflexivity].
    rewrite Z.shiftr_div_pow2 by lia. change (2 ^ 1) with 2.
    f_equal.
    + unfold u16. Z.div_mod_to_equations. lia.
    + unfold u16. Z.div_mod_to_equations. lia.
    + unfold u32. Z.div_mod_to_equations. lia.
    + by destruct auto.
  - intros Hge.
    assert ((NUM_SCHEDULE_TEMPERATURE_ENTRIES <=? u8 (digits_value 10 w)) = true) as ->
      by lia.
    reflexivity.
Qed.


(** ** Scheduled temperatures *)

Lemma itoa_below_1000 t :
  0 <= t < 1000 ->
  exists d ds,
    itoa t = digits_text (d :: ds) /\
    Forall (fun k => 0 <= k < 10) (d :: ds) /\
    digits_value 10 (d :: ds) = t /\
    digits_value 10 ds = without_first_digit t.
Proof.
  intros Ht.
  assert (Hall : forallb itoa_check (Z.of_nat <$> seq 0 1000) = true)
    by (vm_compute; reflexivity).
  rewrite forallb_forall in Hall.
  assert (Hin : In t (Z.of_nat <$> seq 0 1000)).
  { apply list_elem_of_In, list_elem_of_fmap. exists (Z.to_nat t).
    split; [lia|]. apply elem_of_seq. lia. }
  apply Hall in Hin. unfold itoa_check in Hin. cbv zeta in Hin.
  repeat (apply andb_true_iff in Hin as [Hin ?]).
  destruct (itoa_digits t) as [|d ds]; [discriminate|].
  exists d, ds. split; [by apply String.eqb_eq|]. split; [|split; cbn [tail] in *; lia].
  apply Forall_forall. intros k Hk.
  lazymatch goal with
  | H : forallb _ _ = true |- _ => rewrite forallb_forall in H; apply list_elem_of_In, H in Hk
  end.
  lia.
Qed.



Lemma dec_digits_without k ds :
  Forall (fun d => 0 <= d < 10) ds -> ~ 48 <= k <= 57 -> k ∉ codes (digits_text ds).
Proof.
  intros Hds Hk. induction Hds as [|d ds Hd _ IH]; [apply not_elem_of_nil|].
  cbn [digits_text codes]. rewrite not_elem_of_cons, dec_digit_code by exact Hd.
  split; [lia | exact IH].
Qed.

(** The sketch has no command that starts with [AUTO_SETTINGS] or
    [HVAC_SETTINGS] and goes on with a number. *)
Lemma ProcessCommand_settings_number (autoMode : bool) ds len st :
  Forall (fun d => 0 <= d < 10) ds ->
  ProcessCommand ((if autoMode then "AUTO_SETTINGS" else "HVAC_SETTINGS ") ++ digits_text ds)
    len st = (false, st).
Proof.
  intros Hds. unfold ProcessCommand.
  destruct autoMode.
  - rewrite (after_keyword_absent _ "COMPRESSOR=0x" 67).
    + reflexivity.
    + cbn [codes]. change (code "C") with 67. repeat constructor.
    + repeat first [ rewrite codes_app | rewrite not_elem_of_cons
                   | rewrite not_elem_of_app | progress cbn [codes] ].
      repeat split; try discriminate; try apply not_elem_of_nil.
      apply dec_digits_without; [assumption | lia].
  - rewrite (after_keyword_absent _ "COMPRESSOR=0x" 79).
    + reflexivity.
    + cbn [codes]. change (code "O") with 79. repeat constructor.
    + repeat first [ rewrite codes_app | rewrite not_elem_of_cons
                   | rewrite not_elem_of_app | progress cbn [codes] ].
      repeat split; try discriminate; try apply not_elem_of_nil.
      apply dec_digits_without; [assumption | lia].
Qed.

(** [AUTO_SETTINGS] followed by a number without a space: the character
    after the keyword is passed over, whatever it is. *)
Lemma HvacAuto_AUTO_SETTINGS_number d ds len senderid st :
  Forall (fun k => 0 <= k < 10) (d :: ds) ->
  HvacAuto_ProcessCommand ("AUTO_SETTINGS" ++ digits_text (d :: ds)) len senderid true st
  = (true, upd_auto_settings
             (fun s => set_TemperatureActivateHeatDegreesCx10
                         (i16 (i16 (u16 (digits_value 10 ds)) - 6))
                         (set_TemperatureTargetHeatDegreesCx10
                            (i16 (u16 (digits_value 10 ds))) s)) st).
Proof.
  intros Hall. inversion Hall as [|? ? Hd Hds]; subst.
  pose proof (dec_digits_are_hex _ Hall) as Hhex.
  assert (Habsent : 72 ∉ codes ("AUTO_SETTINGS" ++ digits_text (d :: ds))).
  { repeat first [ rewrite codes_app | rewrite not_elem_of_cons
                 | rewrite not_elem_of_app | progress cbn [codes String.append] ].
    repeat split; try discriminate; try apply not_elem_of_nil.
    apply (digits_without 72 (d :: ds)); [assumption | lia]. }
  unfold HvacAuto_ProcessCommand, HvacCool_ProcessCommand.
  rewrite OverrideAndDriveFromSensors_other_settings;
    [| reflexivity
     | apply (after_keyword_absent _ _ 72); [|exact Habsent];
       cbn [codes]; change (code "H") with 72; constructor ].
  rewrite (after_keyword_absent _ "HUM_SETTINGS" 72);
    [| cbn [codes]; change (code "H") with 72; constructor | exact Habsent ].
  change (after_keyword ("AUTO_SETTINGS" ++ digits_text (d :: ds)) "AUTO_SETTINGS")
    with (Some (digits_text (d :: ds))).
  cbv iota. unfold upd_auto_settings. do 2 f_equal.
  unfold AUTO_SETTINGS_fields. cbn [digits_text peek next].
  rewrite dec_digit_code by exact Hd.
  assert ((48 + d =? 0) = false) as -> by lia.
  rewrite (aDecimalToInt_digits_end ds Hds). cbn [peek]. reflexivity.
Qed.


(** The end of [routeCommand] for a settings command that the current
    mode has handled: the selection is the same, so nothing is routed
    again. *)
Lemma routeCommand_rec_settings_number (autoMode : bool) ds len st handled s2 :
  Forall (fun d => 0 <= d < 10) ds ->
  let cmd := ((if autoMode then "AUTO_SETTINGS" else "HVAC_SETTINGS ") ++ digits_text ds)%string in
  RadioConfiguration_ApplyCommand cmd = false ->
  hvac_ProcessCommand cmd len 255 true
    (emit (Serial_print cmd) (emit (Serial_print "Command: ") st)) = (handled, s2) ->
  handled = true ->
  exists st',
    routeCommand_rec 2 cmd len 255 true st = Some st' /\
    sensor_settings st' = sensor_settings s2 /\ auto_settings st' = auto_settings s2.
Proof.
  intros Hds cmd Hradio Hrun ->.
  cbn [routeCommand_rec]. cbv zeta.
  change (negb (255 =? 255)) with false. cbv iota.
  fold cmd. rewrite Hradio. cbn [andb]. cbv iota.
  subst cmd. rewrite ProcessCommand_settings_number by exact Hds.
  cbv iota. rewrite Hrun. cbv iota.
  match type of Hrun with
  | hvac_ProcessCommand ?c _ _ _ ?s = _ =>
      pose proof (settings_command_selection c len 255 true s) as Hsel
  end.
  rewrite Hrun in Hsel. unfold selection in Hsel. cbn [snd] in Hsel.
  assert (Hsel' : (EEPROM s2, hvac s2, MyTypeNumber s2, MyModeNumber s2)
                  = (EEPROM st, hvac st, MyTypeNumber st, MyModeNumber st))
    by (rewrite Hsel; [reflexivity | left; by destruct autoMode]).
  inversion Hsel' as [[He Hh Hty Hmo]].
  cbn [MyModeNumber MyTypeNumber emit set_trace].
  rewrite ?Hmo, ?Hty, !Z.eqb_refl. cbn [negb andb].
  destruct (GetTargetAndActual _ _) as [[target actual]|]; eexists;
    (split; [reflexivity | split; reflexivity]).
Qed.

(** X14. [setTemperatureCx10] while the Auto mode is current, for a
    temperature of 0.0 to 99.9 degrees that the radio library does not
    take as a command of its own.  Without the auto flag it sets the
    cooling target to the temperature.  With the auto flag it builds
    [AUTO_SETTINGS] and the number with no space between them, and the
    Auto mode passes over the character that follows the keyword: the
    heating target becomes the temperature without its first digit (20.6
    degrees becomes 0.6), and the activation temperature 0.6 degrees
    less. *)
Theorem setTemperatureCx10_targets t st :
  0 <= t < 1000 -> hvac st = HVAC_AUTO ->
  (RadioConfiguration_ApplyCommand ("HVAC_SETTINGS " ++ itoa t) = false ->
   exists st',
     setTemperatureCx10 t false st = Some st' /\
     TemperatureTargetDegreesCx10 (sensor_settings st') = t /\
     auto_settings st' = auto_settings st) /\
  (RadioConfiguration_ApplyCommand ("AUTO_SETTINGS" ++ itoa t) = false ->
   exists st',
     setTemperatureCx10 t true st = Some st' /\
     TemperatureTargetHeatDegreesCx10 (auto_settings st') = without_first_digit t /\
     TemperatureActivateHeatDegreesCx10 (auto_settings st') = without_first_digit t - 6 /\
     sensor_settings st' = sensor_settings st).
Proof.
  intros Ht Hauto.
  destruct (itoa_below_1000 t Ht) as (d & ds & Hitoa & Hall & Hvalue & Hrest).
  assert (Hw : 0 <= without_first_digit t < 100)
    by (unfold without_first_digit; pose proof (Z.mod_pos_bound t 10);
        pose proof (Z.mod_pos_bound t 100); repeat case_match; lia).
  unfold setTemperatureCx10, routeCommand. cbv zeta. rewrite Hitoa. split.
  - intros Hradio.
    pose proof (OverrideAndDriveFromSensors_HVAC_SETTINGS HVAC_AUTO [d :: ds]
                  (Z.of_nat (String.length ("HVAC_SETTINGS " ++ digits_text (d :: ds)))) 255
                  (emit (Serial_print ("HVAC_SETTINGS " ++ digits_text (d :: ds)))
                     (emit (Serial_print "Command: ") st))) as Hset.
    destruct Hset as [off Hset]; [discriminate | |].
    { unfold fields_fit. cbn [take length HVAC_SETTINGS_bases].
      constructor; [split; [discriminate | exact Hall] | constructor]. }
    cbn [fields_body fields_tail] in Hset. rewrite text_append_nil in Hset.
    edestruct (routeCommand_rec_settings_number false (d :: ds)
                 (Z.of_nat (String.length ("HVAC_SETTINGS " ++ digits_text (d :: ds)))) st
                 true) as (st' & Hroute & Hs & Ha);
      [exact Hall | exact Hradio | | reflexivity |].
    { unfold hvac_ProcessCommand. cbn [hvac emit set_trace]. rewrite Hauto.
      unfold HvacAuto_ProcessCommand, HvacCool_ProcessCommand.
      cbv iota. rewrite Hset. reflexivity. }
    exists st'. split; [exact Hroute|]. rewrite Hs, Ha.
    autorewrite with frame.
    cbn [sensor_settings set_sensor_settings auto_settings upd_run set_run emit set_trace
         HVAC_SETTINGS_result TemperatureTargetDegreesCx10 field_or lookup list_lookup].
    split; [|reflexivity].
    unfold dec_field. rewrite Hvalue, u16_small, i16_small by lia. reflexivity.
  - intros Hradio.
    edestruct (routeCommand_rec_settings_number true (d :: ds)
                 (Z.of_nat (String.length ("AUTO_SETTINGS" ++ digits_text (d :: ds)))) st
                 true) as (st' & Hroute & Hs & Ha);
      [exact Hall | exact Hradio | | reflexivity |].
    { unfold hvac_ProcessCommand. cbn [hvac emit set_trace]. rewrite Hauto.
      apply HvacAuto_AUTO_SETTINGS_number. exact Hall. }
    exists st'. split; [exact Hroute|]. rewrite Hs, Ha.
    unfold upd_auto_settings.
    cbn [auto_settings set_auto_settings sensor_settings emit set_trace
         TemperatureTargetHeatDegreesCx10 TemperatureActivateHeatDegreesCx10
         set_TemperatureActivateHeatDegreesCx10 set_TemperatureTargetHeatDegreesCx10].
    rewrite Hrest, u16_small, !i16_small by (rewrite ?u16_small, ?i16_small by lia; lia).
    by repeat split.
Qed.


(** ** Selecting a mode *)

Lemma ReadSettings_frame this s :
  EEPROM (ReadSettings this s) = EEPROM s /\ hvac (ReadSettings this s) = hvac s /\
  MyTypeNumber (ReadSettings this s) = MyTypeNumber s /\
  MyModeNumber (ReadSettings this s) = MyModeNumber s /\
  sketch (ReadSettings this s) = sketch s /\ run (ReadSettings this s) = run s /\
  clock (ReadSettings this s) = clock s.
Proof.
  unfold ReadSettings, HvacAuto_ReadEprom, HvacCool_ReadEprom,
    OverrideAndDriveFromSensors_ReadEprom, MapInputToOutput_ReadEprom,
    HvacCommands_ReadEprom.
  destruct this; cbv zeta; repeat case_match; repeat split; reflexivity.
Qed.

Lemma InitializeState_frame this s :
  EEPROM (InitializeState this s) = EEPROM s /\ hvac (InitializeState this s) = hvac s /\
  MyTypeNumber (InitializeState this s) = MyTypeNumber s /\
  MyModeNumber (InitializeState this s) = MyModeNumber s /\
  sketch (InitializeState this s) = sketch s.
Proof. destruct this; repeat split; reflexivity. Qed.

(** The text of a [MODE=] command. *)
Lemma MODE_command_keywords tp mds :
  Forall (fun d => 0 <= d < 10) mds ->
  let cmd := ("HVAC TYPE=" ++ String (hex_digit (type_number tp))
                (" MODE=" ++ digits_text mds))%string in
  match_upper "HVAC " cmd = Some (skip 5 cmd) /\
  after_keyword cmd "TYPE=" = Some (String (hex_digit (type_number tp))
                                      (" MODE=" ++ digits_text mds))%string /\
  after_keyword cmd "NAME=" = None /\
  after_keyword cmd " COMMIT" = None /\
  after_keyword cmd "MODE=" = Some (digits_text mds) /\
  match_upper "HVAC FAN=O" cmd = None /\
  after_keyword cmd "HVAC_SETTINGS " = None /\
  after_keyword cmd "HUM_SETTINGS" = None /\
  after_keyword cmd "AUTO_SETTINGS" = None /\
  starts_with "HVACMAP=0x" cmd = false.
Proof.
  intros Hmds. cbv zeta.
  assert (Hcode : code (hex_digit (type_number tp)) = 48 + type_number tp)
    by (by destruct tp).
  assert (Habsent : forall k, k <> 72 -> k <> 86 -> k <> 65 -> k <> 67 -> k <> 32 ->
                      k <> 84 -> k <> 89 -> k <> 80 -> k <> 69 -> k <> 61 ->
                      k <> 77 -> k <> 79 -> k <> 68 -> ~ 48 <= k <= 57 ->
                      k ∉ codes ("HVAC TYPE=" ++ String (hex_digit (type_number tp))
                                   (" MODE=" ++ digits_text mds))).
  { intros k. intros.
    repeat first [ rewrite codes_app | rewrite not_elem_of_cons
                 | rewrite not_elem_of_app | progress cbn [codes String.append] ].
    rewrite Hcode.
    change (code "H") with 72. change (code "V") with 86. change (code "A") with 65.
    change (code "C") with 67. change (code " ") with 32. change (code "T") with 84.
    change (code "Y") with 89. change (code "P") with 80. change (code "E") with 69.
    change (code "=") with 61. change (code "M") with 77. change (code "O") with 79.
    change (code "D") with 68.
    repeat split; try assumption; try (destruct tp; cbn [type_number]; lia);
      try apply not_elem_of_nil; by apply dec_digits_without. }
  split; [reflexivity|]. split; [by destruct tp|].
  split. { apply (after_keyword_absent _ _ 78); [repeat constructor | apply Habsent; lia]. }
  split. { apply (after_keyword_absent _ _ 73); [repeat constructor | apply Habsent; lia]. }
  split. { destruct tp; reflexivity. }
  split; [reflexivity|].
  split. { apply (after_keyword_absent _ _ 95); [repeat constructor | apply Habsent; lia]. }
  split. { apply (after_keyword_absent _ _ 95); [repeat constructor | apply Habsent; lia]. }
  split. { apply (after_keyword_absent _ _ 95); [repeat constructor | apply Habsent; lia]. }
  reflexivity.
Qed.


Lemma hvac_ProcessCommand_MODE tp mds len senderid st :
  Forall (fun d => 0 <= d < 10) mds ->
  hvac_ProcessCommand (MODE_command tp mds) len senderid true st
  = let mode := dec_field mds in
    if NumberOfModesInType (EEPROM st) tp <=? mode then (false, st)
    else if negb (MyModeNumber st =? mode) || negb (MyTypeNumber st =? type_number tp)
    then
      let st := set_MyModeNumber (u8 mode) st in
      let st := set_MyTypeNumber (type_number tp) st in
      let st := set_hvac tp st in
      let st := InitializeState tp st in
      let st := ReadSettings tp st in
      let st := set_EEPROM
                  (EEPROM_write HVAC_EEPROM_TYPE_AND_MODE_ADDR (type_number tp) (EEPROM st))
                  st in
      let st := set_EEPROM
                  (EEPROM_write (HVAC_EEPROM_TYPE_AND_MODE_ADDR + 1) (MyModeNumber st)
                     (EEPROM st)) st in
      (true, TurnFurnaceOff tp st)
    else (true, st).
Proof.
  intros Hmds.
  destruct (MODE_command_keywords tp mds Hmds)
    as (K1 & K2 & K3 & K4 & K5 & K6 & K7 & K8 & K9 & K10).
  cbv zeta in K1, K2, K3, K4, K5, K6, K7, K8, K9, K10.
  fold (MODE_command tp mds) in K1, K2, K3, K4, K5, K6, K7, K8, K9, K10.
  assert (Htype : aDecimalToInt (String (hex_digit (type_number tp))
                                   (" MODE=" ++ digits_text mds))
                  = (type_number tp, ("MODE=" ++ digits_text mds)%string))
    by (by destruct tp).
  assert (Hbase : forall this,
            HvacCommands_ProcessCommand this (MODE_command tp mds) len senderid true st
            = let mode := dec_field mds in
              if NumberOfModesInType (EEPROM st) tp <=? mode then (false, st)
              else if negb (MyModeNumber st =? mode)
                      || negb (MyTypeNumber st =? type_number tp)
              then
                let st := set_MyModeNumber (u8 mode) st in
                let st := set_MyTypeNumber (type_number tp) st in
                let st := set_hvac tp st in
                let st := InitializeState tp st in
                let st := ReadSettings tp st in
                let st := set_EEPROM
                            (EEPROM_write HVAC_EEPROM_TYPE_AND_MODE_ADDR (type_number tp)
                               (EEPROM st)) st in
                let st := set_EEPROM
                            (EEPROM_write (HVAC_EEPROM_TYPE_AND_MODE_ADDR + 1)
                               (MyModeNumber st) (EEPROM st)) st in
                (true, TurnFurnaceOff tp st)
              else (true, st)).
  { intros this. unfold HvacCommands_ProcessCommand. cbn [negb].
    rewrite K1, K2, K3, K4, K5, Htype. cbn [fst default]. cbv beta zeta delta [id].
    assert ((NUMBER_OF_HVAC_TYPES <=? type_number tp) = false) as -> by (by destruct tp).
    rewrite type_of_number_type_number.
    rewrite (aDecimalToInt_digits_end mds Hmds). cbn [fst].
    assert (u8 (type_number tp) = type_number tp) as -> by (by destruct tp).
    reflexivity. }
  assert (Hrefused : forall this b s,
            HvacCommands_ProcessCommand this (MODE_command tp mds) len senderid true st
            = (b, s) -> b = false -> s = st).
  { intros this b s E ->.
    pose proof (HvacCommands_ProcessCommand_refused this (MODE_command tp mds) len senderid
                  true st) as Hr.
    rewrite E in Hr. specialize (Hr eq_refl). congruence. }
  rewrite <- (Hbase (hvac st)).
  unfold hvac_ProcessCommand, HvacAuto_ProcessCommand, HvacCool_ProcessCommand,
    MapInputToOutput_ProcessCommand, OverrideAndDriveFromSensors_ProcessCommand.
  destruct (hvac st);
    match goal with
    | |- context [HvacCommands_ProcessCommand ?this _ _ _ _ _] =>
        destruct (HvacCommands_ProcessCommand this (MODE_command tp mds) len senderid true st)
          as [b s] eqn:E;
        pose proof (Hrefused this b s E) as Hs
    end;
    destruct b; try reflexivity; rewrite (Hs eq_refl);
    cbv iota; rewrite ?K6, ?K7, ?K8, ?K9, ?K10; reflexivity.
Qed.


Lemma NumberOfModesInType_saved_selection e v w t :
  radio_data_fits ->
  NumberOfModesInType
    (EEPROM_write (HVAC_EEPROM_TYPE_AND_MODE_ADDR + 1) v
       (EEPROM_write HVAC_EEPROM_TYPE_AND_MODE_ADDR w e)) t
  = NumberOfModesInType e t.
Proof.
  intros Hr. destruct t; [reflexivity| | | |];
    unfold NumberOfModesInType;
    rewrite count_cell_address by (assumption || discriminate);
    rewrite !EEPROM_read_write_ne; try reflexivity;
    unfold count_cell, type_number, HVAC_NUMBER_OF_MODES_IN_TYPE_ADDR,
      HVAC_SAVED_TYPE_AND_MODE_SIZE; lia.
Qed.

Lemma TurnFurnaceOff_frame this s :
  EEPROM (TurnFurnaceOff this s) = EEPROM s /\ hvac (TurnFurnaceOff this s) = hvac s /\
  MyTypeNumber (TurnFurnaceOff this s) = MyTypeNumber s /\
  MyModeNumber (TurnFurnaceOff this s) = MyModeNumber s.
Proof. unfold TurnFurnaceOff. destruct this; autorewrite with frame; by repeat split. Qed.

(** X15. The command [HVAC TYPE=<t> MODE=<m>] is refused, with no
    effect, when type [t] has no instance [m].  Otherwise it is accepted;
    it does nothing when that type and instance are already the current
    ones; else it makes them current and saves them in the two selection
    bytes of the EEPROM, changing no other cell, so that the instance
    exists, the selection is the saved one, and [setup] at the next
    power-up selects the same type and instance. *)
Theorem MODE_command_selects tp mds len senderid st :
  counts_are_bytes (EEPROM st) -> radio_data_fits ->
  Forall (fun d => 0 <= d < 10) mds ->
  let mode := dec_field mds in
  let r := hvac_ProcessCommand (MODE_command tp mds) len senderid true st in
  (NumberOfModesInType (EEPROM st) tp <= mode -> r = (false, st)) /\
  (mode < NumberOfModesInType (EEPROM st) tp ->
   fst r = true /\
   (MyModeNumber st = mode -> MyTypeNumber st = type_number tp -> snd r = st) /\
   (MyModeNumber st <> mode \/ MyTypeNumber st <> type_number tp ->
    hvac (snd r) = tp /\ MyTypeNumber (snd r) = type_number tp /\
    MyModeNumber (snd r) = mode /\
    selection_is_saved (snd r) /\ instance_is_selected (snd r) /\
    (forall a, a <> HVAC_EEPROM_TYPE_AND_MODE_ADDR ->
               a <> HVAC_EEPROM_TYPE_AND_MODE_ADDR + 1 ->
               EEPROM_read (EEPROM (snd r)) a = EEPROM_read (EEPROM st) a) /\
    forall t0, hvac (setup (EEPROM (snd r)) t0) = tp /\
               MyModeNumber (setup (EEPROM (snd r)) t0) = mode)).
Proof.
  intros Hc Hr Hmds. cbv zeta. rewrite hvac_ProcessCommand_MODE by exact Hmds. cbv zeta.
  pose proof (u16_range (digits_value 10 mds)) as Hmode. fold (dec_field mds) in Hmode.
  set (mode := dec_field mds) in *.
  pose proof (Hc tp) as Hcount.
  split.
  { intros Hge. by assert ((NumberOfModesInType (EEPROM st) tp <=? mode) = true) as -> by lia. }
  intros Hlt. assert ((NumberOfModesInType (EEPROM st) tp <=? mode) = false) as -> by lia.
  assert (Hu : u8 mode = mode) by (apply u8_small; lia).
  split; [by destruct (_ || _)|]. split.
  { intros -> ->. rewrite !Z.eqb_refl. reflexivity. }
  intros Hdiff.
  assert (negb (MyModeNumber st =? mode) || negb (MyTypeNumber st =? type_number tp) = true)
    as -> by (destruct Hdiff; lia).
  cbn [snd]. rewrite Hu.
  set (s3 := set_hvac tp (set_MyTypeNumber (type_number tp) (set_MyModeNumber mode st))).
  destruct (InitializeState_frame tp s3) as (E4 & H4 & T4 & M4 & _).
  destruct (ReadSettings_frame tp (InitializeState tp s3)) as (E5 & H5 & T5 & M5 & _).
  set (s5 := ReadSettings tp (InitializeState tp s3)) in *.
  cbn [MyModeNumber EEPROM set_EEPROM].
  match goal with
  | |- context [TurnFurnaceOff tp ?s] =>
      destruct (TurnFurnaceOff_frame tp s) as (E7 & H7 & T7 & M7); set (s7 := s) in *
  end.
  assert (HE : EEPROM (TurnFurnaceOff tp s7)
               = EEPROM_write (HVAC_EEPROM_TYPE_AND_MODE_ADDR + 1) mode
                   (EEPROM_write HVAC_EEPROM_TYPE_AND_MODE_ADDR (type_number tp) (EEPROM st))).
  { rewrite E7. subst s7. cbn [EEPROM set_EEPROM]. by rewrite E5, E4, M5, M4. }
  assert (Hh : hvac (TurnFurnaceOff tp s7) = tp)
    by (rewrite H7; subst s7; cbn [hvac set_EEPROM]; by rewrite H5, H4).
  assert (Ht : MyTypeNumber (TurnFurnaceOff tp s7) = type_number tp)
    by (rewrite T7; subst s7; cbn [MyTypeNumber set_EEPROM]; by rewrite T5, T4).
  assert (Hm : MyModeNumber (TurnFurnaceOff tp s7) = mode)
    by (rewrite M7; subst s7; cbn [MyModeNumber set_EEPROM]; by rewrite M5, M4).
  assert (Hidx : instance_index (TurnFurnaceOff tp s7) = mode).
  { unfold instance_index. rewrite Hh, Hm. destruct tp; try reflexivity.
    cbn [NumberOfModesInType] in Hlt. lia. }
  assert (Htn : u8 (type_number tp) = type_number tp) by (by destruct tp).
  assert (Hsaved : EEPROM_read (EEPROM (TurnFurnaceOff tp s7)) HVAC_EEPROM_TYPE_AND_MODE_ADDR
                   = type_number tp /\
                   EEPROM_read (EEPROM (TurnFurnaceOff tp s7))
                     (HVAC_EEPROM_TYPE_AND_MODE_ADDR + 1) = mode).
  { rewrite HE. split.
    - rewrite EEPROM_read_write_ne by lia. by rewrite EEPROM_read_write_eq.
    - by rewrite EEPROM_read_write_eq. }
  assert (Hcounts : forall t, NumberOfModesInType (EEPROM (TurnFurnaceOff tp s7)) t
                              = NumberOfModesInType (EEPROM st) t)
    by (intros t; rewrite HE; by apply NumberOfModesInType_saved_selection).
  split; [exact Hh|]. split; [exact Ht|]. split; [exact Hm|].
  split. { unfold selection_is_saved. rewrite Hh, Hidx. exact Hsaved. }
  split. { unfold instance_is_selected. rewrite Hidx, Hh, Hcounts. lia. }
  split. { intros a Ha Hb. rewrite HE. by rewrite !EEPROM_read_write_ne by lia. }
  intros t0. unfold setup, ThermostatCommon_setup. cbv zeta.
  rewrite !UpdateOutputs_EEPROM. cbn [EEPROM upd_sketch set_sketch reset_state].
  destruct Hsaved as [-> ->]. rewrite type_of_number_type_number, Hcounts.
  assert ((mode <? NumberOfModesInType (EEPROM st) tp) = true) as -> by lia.
  unfold InitFromEeprom.
  match goal with
  | |- context [TurnFurnaceOff tp (ReadSettings tp ?s)] =>
      destruct (TurnFurnaceOff_frame tp (ReadSettings tp s)) as (_ & -> & _ & ->);
      destruct (ReadSettings_frame tp s) as (_ & -> & _ & -> & _)
  end.
  split; reflexivity.
Qed.


(** ** Naming a mode *)

Lemma length_NAME_copy q : forall count name,
  length (NAME_copy q count name) = length name.
Proof.
  induction q as [|ch q IH]; intros count name; cbn [NAME_copy]; cbv zeta.
  - apply length_insert.
  - destruct (_ && _); [by rewrite IH, length_insert | apply length_insert].
Qed.

Lemma NAME_copy_spec cs tail : forall (count : nat) name,
  (count <= 5)%nat -> length name = 6%nat ->
  Forall (fun c => 0 < c < 256 /\ isspace c = false) cs ->
  (word_ends tail \/ (5 <= count + length cs)%nat) ->
  take count (NAME_copy (text_of_codes cs ++ tail) count name) = take count name /\
  c_string (drop count (NAME_copy (text_of_codes cs ++ tail) count name))
  = text_of_codes (take (5 - count) cs).
Proof.
  induction cs as [|c r IH]; intros count name Hcount Hlen Hall Hstop.
  - cbn [text_of_codes String.append length] in *. rewrite take_nil.
    assert (Hend : NAME_copy tail count name = <[count := 0]> name).
    { destruct tail as [|ch t]; [reflexivity|]. cbn [NAME_copy]. cbv zeta.
      destruct Hstop as [[H0 | Hsp] | Hfull].
      - cbn [peek] in H0. rewrite H0. reflexivity.
      - cbn [peek] in Hsp. rewrite Hsp. by rewrite andb_false_r.
      - assert ((Z.of_nat count <? NAME_LENGTH) = false) as ->
          by (unfold NAME_LENGTH; lia).
        by rewrite andb_false_r. }
    rewrite Hend. split; [by rewrite take_insert_ge by lia|].
    rewrite drop_insert_ge by lia. rewrite Nat.sub_diag.
    destruct (drop count name) as [|x l] eqn:E.
    + apply (f_equal length) in E. rewrite length_drop in E. cbn in E. lia.
    + reflexivity.
  - inversion Hall as [|? ? [Hc Hs] Hr]; subst.
    cbn [text_of_codes String.append NAME_copy]. cbv zeta.
    rewrite code_ascii_of_code by lia. rewrite Hs.
    assert ((c =? 0) = false) as -> by lia. cbn [negb andb].
    destruct (Z.ltb_spec (Z.of_nat count) NAME_LENGTH) as [Hlt | Hge];
      unfold NAME_LENGTH in *.
    + destruct (IH (S count) (<[count := c]> name)) as [Htake Hstr];
        [lia | by rewrite length_insert | exact Hr
        | destruct Hstop as [H | H]; [by left | right; cbn [length] in H; lia] |].
      set (R := NAME_copy (text_of_codes r ++ tail) (S count) (<[count := c]> name)) in *.
      assert (HR : R !! count = Some c).
      { assert (H : take (S count) R !! count = Some c)
          by (rewrite Htake, lookup_take_lt by lia; apply list_lookup_insert_eq; lia).
        by rewrite lookup_take_lt in H by lia. }
      split.
      * apply (f_equal (take count)) in Htake.
        rewrite !take_take in Htake.
        replace (count `min` S count)%nat with count in Htake by lia.
        rewrite Htake. by rewrite take_insert_ge by lia.
      * rewrite (drop_S R c count HR). cbn [c_string].
        assert ((c =? 0) = false) as -> by lia.
        replace (5 - count)%nat with (S (5 - S count)) by lia.
        cbn [take text_of_codes]. by rewrite Hstr.
    + assert (count = 5%nat) as -> by lia.
      split; [by rewrite take_insert_ge by lia|].
      rewrite drop_insert_ge by lia. cbn [Nat.sub take text_of_codes].
      destruct (drop 5 name) as [|x l] eqn:E.
      * apply (f_equal length) in E. rewrite length_drop in E. cbn in E. lia.
      * reflexivity.
Qed.


(** X16. The command [HVAC NAME=<text>], in every mode: the name of the
    current mode becomes the text up to its first space or its end, cut
    to [NAME_LENGTH] = 5 characters; the name buffer keeps its six bytes
    (the copy never writes past the terminating NUL at index 5 at most),
    and nothing but the name changes.  The command must not carry a type
    number of 5 or more, which the base class refuses first. *)
Theorem NAME_command_names cs tail len senderid st :
  length (ModeName (name_settings st)) = 6%nat ->
  Forall (fun c => 0 < c < 256 /\ isspace c = false) cs ->
  (word_ends tail \/ (5 <= length cs)%nat) ->
  let cmd := ("HVAC NAME=" ++ text_of_codes cs ++ tail)%string in
  type_field_valid cmd ->
  let r := hvac_ProcessCommand cmd len senderid true st in
  fst r = true /\
  c_string (ModeNameString (snd r)) = text_of_codes (take 5 cs) /\
  length (ModeNameString (snd r)) = 6%nat /\
  snd r = set_name_settings (name_settings (snd r)) st.
Proof.
  intros Hlen Hall Hstop cmd Hvalid. cbv zeta.
  assert (Hbase : forall this,
            HvacCommands_ProcessCommand this cmd len senderid true st
            = (true, set_name_settings
                       {| ModeName := NAME_copy (text_of_codes cs ++ tail) 0
                                        (ModeName (name_settings st)) |} st)).
  { intros this. unfold HvacCommands_ProcessCommand. cbn [negb].
    change (match_upper "HVAC " cmd) with (Some (skip 5 cmd)). cbv iota zeta.
    unfold type_field_valid in Hvalid.
    assert ((match match after_keyword cmd "TYPE=" with
                   | Some q => Some (fst (aDecimalToInt q))
                   | None => None
                   end with
             | Some n => NUMBER_OF_HVAC_TYPES <=? n
             | None => false
             end) = false) as ->
      by (destruct (after_keyword cmd "TYPE="); [lia | reflexivity]).
    change (after_keyword cmd "NAME=") with (Some (text_of_codes cs ++ tail)%string).
    reflexivity. }
  assert (Hrun : hvac_ProcessCommand cmd len senderid true st
                 = (true, set_name_settings
                            {| ModeName := NAME_copy (text_of_codes cs ++ tail) 0
                                             (ModeName (name_settings st)) |} st)).
  { unfold hvac_ProcessCommand, HvacAuto_ProcessCommand, HvacCool_ProcessCommand,
      MapInputToOutput_ProcessCommand, OverrideAndDriveFromSensors_ProcessCommand.
    destruct (hvac st); rewrite Hbase; reflexivity. }
  rewrite Hrun. cbn [fst snd]. unfold ModeNameString.
  cbn [name_settings set_name_settings ModeName].
  destruct (NAME_copy_spec cs tail 0 (ModeName (name_settings st))) as [_ Hname];
    [lia | exact Hlen | exact Hall | by rewrite Nat.add_0_l |].
  rewrite drop_0 in Hname.
  split; [reflexivity|]. split; [exact Hname|].
  split; [by rewrite length_NAME_copy | reflexivity].
Qed.


(** ** Silent sensors *)

Lemma isSensorTimedOut_silent this now st :
  sensor_driven this -> sensor_silent_too_long now st ->
  exists tr,
    isSensorTimedOut this now st
    = (true, UpdateOutputs (AlwaysOnMask (sensor_settings st))
               (upd_run (set_previousActual 0) (set_trace tr st))).
Proof.
  intros Hs Hsilent. unfold isSensorTimedOut, sensor_silent_too_long in *. cbv zeta.
  assert ((SecondsToThirdStage (sensor_settings st) * 2000
           <? i32 (now - lastHeardFromSensor (run st))) = true) as -> by lia.
  eexists. unfold TurnFurnaceOff.
  destruct Hs as [-> | [-> | ->]]; reflexivity.
Qed.

(** X17. When no configured sensor has been heard for more than twice
    [SecondsToThirdStage] seconds, the periodic [loop] of a sensor-driven
    mode that is active requests the always-on bits only (the furnace is
    turned off; the continuous-fan bits are not requested either), clears
    the last temperature and leaves the stage it tested: the cooling or
    heating stage in Heat and Cool; in Auto the heat side if it was
    active, else the cool side, so that a second round of [loop] has
    both sides off.  A mode that is idle is left alone. *)
Theorem sensor_timeout_turns_furnace_off now st :
  sensor_driven (hvac st) -> sensor_silent_too_long now st ->
  let st' := hvac_loop now st in
  let heating := match hvac st with
                 | HVAC_AUTO => negb (HeatState_eqb (heatState (run st)) HEAT_OFF)
                 | _ => false
                 end in
  (fancoilState (run st) = STATE_OFF -> heating = false -> st' = st) /\
  (fancoilState (run st) <> STATE_OFF \/ heating = true ->
   LastOutputWrite (sketch st')
   = Z.land (AlwaysOnMask (sensor_settings st)) OUTPUT_SIGNAL_MASK /\
   previousActual (run st') = 0 /\
   (if heating
    then heatState (run st') = HEAT_OFF /\ fancoilState (run st') = fancoilState (run st)
    else fancoilState (run st') = STATE_OFF /\ heatState (run st') = heatState (run st)) /\
   fancoilState (run (hvac_loop now st')) = STATE_OFF /\
   (hvac st = HVAC_AUTO -> heatState (run (hvac_loop now st')) = HEAT_OFF) /\
   sensor_settings st' = sensor_settings st /\ EEPROM st' = EEPROM st).
Proof.
  intros Hs Hsilent. cbv zeta.
  assert (Hoff : forall this s, sensor_driven this ->
            fancoilState (run s) = STATE_OFF ->
            OverrideAndDriveFromSensors_loop this now s = s)
    by (intros this s _ H; unfold OverrideAndDriveFromSensors_loop; by rewrite H).
  assert (Hon : forall this s, sensor_driven this -> sensor_silent_too_long now s ->
            fancoilState (run s) <> STATE_OFF ->
            exists tr,
              OverrideAndDriveFromSensors_loop this now s
              = upd_run (set_fancoilState STATE_OFF)
                  (UpdateOutputs (AlwaysOnMask (sensor_settings s))
                     (upd_run (set_previousActual 0) (set_trace tr s)))).
  { intros this s Hd Hq Hne. unfold OverrideAndDriveFromSensors_loop.
    destruct (isSensorTimedOut_silent this now s Hd Hq) as [tr ->].
    assert (FurnaceState_eqb (fancoilState (run s)) STATE_OFF = false) as ->
      by (by destruct (fancoilState (run s))).
    cbn [negb]. by exists tr. }
  assert (Hheat : forall s, sensor_silent_too_long now s ->
            heatState (run s) <> HEAT_OFF ->
            exists tr,
              HvacAuto_loop now s
              = upd_run (set_heatState HEAT_OFF)
                  (UpdateOutputs (AlwaysOnMask (sensor_settings s))
                     (upd_run (set_previousActual 0) (set_trace tr s)))).
  { intros s Hq Hne. unfold HvacAuto_loop.
    destruct (isSensorTimedOut_silent HVAC_AUTO now s ltac:(right; by right) Hq) as [tr ->].
    assert (HeatState_eqb (heatState (run s)) HEAT_OFF = false) as ->
      by (by destruct (heatState (run s))).
    cbn [negb]. by exists tr. }
  assert (Hidle : forall s, heatState (run s) = HEAT_OFF ->
            HvacAuto_loop now s = OverrideAndDriveFromSensors_loop HVAC_AUTO now s)
    by (intros s H; unfold HvacAuto_loop; by rewrite H).
  assert (Hfields : forall (f : Run -> Run) tr s,
            let s' := upd_run f (UpdateOutputs (AlwaysOnMask (sensor_settings s))
                                   (upd_run (set_previousActual 0) (set_trace tr s))) in
            LastOutputWrite (sketch s')
            = Z.land (AlwaysOnMask (sensor_settings s)) OUTPUT_SIGNAL_MASK /\
            run s' = f (set_previousActual 0 (run s)) /\
            sensor_settings s' = sensor_settings s /\ EEPROM s' = EEPROM s /\
            hvac s' = hvac s).
  { intros f tr s. cbv zeta.
    pose proof (UpdateOutputs_steps (AlwaysOnMask (sensor_settings s))
                  (upd_run (set_previousActual 0) (set_trace tr s))) as (HL & _).
    repeat split; unfold upd_run at 1;
      cbn [sketch run sensor_settings EEPROM hvac set_run];
      rewrite ?HL; autorewrite with frame; reflexivity. }
  assert (Hcool : forall this s, sensor_driven this -> sensor_silent_too_long now s ->
            fancoilState (run (OverrideAndDriveFromSensors_loop this now s)) = STATE_OFF /\
            heatState (run (OverrideAndDriveFromSensors_loop this now s))
            = heatState (run s)).
  { intros this s Hd Hq. destruct (fancoilState (run s)) eqn:Ef.
    - rewrite Hoff by assumption. by split.
    - destruct (Hon this s Hd Hq ltac:(congruence)) as [tr ->].
      destruct (Hfields (set_fancoilState STATE_OFF) tr s) as (_ & -> & _). by split.
    - destruct (Hon this s Hd Hq ltac:(congruence)) as [tr ->].
      destruct (Hfields (set_fancoilState STATE_OFF) tr s) as (_ & -> & _). by split.
    - destruct (Hon this s Hd Hq ltac:(congruence)) as [tr ->].
      destruct (Hfields (set_fancoilState STATE_OFF) tr s) as (_ & -> & _). by split. }
  assert (Hsingle : forall this, sensor_driven this ->
            (fancoilState (run st) = STATE_OFF ->
             OverrideAndDriveFromSensors_loop this now st = st) /\
            (fancoilState (run st) <> STATE_OFF ->
             let s1 := OverrideAndDriveFromSensors_loop this now st in
             LastOutputWrite (sketch s1)
             = Z.land (AlwaysOnMask (sensor_settings st)) OUTPUT_SIGNAL_MASK /\
             previousActual (run s1) = 0 /\
             (fancoilState (run s1) = STATE_OFF /\ heatState (run s1) = heatState (run st)) /\
             fancoilState (run (OverrideAndDriveFromSensors_loop this now s1)) = STATE_OFF /\
             heatState (run (OverrideAndDriveFromSensors_loop this now s1))
             = heatState (run st) /\
             sensor_settings s1 = sensor_settings st /\ EEPROM s1 = EEPROM st /\
             hvac s1 = hvac st)).
  { intros this Hd. split; [by apply Hoff|]. intros Hne. cbv zeta.
    destruct (Hon this st Hd Hsilent Hne) as [tr ->].
    destruct (Hfields (set_fancoilState STATE_OFF) tr st) as (HL & HR & HS & HE & HH).
    cbv zeta in HL, HR, HS, HE, HH.
    rewrite Hoff by (assumption || by rewrite HR).
    rewrite HL, HR, HS, HE, HH. by repeat split. }
  unfold hvac_loop.
  destruct Hs as [Hh | [Hh | Hh]]; rewrite Hh; cbv beta iota.
  - (* Heat *)
    destruct (Hsingle HVAC_HEAT ltac:(by left)) as [Ha Hb].
    split; [intros Hf _; by apply Ha|].
    intros [Hne | ?]; [|discriminate].
    destruct (Hb Hne) as (H1 & H2 & H3 & H4 & H5 & H6 & H7 & H8).
    rewrite H8, Hh. cbv iota.
    repeat split; try assumption; try (by destruct H3); intros; discriminate.
  - (* Cool *)
    destruct (Hsingle HVAC_COOL ltac:(right; by left)) as [Ha Hb].
    split; [intros Hf _; by apply Ha|].
    intros [Hne | ?]; [|discriminate].
    destruct (Hb Hne) as (H1 & H2 & H3 & H4 & H5 & H6 & H7 & H8).
    rewrite H8, Hh. cbv iota.
    repeat split; try assumption; try (by destruct H3); intros; discriminate.
  - (* Auto *)
    destruct (Hsingle HVAC_AUTO ltac:(right; by right)) as [Ha Hb].
    destruct (HeatState_eqb (heatState (run st)) HEAT_OFF) eqn:Eheat; cbn [negb].
    + (* the heat side is off *)
      assert (Hho : heatState (run st) = HEAT_OFF) by (by destruct (heatState (run st))).
      rewrite Hidle by exact Hho.
      split; [intros Hf _; by apply Ha|].
      intros [Hne | ?]; [|discriminate].
      destruct (Hb Hne) as (H1 & H2 & H3 & H4 & H5 & H6 & H7 & H8).
      rewrite H8, Hh. cbv iota.
      rewrite Hidle by (destruct H3 as [_ ->]; exact Hho).
      repeat split; try assumption; try (by destruct H3); intros _; by rewrite H5.
    + (* the heat side is active *)
      assert (Hhn : heatState (run st) <> HEAT_OFF)
        by (intros E; rewrite E in Eheat; discriminate).
      split; [intros _ ?; discriminate|]. intros _.
      destruct (Hheat st Hsilent Hhn) as [tr ->].
      destruct (Hfields (set_heatState HEAT_OFF) tr st) as (HL & HR & HS & HE & HH).
      cbv zeta in HL, HR, HS, HE, HH.
      set (s1 := upd_run (set_heatState HEAT_OFF) _) in *.
      rewrite HH, Hh. cbv iota.
      rewrite Hidle by (by rewrite HR).
      destruct (Hcool HVAC_AUTO s1 ltac:(right; by right)) as [Hc1 Hc2];
        [unfold sensor_silent_too_long in *; by rewrite HR, HS|].
      rewrite HL, HS, HE, Hc1, Hc2, HR. by repeat split.
Qed.



(** ** Power up *)

(** X18. After [setup], whatever the EEPROM holds: the EEPROM is as it
    was, no stage is active, no safety hold is running, and the request
    to the outputs is the always-on mask of the mode that was loaded, if
    it is a sensor-driven one, and nothing otherwise.  When the saved
    selection is not valid (as on an erased EEPROM), the pass-through
    mode with the name PASS is current and all outputs, the failsafe
    relay included, are written as off. *)
Theorem setup_starts_idle e t0 :
  let st := setup e t0 in
  EEPROM st = e /\
  fancoilState (run st) = STATE_OFF /\ heatState (run st) = HEAT_OFF /\
  CompressorOffTimeActive (sketch st) = false /\
  HeatSafetyOffTimeActive (sketch st) = false /\
  LastOutputWrite (sketch st)
  = match hvac st with
    | HVAC_HEAT | HVAC_COOL | HVAC_AUTO =>
        Z.land (AlwaysOnMask (sensor_settings st)) OUTPUT_SIGNAL_MASK
    | _ => 0
    end /\
  (~ saved_selection_is_valid e ->
   hvac st = HVAC_PASSTHROUGH /\ c_string (ModeNameString st) = "PASS"%string /\
   OutputRegister (sketch st) = 0).
Proof.
  cbv zeta. unfold setup. cbv zeta.
  set (s0 := upd_sketch _ (reset_state e t0)).
  assert (Hfirst : UpdateOutputs 0 s0
                   = upd_sketch (fun k => set_OutputRegister 0 (set_LastOutputWrite 0 k)) s0).
  { rewrite UpdateOutputs_unfold. cbv zeta. subst s0.
    unfold arbitrated_request, upd_sketch.
    cbn [sketch set_sketch reset_state HeatSafetyOffTimeActive CompressorOffTimeActive
         OutputRegister relayIsOn InputRegister set_displayLcdFarenheit Z.land].
    rewrite !Z.land_0_l. cbn [negb andb orb Z.eqb Z.lxor]. reflexivity. }
  rewrite Hfirst. set (s1 := upd_sketch _ s0).
  assert (Hidle : forall m s,
            EEPROM s = e -> run s = run s1 -> sketch s = sketch s1 ->
            EEPROM (UpdateOutputs m s) = e /\
            fancoilState (run (UpdateOutputs m s)) = STATE_OFF /\
            heatState (run (UpdateOutputs m s)) = HEAT_OFF /\
            CompressorOffTimeActive (sketch (UpdateOutputs m s)) = false /\
            HeatSafetyOffTimeActive (sketch (UpdateOutputs m s)) = false /\
            LastOutputWrite (sketch (UpdateOutputs m s)) = Z.land m OUTPUT_SIGNAL_MASK).
  { intros m s HE HR HS.
    pose proof (UpdateOutputs_steps m s) as (HL & HC & _ & HH & _).
    cbv zeta in HC. rewrite HS in HC, HH.
    cbn [s1 s0 upd_sketch sketch set_sketch reset_state OutputRegister
         CompressorOffTimeActive HeatSafetyOffTimeActive set_OutputRegister
         set_LastOutputWrite set_displayLcdFarenheit] in HC, HH.
    rewrite Z.land_0_l in HC. cbn [negb andb orb Z.eqb] in HC.
    autorewrite with frame. rewrite HR, HE, HL, HC, HH. by repeat split. }
  unfold ThermostatCommon_setup. cbv zeta.
  destruct (type_of_number (EEPROM_read (EEPROM s1) HVAC_EEPROM_TYPE_AND_MODE_ADDR))
    as [tp|] eqn:Etp.
  - destruct (EEPROM_read (EEPROM s1) (HVAC_EEPROM_TYPE_AND_MODE_ADDR + 1)
              <? NumberOfModesInType (EEPROM s1) tp) eqn:Emode.
    + unfold InitFromEeprom.
      match goal with
      | |- context [TurnFurnaceOff tp (ReadSettings tp ?s)] =>
          destruct (ReadSettings_frame tp s) as (HE & HH & _ & _ & HS & HR & _);
          set (s2 := ReadSettings tp s) in *
      end.
      assert (Hh : forall m, hvac (UpdateOutputs m s2) = tp)
        by (intros m; autorewrite with frame; by rewrite HH).
      assert (Hsel : saved_selection_is_valid e)
        by (exists tp; split; [exact Etp | apply Z.ltb_lt, Emode]).
      unfold TurnFurnaceOff.
      destruct tp;
        match goal with
        | |- context [UpdateOutputs ?m s2] =>
            destruct (Hidle m s2) as (H1 & H2 & H3 & H4 & H5 & H6);
              [by rewrite HE | by rewrite HR | by rewrite HS |];
            rewrite (Hh m), H6
        end;
        (split; [exact H1|]); (split; [exact H2|]); (split; [exact H3|]);
        (split; [exact H4|]); (split; [exact H5|]);
        (split; [autorewrite with frame; reflexivity|]);
        intros Hn; by destruct Hn.
    + assert (Hn : hvac s1 = HVAC_PASSTHROUGH) by reflexivity. rewrite Hn.
      repeat split; reflexivity.
  - assert (Hn : hvac s1 = HVAC_PASSTHROUGH) by reflexivity. rewrite Hn.
    repeat split; reflexivity.
Qed.


(** ** The fan commands *)

Lemma testbit_u8 x n : 0 <= n -> Z.testbit (u8 x) n = (n <? 8) && Z.testbit x n.
Proof.
  intros Hn. unfold u8. change 256 with (2 ^ 8).
  destruct (Z.ltb_spec n 8).
  - by rewrite Z.mod_pow2_bits_low by lia.
  - by rewrite Z.mod_pow2_bits_high by lia.
Qed.

Lemma FAN_command_dispatch this (on : bool) len senderid st :
  sensor_driven this -> hvac st = this ->
  hvac_ProcessCommand (if on then "HVAC FAN=ON" else "HVAC FAN=OFF") len senderid true st
  = let st := upd_run (set_fanIsOn on) st in
    if on then (true, SetOutputBits (MaskFanOnly (sensor_settings st)) st)
    else if FurnaceState_eqb (fancoilState (run st)) STATE_OFF
    then (true, ClearOutputBits (MaskFanOnly (sensor_settings st)) st)
    else (true, st).
Proof.
  intros Hs Hh. unfold hvac_ProcessCommand. rewrite Hh.
  assert (Hbase : forall t,
            HvacCommands_ProcessCommand t (if on then "HVAC FAN=ON" else "HVAC FAN=OFF")
              len senderid true st = (false, st))
    by (intros t; destruct on; reflexivity).
  assert (Hfan : OverrideAndDriveFromSensors_ProcessCommand this
                   (if on then "HVAC FAN=ON" else "HVAC FAN=OFF") len senderid true st
                 = let st := upd_run (set_fanIsOn on) st in
                   if on then (true, SetOutputBits (MaskFanOnly (sensor_settings st)) st)
                   else if FurnaceState_eqb (fancoilState (run st)) STATE_OFF
                   then (true, ClearOutputBits (MaskFanOnly (sensor_settings st)) st)
                   else (true, st)).
  { unfold OverrideAndDriveFromSensors_ProcessCommand. rewrite Hbase. cbv iota.
    destruct on; reflexivity. }
  unfold HvacAuto_ProcessCommand, HvacCool_ProcessCommand.
  destruct Hs as [-> | [-> | ->]]; rewrite Hfan; cbv zeta;
    destruct on; try reflexivity; by destruct (FurnaceState_eqb _ _).
Qed.

(** X19. The fan commands of the sensor-driven modes.  [HVAC FAN=ON]
    sets the continuous-fan flag and requests the fan bits on top of the
    last request.  [HVAC FAN=OFF] clears the flag and, only if no stage
    is active, takes the fan bits out of the last request; while a stage
    is active the request is left alone.  So when the mode is idle,
    [HVAC FAN=ON] followed by [HVAC FAN=OFF] leaves the last request
    without the fan bits, and the stage is never changed. *)
Theorem FAN_command_requests len senderid st :
  sensor_driven (hvac st) ->
  let fan := MaskFanOnly (sensor_settings st) in
  let last := LastOutputWrite (sketch st) in
  let on := hvac_ProcessCommand "HVAC FAN=ON" len senderid true st in
  let off := hvac_ProcessCommand "HVAC FAN=OFF" len senderid true st in
  let both := hvac_ProcessCommand "HVAC FAN=OFF" len senderid true (snd on) in
  (fst on = true /\ fanIsOn (run (snd on)) = true /\
   fancoilState (run (snd on)) = fancoilState (run st) /\
   LastOutputWrite (sketch (snd on)) = Z.land (Z.lor fan last) OUTPUT_SIGNAL_MASK) /\
  (fst off = true /\ fanIsOn (run (snd off)) = false /\
   fancoilState (run (snd off)) = fancoilState (run st) /\
   LastOutputWrite (sketch (snd off))
   = if FurnaceState_eqb (fancoilState (run st)) STATE_OFF
     then Z.land (Z.land last (Z.lnot fan)) OUTPUT_SIGNAL_MASK
     else last) /\
  (fancoilState (run st) = STATE_OFF ->
   fst both = true /\ fanIsOn (run (snd both)) = false /\
   LastOutputWrite (sketch (snd both))
   = Z.land (Z.land last (Z.lnot fan)) OUTPUT_SIGNAL_MASK).
Proof.
  intros Hs. cbv zeta.
  assert (Hclear : forall x f,
            Z.land (Z.land x (u8 (Z.lnot f))) OUTPUT_SIGNAL_MASK
            = Z.land (Z.land x (Z.lnot f)) OUTPUT_SIGNAL_MASK).
  { intros x f. apply Z.bits_inj'. intros n Hn.
    rewrite !Z.land_spec, testbit_u8, testbit_OUTPUT_SIGNAL_MASK by exact Hn.
    destruct (Z.ltb_spec n 8) as [_ | Hhi]; [by rewrite andb_true_l|].
    assert ((1 <=? n) && (n <=? 7) = false) as -> by lia.
    by rewrite !andb_false_r. }
  assert (Hon : forall s, sensor_driven (hvac s) ->
            let r := hvac_ProcessCommand "HVAC FAN=ON" len senderid true s in
            fst r = true /\ fanIsOn (run (snd r)) = true /\
            fancoilState (run (snd r)) = fancoilState (run s) /\
            LastOutputWrite (sketch (snd r))
            = Z.land (Z.lor (MaskFanOnly (sensor_settings s)) (LastOutputWrite (sketch s)))
                OUTPUT_SIGNAL_MASK /\
            hvac (snd r) = hvac s /\ sensor_settings (snd r) = sensor_settings s).
  { intros s Hd. cbv zeta.
    rewrite (FAN_command_dispatch (hvac s) true len senderid s Hd eq_refl).
    cbv zeta iota. cbn [fst snd]. unfold SetOutputBits.
    match goal with
    | |- context [UpdateOutputs ?m ?s0] =>
        pose proof (UpdateOutputs_steps m s0) as (HL & _)
    end.
    rewrite HL. autorewrite with frame. by repeat split. }
  assert (Hoff : forall s, sensor_driven (hvac s) ->
            let r := hvac_ProcessCommand "HVAC FAN=OFF" len senderid true s in
            fst r = true /\ fanIsOn (run (snd r)) = false /\
            fancoilState (run (snd r)) = fancoilState (run s) /\
            LastOutputWrite (sketch (snd r))
            = if FurnaceState_eqb (fancoilState (run s)) STATE_OFF
              then Z.land (Z.land (LastOutputWrite (sketch s))
                             (Z.lnot (MaskFanOnly (sensor_settings s)))) OUTPUT_SIGNAL_MASK
              else LastOutputWrite (sketch s)).
  { intros s Hd. cbv zeta.
    rewrite (FAN_command_dispatch (hvac s) false len senderid s Hd eq_refl).
    cbv zeta iota. cbn [run upd_run set_run fancoilState set_fanIsOn].
    destruct (FurnaceState_eqb (fancoilState (run s)) STATE_OFF) eqn:E; cbn [fst snd].
    - unfold ClearOutputBits. cbv zeta.
      match goal with
      | |- context [UpdateOutputs ?m ?s0] =>
          pose proof (UpdateOutputs_steps m s0) as (HL & _)
      end.
      rewrite HL. autorewrite with frame. rewrite Hclear. by repeat split.
    - by repeat split. }
  destruct (Hon st Hs) as (A1 & A2 & A3 & A4 & A5 & A6). cbv zeta in A1, A2, A3, A4, A5, A6.
  split; [by repeat split|]. split; [by apply Hoff|].
  intros Hidle.
  destruct (Hoff (snd (hvac_ProcessCommand "HVAC FAN=ON" len senderid true st)))
    as (B1 & B2 & B3 & B4); [by rewrite A5|].
  cbv zeta in B1, B2, B3, B4.
  rewrite A3, Hidle, A4, A6 in B4. cbn [FurnaceState_eqb] in B4.
  split; [exact B1|]. split; [exact B2|]. rewrite B4.
  apply Z.bits_inj'. intros n Hn.
  rewrite !Z.land_spec, Z.lor_spec, Z.lnot_spec by exact Hn.
  destruct (Z.testbit (MaskFanOnly (sensor_settings st)) n),
    (Z.testbit (LastOutputWrite (sketch st)) n), (Z.testbit OUTPUT_SIGNAL_MASK n);
    reflexivity.
Qed.


(** ** Dehumidifying *)

Lemma OnReceivedHumidityInput_applies this rh t mask st :
  dehumidify_applies this t st -> 0 <= rh < 65536 ->
  let setting := HumiditySettingX10 (cool_settings st) in
  let threshold :=
    match dehumidifyState this st with
    | DEHUMDIFY_OFF => setting + DEHUMIDIFY_HYSTERESIS
    | DEHUMIDIFY_ACTIVE => setting - DEHUMIDIFY_HYSTERESIS
    end in
  let r := OnReceivedHumidityInput this rh t mask st in
  (threshold < rh ->
   fst r = dehumidified mask st /\ dehumidifyState this (snd r) = DEHUMIDIFY_ACTIVE) /\
  (rh <= threshold -> r = (mask, st)) /\
  cool_settings (snd r) = cool_settings st /\
  sensor_settings (snd r) = sensor_settings st /\
  heatState (run (snd r)) = heatState (run st).
Proof.
  intros (Hthis & Hset & Hwarm) Hrh. cbv zeta.
  unfold DEHUMIDIFY_HYSTERESIS, HALF_DEGREE_C in *.
  assert (Hrun : OnReceivedHumidityInput this rh t mask st
                 = HvacCool_OnReceivedHumidityInput this rh t mask st).
  { unfold OnReceivedHumidityInput. destruct Hthis as [-> | [-> ->]]; reflexivity. }
  rewrite Hrun. unfold HvacCool_OnReceivedHumidityInput, dehumidified, dehumidifyState.
  unfold DEHUMIDIFY_HYSTERESIS, HALF_DEGREE_C. cbv zeta.
  assert ((HumiditySettingX10 (cool_settings st) =? 65535) = false) as -> by lia.
  assert ((t <? i16 (TemperatureActivateDegreesCx10 (sensor_settings st) - 5)) = false)
    as -> by lia.
  rewrite (u16_small rh) by lia.
  rewrite !u16_small by lia.
  assert (Hcase : this = HVAC_COOL \/ this = HVAC_AUTO) by tauto.
  destruct Hcase as [-> | ->].
  - destruct (cool_dehumidifyState (run st)) eqn:E.
    + split; [intros H; assert ((HumiditySettingX10 (cool_settings st) + 15 <? rh) = true)
                          as -> by lia; by split|].
      split; [intros H; by assert ((HumiditySettingX10 (cool_settings st) + 15 <? rh) = false)
                             as -> by lia|].
      destruct (_ <? rh); by repeat split.
    + split; [intros H; assert ((HumiditySettingX10 (cool_settings st) - 15 <? rh) = true)
                          as -> by lia; by split|].
      split; [intros H; by assert ((HumiditySettingX10 (cool_settings st) - 15 <? rh) = false)
                             as -> by lia|].
      destruct (_ <? rh); by repeat split.
  - destruct (auto_dehumidifyState (run st)) eqn:E.
    + split; [intros H; assert ((HumiditySettingX10 (cool_settings st) + 15 <? rh) = true)
                          as -> by lia; by split|].
      split; [intros H; by assert ((HumiditySettingX10 (cool_settings st) + 15 <? rh) = false)
                             as -> by lia|].
      destruct (_ <? rh); by repeat split.
    + split; [intros H; assert ((HumiditySettingX10 (cool_settings st) - 15 <? rh) = true)
                          as -> by lia; by split|].
      split; [intros H; by assert ((HumiditySettingX10 (cool_settings st) - 15 <? rh) = false)
                             as -> by lia|].
      destruct (_ <? rh); by repeat split.
Qed.


(** X20. The hysteresis of the dehumidifier, in Cool and in Auto with
    the heat side off, while the room is not too cold.  From the off
    state a report dehumidifies only above the set point plus 1.5 %.
    Once it has, a report at or below the set point minus 1.5 % stops the
    dehumidify bits but leaves the state active, so that the next report
    above the set point minus 1.5 % dehumidifies again, although the
    same report does nothing from the off state: the upper threshold
    decides only until the first activation. *)
Theorem dehumidify_thresholds this t st m1 m2 m3 rh1 rh2 rh3 :
  dehumidify_applies this t st -> dehumidifyState this st = DEHUMDIFY_OFF ->
  let setting := HumiditySettingX10 (cool_settings st) in
  setting + DEHUMIDIFY_HYSTERESIS < rh1 < 65536 ->
  0 <= rh2 <= setting - DEHUMIDIFY_HYSTERESIS ->
  setting - DEHUMIDIFY_HYSTERESIS < rh3 <= setting + DEHUMIDIFY_HYSTERESIS ->
  let r1 := OnReceivedHumidityInput this rh1 t m1 st in
  let r2 := OnReceivedHumidityInput this rh2 t m2 (snd r1) in
  let r3 := OnReceivedHumidityInput this rh3 t m3 (snd r2) in
  OnReceivedHumidityInput this rh3 t m3 st = (m3, st) /\
  fst r1 = dehumidified m1 st /\
  r2 = (m2, snd r1) /\ dehumidifyState this (snd r2) = DEHUMIDIFY_ACTIVE /\
  fst r3 = dehumidified m3 st.
Proof.
  intros Happ Hoff. cbv zeta. intros H1 H2 H3.
  pose proof Happ as (Hthis & Hset & Hwarm).
  unfold DEHUMIDIFY_HYSTERESIS in *.
  destruct (OnReceivedHumidityInput_applies this rh3 t m3 st Happ ltac:(lia))
    as (_ & Hlow & _).
  cbv zeta in Hlow. rewrite Hoff in Hlow. unfold DEHUMIDIFY_HYSTERESIS in Hlow.
  split; [apply Hlow; lia|].
  destruct (OnReceivedHumidityInput_applies this rh1 t m1 st Happ ltac:(lia))
    as (Hhigh & _ & Hc & Hs & Hh).
  cbv zeta in Hhigh, Hc, Hs, Hh. rewrite Hoff in Hhigh.
  unfold DEHUMIDIFY_HYSTERESIS in Hhigh.
  destruct (Hhigh ltac:(lia)) as (Hm1 & Hactive).
  split; [exact Hm1|].
  set (s1 := snd (OnReceivedHumidityInput this rh1 t m1 st)) in *.
  assert (Happ1 : dehumidify_applies this t s1).
  { unfold dehumidify_applies, DEHUMIDIFY_HYSTERESIS, HALF_DEGREE_C in *.
    rewrite Hc, Hs, Hh. tauto. }
  destruct (OnReceivedHumidityInput_applies this rh2 t m2 s1 Happ1 ltac:(lia))
    as (_ & Hstop & _).
  cbv zeta in Hstop. rewrite Hactive, Hc in Hstop. unfold DEHUMIDIFY_HYSTERESIS in Hstop.
  rewrite (Hstop ltac:(lia)). cbn [snd].
  split; [reflexivity|]. split; [exact Hactive|].
  destruct (OnReceivedHumidityInput_applies this rh3 t m3 s1 Happ1 ltac:(lia))
    as (Hagain & _).
  cbv zeta in Hagain. rewrite Hactive, Hc in Hagain. unfold DEHUMIDIFY_HYSTERESIS in Hagain.
  destruct (Hagain ltac:(lia)) as (-> & _).
  unfold dehumidified. by rewrite Hc.
Qed.

(** ** The schedule *)

(** The test of the timer, in numbers: only the low 16 bits of the
    elapsed time count, and the block runs when they are 32768 or more. *)
Lemma schedule_is_due_spec now last :
  schedule_is_due now last = (32768 <=? (now - last) mod 65536).
Proof.
  unfold schedule_is_due, SCEDULE_TIME_UPDATE_MSEC, i16, u32. cbv zeta.
  set (x := now - last).
  assert (Hx : (x mod 4294967296) mod 65536 = x mod 65536)
    by (apply Z.mod_mod_divide; by exists 65536).
  rewrite <- (Z.add_mod_idemp_l (x mod 4294967296)), Hx by lia.
  pose proof (Z.mod_pos_bound x 65536 ltac:(lia)) as Hy.
  set (y := x mod 65536) in *.
  destruct (Z.ltb_spec y 32768) as [Hlt | Hge].
  - rewrite (Z.mod_small (y + 32768)) by lia.
    rewrite (Z.mod_small (y + 32768 - 32768)) by lia. lia.
  - assert ((y + 32768) mod 65536 = y - 32768) as ->
      by (symmetry; apply (Z.mod_unique _ _ 1); lia).
    assert ((y - 32768 - 32768) mod 4294967296 = y - 65536 + 4294967296) as ->
      by (symmetry; apply (Z.mod_unique _ _ (-1)); lia).
    lia.
Qed.

Lemma getScheduleEntry_EEPROM i s s' :
  EEPROM s = EEPROM s' -> getScheduleEntry i s = getScheduleEntry i s'.
Proof. intros H. unfold getScheduleEntry. by rewrite H. Qed.

(** [setTemperatureCx10] with a temperature of 0.0 to 99.9 degrees always
    returns, and changes neither the EEPROM nor the selection of the
    mode, whatever the mode makes of the command. *)
Lemma setTemperatureCx10_selection t (autoMode : bool) st :
  0 <= t < 1000 ->
  exists st', setTemperatureCx10 t autoMode st = Some st' /\ selection st' = selection st.
Proof.
  intros Ht.
  destruct (itoa_below_1000 t Ht) as (d & ds & Hitoa & Hall & _ & _).
  unfold setTemperatureCx10, routeCommand. cbv zeta. rewrite Hitoa.
  set (cmd := ((if autoMode then "AUTO_SETTINGS" else "HVAC_SETTINGS ") ++ _)%string).
  cbn [routeCommand_rec]. cbv zeta.
  change (negb (255 =? 255)) with false. cbv iota. cbn [andb].
  destruct (RadioConfiguration_ApplyCommand cmd); [by eexists|].
  subst cmd. rewrite ProcessCommand_settings_number by exact Hall. cbv iota.
  match goal with
  | |- context [hvac_ProcessCommand ?c ?l 255 true ?s] =>
      pose proof (settings_command_selection c l 255 true s) as Hsel;
      destruct (hvac_ProcessCommand c l 255 true s) as [handled s2]
  end.
  cbn [snd] in Hsel.
  assert (Hsel' : selection s2 = selection st)
    by (rewrite Hsel; [reflexivity | left; by destruct autoMode]).
  destruct handled; [|by eexists].
  unfold selection in Hsel'. inversion Hsel' as [[He Hh Hty Hmo]].
  cbn [MyModeNumber MyTypeNumber emit set_trace].
  rewrite ?Hmo, ?Hty, !Z.eqb_refl. cbn [negb andb].
  destruct (GetTargetAndActual _ _) as [[target actual]|]; eexists;
    (split; [reflexivity | exact Hsel']).
Qed.

Lemma entry_is_due_EEPROM i hrs mins weekday s s' :
  EEPROM s = EEPROM s' -> entry_is_due i hrs mins weekday s <-> entry_is_due i hrs mins weekday s'.
Proof. intros H. unfold entry_is_due. by rewrite (getScheduleEntry_EEPROM i s s' H). Qed.

(** The loop over the entries: the entries are read from the EEPROM,
    which the loop does not change. *)
Lemma schedule_entries_spec hrs mins weekday n : forall i reinit st,
  0 <= i -> i + Z.of_nat n <= NUM_SCHEDULE_TEMPERATURE_ENTRIES ->
  schedule_temperatures_are_bytes st ->
  exists r st',
    schedule_entries n i hrs mins weekday reinit st = Some (r, st') /\
    selection st' = selection st /\
    (reinit = true -> r = true) /\
    ((forall j, i <= j < i + Z.of_nat n -> ~ entry_is_due j hrs mins weekday st) ->
     r = reinit /\ st' = st) /\
    ((exists j, i <= j < i + Z.of_nat n /\ entry_is_due j hrs mins weekday st) -> r = true) /\
    (forall k, i <= k < i + Z.of_nat n -> entry_is_due k hrs mins weekday st ->
       (forall j, i <= j < i + Z.of_nat n -> j <> k -> ~ entry_is_due j hrs mins weekday st) ->
       setTemperatureCx10 (2 * degreesCx5 (getScheduleEntry k st))
         (negb (AutoMode (getScheduleEntry k st) =? 0)) st = Some st').
Proof.
  induction n as [|n IH]; intros i reinit st Hi Hn Hbytes.
  - exists reinit, st. cbn [schedule_entries].
    split; [reflexivity|]. split; [reflexivity|]. split; [tauto|]. split; [tauto|].
    split; [intros (j & Hj & _); lia | intros k Hk; lia].
  - cbn [schedule_entries]. cbv zeta.
    destruct (schedule_entry_matches (getScheduleEntry i st) hrs mins weekday) eqn:Hm.
    + pose proof (Hbytes i ltac:(lia)) as Hd.
      assert (Ht : i16 (Z.shiftl (degreesCx5 (getScheduleEntry i st)) 1)
                   = 2 * degreesCx5 (getScheduleEntry i st))
        by (rewrite Z.shiftl_mul_pow2 by lia; rewrite i16_small; lia).
      rewrite Ht.
      destruct (setTemperatureCx10_selection (2 * degreesCx5 (getScheduleEntry i st))
                  (negb (AutoMode (getScheduleEntry i st) =? 0)) st ltac:(lia))
        as (st1 & Hset & Hsel1).
      rewrite Hset.
      assert (He : EEPROM st1 = EEPROM st) by (unfold selection in Hsel1; congruence).
      assert (Hbytes1 : schedule_temperatures_are_bytes st1)
        by (intros j Hj; rewrite (getScheduleEntry_EEPROM j st1 st He); by apply Hbytes).
      destruct (IH (i + 1) true st1 ltac:(lia) ltac:(lia) Hbytes1)
        as (r & st' & Hrun & Hsel & Hre & Hnone & Hsome & Hone).
      exists r, st'. split; [exact Hrun|]. split; [by rewrite Hsel|].
      split; [intros _; by apply Hre|]. split.
      { intros Hno. exfalso. apply (Hno i); [lia | exact Hm]. }
      split; [intros _; by apply Hre|].
      intros k Hk Hdue Honly.
      assert (k = i) as ->.
      { destruct (decide (k = i)) as [|Hne]; [assumption|].
        exfalso. apply (Honly i); [lia | congruence | exact Hm]. }
      destruct Hnone as [_ ->]; [|exact Hset].
      intros j Hj Hdj. apply (Honly j); [lia | lia |].
      by apply (entry_is_due_EEPROM j hrs mins weekday st1 st He).
    + destruct (IH (i + 1) reinit st ltac:(lia) ltac:(lia) Hbytes)
        as (r & st' & Hrun & Hsel & Hre & Hnone & Hsome & Hone).
      exists r, st'. split; [exact Hrun|]. split; [exact Hsel|]. split; [exact Hre|].
      assert (Hnot : ~ entry_is_due i hrs mins weekday st)
        by (unfold entry_is_due; by rewrite Hm).
      split; [intros Hno; apply Hnone; intros j Hj; apply Hno; lia|].
      split.
      { intros (j & Hj & Hdj). apply Hsome. exists j. split; [|exact Hdj].
        destruct (decide (j = i)) as [->|]; [contradiction | lia]. }
      intros k Hk Hdue Honly.
      assert (k <> i) by (intros ->; contradiction).
      apply Hone; [lia | exact Hdue | intros j Hj; apply Honly; lia].
Qed.

Lemma schedule_entry_matches_fields d h m days a hrs mins weekday :
  0 <= weekday < 7 ->
  schedule_entry_matches
    {| degreesCx5 := d; TimeOfDayHour := h mod 32; TimeOfDayMinute := m mod 64;
       DaysOfWeek := days mod 128; AutoMode := a |} hrs mins weekday
  = Z.testbit days weekday && (hrs =? h mod 32) && (mins =? m mod 64).
Proof.
  intros Hw. unfold schedule_entry_matches.
  cbn [DaysOfWeek TimeOfDayHour TimeOfDayMinute].
  pose proof (Z.mod_pos_bound h 32 ltac:(lia)). pose proof (Z.mod_pos_bound m 64 ltac:(lia)).
  rewrite !u8_small by lia.
  assert (Hp : 0 < 2 ^ weekday < 128)
    by (split; [apply Z.pow_pos_nonneg; lia
               | change 128 with (2 ^ 7); apply Z.pow_lt_mono_r; lia]).
  rewrite Z.shiftl_mul_pow2, Z.mul_1_l, i16_small by lia.
  rewrite land_pow2_testbit by lia.
  change 128 with (2 ^ 7). rewrite Z.mod_pow2_bits_low by lia. reflexivity.
Qed.

(** X21. The schedule block of [loop].  It runs when the low 16 bits of
    the time elapsed since it last ran are 32768 or more, so about every
    32.8 seconds when [loop] is called often, and not after 40 seconds
    as its constant says.  When it does not run nothing changes.  When it
    runs it always returns, restarts its timer, and changes neither the
    EEPROM nor the selection of the mode; with no entry due it changes
    nothing else and leaves the display flag alone; with an entry due it
    sets the display flag; and with exactly one entry due its effect is
    that of [setTemperatureCx10] with twice the stored temperature and
    the auto flag of that entry. *)
Theorem loop_schedule_runs_due_entries now last hrs mins weekday reinit st :
  schedule_temperatures_are_bytes st ->
  let r := loop_schedule now last hrs mins weekday reinit st in
  (schedule_is_due now last = true <-> 32768 <= (now - last) mod 65536) /\
  (schedule_is_due now last = false -> r = (last, Some (reinit, st))) /\
  (schedule_is_due now last = true ->
   exists re st',
     r = (now, Some (re, st')) /\ selection st' = selection st /\
     ((forall j, 0 <= j < NUM_SCHEDULE_TEMPERATURE_ENTRIES ->
                 ~ entry_is_due j hrs mins weekday st) -> re = reinit /\ st' = st) /\
     ((exists j, 0 <= j < NUM_SCHEDULE_TEMPERATURE_ENTRIES /\
                 entry_is_due j hrs mins weekday st) -> re = true) /\
     (forall k, 0 <= k < NUM_SCHEDULE_TEMPERATURE_ENTRIES ->
        entry_is_due k hrs mins weekday st ->
        (forall j, 0 <= j < NUM_SCHEDULE_TEMPERATURE_ENTRIES -> j <> k ->
                   ~ entry_is_due j hrs mins weekday st) ->
        setTemperatureCx10 (2 * degreesCx5 (getScheduleEntry k st))
          (negb (AutoMode (getScheduleEntry k st) =? 0)) st = Some st')).
Proof.
  intros Hbytes. cbv zeta. unfold loop_schedule. split.
  { rewrite schedule_is_due_spec. lia. }
  split; [by intros ->|]. intros ->.
  destruct (schedule_entries_spec hrs mins weekday
              (Z.to_nat NUM_SCHEDULE_TEMPERATURE_ENTRIES) 0 reinit st
              ltac:(lia) ltac:(by vm_compute) Hbytes)
    as (re & st' & Hrun & Hsel & _ & Hnone & Hsome & Hone).
  change (0 + Z.of_nat (Z.to_nat NUM_SCHEDULE_TEMPERATURE_ENTRIES))
    with NUM_SCHEDULE_TEMPERATURE_ENTRIES in *.
  exists re, st'. rewrite Hrun.
  split; [reflexivity|]. split; [exact Hsel|]. split; [exact Hnone|].
  split; [exact Hsome | exact Hone].
Qed.

(** X22. Which entries are due.  An entry stored with [setScheduleEntry]
    is due exactly when the weekday of the clock is in its day mask and
    the clock reads its hour modulo 32 and its minute modulo 64 (an hour
    of 32 makes it due at midnight); storing it leaves the other entries
    as they were; and an entry that was never written is not due at any
    hour of the day. *)
Theorem stored_schedule_entry_is_due i j d h m days a hrs mins weekday st :
  0 <= i < NUM_SCHEDULE_TEMPERATURE_ENTRIES -> 0 <= j < NUM_SCHEDULE_TEMPERATURE_ENTRIES ->
  0 <= weekday < 7 ->
  let st' := setScheduleEntry i d h m days a st in
  (entry_is_due i hrs mins weekday st'
   <-> Z.testbit days weekday = true /\ hrs = h mod 32 /\ mins = m mod 64) /\
  (j <> i -> entry_is_due j hrs mins weekday st' <-> entry_is_due j hrs mins weekday st) /\
  (schedule_entry_is_erased j st -> 0 <= hrs < 24 -> ~ entry_is_due j hrs mins weekday st).
Proof.
  intros Hi Hj Hw. cbv zeta. unfold entry_is_due.
  rewrite !getScheduleEntry_setScheduleEntry by assumption.
  rewrite Z.eqb_refl. split.
  { rewrite schedule_entry_matches_fields by exact Hw.
    rewrite !andb_true_iff, !Z.eqb_eq. tauto. }
  split.
  { intros Hne. by assert ((j =? i) = false) as -> by lia. }
  intros He Hh. unfold schedule_entry_is_erased in He. unfold getScheduleEntry.
  assert ((j <? NUM_SCHEDULE_TEMPERATURE_ENTRIES) = true) as -> by lia.
  cbv zeta. cbn [EEPROM_get].
  set (addr := SCHEDULE_TEMPERATURE_ENTRIES + j * sizeof_ScheduleEntry_t) in *.
  assert (Hcell : forall k, 0 <= k < 4 -> EEPROM_read (EEPROM st) (addr + k) = 255)
    by (intros k Hk; unfold EEPROM_read; by rewrite (He k Hk)).
  replace (addr + 1 + 1) with (addr + 2) by lia.
  replace (addr + 2 + 1) with (addr + 3) by lia.
  rewrite !Hcell by lia.
  unfold schedule_entry_matches. cbn [TimeOfDayHour TimeOfDayMinute DaysOfWeek].
  change (le_combine [255; 255; 255] mod 32) with 31.
  change (u8 31) with 31.
  assert ((hrs =? 31) = false) as -> by lia.
  rewrite andb_false_r. discriminate.
Qed.

End PacketThermostat.

(** * Instances

    The radio library's data is taken to end at byte 32 of the EEPROM and
    its command interpreter to consume nothing. *)

(** C1, as stated, fails: after sender 9 has reported at t = 0, the report
    of sender 8 at t = 100 s is not ignored; sender 8 becomes the sender
    heard last and its temperature is recorded. *)
Lemma sensor_arbitration_higher_id_does_not_mask :
  let st9 := snd (hvac_ProcessCommand 32 "T:+18.3" 61 9 false (example_mode HVAC_HEAT)) in
  let r8 := hvac_ProcessCommand 32 "T:+18.5" 61 8 false (at_time 100000 st9) in
  lastHeardSensorId (run st9) = 9 /\
  lastHeardFromSensor (run st9) = 0 /\
  r8 <> (true, at_time 100000 st9) /\
  lastHeardSensorId (run (snd r8)) = 8 /\
  previousActual (run (snd r8)) = 185.
Proof.
  cbv zeta. repeat split; try (vm_compute; reflexivity).
  intros H. apply (f_equal (fun r => lastHeardSensorId (run (snd r)))) in H.
  vm_compute in H. discriminate.
Qed.

Lemma sensor_arbitration_witness :
  let st8 := snd (hvac_ProcessCommand 32 "T:+18.3" 61 8 false (example_mode HVAC_HEAT)) in
  (sensor_driven (hvac (at_time 100000 st8)) /\
   sensor_is_configured 9 (at_time 100000 st8) /\
   lower_sender_heard_recently 9 (at_time 100000 st8) /\
   hvac_ProcessCommand 32 "T:+18.5" 61 9 false (at_time 100000 st8)
   = (true, at_time 100000 st8)) /\
  (sensor_driven (hvac (at_time 1000000 st8)) /\
   sensor_is_configured 9 (at_time 1000000 st8) /\
   ~ lower_sender_heard_recently 9 (at_time 1000000 st8) /\
   exists output st1,
     hvac_ProcessCommand 32 "T:+18.5" 61 9 false (at_time 1000000 st8)
     = (true, UpdateOutputs 32 output st1) /\
     lastHeardSensorId (run (UpdateOutputs 32 output st1)) = 9 /\
     lastHeardFromSensor (run (UpdateOutputs 32 output st1)) = 1000000 /\
     previousActual (run (UpdateOutputs 32 output st1)) = 185).
Proof.
  cbv zeta.
  assert (Hs : forall t, sensor_driven
            (hvac (at_time t (snd (hvac_ProcessCommand 32 "T:+18.3" 61 8 false
                                     (example_mode HVAC_HEAT))))))
    by (intros t; left; reflexivity).
  assert (Hc : forall t, sensor_is_configured 9
            (at_time t (snd (hvac_ProcessCommand 32 "T:+18.3" 61 8 false
                               (example_mode HVAC_HEAT)))))
    by (intros t; vm_compute; discriminate).
  assert (Hl : lower_sender_heard_recently 9
            (at_time 100000 (snd (hvac_ProcessCommand 32 "T:+18.3" 61 8 false
                                    (example_mode HVAC_HEAT)))))
    by (vm_compute; repeat split; reflexivity).
  assert (Hn : ~ lower_sender_heard_recently 9
            (at_time 1000000 (snd (hvac_ProcessCommand 32 "T:+18.3" 61 8 false
                                     (example_mode HVAC_HEAT)))))
    by (vm_compute; intros [_ H]; discriminate H).
  split.
  - split; [apply Hs|]. split; [apply Hc|]. split; [exact Hl|].
    exact (proj1 (sensor_arbitration 32 _ "T:+18.5" 61 9 (Hs _) (Hc _)) Hl).
  - split; [apply Hs|]. split; [apply Hc|]. split; [exact Hn|].
    refine (proj2 (sensor_arbitration 32 _ "T:+18.5" 61 9 (Hs _) (Hc _)) Hn _).
    vm_compute. discriminate.
Defined.

Lemma settings_addresses_contiguous_witness :
  let e := SetNumberOfModesInType 32 HVAC_HEAT 2 (SetNumberOfModesInType 32 HVAC_MAPINPUTTOOUTPUT 1 ∅) in
  counts_are_bytes 32 e /\ radio_data_fits 32 /\
  AddressOfModeTypeSettings 32 e HVAC_HEAT 1
  = base_address 32 e HVAC_HEAT + 1 * settings_size HVAC_HEAT /\
  AddressOfModeTypeSettings 32 e HVAC_HEAT 1 = 234 /\
  AddressOfModeTypeSettings 32 (SetNumberOfModesInType 32 HVAC_MAPINPUTTOOUTPUT 3 e) HVAC_HEAT 1
  = 234 + (3 - 1) * 70.
Proof.
  cbv zeta.
  assert (Hc : counts_are_bytes 32
            (SetNumberOfModesInType 32 HVAC_HEAT 2
               (SetNumberOfModesInType 32 HVAC_MAPINPUTTOOUTPUT 1 ∅)))
    by (intros t; destruct t; vm_compute; split; discriminate).
  assert (Hr : radio_data_fits 32) by (vm_compute; split; discriminate).
  split; [exact Hc|]. split; [exact Hr|].
  pose proof (settings_addresses_contiguous 32 _ Hc Hr) as (Haddr & _ & _ & _ & _ & _ & Hcount).
  split; [apply Haddr; vm_compute; split; discriminate|].
  split; [reflexivity|].
  destruct (Hcount HVAC_MAPINPUTTOOUTPUT 3) as [_ Hshift].
  rewrite Hshift; [reflexivity | reflexivity | vm_compute; split; discriminate].
Defined.

(** C7, as stated, fails: after eight [HVACMAP] commands have written
    the values 0 to 63 at the addresses 0 to 63, the inputs Z2 and Z1
    (register value 6) give index 3, where the value 3 was written, but
    the mask requested and written to the outputs is 2. *)
Lemma MapInputToOutput_odd_value_is_not_written_back :
  let vs := Z.of_nat <$> seq 0 64 in
  let filled := hvac_commands 32 (HVACMAP_fill vs) (example_mode HVAC_MAPINPUTTOOUTPUT) in
  let st' := OnInputsChanged 32 HVAC_MAPINPUTTOOUTPUT 6 0 (snd filled) in
  fst filled = true /\ hvac (snd filled) = HVAC_MAPINPUTTOOUTPUT /\
  inputToOutput (map_settings (snd filled)) = vs /\
  input_index 6 = 3 /\
  inputToOutput (map_settings (snd filled)) !! 3%nat = Some 3 /\
  LastOutputWrite (sketch st') = 2 /\ OutputRegister (sketch st') = 2.
Proof. vm_compute. repeat split. Qed.


(** C9, as stated, fails: a trailing field left out does not always keep
    its prior value.  In Cool, after [HVAC_SETTINGS 206 300] the command
    [HVAC_SETTINGS 206] sets the activate temperature to 21.2 C; in Auto,
    after [AUTO_SETTINGS 180 170 08 18 28] the command
    [AUTO_SETTINGS 180 170 08] sets the stage-2 and stage-3 heat masks to
    the stage-1 mask, and [AUTO_SETTINGS 180] sets the activate
    temperature to 17.4 C; after [HUM_SETTINGS 450 20 10] the command
    [HUM_SETTINGS] sets the humidity to 0xFFFF. *)
Lemma settings_commands_reset_omitted_fields :
  let cool1 := snd (hvac_ProcessCommand 32 "HVAC_SETTINGS 206 300" 21 255 true
                      (example_mode HVAC_COOL)) in
  let cool2 := snd (hvac_ProcessCommand 32 "HVAC_SETTINGS 206" 17 255 true cool1) in
  let auto1 := snd (hvac_ProcessCommand 32 "AUTO_SETTINGS 180 170 08 18 28" 30 255 true
                      (example_mode HVAC_AUTO)) in
  let auto2 := snd (hvac_ProcessCommand 32 "AUTO_SETTINGS 180 170 08" 24 255 true auto1) in
  let auto3 := snd (hvac_ProcessCommand 32 "AUTO_SETTINGS 180" 17 255 true auto1) in
  let hum1 := snd (hvac_ProcessCommand 32 "HUM_SETTINGS 450 20 10" 22 255 true
                     (example_mode HVAC_COOL)) in
  let hum2 := snd (hvac_ProcessCommand 32 "HUM_SETTINGS" 12 255 true hum1) in
  (TemperatureActivateDegreesCx10 (sensor_settings cool1) = 300 /\
   TemperatureActivateDegreesCx10 (sensor_settings cool2) = 212) /\
  (HeatMaskStage2 (auto_settings auto1) = 24 /\ HeatMaskStage3 (auto_settings auto1) = 40 /\
   HeatMaskStage2 (auto_settings auto2) = 8 /\ HeatMaskStage3 (auto_settings auto2) = 8) /\
  (TemperatureActivateHeatDegreesCx10 (auto_settings auto1) = 170 /\
   TemperatureActivateHeatDegreesCx10 (auto_settings auto3) = 174) /\
  (HumiditySettingX10 (cool_settings hum1) = 450 /\
   HumiditySettingX10 (cool_settings hum2) = 65535).
Proof. vm_compute. repeat split. Qed.

Lemma settings_commands_field_by_field_witness :
  let st := example_mode HVAC_AUTO in
  let toks := [[2; 0; 6]; [2; 1; 1]] in
  (sensor_driven (hvac st) /\ toks <> [] /\ fields_fit HVAC_SETTINGS_bases toks /\
   sensor_settings (snd (hvac_ProcessCommand 32 "HVAC_SETTINGS 206 211" 21 255 true st))
   = HVAC_SETTINGS_result HVAC_AUTO toks (sensor_settings st)) /\
  ((hvac st = HVAC_COOL \/ hvac st = HVAC_AUTO) /\ fields_fit HUM_SETTINGS_bases toks /\
   cool_settings (snd (hvac_ProcessCommand 32 "HUM_SETTINGS 206 211" 20 255 true st))
   = HUM_SETTINGS_result toks (cool_settings st)) /\
  (hvac st = HVAC_AUTO /\ fields_fit AUTO_SETTINGS_bases toks /\
   auto_settings (snd (hvac_ProcessCommand 32 "AUTO_SETTINGS 206 211" 21 255 true st))
   = AUTO_SETTINGS_result toks (auto_settings st)).
Proof.
  cbv zeta.
  assert (Hs : sensor_driven (hvac (example_mode HVAC_AUTO))) by (right; right; reflexivity).
  assert (Hne : [[2; 0; 6]; [2; 1; 1]] <> @nil (list Z)) by discriminate.
  assert (Hnum : forall b, 10 <= b -> is_number b [2; 0; 6] /\ is_number b [2; 1; 1])
    by (intros b Hb; split; (split; [discriminate | repeat constructor; lia])).
  assert (H1 : fields_fit HVAC_SETTINGS_bases [[2; 0; 6]; [2; 1; 1]])
    by (constructor; [apply (Hnum 10); lia|];
        constructor; [apply (Hnum 10); lia | constructor]).
  assert (H2 : fields_fit HUM_SETTINGS_bases [[2; 0; 6]; [2; 1; 1]])
    by (constructor; [apply (Hnum 10); lia|];
        constructor; [apply (Hnum 16); lia | constructor]).
  assert (H3 : fields_fit AUTO_SETTINGS_bases [[2; 0; 6]; [2; 1; 1]])
    by (constructor; [apply (Hnum 10); lia|];
        constructor; [apply (Hnum 10); lia | constructor]).
  pose proof (settings_commands_field_by_field 32 (example_mode HVAC_AUTO)
                [[2; 0; 6]; [2; 1; 1]]) as T.
  split; [|split].
  - split; [exact Hs|]. split; [exact Hne|]. split; [exact H1|].
    exact (proj1 (proj2 (proj1 (T 21 255) Hs Hne H1))).
  - split; [right; reflexivity|]. split; [exact H2|].
    exact (proj1 (proj2 (proj1 (proj2 (T 20 255)) (or_intror eq_refl) H2))).
  - split; [reflexivity|]. split; [exact H3|].
    exact (proj1 (proj2 (proj2 (proj2 (T 21 255)) eq_refl Hne H3))).
Defined.

(** C3, as stated, fails.  In Heat with SecondsToSecondStage = 1200 and
    SecondsToThirdStage = 900, a report of 18.3 C at time 0 enters
    stage 1; at 1000 s, which is below SecondsToSecondStage, [loop]
    moves to stage 3 and requests the stage-3 mask, not the stage-1
    mask.  In Auto with both sides active (the heat side since time 0,
    the cool side since it entered stage 1 at 60 s), [loop] at 960 s,
    which is SecondsToSecondStage = 900 s after the entry into stage 1,
    requests the stage-2 heat mask 0x18 and leaves the cool side in
    stage 1, although the cool masks are all 0x20. *)
Lemma staged_activation_third_threshold_is_tested_first :
  let heat := snd (hvac_ProcessCommand 32
                     "HVAC_SETTINGS 200 194 300 04 40 08 18 28 1200 900" 49 255 true
                     (example_mode HVAC_HEAT)) in
  let heat1 := snd (hvac_ProcessCommand 32 "T:+18.3" 61 8 false heat) in
  let heat3 := hvac_loop 32 1000000 (at_time 1000000 heat1) in
  let auto :=
    snd (hvac_commands 32
           ["HVAC_SETTINGS 206 212 300 04 40 20 20 20 900 1200";
            "AUTO_SETTINGS 180 174 08 18 28"]
           (example_mode HVAC_AUTO)) in
  let cold := snd (hvac_ProcessCommand 32 "T:+17.0" 61 8 false auto) in
  let hot := snd (hvac_ProcessCommand 32 "T:+22.0" 61 8 false (at_time 60000 cold)) in
  let later := hvac_loop 32 960000 (at_time 960000 hot) in
  (SecondsToSecondStage (sensor_settings heat) = 1200 /\
   SecondsToThirdStage (sensor_settings heat) = 900 /\
   fancoilState (run heat) = STATE_OFF /\
   fancoilState (run heat1) = STATE_STAGE1 /\ timeEnteredStage1 (run heat1) = 0 /\
   LastOutputWrite (sketch heat1) = OutputStage1 (sensor_settings heat) /\
   1000000 - timeEnteredStage1 (run heat1) < SecondsToSecondStage (sensor_settings heat) * 1000 /\
   fancoilState (run heat3) = STATE_STAGE3 /\
   LastOutputWrite (sketch heat3) = OutputStage3 (sensor_settings heat) /\
   OutputStage1 (sensor_settings heat) = 8 /\ OutputStage3 (sensor_settings heat) = 40) /\
  (fancoilState (run hot) = STATE_STAGE1 /\ timeEnteredStage1 (run hot) = 60000 /\
   SecondsToSecondStage (sensor_settings hot) * 1000 <= 960000 - timeEnteredStage1 (run hot) /\
   960000 - timeEnteredStage1 (run hot) < SecondsToThirdStage (sensor_settings hot) * 1000 /\
   fancoilState (run later) = STATE_STAGE1 /\
   LastOutputWrite (sketch later) = 24 /\
   OutputStage2 (sensor_settings hot) = 32).
Proof. vm_compute. repeat split; discriminate. Qed.



(** C5, as stated, fails: with the heat safety switched on (trigger
    32.2 C, hold 300 s) and the entry [F7 08 00] (toClear zero), the
    last requested output W matches the entry outside dontCare and the
    inlet is at 33.0 C, but the loop iteration does not start the hold
    and changes nothing. *)
Lemma heat_safety_entry_without_toClear_does_not_trip :
  let configured :=
    snd (ProcessCommand 32 "HS 1 F7 08 00" 13
           (snd (ProcessCommand 32 "HS T 300" 8
                   (snd (ProcessCommand 32 "HS C 322" 8 (example_mode HVAC_HEAT)))))) in
  let st := upd_sketch (set_TinletTemperatureCx10 330)
              (at_time 5000 (UpdateOutputs 32 8 configured)) in
  HeatSafetyOffTimeActive (sketch st) = false /\
  getHeatSafetyHoldSeconds 32 st = 300 /\
  getHeatSafetyTemperatureCx10 32 st = 322 /\
  TinletTemperatureCx10 (sketch st) = 330 /\
  LastOutputWrite (sketch st) = 8 /\
  getHeatSafetyMask 32 0 st = {| dontCareMask := 247; mustMatchMask := 8; toClear := 0 |} /\
  heat_safety_entry_matches 32 0 st /\
  loop_heat_safety 32 5000 st = st /\
  HeatSafetyOffTimeActive (sketch (loop_heat_safety 32 5000 st)) = false.
Proof. vm_compute. repeat split. Qed.

Lemma heat_safety_witness :
  let configured :=
    snd (ProcessCommand 32 "HS 1 F7 08 38" 13
           (snd (ProcessCommand 32 "HS T 300" 8
                   (snd (ProcessCommand 32 "HS C 322" 8 (example_mode HVAC_HEAT)))))) in
  let st := upd_sketch (set_TinletTemperatureCx10 330)
              (at_time 5000 (UpdateOutputs 32 8 configured)) in
  let tripped := loop_heat_safety 32 5000 st in
  (HeatSafetyOffTimeActive (sketch st) = false /\
   heat_safety_enabled 32 st /\
   getHeatSafetyTemperatureCx10 32 st <= TinletTemperatureCx10 (sketch st) /\
   heat_safety_entry_triggers 32 0 st /\
   tripped = heat_safety_tripped 32 0 st /\
   HeatSafetyOffTimeActive (sketch tripped) = true /\
   HeatSafetyOffStartTime (sketch tripped) = 5000 /\
   HeatSafetyShutoffMask (sketch tripped) = u8 (Z.lnot 56)) /\
  (HeatSafetyOffTimeActive (sketch tripped) = true /\
   HeatSafetyShutoffMask (sketch tripped) = u8 (Z.lnot 56) /\
   Z.land (Z.land (OutputRegister (sketch (UpdateOutputs 32 8 tripped))) OUTPUT_SIGNAL_MASK) 56
   = 0) /\
  (~ heat_safety_hold_expired 32 305000 tripped /\
   loop_heat_safety 32 305000 tripped = tripped) /\
  (heat_safety_hold_expired 32 305001 tripped /\
   forall mask,
     arbitrated_request mask
       (SetOutputBits 32 0
          (printBanner (ModeNameString tripped)
             (upd_sketch (set_HeatSafetyOffTimeActive false) tripped)))
     = Z.land mask OUTPUT_SIGNAL_MASK).
Proof.
  cbv zeta.
  set (st := upd_sketch (set_TinletTemperatureCx10 330) _).
  set (tripped := loop_heat_safety 32 5000 st).
  assert (Hoff : HeatSafetyOffTimeActive (sketch st) = false) by reflexivity.
  assert (Hen : heat_safety_enabled 32 st)
    by (vm_compute; split; [reflexivity | split; [discriminate | reflexivity]]).
  assert (Htemp : getHeatSafetyTemperatureCx10 32 st <= TinletTemperatureCx10 (sketch st))
    by (vm_compute; discriminate).
  assert (Hi : 0 <= 0 < NUM_HEAT_SAFETY_ENTRIES) by (vm_compute; split; [discriminate | reflexivity]).
  assert (Hfirst : forall j, 0 <= j < 0 -> ~ heat_safety_entry_triggers 32 j st)
    by (intros j Hj; lia).
  assert (Htrig : heat_safety_entry_triggers 32 0 st)
    by (split; [reflexivity | vm_compute; discriminate]).
  assert (Hact : HeatSafetyOffTimeActive (sketch tripped) = true) by reflexivity.
  assert (Hmask : HeatSafetyShutoffMask (sketch tripped) = u8 (Z.lnot 56)) by reflexivity.
  assert (Hrun : ~ heat_safety_hold_expired 32 305000 tripped) by (vm_compute; discriminate).
  assert (Hexp : heat_safety_hold_expired 32 305001 tripped) by reflexivity.
  split; [|split; [|split]].
  - split; [exact Hoff|]. split; [exact Hen|]. split; [exact Htemp|]. split; [exact Htrig|].
    exact (proj1 (heat_safety 32 st) 5000 0 Hoff Hen Htemp Hi Hfirst Htrig).
  - split; [exact Hact|]. split; [exact Hmask|].
    exact (proj1 (proj1 (proj2 (proj2 (heat_safety 32 tripped))) 8 56 Hact Hmask)).
  - split; [exact Hrun|].
    exact (proj1 (proj2 (proj2 (proj2 (heat_safety 32 tripped)))) 305000 Hact Hrun).
  - split; [exact Hexp|].
    exact (proj2 (proj2 (proj2 (proj2 (proj2 (proj2 (heat_safety 32 tripped))))
                           305001 Hact Hexp))).
Defined.


(** C8 does not hold of the code.  Auto mode cooling to 20.6 C (on at
    21.2 C) and heating to 18.0 C (on at 17.4 C), stage 2 after 900 s.
    A report of 17.0 C starts the heat sub-machine; the cool test
    answered "off".  One minute later a report of 22.0 C makes the cool
    test answer "on": the cool sub-machine enters stage 1 and its mask is
    written, but the heat sub-machine is left in stage 1.  Both are now
    active, and 900 s later [loop] follows the heat sub-machine: it
    moves it to stage 2 and requests the stage-2 heat mask while the cool
    sub-machine is in stage 1. *)
Lemma HvacAuto_heat_and_cool_both_active :
  let configured :=
    snd (hvac_commands 32
           ["HVAC_SETTINGS 206 212 300 04 40 20 20 20 900 1200";
            "AUTO_SETTINGS 180 174 08 18 28"]
           (example_mode HVAC_AUTO)) in
  let cold := hvac_ProcessCommand 32 "T:+17.0" 61 8 false configured in
  let hot := hvac_ProcessCommand 32 "T:+22.0" 61 8 false (at_time 60000 (snd cold)) in
  let later := hvac_loop 32 960000 (at_time 960000 (snd hot)) in
  (fst cold = true /\
   fst (OnReceivedTemperatureInput HVAC_AUTO 170 configured) = false /\
   fancoilState (run (snd cold)) = STATE_OFF /\
   heatState (run (snd cold)) = HEAT_STAGE1 /\
   LastOutputWrite (sketch (snd cold)) = HeatMaskStage1 (auto_settings configured)) /\
  (fst hot = true /\
   fst (OnReceivedTemperatureInput HVAC_AUTO 220 (at_time 60000 (snd cold))) = true /\
   fancoilState (run (snd hot)) = STATE_STAGE1 /\
   heatState (run (snd hot)) = HEAT_STAGE1 /\
   LastOutputWrite (sketch (snd hot)) = OutputStage1 (sensor_settings configured)) /\
  (fancoilState (run later) = STATE_STAGE1 /\
   heatState (run later) = HEAT_STAGE2 /\
   LastOutputWrite (sketch later) = HeatMaskStage2 (auto_settings configured) /\
   HeatMaskStage2 (auto_settings configured) = 24 /\
   OutputStage1 (sensor_settings configured) = 32).
Proof. vm_compute. repeat split. Qed.

(** C10, as stated, fails.  The prompt [ready>] follows a serial line
    that every stage refuses; a refused [HVACMAP] command has written
    the entries before the end of the table; a refused report without a
    temperature has changed the sender and time heard last; and a
    malformed [HVAC_SETTINGS abc] is handled: it sets the target to 0,
    the activate temperature to 0 and the sensor mask to 0xC. *)
Lemma refused_and_malformed_commands_have_effects :
  let no := fun _ : string => false in
  let map_mode := example_mode HVAC_MAPINPUTTOOUTPUT in
  let heat_mode := at_time 5000 (example_mode HVAC_HEAT) in
  (refused_by_every_stage 32 no "FOO" 3 255 true map_mode /\
   option_map trace (serial_line 32 no "FOO" map_mode)
   = Some [Serial_print "Command: "; Serial_print "FOO"; Serial_print "ready>"]) /\
  (refused_by_every_stage 32 no "HVACMAP=0x3e 1 2 3" 18 255 true map_mode /\
   drop 62 (inputToOutput (map_settings map_mode)) = [0; 0] /\
   option_map (fun s => drop 62 (inputToOutput (map_settings s)))
     (routeCommand 32 no "HVACMAP=0x3e 1 2 3" 18 255 true map_mode)
   = Some [1; 2]) /\
  (refused_by_every_stage 32 no "C:49433, B:244" 61 8 false heat_mode /\
   (lastHeardSensorId (run heat_mode), lastHeardFromSensor (run heat_mode)) = (0, 0) /\
   option_map (fun s => (lastHeardSensorId (run s), lastHeardFromSensor (run s)))
     (routeCommand 32 no "C:49433, B:244" 61 8 false heat_mode)
   = Some (8, 5000)) /\
  (fst (hvac_ProcessCommand 32 "HVAC_SETTINGS abc" 17 255 true heat_mode) = true /\
   TemperatureTargetDegreesCx10 (sensor_settings heat_mode) = 200 /\
   option_map (fun s => (TemperatureTargetDegreesCx10 (sensor_settings s),
                         TemperatureActivateDegreesCx10 (sensor_settings s),
                         SensorMask (sensor_settings s), InputsToHvacFlag (sketch s)))
     (routeCommand 32 no "HVAC_SETTINGS abc" 17 255 true heat_mode)
   = Some (0, 0, 12, true)).
Proof.
  cbv zeta. repeat split; try (vm_compute; reflexivity); intros _; vm_compute; split; reflexivity.
Qed.

Lemma unrecognized_command_effects_witness :
  let no := fun _ : string => false in
  let st := example_mode HVAC_HEAT in
  let map_mode := example_mode HVAC_MAPINPUTTOOUTPUT in
  (refused_by_every_stage 32 no "FOO" 3 255 true st /\
   exists st',
     routeCommand 32 no "FOO" 3 255 true st = Some st' /\
     trace st' = [Serial_print "Command: "; Serial_print "FOO"] /\
     EEPROM st' = EEPROM st /\ sketch st' = sketch st /\
     sensor_settings st' = sensor_settings st) /\
  (refused_by_every_stage 32 no "FOO" 3 255 true map_mode /\
   exists st',
     routeCommand 32 no "FOO" 3 255 true map_mode = Some st' /\
     map_settings st' = map_settings map_mode) /\
  (refused_by_every_stage 32 no "HVACMAP=0x3e 1 2 3" 18 255 true map_mode /\
   HVACMAP_address "HVACMAP=0x3e 1 2 3" = 62 /\
   exists st',
     routeCommand 32 no "HVACMAP=0x3e 1 2 3" 18 255 true map_mode = Some st' /\
     inputToOutput (map_settings st') !! 61%nat
     = inputToOutput (map_settings map_mode) !! 61%nat).
Proof.
  cbv zeta.
  assert (Href : forall cmd len st,
            fst (ProcessCommand 32 cmd len (echoed cmd 255 st)) = false ->
            fst (hvac_ProcessCommand 32 cmd len 255 true (echoed cmd 255 st)) = false ->
            refused_by_every_stage 32 (fun _ : string => false) cmd len 255 true st)
    by (intros cmd len st H1 H2; split; [intros _; by split | exact H2]).
  assert (H1 : refused_by_every_stage 32 (fun _ : string => false) "FOO" 3 255 true
                 (example_mode HVAC_HEAT)) by (apply Href; reflexivity).
  assert (H2 : refused_by_every_stage 32 (fun _ : string => false) "FOO" 3 255 true
                 (example_mode HVAC_MAPINPUTTOOUTPUT)) by (apply Href; reflexivity).
  assert (H3 : refused_by_every_stage 32 (fun _ : string => false) "HVACMAP=0x3e 1 2 3"
                 18 255 true (example_mode HVAC_MAPINPUTTOOUTPUT))
    by (apply Href; vm_compute; reflexivity).
  split; [|split].
  - split; [exact H1|].
    destruct (proj2 (proj2 (unrecognized_command_effects 32 (fun _ : string => false)
                              "FOO" 3 255 true (example_mode HVAC_HEAT))) H1)
      as (st' & Hroute & Htrace & He & _ & Hk & _ & _ & _ & _ & Hs & _).
    exists st'. split; [exact Hroute|]. split; [exact Htrace|].
    split; [exact He|]. split; [exact Hk | exact Hs].
  - split; [exact H2|].
    destruct (proj2 (proj2 (unrecognized_command_effects 32 (fun _ : string => false)
                              "FOO" 3 255 true (example_mode HVAC_MAPINPUTTOOUTPUT))) H2)
      as (st' & Hroute & _ & _ & _ & _ & _ & _ & _ & _ & _ & _ & _ & Hmap & _).
    exists st'. split; [exact Hroute|].
    destruct Hmap as [Hmap | (_ & _ & Hstarts & _)]; [exact Hmap|].
    vm_compute in Hstarts. discriminate Hstarts.
  - split; [exact H3|]. split; [reflexivity|].
    destruct (proj2 (proj2 (unrecognized_command_effects 32 (fun _ : string => false)
                              "HVACMAP=0x3e 1 2 3" 18 255 true
                              (example_mode HVAC_MAPINPUTTOOUTPUT))) H3)
      as (st' & Hroute & _ & _ & _ & _ & _ & _ & _ & _ & _ & _ & _ & Hmap & _).
    exists st'. split; [exact Hroute|].
    destruct Hmap as [Hmap | (_ & _ & _ & _ & Hkept)]; [by rewrite Hmap|].
    apply Hkept. left. vm_compute. lia.
Defined.


(** ** Instances of the further properties *)

Lemma aDecimalToInt_number_witness :
  Forall (fun d => 0 <= d < 10) [2; 0; 6] /\ isdigit (code " ") = false /\
  aDecimalToInt "206 08" = (206, "08"%string) /\
  aDecimalToInt "206" = (206, EmptyString).
Proof.
  assert (H : Forall (fun d => 0 <= d < 10) [2; 0; 6]) by (repeat constructor; lia).
  split; [exact H|]. split; [reflexivity|].
  exact (aDecimalToInt_number [2; 0; 6] " " "08" H eq_refl).
Defined.

Lemma aHexToInt_number_witness :
  Forall (fun d => 0 <= d < 16) [15; 7] /\ isxdigit (code " ") = false /\
  aHexToInt "F7 08" = (247, "08"%string) /\
  aHexToInt "F7" = (247, EmptyString) /\
  fst (aHexToInt (upper_text "f7")) = fst (aHexToInt "f7").
Proof.
  assert (H : Forall (fun d => 0 <= d < 16) [15; 7]) by (repeat constructor; lia).
  split; [exact H|]. split; [reflexivity|].
  destruct (aHexToInt_number [15; 7] " " "08" H eq_refl) as (Ha & Hb & Hc).
  split; [exact Ha|]. split; [exact Hb | exact (Hc "f7"%string)].
Defined.

Lemma parseForColon_reading_witness :
  0 < 84 < 256 /\
  Forall (fun k => k <> 0 /\ k <> 84) (codes "B:244 ") /\
  Z.of_nat (String.length "B:244 ") < u8 61 /\
  Forall (fun k => 0 <= k < 10) [1; 8] /\
  (Some false = None -> [1; 8] <> ([] : list Z)) /\
  0 <= 3 < 10 /\ digits_value 10 [1; 8] * 10 + 3 < 32768 /\
  parseForColon 84 "B:244 T:+18.35 R:45.1" 61 = 183.
Proof.
  assert (H1 : 0 < 84 < 256) by lia.
  assert (H2 : Forall (fun k => k <> 0 /\ k <> 84) (codes "B:244 "))
    by (repeat constructor; discriminate).
  assert (H3 : Z.of_nat (String.length "B:244 ") < u8 61) by reflexivity.
  assert (H4 : Forall (fun k => 0 <= k < 10) [1; 8]) by (repeat constructor; lia).
  assert (H5 : Some false = None -> [1; 8] <> ([] : list Z)) by discriminate.
  assert (H6 : 0 <= 3 < 10) by lia.
  assert (H7 : digits_value 10 [1; 8] * 10 + 3 < 32768) by reflexivity.
  repeat (split; [assumption|]).
  exact (proj2 (parseForColon_reading 84 61) "B:244 " (Some false) [1; 8] 3 "5 R:45.1"
           H1 H2 H3 H4 H5 H6 H7).
Defined.

Lemma UpdateOutputs_writes_requested_signals_witness :
  Z.testbit (OutputRegister (sketch (UpdateOutputs 32 8 (reset_state ∅ 0)))) 3 = true /\
  (3 = 0 \/ (1 <= 3 <= 7 /\ Z.testbit 8 3 = true)).
Proof.
  assert (H : Z.testbit (OutputRegister (sketch (UpdateOutputs 32 8 (reset_state ∅ 0)))) 3
              = true) by (vm_compute; reflexivity).
  split; [exact H|].
  exact (UpdateOutputs_writes_requested_signals 32 8 (reset_state ∅ 0) 3 H).
Defined.

Lemma UpdateOutputs_failsafe_relay_witness :
  let on := UpdateOutputs 32 8 (reset_state ∅ 0) in
  (relayIsOn (sketch on) = true /\
   u32 (millis on - onAtTime (sketch on)) < MINIMUM_ON_MSEC /\
   Z.testbit (OutputRegister (sketch (UpdateOutputs 32 0 on))) BN_W_FAILSAFE = true /\
   relayIsOn (sketch (UpdateOutputs 32 0 on)) = true /\
   onAtTime (sketch (UpdateOutputs 32 0 on)) = onAtTime (sketch on) /\
   u32 (millis on - onAtTime (sketch (UpdateOutputs 32 0 on))) < MINIMUM_ON_MSEC) /\
  (Z.testbit (OutputRegister (sketch (UpdateOutputs 32 0 (reset_state ∅ 0)))) BN_W_FAILSAFE
   = false /\
   Z.testbit (OutputRegister (sketch (UpdateOutputs 32 0 (reset_state ∅ 0)))) BN_W
   = Z.testbit (InputRegister (sketch (reset_state ∅ 0))) BN_W).
Proof.
  cbv zeta.
  assert (H1 : relayIsOn (sketch (UpdateOutputs 32 8 (reset_state ∅ 0))) = true)
    by (vm_compute; reflexivity).
  assert (H2 : u32 (millis (UpdateOutputs 32 8 (reset_state ∅ 0))
                    - onAtTime (sketch (UpdateOutputs 32 8 (reset_state ∅ 0))))
               < MINIMUM_ON_MSEC) by (vm_compute; reflexivity).
  assert (H3 : Z.testbit (OutputRegister (sketch (UpdateOutputs 32 0 (reset_state ∅ 0))))
                 BN_W_FAILSAFE = false) by (vm_compute; reflexivity).
  pose proof (UpdateOutputs_failsafe_relay 32 0 (UpdateOutputs 32 8 (reset_state ∅ 0)))
    as Hon.
  pose proof (UpdateOutputs_failsafe_relay 32 0 (reset_state ∅ 0)) as Hoff.
  cbv zeta in Hon, Hoff.
  destruct Hon as (Ha & _ & Hc). destruct Hoff as (_ & Hb & _).
  destruct (Ha H1 H2) as (Hbit & Hrelay & Htime).
  destruct (Hc Hbit) as (_ & Hrecent).
  split.
  - split; [exact H1|]. split; [exact H2|]. split; [exact Hbit|].
    split; [exact Hrelay|]. split; [exact Htime | exact Hrecent].
  - split; [exact H3 | exact (Hb H3)].
Defined.

Lemma UpdateOutputs_idempotent_witness :
  compressor_group_is_signals 32 (reset_state ∅ 0) /\
  UpdateOutputs 32 8 (UpdateOutputs 32 8 (reset_state ∅ 0))
  = UpdateOutputs 32 8 (reset_state ∅ 0) /\
  SetOutputBits 32 0 (UpdateOutputs 32 8 (reset_state ∅ 0))
  = UpdateOutputs 32 8 (reset_state ∅ 0).
Proof.
  assert (H : compressor_group_is_signals 32 (reset_state ∅ 0))
    by (vm_compute; reflexivity).
  split; [exact H|]. exact (UpdateOutputs_idempotent 32 8 (reset_state ∅ 0) H).
Defined.

Lemma unconfigured_safety_never_holds_witness :
  safety_unconfigured 32 (reset_state ∅ 0) /\
  (safety_unconfigured 32 (UpdateOutputs 32 72 (reset_state ∅ 0)) /\
   Z.land (OutputRegister (sketch (UpdateOutputs 32 72 (reset_state ∅ 0)))) OUTPUT_SIGNAL_MASK
   = Z.land 72 OUTPUT_SIGNAL_MASK) /\
  loop_compressor_hold 32 1000 (reset_state ∅ 0) = reset_state ∅ 0 /\
  loop_heat_safety 32 1000 (reset_state ∅ 0) = reset_state ∅ 0.
Proof.
  assert (H : safety_unconfigured 32 (reset_state ∅ 0))
    by (vm_compute; repeat split; reflexivity).
  split; [exact H|].
  exact (unconfigured_safety_never_holds 32 72 1000 (reset_state ∅ 0) H).
Defined.

Lemma PassThrough_copies_inputs_witness :
  let st' := OnInputsChanged 32 HVAC_PASSTHROUGH 73 0 (reset_state ∅ 0) in
  safety_unconfigured 32 (reset_state ∅ 0) /\
  Z.testbit (OutputRegister (sketch st')) 3 = true /\
  BN_FIRST_SIGNAL <= 6 <= BN_LAST_SIGNAL /\
  LastOutputWrite (sketch st') = Z.land 73 (Z.land INPUT_SIGNAL_MASK OUTPUT_SIGNAL_MASK) /\
  (3 = BN_W_FAILSAFE \/
   (BN_FIRST_SIGNAL <= 3 <= BN_LAST_SIGNAL /\ Z.testbit 73 3 = true)) /\
  Z.testbit (OutputRegister (sketch st')) 6 = Z.testbit 73 6.
Proof.
  cbv zeta.
  assert (H1 : safety_unconfigured 32 (reset_state ∅ 0))
    by (vm_compute; repeat split; reflexivity).
  assert (H2 : Z.testbit
                 (OutputRegister
                    (sketch (OnInputsChanged 32 HVAC_PASSTHROUGH 73 0 (reset_state ∅ 0)))) 3
               = true) by (vm_compute; reflexivity).
  assert (H3 : BN_FIRST_SIGNAL <= 6 <= BN_LAST_SIGNAL) by (vm_compute; split; discriminate).
  pose proof (PassThrough_copies_inputs 32 73 0 (reset_state ∅ 0)) as H.
  cbv zeta in H. destruct H as (Ha & Hb & Hc).
  split; [exact H1|]. split; [exact H2|]. split; [exact H3|]. split; [exact Ha|].
  split; [exact (Hb 3 H2) | exact (Hc H1 6 H3)].
Defined.

Lemma COMPRESSOR_command_stores_witness :
  let st' := snd (ProcessCommand 32 "COMPRESSOR=0x18 300" 19 (reset_state ∅ 0)) in
  Forall (fun d => 0 <= d < 16) [1; 8] /\ Forall (fun d => 0 <= d < 10) [3; 0; 0] /\
  [3; 0; 0] <> ([] : list Z) /\
  fst (ProcessCommand 32 "COMPRESSOR=0x18 300" 19 (reset_state ∅ 0)) = true /\
  only_safety_cells_differ 32 (reset_state ∅ 0) st' /\
  getCompressorMask 32 st' = 24 /\ getCompressorHoldSeconds 32 st' = 300 /\
  ProcessCommand 32 "COMPRESSOR=0x18" 19 (reset_state ∅ 0) = (false, reset_state ∅ 0).
Proof.
  cbv zeta.
  assert (H1 : Forall (fun d => 0 <= d < 16) [1; 8]) by (repeat constructor; lia).
  assert (H2 : Forall (fun d => 0 <= d < 10) [3; 0; 0]) by (repeat constructor; lia).
  assert (H3 : [3; 0; 0] <> ([] : list Z)) by discriminate.
  pose proof (COMPRESSOR_command_stores 32 [1; 8] [3; 0; 0] 19 (reset_state ∅ 0) H1 H2 H3)
    as H.
  cbv zeta in H. destruct H as (Ha & Hb & Hc & Hd).
  split; [exact H1|]. split; [exact H2|]. split; [exact H3|]. split; [exact Ha|].
  split; [exact Hb|].
  split; [exact (f_equal (fun x => fst (fst (fst (fst x)))) Hc)|].
  split; [exact (f_equal (fun x => snd (fst (fst (fst x)))) Hc) | exact Hd].
Defined.

Lemma HS_command_stores_witness :
  let st := reset_state ∅ 0 in
  Forall (fun d => 0 <= d < 10) [3; 2; 2] /\
  getHeatSafetyTemperatureCx10 32 (snd (ProcessCommand 32 "HS C 322" 13 st)) = 322 /\
  Forall (fun d => 0 <= d < 10) [6; 0; 0] /\
  getHeatSafetyHoldSeconds 32 (snd (ProcessCommand 32 "HS T 600" 13 st)) = 600 /\
  (0 <= 0 < 3 /\ [15; 7] <> ([] : list Z) /\
   Forall (fun d => 0 <= d < 16) [15; 7] /\ Forall (fun d => 0 <= d < 16) [0; 8] /\
   Forall (fun d => 0 <= d < 16) [3; 8]) /\
  getHeatSafetyMask 32 0 (snd (ProcessCommand 32 "HS 1 F7 08 38" 13 st))
  = {| dontCareMask := 247; mustMatchMask := 8; toClear := 56 |}.
Proof.
  cbv zeta.
  assert (H1 : Forall (fun d => 0 <= d < 10) [3; 2; 2]) by (repeat constructor; lia).
  assert (H2 : Forall (fun d => 0 <= d < 10) [6; 0; 0]) by (repeat constructor; lia).
  assert (H3 : 0 <= 0 < 3) by lia.
  assert (H4 : [15; 7] <> ([] : list Z)) by discriminate.
  assert (H5 : Forall (fun d => 0 <= d < 16) [15; 7]) by (repeat constructor; lia).
  assert (H6 : Forall (fun d => 0 <= d < 16) [0; 8]) by (repeat constructor; lia).
  assert (H7 : Forall (fun d => 0 <= d < 16) [3; 8]) by (repeat constructor; lia).
  destruct (HS_command_stores 32 13 (reset_state ∅ 0)) as (Hc & Ht & Hm).
  pose proof (Hc [3; 2; 2] H1) as Hc'. pose proof (Ht [6; 0; 0] H2) as Ht'.
  pose proof (Hm 0 [15; 7] [0; 8] [3; 8] H3 H4 H5 H6 H7) as Hm'.
  cbv zeta in Hc', Ht', Hm'.
  destruct Hc' as (_ & _ & Hc'). destruct Ht' as (_ & _ & Ht').
  destruct Hm' as (_ & _ & Hm').
  split; [exact H1|].
  split; [exact (f_equal (fun x => snd (fst x)) Hc')|].
  split; [exact H2|].
  split; [exact (f_equal (fun x => snd (fst (fst x))) Ht')|].
  split; [by repeat split|].
  exact (f_equal (fun x => fst (fst (snd x))) Hm').
Defined.

Lemma HV_command_names_witness :
  let result := ProcessCommand 32 "HV R Z2" 7 (reset_state ∅ 0) in
  [[82]; [90; 50]] <> ([] : list (list Z)) /\
  Z.of_nat (length [[82]; [90; 50]]) <= NUMBER_OF_SIGNALS /\
  Forall is_wire_name [[82]; [90; 50]] /\
  0 <= 1 < NUMBER_OF_SIGNALS /\ 0 <= 2 < NUMBER_OF_SIGNALS /\
  fst result = true /\
  hvacWireName 32 1 (snd result) = "Z2"%string /\
  hvacWireName 32 2 (snd result) = hvacWireName 32 2 (reset_state ∅ 0).
Proof.
  cbv zeta.
  assert (H1 : [[82]; [90; 50]] <> ([] : list (list Z))) by discriminate.
  assert (H2 : Z.of_nat (length [[82]; [90; 50]]) <= NUMBER_OF_SIGNALS) by discriminate.
  assert (H3 : Forall is_wire_name [[82]; [90; 50]]).
  { constructor; [|constructor; [|constructor]].
    - split; [left; reflexivity|]. constructor; [|constructor]. split; [lia | reflexivity].
    - split; [right; reflexivity|].
      constructor; [|constructor; [|constructor]]; (split; [lia | reflexivity]). }
  assert (H4 : 0 <= 1 < NUMBER_OF_SIGNALS) by (split; [discriminate | reflexivity]).
  assert (H5 : 0 <= 2 < NUMBER_OF_SIGNALS) by (split; [discriminate | reflexivity]).
  pose proof (HV_command_names 32 [[82]; [90; 50]] 7 (reset_state ∅ 0) H1 H2 H3) as H.
  cbv zeta in H. destruct H as (Ha & Hb).
  split; [exact H1|]. split; [exact H2|]. split; [exact H3|]. split; [exact H4|].
  split; [exact H5|]. split; [exact Ha|].
  split; [exact (Hb 1 H4) | exact (Hb 2 H5)].
Defined.

Lemma SE_command_stores_witness :
  let st := reset_state ∅ 0 in
  is_number 10 [3] /\ is_number 10 [1; 6] /\
  Forall (fun d => 0 <= d < 10) [2; 0; 6] /\ Forall (fun d => 0 <= d < 10) [0; 7] /\
  Forall (fun d => 0 <= d < 10) [3; 0] /\ Forall (fun d => 0 <= d < 16) [7; 15] /\
  u8 (digits_value 10 [3]) < NUM_SCHEDULE_TEMPERATURE_ENTRIES /\
  NUM_SCHEDULE_TEMPERATURE_ENTRIES <= u8 (digits_value 10 [1; 6]) /\
  0 <= 3 < NUM_SCHEDULE_TEMPERATURE_ENTRIES /\
  fst (ProcessCommand 32 "SE 3 206 07 30 7F 1" 19 st) = true /\
  getScheduleEntry 32 3 (snd (ProcessCommand 32 "SE 3 206 07 30 7F 1" 19 st))
  = {| degreesCx5 := 103; TimeOfDayHour := 7; TimeOfDayMinute := 30; DaysOfWeek := 127;
       AutoMode := 1 |} /\
  ProcessCommand 32 "SE 16 206 07 30 7F 1" 19 st = (false, st).
Proof.
  cbv zeta.
  assert (H1 : is_number 10 [3]) by (split; [discriminate | repeat constructor; lia]).
  assert (H1' : is_number 10 [1; 6]) by (split; [discriminate | repeat constructor; lia]).
  assert (H2 : Forall (fun d => 0 <= d < 10) [2; 0; 6]) by (repeat constructor; lia).
  assert (H3 : Forall (fun d => 0 <= d < 10) [0; 7]) by (repeat constructor; lia).
  assert (H4 : Forall (fun d => 0 <= d < 10) [3; 0]) by (repeat constructor; lia).
  assert (H5 : Forall (fun d => 0 <= d < 16) [7; 15]) by (repeat constructor; lia).
  assert (H6 : u8 (digits_value 10 [3]) < NUM_SCHEDULE_TEMPERATURE_ENTRIES) by reflexivity.
  assert (H7 : NUM_SCHEDULE_TEMPERATURE_ENTRIES <= u8 (digits_value 10 [1; 6]))
    by discriminate.
  assert (H8 : 0 <= 3 < NUM_SCHEDULE_TEMPERATURE_ENTRIES)
    by (split; [discriminate | reflexivity]).
  pose proof (SE_command_stores 32 [3] [2; 0; 6] [0; 7] [3; 0] [7; 15] true 19
                (reset_state ∅ 0) H1 H2 H3 H4 H5) as Hin.
  pose proof (SE_command_stores 32 [1; 6] [2; 0; 6] [0; 7] [3; 0] [7; 15] true 19
                (reset_state ∅ 0) H1' H2 H3 H4 H5) as Hout.
  cbv zeta in Hin, Hout.
  destruct Hin as (Hin & _). destruct Hout as (_ & Hout).
  destruct (Hin H6) as (Ha & Hb).
  repeat (split; [assumption|]).
  split; [exact (Hb 3 H8) | exact (Hout H7)].
Defined.

Lemma setTemperatureCx10_targets_witness :
  let no : string -> bool := fun _ => false in
  let st := example_mode HVAC_AUTO in
  0 <= 206 < 1000 /\ hvac st = HVAC_AUTO /\
  no ("HVAC_SETTINGS " ++ itoa 206)%string = false /\
  no ("AUTO_SETTINGS" ++ itoa 206)%string = false /\
  (exists st',
     setTemperatureCx10 32 no 206 false st = Some st' /\
     TemperatureTargetDegreesCx10 (sensor_settings st') = 206 /\
     auto_settings st' = auto_settings st) /\
  (exists st',
     setTemperatureCx10 32 no 206 true st = Some st' /\
     TemperatureTargetHeatDegreesCx10 (auto_settings st') = without_first_digit 206 /\
     TemperatureActivateHeatDegreesCx10 (auto_settings st') = without_first_digit 206 - 6 /\
     sensor_settings st' = sensor_settings st).
Proof.
  cbv zeta.
  assert (H1 : 0 <= 206 < 1000) by lia.
  assert (H2 : hvac (example_mode HVAC_AUTO) = HVAC_AUTO) by reflexivity.
  destruct (setTemperatureCx10_targets 32 (fun _ => false) 206 (example_mode HVAC_AUTO) H1 H2)
    as (Ha & Hb).
  split; [exact H1|]. split; [exact H2|]. split; [reflexivity|]. split; [reflexivity|].
  split; [exact (Ha eq_refl) | exact (Hb eq_refl)].
Defined.

Lemma MODE_command_selects_witness :
  let e := SetNumberOfModesInType 32 HVAC_HEAT 2 ∅ in
  let st := reset_state e 0 in
  let r := hvac_ProcessCommand 32 (MODE_command HVAC_HEAT [1]) 18 255 true st in
  counts_are_bytes 32 (EEPROM st) /\ radio_data_fits 32 /\
  Forall (fun d => 0 <= d < 10) [1] /\ Forall (fun d => 0 <= d < 10) [5] /\
  Forall (fun d => 0 <= d < 10) [0] /\
  NumberOfModesInType 32 (EEPROM st) HVAC_HEAT <= dec_field [5] /\
  dec_field [1] < NumberOfModesInType 32 (EEPROM st) HVAC_HEAT /\
  (MyModeNumber st <> dec_field [1] \/ MyTypeNumber st <> type_number HVAC_HEAT) /\
  dec_field [0] < NumberOfModesInType 32 (EEPROM st) HVAC_PASSTHROUGH /\
  MyModeNumber st = dec_field [0] /\ MyTypeNumber st = type_number HVAC_PASSTHROUGH /\
  hvac_ProcessCommand 32 (MODE_command HVAC_HEAT [5]) 18 255 true st = (false, st) /\
  snd (hvac_ProcessCommand 32 (MODE_command HVAC_PASSTHROUGH [0]) 18 255 true st) = st /\
  fst r = true /\ hvac (snd r) = HVAC_HEAT /\ MyModeNumber (snd r) = dec_field [1] /\
  selection_is_saved 32 (snd r) /\ instance_is_selected 32 (snd r) /\
  hvac (setup 32 (EEPROM (snd r)) 0) = HVAC_HEAT.
Proof.
  cbv zeta.
  set (st := reset_state (SetNumberOfModesInType 32 HVAC_HEAT 2 ∅) 0).
  assert (H1 : counts_are_bytes 32 (EEPROM st))
    by (intros t; destruct t; vm_compute; split; discriminate).
  assert (H2 : radio_data_fits 32) by (vm_compute; split; discriminate).
  assert (H3 : Forall (fun d => 0 <= d < 10) [1]) by (repeat constructor; lia).
  assert (H4 : Forall (fun d => 0 <= d < 10) [5]) by (repeat constructor; lia).
  assert (H5 : Forall (fun d => 0 <= d < 10) [0]) by (repeat constructor; lia).
  assert (H6 : NumberOfModesInType 32 (EEPROM st) HVAC_HEAT <= dec_field [5])
    by (vm_compute; discriminate).
  assert (H7 : dec_field [1] < NumberOfModesInType 32 (EEPROM st) HVAC_HEAT)
    by (vm_compute; reflexivity).
  assert (H8 : MyModeNumber st <> dec_field [1] \/ MyTypeNumber st <> type_number HVAC_HEAT)
    by (left; vm_compute; discriminate).
  assert (H9 : dec_field [0] < NumberOfModesInType 32 (EEPROM st) HVAC_PASSTHROUGH)
    by (vm_compute; reflexivity).
  assert (H10 : MyModeNumber st = dec_field [0]) by reflexivity.
  assert (H11 : MyTypeNumber st = type_number HVAC_PASSTHROUGH) by reflexivity.
  pose proof (MODE_command_selects 32 HVAC_HEAT [5] 18 255 st H1 H2 H4) as Hrefused.
  pose proof (MODE_command_selects 32 HVAC_PASSTHROUGH [0] 18 255 st H1 H2 H5) as Hsame.
  pose proof (MODE_command_selects 32 HVAC_HEAT [1] 18 255 st H1 H2 H3) as Hnew.
  cbv zeta in Hrefused, Hsame, Hnew.
  destruct Hrefused as (Hrefused & _). destruct Hsame as (_ & Hsame).
  destruct Hnew as (_ & Hnew).
  destruct (Hsame H9) as (_ & Hs & _). destruct (Hnew H7) as (Ha & _ & Hb).
  destruct (Hb H8) as (B1 & _ & B3 & B4 & B5 & _ & B7).
  repeat (split; [assumption|]).
  split; [exact (Hrefused H6)|]. split; [exact (Hs H10 H11)|].
  split; [exact Ha|]. split; [exact B1|]. split; [exact B3|]. split; [exact B4|].
  split; [exact B5 | exact (proj1 (B7 0))].
Defined.

Lemma NAME_command_names_witness :
  let st := reset_state ∅ 0 in
  let r := hvac_ProcessCommand 32 "HVAC NAME=HEAT1 x" 17 255 true st in
  length (ModeName (name_settings st)) = 6%nat /\
  Forall (fun c => 0 < c < 256 /\ isspace c = false) [72; 69; 65; 84; 49] /\
  (word_ends " x" \/ (5 <= length [72; 69; 65; 84; 49])%nat) /\
  type_field_valid "HVAC NAME=HEAT1 x" /\
  fst r = true /\ c_string (ModeNameString (snd r)) = "HEAT1"%string /\
  length (ModeNameString (snd r)) = 6%nat.
Proof.
  cbv zeta.
  assert (H1 : length (ModeName (name_settings (reset_state ∅ 0))) = 6%nat) by reflexivity.
  assert (H2 : Forall (fun c => 0 < c < 256 /\ isspace c = false) [72; 69; 65; 84; 49])
    by (repeat constructor; lia).
  assert (H3 : word_ends " x" \/ (5 <= length [72; 69; 65; 84; 49])%nat)
    by (left; right; reflexivity).
  assert (H4 : type_field_valid "HVAC NAME=HEAT1 x") by (vm_compute; exact I).
  pose proof (NAME_command_names 32 [72; 69; 65; 84; 49] " x" 17 255 (reset_state ∅ 0)
                H1 H2 H3 H4) as H.
  cbv zeta in H. destruct H as (Ha & Hb & Hc & _).
  repeat (split; [assumption|]). exact Hc.
Defined.

Lemma sensor_timeout_turns_furnace_off_witness :
  let idle := example_mode HVAC_HEAT in
  let active := snd (hvac_ProcessCommand 32 "T:+18.3" 61 8 false idle) in
  sensor_driven (hvac idle) /\ sensor_silent_too_long 3000000 idle /\
  fancoilState (run idle) = STATE_OFF /\
  sensor_driven (hvac active) /\ sensor_silent_too_long 3000000 active /\
  fancoilState (run active) <> STATE_OFF /\
  hvac_loop 32 3000000 idle = idle /\
  LastOutputWrite (sketch (hvac_loop 32 3000000 active))
  = Z.land (AlwaysOnMask (sensor_settings active)) OUTPUT_SIGNAL_MASK /\
  previousActual (run (hvac_loop 32 3000000 active)) = 0 /\
  fancoilState (run (hvac_loop 32 3000000 active)) = STATE_OFF.
Proof.
  cbv zeta.
  set (idle := example_mode HVAC_HEAT).
  set (active := snd (hvac_ProcessCommand 32 "T:+18.3" 61 8 false idle)).
  assert (H1 : sensor_driven (hvac idle)) by (left; reflexivity).
  assert (H2 : sensor_silent_too_long 3000000 idle) by (vm_compute; reflexivity).
  assert (H3 : fancoilState (run idle) = STATE_OFF) by reflexivity.
  assert (H4 : sensor_driven (hvac active)) by (left; vm_compute; reflexivity).
  assert (H5 : sensor_silent_too_long 3000000 active) by (vm_compute; reflexivity).
  assert (H6 : fancoilState (run active) <> STATE_OFF) by (vm_compute; discriminate).
  pose proof (sensor_timeout_turns_furnace_off 32 3000000 idle H1 H2) as Hidle.
  pose proof (sensor_timeout_turns_furnace_off 32 3000000 active H4 H5) as Hactive.
  cbv zeta in Hidle, Hactive.
  destruct Hidle as (Hidle & _). destruct Hactive as (_ & Hactive).
  destruct (Hactive (or_introl H6)) as (A1 & A2 & A3 & _).
  assert (Hh : hvac active = HVAC_HEAT) by (vm_compute; reflexivity).
  rewrite Hh in A3. cbv iota in A3.
  repeat (split; [assumption|]).
  split; [exact (Hidle H3 eq_refl)|]. split; [exact A1|]. split; [exact A2 | exact (proj1 A3)].
Defined.

Lemma setup_starts_idle_witness :
  ~ saved_selection_is_valid 32 ∅ /\
  hvac (setup 32 ∅ 0) = HVAC_PASSTHROUGH /\
  c_string (ModeNameString (setup 32 ∅ 0)) = "PASS"%string /\
  OutputRegister (sketch (setup 32 ∅ 0)) = 0.
Proof.
  assert (H : ~ saved_selection_is_valid 32 ∅)
    by (intros (tp & Htp & _); vm_compute in Htp; discriminate).
  split; [exact H|].
  exact (proj2 (proj2 (proj2 (proj2 (proj2 (proj2 (setup_starts_idle 32 ∅ 0)))))) H).
Defined.

Lemma FAN_command_requests_witness :
  let st := example_mode HVAC_HEAT in
  let on := hvac_ProcessCommand 32 "HVAC FAN=ON" 11 255 true st in
  let both := hvac_ProcessCommand 32 "HVAC FAN=OFF" 11 255 true (snd on) in
  sensor_driven (hvac st) /\ fancoilState (run st) = STATE_OFF /\
  fst on = true /\ fanIsOn (run (snd on)) = true /\
  LastOutputWrite (sketch (snd on))
  = Z.land (Z.lor (MaskFanOnly (sensor_settings st)) (LastOutputWrite (sketch st)))
      OUTPUT_SIGNAL_MASK /\
  fst both = true /\ fanIsOn (run (snd both)) = false /\
  LastOutputWrite (sketch (snd both))
  = Z.land (Z.land (LastOutputWrite (sketch st)) (Z.lnot (MaskFanOnly (sensor_settings st))))
      OUTPUT_SIGNAL_MASK.
Proof.
  cbv zeta.
  assert (H1 : sensor_driven (hvac (example_mode HVAC_HEAT))) by (left; reflexivity).
  assert (H2 : fancoilState (run (example_mode HVAC_HEAT)) = STATE_OFF) by reflexivity.
  pose proof (FAN_command_requests 32 11 255 (example_mode HVAC_HEAT) H1) as H.
  cbv zeta in H. destruct H as ((A1 & A2 & _ & A4) & _ & Hboth).
  destruct (Hboth H2) as (B1 & B2 & B3).
  split; [exact H1|]. split; [exact H2|]. split; [exact A1|]. split; [exact A2|].
  split; [exact A4|]. split; [exact B1|]. split; [exact B2 | exact B3].
Defined.

Lemma dehumidify_thresholds_witness :
  let st := set_cool_settings
              {| MaskDehumidifyBitsOn := 16; MaskDehumidifyBitsOff := 0;
                 HumiditySettingX10 := 500 |} (example_mode HVAC_COOL) in
  let r1 := OnReceivedHumidityInput HVAC_COOL 520 250 8 st in
  let r2 := OnReceivedHumidityInput HVAC_COOL 480 250 8 (snd r1) in
  let r3 := OnReceivedHumidityInput HVAC_COOL 505 250 8 (snd r2) in
  dehumidify_applies HVAC_COOL 250 st /\ dehumidifyState HVAC_COOL st = DEHUMDIFY_OFF /\
  HumiditySettingX10 (cool_settings st) + DEHUMIDIFY_HYSTERESIS < 520 < 65536 /\
  0 <= 480 <= HumiditySettingX10 (cool_settings st) - DEHUMIDIFY_HYSTERESIS /\
  HumiditySettingX10 (cool_settings st) - DEHUMIDIFY_HYSTERESIS < 505
    <= HumiditySettingX10 (cool_settings st) + DEHUMIDIFY_HYSTERESIS /\
  OnReceivedHumidityInput HVAC_COOL 505 250 8 st = (8, st) /\
  fst r1 = dehumidified 8 st /\ r2 = (8, snd r1) /\
  dehumidifyState HVAC_COOL (snd r2) = DEHUMIDIFY_ACTIVE /\
  fst r3 = dehumidified 8 st.
Proof.
  cbv zeta.
  set (st := set_cool_settings _ (example_mode HVAC_COOL)).
  assert (H1 : dehumidify_applies HVAC_COOL 250 st)
    by (split; [by left | split; [split; vm_compute; [discriminate | reflexivity]
                                 | vm_compute; discriminate]]).
  assert (H2 : dehumidifyState HVAC_COOL st = DEHUMDIFY_OFF) by reflexivity.
  assert (H3 : HumiditySettingX10 (cool_settings st) + DEHUMIDIFY_HYSTERESIS < 520 < 65536)
    by (vm_compute; split; reflexivity).
  assert (H4 : 0 <= 480 <= HumiditySettingX10 (cool_settings st) - DEHUMIDIFY_HYSTERESIS)
    by (vm_compute; split; discriminate).
  assert (H5 : HumiditySettingX10 (cool_settings st) - DEHUMIDIFY_HYSTERESIS < 505
               <= HumiditySettingX10 (cool_settings st) + DEHUMIDIFY_HYSTERESIS)
    by (vm_compute; split; [reflexivity | discriminate]).
  repeat (split; [assumption|]).
  exact (dehumidify_thresholds HVAC_COOL 250 st 8 8 8 520 480 505 H1 H2 H3 H4 H5).
Defined.

(** The sixteen entries of the schedule, one by one. *)
Ltac each_entry j Hj :=
  unfold NUM_SCHEDULE_TEMPERATURE_ENTRIES in Hj;
  let Hc := fresh "Hc" in
  assert (Hc : j = 0 \/ j = 1 \/ j = 2 \/ j = 3 \/ j = 4 \/ j = 5 \/ j = 6 \/ j = 7 \/
               j = 8 \/ j = 9 \/ j = 10 \/ j = 11 \/ j = 12 \/ j = 13 \/ j = 14 \/ j = 15)
    by lia;
  clear Hj; repeat (destruct Hc as [Hc | Hc]); subst j.

Lemma loop_schedule_runs_due_entries_witness :
  let no : string -> bool := fun _ => false in
  let st := setScheduleEntry 32 3 103 7 30 62 0 (example_mode HVAC_AUTO) in
  schedule_temperatures_are_bytes 32 st /\
  32768 <= (33000 - 0) mod 65536 /\ schedule_is_due 33000 0 = true /\
  schedule_is_due 70000 0 = false /\
  loop_schedule 32 no 70000 0 7 30 1 false st = (0, Some (false, st)) /\
  (forall j, 0 <= j < NUM_SCHEDULE_TEMPERATURE_ENTRIES -> ~ entry_is_due 32 j 8 0 1 st) /\
  loop_schedule 32 no 33000 0 8 0 1 false st = (33000, Some (false, st)) /\
  entry_is_due 32 3 7 30 1 st /\
  (forall j, 0 <= j < NUM_SCHEDULE_TEMPERATURE_ENTRIES -> j <> 3 ->
             ~ entry_is_due 32 j 7 30 1 st) /\
  exists st',
    loop_schedule 32 no 33000 0 7 30 1 false st = (33000, Some (true, st')) /\
    setTemperatureCx10 32 no 206 false st = Some st' /\
    selection st' = selection st.
Proof.
  cbv zeta.
  set (st := setScheduleEntry 32 3 103 7 30 62 0 (example_mode HVAC_AUTO)).
  assert (H1 : schedule_temperatures_are_bytes 32 st)
    by (intros j Hj; each_entry j Hj; vm_compute; (split; [discriminate | reflexivity])).
  assert (H2 : 32768 <= (33000 - 0) mod 65536) by (vm_compute; discriminate).
  assert (H3 : schedule_is_due 70000 0 = false) by reflexivity.
  assert (H4 : forall j, 0 <= j < NUM_SCHEDULE_TEMPERATURE_ENTRIES ->
                         ~ entry_is_due 32 j 8 0 1 st)
    by (intros j Hj; each_entry j Hj; intros H; vm_compute in H; discriminate).
  assert (H5 : entry_is_due 32 3 7 30 1 st) by (vm_compute; reflexivity).
  assert (H6 : forall j, 0 <= j < NUM_SCHEDULE_TEMPERATURE_ENTRIES -> j <> 3 ->
                         ~ entry_is_due 32 j 7 30 1 st)
    by (intros j Hj Hne; each_entry j Hj; try (by destruct Hne);
        intros H; vm_compute in H; discriminate).
  assert (H7 : 0 <= 3 < NUM_SCHEDULE_TEMPERATURE_ENTRIES)
    by (vm_compute; split; [discriminate | reflexivity]).
  pose proof (loop_schedule_runs_due_entries 32 (fun _ => false) 33000 0 7 30 1 false st H1)
    as Hrun.
  pose proof (loop_schedule_runs_due_entries 32 (fun _ => false) 33000 0 8 0 1 false st H1)
    as Hidle.
  pose proof (loop_schedule_runs_due_entries 32 (fun _ => false) 70000 0 7 30 1 false st H1)
    as Hwait.
  cbv zeta in Hrun, Hidle, Hwait.
  destruct Hrun as (Hiff & _ & Hrun). destruct Hidle as (_ & _ & Hidle).
  destruct Hwait as (_ & Hwait & _).
  pose proof (proj2 Hiff H2) as Hdue.
  destruct (Hrun Hdue) as (re & st' & Hr & Hsel & _ & Hsome & Hone).
  destruct (Hidle Hdue) as (re0 & st0 & Hr0 & _ & Hnone & _).
  destruct (Hnone H4) as [-> ->].
  rewrite (Hsome (ex_intro _ 3 (conj H7 H5))) in Hr.
  pose proof (Hone 3 H7 H5 H6) as Hset.
  split; [exact H1|]. split; [exact H2|]. split; [exact Hdue|]. split; [exact H3|].
  split; [exact (Hwait H3)|]. split; [exact H4|]. split; [exact Hr0|].
  split; [exact H5|]. split; [exact H6|].
  exists st'. split; [exact Hr|]. split; [exact Hset | exact Hsel].
Defined.

Lemma stored_schedule_entry_is_due_witness :
  let st := reset_state ∅ 0 in
  let st' := setScheduleEntry 32 3 103 39 30 62 0 st in
  0 <= 3 < NUM_SCHEDULE_TEMPERATURE_ENTRIES /\ 0 <= 5 < NUM_SCHEDULE_TEMPERATURE_ENTRIES /\
  0 <= 1 < 7 /\
  (Z.testbit 62 1 = true /\ 7 = 39 mod 32 /\ 30 = 30 mod 64) /\
  5 <> 3 /\ schedule_entry_is_erased 32 5 st /\ 0 <= 7 < 24 /\
  entry_is_due 32 3 7 30 1 st' /\ ~ entry_is_due 32 5 7 30 1 st'.
Proof.
  cbv zeta.
  assert (H1 : 0 <= 3 < NUM_SCHEDULE_TEMPERATURE_ENTRIES)
    by (vm_compute; split; [discriminate | reflexivity]).
  assert (H2 : 0 <= 5 < NUM_SCHEDULE_TEMPERATURE_ENTRIES)
    by (vm_compute; split; [discriminate | reflexivity]).
  assert (H3 : 0 <= 1 < 7) by lia.
  assert (H4 : Z.testbit 62 1 = true /\ 7 = 39 mod 32 /\ 30 = 30 mod 64)
    by (repeat split; reflexivity).
  assert (H5 : 5 <> 3) by discriminate.
  assert (H6 : schedule_entry_is_erased 32 5 (reset_state ∅ 0))
    by (intros k _; apply lookup_empty).
  assert (H7 : 0 <= 7 < 24) by lia.
  pose proof (stored_schedule_entry_is_due 32 3 5 103 39 30 62 0 7 30 1 (reset_state ∅ 0)
                H1 H2 H3) as H.
  cbv zeta in H. destruct H as (Hdue & Hother & Herased).
  repeat (split; [assumption|]).
  split; [exact (proj2 Hdue H4)|].
  intros Hd. exact (Herased H6 H7 (proj1 (Hother H5) Hd)).
Defined.
